(** * A shallow embedding of the LMSR prediction-market engine (exchange.py)

    The engine is Python over SQLModel rows.  The embedding keeps the code's
    shape:

    - a Python [float] is an extended real: a finite value, one of the two
      infinities, or NaN.  Arithmetic on finite values is exact real
      arithmetic, so binary64 rounding and overflow are outside the model;
      the non-finite values and the way Python's operators treat them are
      kept, because the code guards on [math.isfinite];
    - a table is the list of its rows in query order, and an ORM object
      returned by [.first()] is the index of its row: assigning to one of
      its attributes updates the row at that index;
    - a function that takes a [Session] is a state transformer that may
      raise; the state reached when it raises is kept, and the caller's
      [commit] / rollback decides what is persisted. *)

From Stdlib Require Import Reals Lra Lia ZArith String.
From stdpp Require Import base decidable option list.

Local Open Scope R_scope.

(** ** Python floats *)

Module PyFloat.

Inductive float : Type :=
| Fin (x : R)
| PInf
| NInf
| NaN.

#[global] Instance Rlt_decision (x y : R) : Decision (x < y) := Rlt_dec x y.
#[global] Instance Rle_decision (x y : R) : Decision (x <= y) := Rle_dec x y.
#[global] Instance Req_decision (x y : R) : Decision (x = y) := Req_dec_T x y.

Definition of_int (z : Z) : float := Fin (IZR z).

Definition isfinite (x : float) : bool :=
  match x with Fin _ => true | _ => false end.

Definition fneg (x : float) : float :=
  match x with
  | Fin r => Fin (- r)
  | PInf => NInf
  | NInf => PInf
  | NaN => NaN
  end.

Definition fadd (x y : float) : float :=
  match x, y with
  | Fin r, Fin s => Fin (r + s)
  | NaN, _ | _, NaN => NaN
  | PInf, NInf | NInf, PInf => NaN
  | PInf, _ | _, PInf => PInf
  | NInf, _ | _, NInf => NInf
  end.

Definition fsub (x y : float) : float := fadd x (fneg y).

(** The infinity [x * inf] for a finite [x]: its sign, NaN at zero. *)
Definition scale_inf (r : R) (pos : bool) : float :=
  if bool_decide (0 < r) then (if pos then PInf else NInf)
  else if bool_decide (r < 0) then (if pos then NInf else PInf)
  else NaN.

Definition fmul (x y : float) : float :=
  match x, y with
  | Fin r, Fin s => Fin (r * s)
  | NaN, _ | _, NaN => NaN
  | Fin r, PInf | PInf, Fin r => scale_inf r true
  | Fin r, NInf | NInf, Fin r => scale_inf r false
  | PInf, PInf | NInf, NInf => PInf
  | PInf, NInf | NInf, PInf => NInf
  end.

(** [x < y], [x <= y]: false as soon as one side is NaN. *)
Definition flt (x y : float) : bool :=
  match x, y with
  | Fin r, Fin s => bool_decide (r < s)
  | NaN, _ | _, NaN => false
  | NInf, NInf | PInf, _ | Fin _, NInf => false
  | NInf, _ | _, PInf => true
  end.

Definition fle (x y : float) : bool :=
  match x, y with
  | Fin r, Fin s => bool_decide (r <= s)
  | NaN, _ | _, NaN => false
  | NInf, _ | _, PInf => true
  | PInf, _ | _, NInf => false
  end.

Definition fgt (x y : float) : bool := flt y x.

(** Python's builtin [max(a, b)]: the second argument wins only when it
    compares strictly greater. *)
Definition fmax (a b : float) : float := if fgt b a then b else a.

(** [x or 0] followed by [float(...)]: a zero is falsy and is replaced by
    the integer 0. *)
Definition or0 (x : float) : float :=
  match x with
  | Fin r => if bool_decide (r = 0) then Fin 0 else x
  | _ => x
  end.

End PyFloat.
Export PyFloat.

(** ** Exceptions and the two monads *)

Inductive exn : Type :=
| ValueError (msg : string)
| ZeroDivisionError
| OverflowError
| Diverged.
(** [Diverged] is not a Python exception: it marks a loop of the model that
    used up its fuel.  The theorems on the budget search show that it is
    never produced. *)

Inductive result (A : Type) : Type :=
| Ok (a : A)
| Raise (e : exn).
Arguments Ok {A} a.
Arguments Raise {A} e.

Definition rbind {A B} (r : result A) (k : A -> result B) : result B :=
  match r with
  | Ok a => k a
  | Raise e => Raise e
  end.

Declare Scope res_scope.
Delimit Scope res_scope with res.
Notation "'let!' x := c 'in' k" := (rbind c (fun x => k))
  (at level 10, x name, c at level 100, k at level 200) : res_scope.
Notation "'let!' ' pat := c 'in' k" :=
  (rbind c (fun x => match x with pat => k end))
  (at level 10, pat pattern, c at level 100, k at level 200) : res_scope.

(** ** The [math] module and true division *)

Module math.

(** [math.exp].  On a finite argument the model returns the real
    exponential; CPython raises [OverflowError] above about 709.78, which
    the engine never reaches: it only exponentiates [a - max(a, b)]. *)
Definition exp (x : float) : float :=
  match x with
  | Fin r => Fin (Rtrigo_def.exp r)
  | PInf => PInf
  | NInf => Fin 0
  | NaN => NaN
  end.

(** [math.log]: a domain error outside the positive reals. *)
Definition log (x : float) : result float :=
  match x with
  | Fin r => if bool_decide (0 < r) then Ok (Fin (ln r))
             else Raise (ValueError "math domain error")
  | PInf => Ok PInf
  | NInf => Raise (ValueError "math domain error")
  | NaN => Ok NaN
  end.

(** [math.floor] returns an [int]; it raises on the non-finite values. *)
Definition floor (x : float) : result Z :=
  match x with
  | Fin r => Ok (Int_part r)
  | PInf | NInf => Raise OverflowError
  | NaN => Raise (ValueError "cannot convert float NaN to integer")
  end.

End math.

(** [x / y] on floats: Python raises when the divisor is zero, and follows
    IEEE 754 otherwise. *)
Definition fdiv (x y : float) : result float :=
  match x, y with
  | _, Fin s =>
      if bool_decide (s = 0) then Raise ZeroDivisionError
      else Ok (match x with
               | Fin r => Fin (r / s)
               | PInf => scale_inf s true
               | NInf => scale_inf s false
               | NaN => NaN
               end)
  | NaN, _ | _, NaN => Ok NaN
  | Fin _, _ => Ok (Fin 0)
  | _, _ => Ok NaN
  end.

(** ** The pricing kernel *)

Open Scope string_scope.
Open Scope list_scope.

Definition _stable_logsumexp (a b_ : float) : result float :=
  let m := fmax a b_ in
  if negb (isfinite m) then Ok PInf
  else (let! l := math.log (fadd (math.exp (fsub a m)) (math.exp (fsub b_ m))) in
        Ok (fadd m l))%res.

Definition lmsr_cost (b q_yes q_no dq : float) (side : string) : result float :=
  (let! a0 := fdiv q_yes b in
   let! b0 := fdiv q_no b in
   let! l0 := _stable_logsumexp a0 b0 in
   let c_old := fmul b l0 in
   if String.eqb side "yes" then
     let! a1 := fdiv (fadd q_yes dq) b in
     let! b1 := fdiv q_no b in
     let! l1 := _stable_logsumexp a1 b1 in
     Ok (fsub (fmul b l1) c_old)
   else
     let! a1 := fdiv q_yes b in
     let! b1 := fdiv (fadd q_no dq) b in
     let! l1 := _stable_logsumexp a1 b1 in
     Ok (fsub (fmul b l1) c_old))%res.

Definition lmsr_yes_price (b q_yes q_no : float) : result float :=
  (let! a := fdiv q_yes b in
   let! b_ := fdiv q_no b in
   let m := fmax a b_ in
   let exp_yes := math.exp (fsub a m) in
   let exp_no := math.exp (fsub b_ m) in
   fdiv exp_yes (fadd exp_yes exp_no))%res.

(** *** Budget to integer quantity *)

Section BudgetSearch.

Variables (b q_yes q_no : float) (side : string) (budget : float) (mode : string).

Definition cost_for_qty (qty : Z) : result float :=
  if String.eqb mode "buy" then lmsr_cost b q_yes q_no (of_int qty) side
  else (let! c := lmsr_cost b q_yes q_no (of_int (- qty)) side in Ok (fneg c))%res.

(** The test [not math.isfinite(val) or val > budget] of both loops. *)
Definition exceeds (val : float) : bool := negb (isfinite val) || fgt val budget.

(** The doubling loop, from the state [(low, high)]. *)
Fixpoint expand (fuel : nat) (low high : Z) : result (Z * Z) :=
  match fuel with
  | O => Raise Diverged
  | S fuel' =>
      (let! val := cost_for_qty high in
       if exceeds val then Ok (low, high)
       else
         let low := high in
         let high := (high * 2)%Z in
         if (high >? 1000000000)%Z then Ok (low, high)
         else expand fuel' low high)%res
  end.

(** The binary search [while low < high]. *)
Fixpoint bsearch (fuel : nat) (low high : Z) : result Z :=
  if (low <? high)%Z then
    match fuel with
    | O => Raise Diverged
    | S fuel' =>
        let mid := ((low + high + 1) / 2)%Z in
        (let! val := cost_for_qty mid in
         if exceeds val then bsearch fuel' low (mid - 1)%Z
         else bsearch fuel' mid high)%res
    end
  else Ok low.

Definition _max_int_quantity_for_budget : result Z :=
  if fle budget (Fin 0) then Raise (ValueError "budget must be > 0")
  else
    (let! '(low, high) := expand 64 0 1 in
     if (low =? 0)%Z then Raise (ValueError "budget insufficient for 1 contract")
     else bsearch 64 low high)%res.

End BudgetSearch.

(** ** The tables (database_setup.py)

    One record per SQLModel class, fields under the source's names.  The
    [datetime] columns hold a clock reading, a natural number here. *)

Module UserDB.
Record t : Type := mk { id : nat; username : string; points : float }.
Definition set_points (v : float) (u : t) : t := mk (id u) (username u) v.
End UserDB.

Module MarketDB.
Record t : Type := mk {
  id : nat;
  name : string;
  b : float;
  amm_points : float;
  resolved : bool;
  outcome : option bool;
  settled_at : option nat }.
Definition set_amm_points (v : float) (m : t) : t :=
  mk (id m) (name m) (b m) v (resolved m) (outcome m) (settled_at m).
Definition settle (o : bool) (now : nat) (m : t) : t :=
  mk (id m) (name m) (b m) (amm_points m) true (Some o) (Some now).
End MarketDB.

Module AMMDB.
Record t : Type := mk { id : nat; market_id : nat; points : float; qYes : float; qNo : float }.
Definition set_points (v : float) (a : t) : t := mk (id a) (market_id a) v (qYes a) (qNo a).
Definition set_qYes (v : float) (a : t) : t := mk (id a) (market_id a) (points a) v (qNo a).
Definition set_qNo (v : float) (a : t) : t := mk (id a) (market_id a) (points a) (qYes a) v.
End AMMDB.

Module PositionsDB.
Record t : Type := mk { id : nat; market_id : nat; user_id : nat; qYes : float; qNo : float }.
Definition set_qYes (v : float) (p : t) : t := mk (id p) (market_id p) (user_id p) v (qNo p).
Definition set_qNo (v : float) (p : t) : t := mk (id p) (market_id p) (user_id p) (qYes p) v.
End PositionsDB.

Module LedgerDB.
Record t : Type := mk {
  id : nat;
  market_id : nat;
  user_id : nat;
  timestamp : nat;
  reason : string;
  delta : float;
  side : string;
  amount : option float }.
End LedgerDB.

Module ClearingHouseDB.
Record t : Type := mk { id : nat; market_id : nat; points : float }.
Definition set_points (v : float) (c : t) : t := mk (id c) (market_id c) v.
End ClearingHouseDB.

#[global] Instance UserDB_inhabited : Inhabited UserDB.t :=
  populate (UserDB.mk 0 "" (Fin 0)).
#[global] Instance MarketDB_inhabited : Inhabited MarketDB.t :=
  populate (MarketDB.mk 0 "" (Fin 0) (Fin 0) false None None).
#[global] Instance AMMDB_inhabited : Inhabited AMMDB.t :=
  populate (AMMDB.mk 0 0 (Fin 0) (Fin 0) (Fin 0)).
#[global] Instance PositionsDB_inhabited : Inhabited PositionsDB.t :=
  populate (PositionsDB.mk 0 0 0 (Fin 0) (Fin 0)).
#[global] Instance ClearingHouseDB_inhabited : Inhabited ClearingHouseDB.t :=
  populate (ClearingHouseDB.mk 0 0 (Fin 0)).

(** ** Sessions

    The state of a [Session]: every table as the transaction sees it. *)

Record Session : Type := mkSession {
  users : list UserDB.t;
  markets : list MarketDB.t;
  amms : list AMMDB.t;
  positions : list PositionsDB.t;
  ledger : list LedgerDB.t;
  chs : list ClearingHouseDB.t }.

Definition with_users (f : list UserDB.t -> list UserDB.t) (s : Session) : Session :=
  mkSession (f (users s)) (markets s) (amms s) (positions s) (ledger s) (chs s).
Definition with_markets (f : list MarketDB.t -> list MarketDB.t) (s : Session) : Session :=
  mkSession (users s) (f (markets s)) (amms s) (positions s) (ledger s) (chs s).
Definition with_amms (f : list AMMDB.t -> list AMMDB.t) (s : Session) : Session :=
  mkSession (users s) (markets s) (f (amms s)) (positions s) (ledger s) (chs s).
Definition with_positions (f : list PositionsDB.t -> list PositionsDB.t) (s : Session) : Session :=
  mkSession (users s) (markets s) (amms s) (f (positions s)) (ledger s) (chs s).
Definition with_ledger (f : list LedgerDB.t -> list LedgerDB.t) (s : Session) : Session :=
  mkSession (users s) (markets s) (amms s) (positions s) (f (ledger s)) (chs s).
Definition with_chs (f : list ClearingHouseDB.t -> list ClearingHouseDB.t) (s : Session) : Session :=
  mkSession (users s) (markets s) (amms s) (positions s) (ledger s) (f (chs s)).

(** A computation on a session: its outcome and the session it leaves,
    also when it raises. *)
Definition M (A : Type) : Type := Session -> result A * Session.

Definition ret {A} (a : A) : M A := fun s => (Ok a, s).
Definition raise {A} (e : exn) : M A := fun s => (Raise e, s).
Definition bind {A B} (c : M A) (k : A -> M B) : M B :=
  fun s => match c s with
           | (Ok a, s') => k a s'
           | (Raise e, s') => (Raise e, s')
           end.
Definition lift {A} (r : result A) : M A := fun s => (r, s).
Definition gets {A} (f : Session -> A) : M A := fun s => (Ok (f s), s).
Definition modify (f : Session -> Session) : M unit := fun s => (Ok tt, f s).

Declare Scope sess_scope.
Delimit Scope sess_scope with sess.
Notation "'let!' x := c 'in' k" := (bind c (fun x => k))
  (at level 10, x name, c at level 100, k at level 200) : sess_scope.
Notation "'let!' ' pat := c 'in' k" :=
  (bind c (fun x => match x with pat => k end))
  (at level 10, pat pattern, c at level 100, k at level 200) : sess_scope.

(** The next value of a table's autoincrement key. *)
Definition fresh_id (ids : list nat) : nat := S (max_list ids).

(** [select(...).where(...).first()]: the index of the first matching row. *)
Definition first_where {A} (p : A -> bool) (l : list A) : option nat :=
  fst <$> list_find (fun x => p x = true) l.

(** Attribute reads and writes on the row objects. *)
Definition user_at (i : nat) : M UserDB.t := gets (fun s => users s !!! i).
Definition market_at (i : nat) : M MarketDB.t := gets (fun s => markets s !!! i).
Definition amm_at (i : nat) : M AMMDB.t := gets (fun s => amms s !!! i).
Definition position_at (i : nat) : M PositionsDB.t := gets (fun s => positions s !!! i).
Definition ch_at (i : nat) : M ClearingHouseDB.t := gets (fun s => chs s !!! i).

Definition set_user (i : nat) (f : UserDB.t -> UserDB.t) : M unit :=
  modify (with_users (alter f i)).
Definition set_market (i : nat) (f : MarketDB.t -> MarketDB.t) : M unit :=
  modify (with_markets (alter f i)).
Definition set_amm (i : nat) (f : AMMDB.t -> AMMDB.t) : M unit :=
  modify (with_amms (alter f i)).
Definition set_position (i : nat) (f : PositionsDB.t -> PositionsDB.t) : M unit :=
  modify (with_positions (alter f i)).
Definition set_ch (i : nat) (f : ClearingHouseDB.t -> ClearingHouseDB.t) : M unit :=
  modify (with_chs (alter f i)).

(** ** The engine (exchange.py) *)

Inductive ledger_mode : Type := off | light | full.

Record TradeOut : Type := mkTradeOut {
  new_balance : float;
  new_price : float;
  quantity : float;
  order_cost : float }.

Section Engine.

(** [LEDGER_MODE] is read from the environment once, the pair of system
    user ids is what [_get_system_ids] has memoised, and [utcnow] is the
    clock reading of [datetime.utcnow()].

    The first call of [_get_system_ids] in a process, which happens in the
    full ledger mode only, runs [get_system_actor_ids] in a session of its
    own, and that call inserts the two system users, with 0 points, when
    they are missing.  The engine is modelled from that call on;
    [system_users_ready] below says that the call had nothing to insert. *)
Variable LEDGER_MODE : ledger_mode.
Variable SYSTEM_IDS : nat * nat.
Variable utcnow : nat.

Definition _ledger_off : bool := match LEDGER_MODE with off => true | _ => false end.
Definition _ledger_light : bool := match LEDGER_MODE with light => true | _ => false end.
Definition _ledger_full : bool := match LEDGER_MODE with full => true | _ => false end.
Definition _get_system_ids : nat * nat := SYSTEM_IDS.

Definition first_user_by_username (username : string) : M (option nat) :=
  gets (fun s => first_where (fun u => String.eqb (UserDB.username u) username) (users s)).

(** [session.add(row); session.flush()]: the row gets the next key and is
    appended.  The [IntegrityError] branch needs a concurrent insert between
    the select and the flush, which a single session does not have. *)
Definition get_or_create_user (username : string) (initial_points : float) : M nat :=
  (let! found := first_user_by_username username in
   match found with
   | Some user => ret user
   | None =>
       let! n := gets (fun s => length (users s)) in
       let! _ := modify (with_users (fun us =>
                   us ++ [UserDB.mk (fresh_id (UserDB.id <$> us)) username initial_points])) in
       ret n
   end)%sess.

(** The three-way join on the market id; [.first()] of an empty result is
    [None]. *)
Definition get_market_bundle_for_update (market_id : nat) : M (nat * nat * nat) :=
  (let! mi := gets (fun s => first_where (fun m => Nat.eqb (MarketDB.id m) market_id) (markets s)) in
   let! ai := gets (fun s => first_where (fun a => Nat.eqb (AMMDB.market_id a) market_id) (amms s)) in
   let! ci := gets (fun s => first_where (fun c => Nat.eqb (ClearingHouseDB.market_id c) market_id) (chs s)) in
   match mi, ai, ci with
   | Some m, Some a, Some c => ret (m, a, c)
   | _, _, _ => raise (ValueError "Market not found or missing AMM/CH rows")
   end)%sess.

Definition first_position (user_id market_id : nat) : M (option nat) :=
  gets (fun s => first_where (fun p => Nat.eqb (PositionsDB.user_id p) user_id
                                       && Nat.eqb (PositionsDB.market_id p) market_id)
                             (positions s)).

Definition get_or_create_position_for_update (user_id market_id : nat) : M nat :=
  (let! found := first_position user_id market_id in
   match found with
   | Some pos => ret pos
   | None =>
       let! n := gets (fun s => length (positions s)) in
       let! _ := modify (with_positions (fun ps =>
                   ps ++ [PositionsDB.mk (fresh_id (PositionsDB.id <$> ps))
                            market_id user_id (Fin 0) (Fin 0)])) in
       ret n
   end)%sess.

Definition ledger_add (market_id user_id : nat) (reason : string) (delta : float)
    (side : string) (amount : option float) : M unit :=
  modify (with_ledger (fun l =>
    l ++ [LedgerDB.mk (fresh_id (LedgerDB.id <$> l)) market_id user_id utcnow
            reason delta side amount])).

Definition side_ok (side : string) : bool :=
  String.eqb side "yes" || String.eqb side "no".

(** [budget_points is None or budget_points <= 0] *)
Definition no_budget (budget_points : option float) : bool :=
  match budget_points with
  | None => true
  | Some p => fle p (Fin 0)
  end.

(** [budget_points is not None and budget_points > 0] *)
Definition has_budget (budget_points : option float) : bool :=
  match budget_points with
  | None => false
  | Some p => fgt p (Fin 0)
  end.

(** [is_visible is not None and not is_visible(name, username)] *)
Definition hidden (is_visible : option (string -> string -> bool))
    (name username : string) : bool :=
  match is_visible with
  | None => false
  | Some f => negb (f name username)
  end.

(** The tolerance literal [1e-9]. *)
Definition eps : R := 1 / 1000000000.

(** [max(total_yes, total_no)] of the collateral blocks. *)
Definition required_collateral (a : AMMDB.t) : float :=
  let total_yes := fmax (Fin 0) (fneg (or0 (AMMDB.qYes a))) in
  let total_no := fmax (Fin 0) (fneg (or0 (AMMDB.qNo a))) in
  fmax total_yes total_no.

Definition when (c : bool) (m : M unit) : M unit := if c then m else ret tt.

Definition trade_buy (username : string) (market_id : nat) (quantity : float)
    (side : string) (budget_points : option float)
    (is_visible : option (string -> string -> bool)) : M TradeOut :=
  (if negb (side_ok side) then raise (ValueError "side must be 'yes' or 'no'") else
   let qty := quantity in
   if fle qty (Fin 0) && no_budget budget_points
   then raise (ValueError "quantity must be > 0") else
   let! found := first_user_by_username username in
   let! db_user := match found with
                   | Some u => ret u
                   | None => get_or_create_user username (Fin 1000)
                   end in
   let! '(db_market, amm, ch) := get_market_bundle_for_update market_id in
   let! m := market_at db_market in
   if MarketDB.resolved m then raise (ValueError "Market is settled") else
   if hidden is_visible (MarketDB.name m) username
   then raise (ValueError "You cannot trade this market") else
   let! u := user_at db_user in
   let! pos := get_or_create_position_for_update (UserDB.id u) market_id in
   let b := MarketDB.b m in
   let! a := amm_at amm in
   let q_yes_total := fneg (or0 (AMMDB.qYes a)) in
   let q_no_total := fneg (or0 (AMMDB.qNo a)) in
   let! qty := match budget_points with
               | Some p =>
                   if fgt p (Fin 0) then
                     let! q := lift (_max_int_quantity_for_budget
                                       b q_yes_total q_no_total side p "buy") in
                     ret (of_int q)
                   else ret qty
               | None => ret qty
               end in
   let! cost := lift (lmsr_cost b q_yes_total q_no_total qty side) in
   if negb (isfinite cost) then raise (ValueError "pricing overflow") else
   if flt (or0 (UserDB.points u)) cost
   then raise (ValueError "not enough points for order") else
   let! _ := set_user db_user (UserDB.set_points (fsub (UserDB.points u) cost)) in
   let! _ := set_amm amm (AMMDB.set_points (fadd (or0 (AMMDB.points a)) cost)) in
   let! a := amm_at amm in
   let! _ := set_market db_market (MarketDB.set_amm_points (AMMDB.points a)) in
   (* inventory / positions *)
   let! p := position_at pos in
   let! _ := if String.eqb side "yes" then
               let! _ := set_position pos (PositionsDB.set_qYes (fadd (or0 (PositionsDB.qYes p)) qty)) in
               set_amm amm (AMMDB.set_qYes (fsub (or0 (AMMDB.qYes a)) qty))
             else
               let! _ := set_position pos (PositionsDB.set_qNo (fadd (or0 (PositionsDB.qNo p)) qty)) in
               set_amm amm (AMMDB.set_qNo (fsub (or0 (AMMDB.qNo a)) qty)) in
   (* collateral *)
   let! a := amm_at amm in
   let required := required_collateral a in
   let! c := ch_at ch in
   let current := or0 (ClearingHouseDB.points c) in
   let delta := fsub required current in
   let! _ := if fgt delta (Fin 0) then
               if flt (or0 (AMMDB.points a)) delta
               then raise (ValueError "AMM lack points for required collateral") else
               let! _ := set_amm amm (AMMDB.set_points (fsub (AMMDB.points a) delta)) in
               let! a := amm_at amm in
               let! _ := set_market db_market (MarketDB.set_amm_points (AMMDB.points a)) in
               set_ch ch (ClearingHouseDB.set_points (fadd (or0 (ClearingHouseDB.points c)) delta))
             else if flt delta (Fin (- eps))
             then raise (ValueError "clearing house has more points than required after minting")
             else ret tt in
   let! _ := when (negb _ledger_off)
     (let! _ := ledger_add market_id (UserDB.id u) "trade buy" (fneg cost) side (Some qty) in
      when _ledger_full
        (let '(SYSTEM_AMM_USER_ID, SYSTEM_CH_USER_ID) := _get_system_ids in
         let! _ := ledger_add market_id SYSTEM_AMM_USER_ID "trade sell" cost side (Some qty) in
         when (fgt delta (Fin 0))
           (let! _ := ledger_add market_id SYSTEM_AMM_USER_ID "clearing house"
                        (fneg delta) "N/A" None in
            ledger_add market_id SYSTEM_CH_USER_ID "clearing house" delta "N/A" None))) in
   let! a := amm_at amm in
   let q_yes_total2 := fneg (or0 (AMMDB.qYes a)) in
   let q_no_total2 := fneg (or0 (AMMDB.qNo a)) in
   let! yes_price2 := lift (lmsr_yes_price b q_yes_total2 q_no_total2) in
   let new_price := if String.eqb side "yes" then yes_price2 else fsub (Fin 1) yes_price2 in
   let! u := user_at db_user in
   ret (mkTradeOut (UserDB.points u) new_price qty cost))%sess.

Definition trade_sell (username : string) (market_id : nat) (quantity : float)
    (side : string) (budget_points : option float)
    (is_visible : option (string -> string -> bool)) : M TradeOut :=
  (if negb (side_ok side) then raise (ValueError "side must be 'yes' or 'no'") else
   let qty := quantity in
   if fle qty (Fin 0) && no_budget budget_points
   then raise (ValueError "quantity must be > 0") else
   let! found := first_user_by_username username in
   match found with
   | None => raise (ValueError "user not found")
   | Some db_user =>
   let! '(db_market, amm, ch) := get_market_bundle_for_update market_id in
   let! m := market_at db_market in
   if MarketDB.resolved m then raise (ValueError "Market is settled") else
   if hidden is_visible (MarketDB.name m) username
   then raise (ValueError "You cannot trade this market") else
   let! u := user_at db_user in
   let! found_pos := first_position (UserDB.id u) market_id in
   match found_pos with
   | None => raise (ValueError "no position for this market")
   | Some pos =>
   let! p := position_at pos in
   let! a := amm_at amm in
   let! qty := match budget_points with
               | Some bp =>
                   if fgt bp (Fin 0) then
                     let b := MarketDB.b m in
                     let q_yes_total := fneg (or0 (AMMDB.qYes a)) in
                     let q_no_total := fneg (or0 (AMMDB.qNo a)) in
                     let! q := lift (_max_int_quantity_for_budget
                                       b q_yes_total q_no_total side bp "sell") in
                     let available := if String.eqb side "yes"
                                      then or0 (PositionsDB.qYes p)
                                      else or0 (PositionsDB.qNo p) in
                     let! fl := lift (math.floor available) in
                     ret (of_int (Z.min q fl))
                   else ret qty
               | None => ret qty
               end in
   if String.eqb side "yes" && flt (or0 (PositionsDB.qYes p)) qty
   then raise (ValueError "not enough YES contracts to sell") else
   if String.eqb side "no" && flt (or0 (PositionsDB.qNo p)) qty
   then raise (ValueError "not enough NO contracts to sell") else
   let b := MarketDB.b m in
   let q_yes_total := fneg (or0 (AMMDB.qYes a)) in
   let q_no_total := fneg (or0 (AMMDB.qNo a)) in
   if fle qty (Fin 0) then raise (ValueError "quantity must be > 0") else
   let! c0 := lift (lmsr_cost b q_yes_total q_no_total (fneg qty) side) in
   let payout := fneg c0 in
   if negb (isfinite payout) then raise (ValueError "pricing overflow") else
   if flt (or0 (AMMDB.points a)) payout
   then raise (ValueError "AMM does not have enough points to pay this sell") else
   let! _ := set_user db_user (UserDB.set_points (fadd (UserDB.points u) payout)) in
   let! _ := set_amm amm (AMMDB.set_points (fsub (AMMDB.points a) payout)) in
   let! a := amm_at amm in
   let! _ := set_market db_market (MarketDB.set_amm_points (AMMDB.points a)) in
   let! _ := if String.eqb side "yes" then
               let! _ := set_position pos (PositionsDB.set_qYes (fsub (or0 (PositionsDB.qYes p)) qty)) in
               set_amm amm (AMMDB.set_qYes (fadd (or0 (AMMDB.qYes a)) qty))
             else
               let! _ := set_position pos (PositionsDB.set_qNo (fsub (or0 (PositionsDB.qNo p)) qty)) in
               set_amm amm (AMMDB.set_qNo (fadd (or0 (AMMDB.qNo a)) qty)) in
   let! a := amm_at amm in
   let required := required_collateral a in
   let! c := ch_at ch in
   let current := or0 (ClearingHouseDB.points c) in
   let delta := fsub current required in
   let! _ := if fgt delta (Fin 0) then
               let! _ := set_ch ch (ClearingHouseDB.set_points (fsub (ClearingHouseDB.points c) delta)) in
               let! _ := set_amm amm (AMMDB.set_points (fadd (AMMDB.points a) delta)) in
               let! a := amm_at amm in
               set_market db_market (MarketDB.set_amm_points (AMMDB.points a))
             else if flt delta (Fin (- eps))
             then raise (ValueError "collateral increased after sell; state inconsistent")
             else ret tt in
   let! _ := when (negb _ledger_off)
     (let! _ := ledger_add market_id (UserDB.id u) "trade sell" payout side (Some qty) in
      when _ledger_full
        (let '(SYSTEM_AMM_USER_ID, SYSTEM_CH_USER_ID) := _get_system_ids in
         let! _ := ledger_add market_id SYSTEM_AMM_USER_ID "trade buy" (fneg payout) side (Some qty) in
         when (fgt delta (Fin 0))
           (let! _ := ledger_add market_id SYSTEM_CH_USER_ID "clearing house"
                        (fneg delta) "N/A" None in
            ledger_add market_id SYSTEM_AMM_USER_ID "clearing house" delta "N/A" None))) in
   let! a := amm_at amm in
   let q_yes_total2 := fneg (or0 (AMMDB.qYes a)) in
   let q_no_total2 := fneg (or0 (AMMDB.qNo a)) in
   let! yes_price2 := lift (lmsr_yes_price b q_yes_total2 q_no_total2) in
   if negb (isfinite yes_price2) then raise (ValueError "pricing overflow") else
   let new_price := if String.eqb side "yes" then yes_price2 else fsub (Fin 1) yes_price2 in
   let! u := user_at db_user in
   ret (mkTradeOut (UserDB.points u) new_price qty payout)
   end end)%sess.

(** *** Transactions

    [with Session(engine) as session: ...; session.commit()]: the session
    starts from the committed tables; its changes are persisted by the
    commit and dropped when the block is left by an exception. *)
Definition transaction {A} (c : M A) (db : Session) : result A * Session :=
  match c db with
  | (Ok a, s) => (Ok a, s)
  | (Raise e, _) => (Raise e, db)
  end.

(** *** The [Market] class; [Market_f] is the method [Market.f] *)

(** The payout loop of [settlement], over the rows the position query
    returned. *)
Fixpoint pay_winners (outcome : string) (ps : list PositionsDB.t) : M unit :=
  match ps with
  | [] => ret tt
  | pos :: rest =>
      (let! found := gets (fun s => first_where
                       (fun u => Nat.eqb (UserDB.id u) (PositionsDB.user_id pos)) (users s)) in
       match found with
       | None => pay_winners outcome rest
       | Some user =>
           let payout := if String.eqb outcome "yes"
                         then or0 (PositionsDB.qYes pos)
                         else or0 (PositionsDB.qNo pos) in
           let! u := user_at user in
           let! _ := when (fgt payout (Fin 0))
                       (set_user user (UserDB.set_points (fadd (UserDB.points u) payout))) in
           pay_winners outcome rest
       end)%sess
  end.

(** [Market.__init__] with [market_id=None]: get or create the market by
    name, with its AMM and clearing-house rows.  It returns the market id.
    The constructor commits twice; both commits are inside. *)
Definition Market_ensure_rows (market_id : nat) (reserve : float) : M unit :=
  (let! amm := gets (fun s => first_where (fun a => Nat.eqb (AMMDB.market_id a) market_id) (amms s)) in
   let! _ := when (negb (bool_decide (is_Some amm)))
               (modify (with_amms (fun l =>
                  l ++ [AMMDB.mk (fresh_id (AMMDB.id <$> l)) market_id reserve (Fin 0) (Fin 0)]))) in
   let! ch := gets (fun s => first_where (fun c => Nat.eqb (ClearingHouseDB.market_id c) market_id) (chs s)) in
   when (negb (bool_decide (is_Some ch)))
     (modify (with_chs (fun l =>
        l ++ [ClearingHouseDB.mk (fresh_id (ClearingHouseDB.id <$> l)) market_id (Fin 0)]))))%sess.

(** [float(m.amm_points or 10000)] *)
Definition Market_reserve_of (m : MarketDB.t) : float :=
  match MarketDB.amm_points m with
  | Fin r => if bool_decide (r = 0) then Fin 10000 else Fin r
  | x => x
  end.

Definition Market_init (name : string) (b : float) : M nat :=
  (let! found := gets (fun s => first_where (fun m => String.eqb (MarketDB.name m) name) (markets s)) in
   let! mi := match found with
              | Some mi => ret mi
              | None =>
                  let! n := gets (fun s => length (markets s)) in
                  let! _ := modify (with_markets (fun l =>
                              l ++ [MarketDB.mk (fresh_id (MarketDB.id <$> l)) name b
                                      (Fin 10000) false None None])) in
                  let! m := market_at n in
                  let! _ := modify (with_amms (fun l =>
                              l ++ [AMMDB.mk (fresh_id (AMMDB.id <$> l)) (MarketDB.id m)
                                      (Market_reserve_of m) (Fin 0) (Fin 0)])) in
                  let! _ := modify (with_chs (fun l =>
                              l ++ [ClearingHouseDB.mk (fresh_id (ClearingHouseDB.id <$> l))
                                      (MarketDB.id m) (Fin 0)])) in
                  ret n
              end in
   let! m := market_at mi in
   let! _ := Market_ensure_rows (MarketDB.id m) (Market_reserve_of m) in
   ret (MarketDB.id m))%sess.

Definition Market_buy (market_id : nat) (username : string) (quantity : float) (side : string)
  : Session -> result TradeOut * Session :=
  transaction (trade_buy username market_id quantity side None None).

Definition Market_sell (market_id : nat) (username : string) (quantity : float) (side : string)
  : Session -> result TradeOut * Session :=
  transaction (trade_sell username market_id quantity side None None).

Definition Market_settlement_body (market_id : nat) (outcome : string) : M unit :=
  (if negb (side_ok outcome) then raise (ValueError "outcome must be 'yes' or 'no'") else
   let! found := gets (fun s => first_where (fun m => Nat.eqb (MarketDB.id m) market_id) (markets s)) in
   match found with
   | None => raise (ValueError "Market not found")
   | Some mi =>
       let! m := market_at mi in
       if MarketDB.resolved m then raise (ValueError "Market already settled") else
       let! _ := set_market mi (MarketDB.settle (String.eqb outcome "yes") utcnow) in
       let! ps := gets (fun s => filter (fun p => PositionsDB.market_id p = market_id)
                                        (positions s)) in
       pay_winners outcome ps
   end)%sess.

Definition Market_settlement (market_id : nat) (outcome : string)
  : Session -> result unit * Session :=
  transaction (Market_settlement_body market_id outcome).

End Engine.

(** ** The rest of exchange.py, and system_actors.py *)

(** *** [Market.priceUpdate]

    It reads the market bundle, prices it, rolls the session back and
    returns the price of [side]; nothing is written. *)
Definition Market_priceUpdate (market_id : nat) (side : string) (db : Session)
  : result float :=
  if negb (side_ok side) then Raise (ValueError "side must be 'yes' or 'no'") else
  fst ((let! '(m, amm, _) := get_market_bundle_for_update market_id in
        let! m := market_at m in
        let! a := amm_at amm in
        let b := MarketDB.b m in
        let q_yes_total := fneg (or0 (AMMDB.qYes a)) in
        let q_no_total := fneg (or0 (AMMDB.qNo a)) in
        let! yes_p := lift (lmsr_yes_price b q_yes_total q_no_total) in
        ret (if String.eqb side "yes" then yes_p else fsub (Fin 1) yes_p))%sess db).

(** *** The class [User]

    A Python dict with integer keys, as the list of its items in insertion
    order: assigning to a key that is present replaces its value in
    place. *)
Fixpoint dict_set {V} (k : nat) (v : V) (d : list (nat * V)) : list (nat * V) :=
  match d with
  | [] => [(k, v)]
  | (k', v') :: d' => if Nat.eqb k' k then (k, v) :: d' else (k', v') :: dict_set k v d'
  end.

Fixpoint dict_get {V} (k : nat) (d : list (nat * V)) : option V :=
  match d with
  | [] => None
  | (k', v') :: d' => if Nat.eqb k' k then Some v' else dict_get k d'
  end.

(** The attributes of a [User] object; an entry of [positions] is the pair
    of the ["yes"] and ["no"] counts. *)
Module UserObj.
Record t : Type := mk {
  username : string;
  points : float;
  userId : option nat;
  positions : list (nat * (float * float)) }.
Definition set_points (v : float) (o : t) : t := mk (username o) v (userId o) (positions o).
End UserObj.

(** [User.__init__]: the stored row wins over the [points] argument; a
    missing row is added and committed. *)
Definition User_init (username : string) (points : float) (load_positions : bool)
    (db : Session) : UserObj.t * Session :=
  match first_where (fun u => String.eqb (UserDB.username u) username) (users db) with
  | Some i =>
      let row := users db !!! i in
      (UserObj.mk username (UserDB.points row) (Some (UserDB.id row))
         (if load_positions then
            foldl (fun d p => dict_set (PositionsDB.market_id p)
                                (or0 (PositionsDB.qYes p), or0 (PositionsDB.qNo p)) d)
                  [] (filter (fun p => PositionsDB.user_id p = UserDB.id row) (positions db))
          else []),
       db)
  | None =>
      let new_user := UserDB.mk (fresh_id (UserDB.id <$> users db)) username points in
      (UserObj.mk username points (Some (UserDB.id new_user)) [],
       with_users (fun us => us ++ [new_user]) db)
  end.

(** [User.addPoints] and [User.subtractPoints], each a transaction of its
    own. *)
Definition User_addPoints (self : UserObj.t) (amount : float) (db : Session)
  : result UserObj.t * Session :=
  match first_where (fun u => String.eqb (UserDB.username u) (UserObj.username self))
          (users db) with
  | None => (Raise (ValueError "User not found"), db)
  | Some i =>
      let u := users db !!! i in
      let u' := UserDB.set_points (fadd (UserDB.points u) amount) u in
      (Ok (UserObj.set_points (UserDB.points u') self),
       with_users (fun us => <[i := u']> us) db)
  end.

Definition User_subtractPoints (self : UserObj.t) (amount : float) (db : Session)
  : result UserObj.t * Session :=
  match first_where (fun u => String.eqb (UserDB.username u) (UserObj.username self))
          (users db) with
  | None => (Raise (ValueError "User not found"), db)
  | Some i =>
      let u := users db !!! i in
      let amt := amount in
      if flt (UserDB.points u) amt then (Raise (ValueError "not enough points"), db) else
      let u' := UserDB.set_points (fsub (UserDB.points u) amt) u in
      (Ok (UserObj.set_points (UserDB.points u') self),
       with_users (fun us => <[i := u']> us) db)
  end.

(** *** system_actors.py *)

Definition SYSTEM_AMM_USERNAME : string := "__system_amm__".
Definition SYSTEM_CH_USERNAME : string := "__system_clearing_house__".

Definition get_or_create_system_user_id (username : string) (points : float)
    (db : Session) : nat * Session :=
  match first_where (fun u => String.eqb (UserDB.username u) username) (users db) with
  | Some i => (UserDB.id (users db !!! i), db)
  | None =>
      let row := UserDB.mk (fresh_id (UserDB.id <$> users db)) username points in
      (UserDB.id row, with_users (fun us => us ++ [row]) db)
  end.

Definition get_system_actor_ids (db : Session) : (nat * nat) * Session :=
  let '(amm_id, db1) := get_or_create_system_user_id SYSTEM_AMM_USERNAME (Fin 0) db in
  let '(ch_id, db2) := get_or_create_system_user_id SYSTEM_CH_USERNAME (Fin 0) db1 in
  ((amm_id, ch_id), db2).

(** * Vocabulary of the statements *)

(** The ["quantity"] entry of a trade's result. *)
Definition quantity_of (out : TradeOut) : float := quantity out.

(** ** The kernel over the reals *)

(** The value the stable formula computes: [log(exp a + exp b)]. *)
Definition lse (a b : R) : R := ln (exp a + exp b).

(** [lmsr_cost] as a real number: the change of [b * lse(q_yes/b, q_no/b)]. *)
Definition costR (b qy qn dq : R) (side : string) : R :=
  if String.eqb side "yes"
  then b * lse ((qy + dq) / b) (qn / b) - b * lse (qy / b) (qn / b)
  else b * lse (qy / b) ((qn + dq) / b) - b * lse (qy / b) (qn / b).

(** [cost_for_qty] of the budget search, as a real number. *)
Definition cost_for_qtyR (b qy qn : R) (side mode : string) (q : Z) : R :=
  if String.eqb mode "buy" then costR b qy qn (IZR q) side
  else - costR b qy qn (IZR (- q)) side.

(** [q] contracts fit the budget: their cost (payout in sell mode) is
    finite and at most the budget. *)
Definition fits (b q_yes q_no : float) (side : string) (budget : float)
    (mode : string) (q : Z) : Prop :=
  exists c, cost_for_qty b q_yes q_no side mode q = Ok c
            /\ isfinite c = true /\ fle c budget = true.

(** [over budget cost q]: [q] contracts do not fit the budget, by the test
    of the two loops. *)
Definition over (budget : float) (cost : Z -> float) (q : Z) : bool :=
  exceeds budget (cost q).

(** The first power of two above 10^9, where the doubling stops. *)
Definition cap : Z := 1073741824.

(** ** Successful trades as functions of the rows

    [success r] is the result of a run that did not raise.  The functions
    below compute, from the rows a trade has locked, the rows it writes;
    [trade_buy_pure] and [trade_sell_pure] put them together, and
    [trade_buy_success] and [trade_sell_success] show that they are what the
    monadic code does. *)

Definition success {A} (r : result A * Session) : option (A * Session) :=
  match r with
  | (Ok a, s) => Some (a, s)
  | (Raise _, _) => None
  end.

Definition buy_amm1 (a : AMMDB.t) (cost qty : float) (side : string) : AMMDB.t :=
  let a1 := AMMDB.set_points (fadd (or0 (AMMDB.points a)) cost) a in
  if String.eqb side "yes" then AMMDB.set_qYes (fsub (or0 (AMMDB.qYes a1)) qty) a1
  else AMMDB.set_qNo (fsub (or0 (AMMDB.qNo a1)) qty) a1.

Definition buy_delta (a1 : AMMDB.t) (c : ClearingHouseDB.t) : float :=
  fsub (required_collateral a1) (or0 (ClearingHouseDB.points c)).

Definition buy_collateral_ok (a1 : AMMDB.t) (c : ClearingHouseDB.t) : bool :=
  if fgt (buy_delta a1 c) (Fin 0) then negb (flt (or0 (AMMDB.points a1)) (buy_delta a1 c))
  else negb (flt (buy_delta a1 c) (Fin (- eps))).

Definition buy_amm2 (a1 : AMMDB.t) (c : ClearingHouseDB.t) : AMMDB.t :=
  if fgt (buy_delta a1 c) (Fin 0)
  then AMMDB.set_points (fsub (AMMDB.points a1) (buy_delta a1 c)) a1
  else a1.

Definition buy_ch (a1 : AMMDB.t) (c : ClearingHouseDB.t) : ClearingHouseDB.t :=
  if fgt (buy_delta a1 c) (Fin 0)
  then ClearingHouseDB.set_points (fadd (or0 (ClearingHouseDB.points c)) (buy_delta a1 c)) c
  else c.

Definition buy_pos (p : PositionsDB.t) (qty : float) (side : string) : PositionsDB.t :=
  if String.eqb side "yes" then PositionsDB.set_qYes (fadd (or0 (PositionsDB.qYes p)) qty) p
  else PositionsDB.set_qNo (fadd (or0 (PositionsDB.qNo p)) qty) p.

Definition buy_qty (m : MarketDB.t) (a : AMMDB.t) (quantity : float) (side : string)
    (budget_points : option float) : result float :=
  match budget_points with
  | Some p =>
      if fgt p (Fin 0) then
        (let! q := _max_int_quantity_for_budget (MarketDB.b m)
                     (fneg (or0 (AMMDB.qYes a))) (fneg (or0 (AMMDB.qNo a))) side p "buy" in
         Ok (of_int q))%res
      else Ok quantity
  | None => Ok quantity
  end.

Definition sell_amm1 (a : AMMDB.t) (payout qty : float) (side : string) : AMMDB.t :=
  let a1 := AMMDB.set_points (fsub (AMMDB.points a) payout) a in
  if String.eqb side "yes" then AMMDB.set_qYes (fadd (or0 (AMMDB.qYes a1)) qty) a1
  else AMMDB.set_qNo (fadd (or0 (AMMDB.qNo a1)) qty) a1.

Definition sell_delta (a1 : AMMDB.t) (c : ClearingHouseDB.t) : float :=
  fsub (or0 (ClearingHouseDB.points c)) (required_collateral a1).

Definition sell_collateral_ok (a1 : AMMDB.t) (c : ClearingHouseDB.t) : bool :=
  if fgt (sell_delta a1 c) (Fin 0) then true
  else negb (flt (sell_delta a1 c) (Fin (- eps))).

Definition sell_amm2 (a1 : AMMDB.t) (c : ClearingHouseDB.t) : AMMDB.t :=
  if fgt (sell_delta a1 c) (Fin 0)
  then AMMDB.set_points (fadd (AMMDB.points a1) (sell_delta a1 c)) a1
  else a1.

Definition sell_ch (a1 : AMMDB.t) (c : ClearingHouseDB.t) : ClearingHouseDB.t :=
  if fgt (sell_delta a1 c) (Fin 0)
  then ClearingHouseDB.set_points (fsub (ClearingHouseDB.points c) (sell_delta a1 c)) c
  else c.

Definition sell_pos (p : PositionsDB.t) (qty : float) (side : string) : PositionsDB.t :=
  if String.eqb side "yes" then PositionsDB.set_qYes (fsub (or0 (PositionsDB.qYes p)) qty) p
  else PositionsDB.set_qNo (fsub (or0 (PositionsDB.qNo p)) qty) p.

(** The holding of the side that is sold. *)
Definition available (p : PositionsDB.t) (side : string) : float :=
  if String.eqb side "yes" then or0 (PositionsDB.qYes p) else or0 (PositionsDB.qNo p).

Definition sell_qty (m : MarketDB.t) (a : AMMDB.t) (p : PositionsDB.t) (quantity : float)
    (side : string) (budget_points : option float) : result float :=
  match budget_points with
  | Some bp =>
      if fgt bp (Fin 0) then
        (let! q := _max_int_quantity_for_budget (MarketDB.b m)
                     (fneg (or0 (AMMDB.qYes a))) (fneg (or0 (AMMDB.qNo a))) side bp "sell" in
         let! fl := math.floor (available p side) in
         Ok (of_int (Z.min q fl)))%res
      else Ok quantity
  | None => Ok quantity
  end.

(** The two holdings tests of [trade_sell]. *)
Definition short (p : PositionsDB.t) (qty : float) (side : string) : bool :=
  String.eqb side "yes" && flt (or0 (PositionsDB.qYes p)) qty
  || String.eqb side "no" && flt (or0 (PositionsDB.qNo p)) qty.

Definition by_username (username : string) (u : UserDB.t) : bool :=
  String.eqb (UserDB.username u) username.
Definition market_by_id (market_id : nat) (m : MarketDB.t) : bool :=
  Nat.eqb (MarketDB.id m) market_id.
Definition amm_by_market (market_id : nat) (a : AMMDB.t) : bool :=
  Nat.eqb (AMMDB.market_id a) market_id.
Definition ch_by_market (market_id : nat) (c : ClearingHouseDB.t) : bool :=
  Nat.eqb (ClearingHouseDB.market_id c) market_id.
Definition position_by_key (user_id market_id : nat) (p : PositionsDB.t) : bool :=
  Nat.eqb (PositionsDB.user_id p) user_id && Nat.eqb (PositionsDB.market_id p) market_id.

(** The user table after [get_or_create_user], the position table after
    [get_or_create_position_for_update]. *)
Definition users_with (username : string) (us : list UserDB.t) : list UserDB.t :=
  match first_where (by_username username) us with
  | Some _ => us
  | None => us ++ [UserDB.mk (fresh_id (UserDB.id <$> us)) username (Fin 1000)]
  end.

Definition positions_with (user_id market_id : nat) (ps : list PositionsDB.t)
  : list PositionsDB.t :=
  match first_where (position_by_key user_id market_id) ps with
  | Some _ => ps
  | None => ps ++ [PositionsDB.mk (fresh_id (PositionsDB.id <$> ps))
                     market_id user_id (Fin 0) (Fin 0)]
  end.

Section Pure.

Variable LEDGER_MODE : ledger_mode.
Variable SYSTEM_IDS : nat * nat.
Variable utcnow : nat.

Definition push_ledger (market_id user_id : nat) (reason : string) (delta : float)
    (side : string) (amount : option float) (l : list LedgerDB.t) : list LedgerDB.t :=
  l ++ [LedgerDB.mk (fresh_id (LedgerDB.id <$> l)) market_id user_id utcnow
          reason delta side amount].

Definition buy_ledger (market_id user_id : nat) (cost qty : float) (side : string)
    (delta : float) (l : list LedgerDB.t) : list LedgerDB.t :=
  match LEDGER_MODE with
  | off => l
  | light => push_ledger market_id user_id "trade buy" (fneg cost) side (Some qty) l
  | full =>
      let l1 := push_ledger market_id user_id "trade buy" (fneg cost) side (Some qty) l in
      let l2 := push_ledger market_id (fst SYSTEM_IDS) "trade sell" cost side (Some qty) l1 in
      if fgt delta (Fin 0) then
        push_ledger market_id (snd SYSTEM_IDS) "clearing house" delta "N/A" None
          (push_ledger market_id (fst SYSTEM_IDS) "clearing house" (fneg delta) "N/A" None l2)
      else l2
  end.

Definition sell_ledger (market_id user_id : nat) (payout qty : float) (side : string)
    (delta : float) (l : list LedgerDB.t) : list LedgerDB.t :=
  match LEDGER_MODE with
  | off => l
  | light => push_ledger market_id user_id "trade sell" payout side (Some qty) l
  | full =>
      let l1 := push_ledger market_id user_id "trade sell" payout side (Some qty) l in
      let l2 := push_ledger market_id (fst SYSTEM_IDS) "trade buy" (fneg payout) side (Some qty) l1 in
      if fgt delta (Fin 0) then
        push_ledger market_id (fst SYSTEM_IDS) "clearing house" delta "N/A" None
          (push_ledger market_id (snd SYSTEM_IDS) "clearing house" (fneg delta) "N/A" None l2)
      else l2
  end.

Definition trade_buy_pure (username : string) (market_id : nat) (quantity : float)
    (side : string) (budget_points : option float)
    (is_visible : option (string -> string -> bool)) (s : Session)
  : option (TradeOut * Session) :=
  if negb (side_ok side) then None else
  if fle quantity (Fin 0) && no_budget budget_points then None else
  let us1 := users_with username (users s) in
  ui ← first_where (by_username username) us1;
  mi ← first_where (market_by_id market_id) (markets s);
  ai ← first_where (amm_by_market market_id) (amms s);
  ci ← first_where (ch_by_market market_id) (chs s);
  u ← us1 !! ui;
  m ← markets s !! mi;
  a ← amms s !! ai;
  c ← chs s !! ci;
  if MarketDB.resolved m then None else
  if hidden is_visible (MarketDB.name m) username then None else
  let ps1 := positions_with (UserDB.id u) market_id (positions s) in
  pi ← first_where (position_by_key (UserDB.id u) market_id) ps1;
  p ← ps1 !! pi;
  match buy_qty m a quantity side budget_points with
  | Raise _ => None
  | Ok qty =>
  match lmsr_cost (MarketDB.b m) (fneg (or0 (AMMDB.qYes a))) (fneg (or0 (AMMDB.qNo a)))
          qty side with
  | Raise _ => None
  | Ok cost =>
  if negb (isfinite cost) then None else
  if flt (or0 (UserDB.points u)) cost then None else
  let a1 := buy_amm1 a cost qty side in
  if negb (buy_collateral_ok a1 c) then None else
  let a2 := buy_amm2 a1 c in
  match lmsr_yes_price (MarketDB.b m) (fneg (or0 (AMMDB.qYes a2)))
          (fneg (or0 (AMMDB.qNo a2))) with
  | Raise _ => None
  | Ok yes_price2 =>
  let u' := UserDB.set_points (fsub (UserDB.points u) cost) u in
  Some (mkTradeOut (UserDB.points u')
          (if String.eqb side "yes" then yes_price2 else fsub (Fin 1) yes_price2) qty cost,
        mkSession (<[ui := u']> us1)
          (<[mi := MarketDB.set_amm_points (AMMDB.points a2) m]> (markets s))
          (<[ai := a2]> (amms s))
          (<[pi := buy_pos p qty side]> ps1)
          (buy_ledger market_id (UserDB.id u) cost qty side (buy_delta a1 c) (ledger s))
          (<[ci := buy_ch a1 c]> (chs s)))
  end end end.

Definition trade_sell_pure (username : string) (market_id : nat) (quantity : float)
    (side : string) (budget_points : option float)
    (is_visible : option (string -> string -> bool)) (s : Session)
  : option (TradeOut * Session) :=
  if negb (side_ok side) then None else
  if fle quantity (Fin 0) && no_budget budget_points then None else
  ui ← first_where (by_username username) (users s);
  mi ← first_where (market_by_id market_id) (markets s);
  ai ← first_where (amm_by_market market_id) (amms s);
  ci ← first_where (ch_by_market market_id) (chs s);
  u ← users s !! ui;
  m ← markets s !! mi;
  a ← amms s !! ai;
  c ← chs s !! ci;
  if MarketDB.resolved m then None else
  if hidden is_visible (MarketDB.name m) username then None else
  pi ← first_where (position_by_key (UserDB.id u) market_id) (positions s);
  p ← positions s !! pi;
  match sell_qty m a p quantity side budget_points with
  | Raise _ => None
  | Ok qty =>
  if short p qty side then None else
  if fle qty (Fin 0) then None else
  match lmsr_cost (MarketDB.b m) (fneg (or0 (AMMDB.qYes a))) (fneg (or0 (AMMDB.qNo a)))
          (fneg qty) side with
  | Raise _ => None
  | Ok c0 =>
  let payout := fneg c0 in
  if negb (isfinite payout) then None else
  if flt (or0 (AMMDB.points a)) payout then None else
  let a1 := sell_amm1 a payout qty side in
  if negb (sell_collateral_ok a1 c) then None else
  let a2 := sell_amm2 a1 c in
  match lmsr_yes_price (MarketDB.b m) (fneg (or0 (AMMDB.qYes a2)))
          (fneg (or0 (AMMDB.qNo a2))) with
  | Raise _ => None
  | Ok yes_price2 =>
  if negb (isfinite yes_price2) then None else
  let u' := UserDB.set_points (fadd (UserDB.points u) payout) u in
  Some (mkTradeOut (UserDB.points u')
          (if String.eqb side "yes" then yes_price2 else fsub (Fin 1) yes_price2) qty payout,
        mkSession (<[ui := u']> (users s))
          (<[mi := MarketDB.set_amm_points (AMMDB.points a2) m]> (markets s))
          (<[ai := a2]> (amms s))
          (<[pi := sell_pos p qty side]> (positions s))
          (sell_ledger market_id (UserDB.id u) payout qty side (sell_delta a1 c) (ledger s))
          (<[ci := sell_ch a1 c]> (chs s)))
  end end end.

End Pure.

(** ** What a successful trade has established

    The guards a successful [trade_buy] has passed and the tables it leaves,
    in terms of the rows it locked: the user [u] at index [ui], the market
    [m], its AMM row [a] and clearing-house row [c], and the position [p]. *)

Record buy_facts (username : string) (market_id : nat) (quantity : float) (side : string)
    (budget_points : option float) (is_visible : option (string -> string -> bool))
    (s s' : Session) (out : TradeOut)
    (ui mi ai ci pi_ : nat) (u : UserDB.t) (m : MarketDB.t) (a : AMMDB.t)
    (c : ClearingHouseDB.t) (p : PositionsDB.t) (qty cost : float) : Prop := {
  bf_side : side_ok side = true;
  bf_request : fle quantity (Fin 0) && no_budget budget_points = false;
  bf_ui : first_where (by_username username) (users_with username (users s)) = Some ui;
  bf_mi : first_where (market_by_id market_id) (markets s) = Some mi;
  bf_ai : first_where (amm_by_market market_id) (amms s) = Some ai;
  bf_ci : first_where (ch_by_market market_id) (chs s) = Some ci;
  bf_u : users_with username (users s) !! ui = Some u;
  bf_m : markets s !! mi = Some m;
  bf_a : amms s !! ai = Some a;
  bf_c : chs s !! ci = Some c;
  bf_open : MarketDB.resolved m = false;
  bf_visible : hidden is_visible (MarketDB.name m) username = false;
  bf_pi : first_where (position_by_key (UserDB.id u) market_id)
            (positions_with (UserDB.id u) market_id (positions s)) = Some pi_;
  bf_p : positions_with (UserDB.id u) market_id (positions s) !! pi_ = Some p;
  bf_qty : buy_qty m a quantity side budget_points = Ok qty;
  bf_cost : lmsr_cost (MarketDB.b m) (fneg (or0 (AMMDB.qYes a))) (fneg (or0 (AMMDB.qNo a)))
              qty side = Ok cost;
  bf_finite : isfinite cost = true;
  bf_funds : flt (or0 (UserDB.points u)) cost = false;
  bf_collateral : buy_collateral_ok (buy_amm1 a cost qty side) c = true;
  bf_users : users s' = <[ui := UserDB.set_points (fsub (UserDB.points u) cost) u]>
                          (users_with username (users s));
  bf_markets : markets s' = <[mi := MarketDB.set_amm_points
                                      (AMMDB.points (buy_amm2 (buy_amm1 a cost qty side) c)) m]>
                              (markets s);
  bf_amms : amms s' = <[ai := buy_amm2 (buy_amm1 a cost qty side) c]> (amms s);
  bf_positions : positions s' = <[pi_ := buy_pos p qty side]>
                                  (positions_with (UserDB.id u) market_id (positions s));
  bf_chs : chs s' = <[ci := buy_ch (buy_amm1 a cost qty side) c]> (chs s);
  bf_quantity : quantity_of out = qty;
  bf_order_cost : order_cost out = cost;
  bf_new_balance : new_balance out = fsub (UserDB.points u) cost }.

(** The same for [trade_sell]; [payout] is the negated cost of [-qty]. *)
Record sell_facts (username : string) (market_id : nat) (quantity : float) (side : string)
    (budget_points : option float) (is_visible : option (string -> string -> bool))
    (s s' : Session) (out : TradeOut)
    (ui mi ai ci pi_ : nat) (u : UserDB.t) (m : MarketDB.t) (a : AMMDB.t)
    (c : ClearingHouseDB.t) (p : PositionsDB.t) (qty payout : float) : Prop := {
  sf_side : side_ok side = true;
  sf_request : fle quantity (Fin 0) && no_budget budget_points = false;
  sf_ui : first_where (by_username username) (users s) = Some ui;
  sf_mi : first_where (market_by_id market_id) (markets s) = Some mi;
  sf_ai : first_where (amm_by_market market_id) (amms s) = Some ai;
  sf_ci : first_where (ch_by_market market_id) (chs s) = Some ci;
  sf_u : users s !! ui = Some u;
  sf_m : markets s !! mi = Some m;
  sf_a : amms s !! ai = Some a;
  sf_c : chs s !! ci = Some c;
  sf_open : MarketDB.resolved m = false;
  sf_visible : hidden is_visible (MarketDB.name m) username = false;
  sf_pi : first_where (position_by_key (UserDB.id u) market_id) (positions s) = Some pi_;
  sf_p : positions s !! pi_ = Some p;
  sf_qty : sell_qty m a p quantity side budget_points = Ok qty;
  sf_held : short p qty side = false;
  sf_positive : fle qty (Fin 0) = false;
  sf_cost : exists c0,
      lmsr_cost (MarketDB.b m) (fneg (or0 (AMMDB.qYes a))) (fneg (or0 (AMMDB.qNo a)))
        (fneg qty) side = Ok c0 /\ payout = fneg c0;
  sf_finite : isfinite payout = true;
  sf_reserve : flt (or0 (AMMDB.points a)) payout = false;
  sf_collateral : sell_collateral_ok (sell_amm1 a payout qty side) c = true;
  sf_users : users s' = <[ui := UserDB.set_points (fadd (UserDB.points u) payout) u]> (users s);
  sf_markets : markets s' = <[mi := MarketDB.set_amm_points
                                      (AMMDB.points (sell_amm2 (sell_amm1 a payout qty side) c)) m]>
                              (markets s);
  sf_amms : amms s' = <[ai := sell_amm2 (sell_amm1 a payout qty side) c]> (amms s);
  sf_positions : positions s' = <[pi_ := sell_pos p qty side]> (positions s);
  sf_chs : chs s' = <[ci := sell_ch (sell_amm1 a payout qty side) c]> (chs s);
  sf_quantity : quantity_of out = qty;
  sf_order_cost : order_cost out = payout;
  sf_new_balance : new_balance out = fadd (UserDB.points u) payout }.

(** ** Totals, and sequences of committed trades *)

(** The real value of a finite float. *)
Definition val (x : float) : R :=
  match x with
  | Fin r => r
  | _ => 0
  end.

Definition sumR (l : list R) : R := foldr Rplus 0 l.

Definition user_total (s : Session) : R := sumR ((fun u => val (UserDB.points u)) <$> users s).
Definition amm_total (s : Session) : R := sumR ((fun a => val (AMMDB.points a)) <$> amms s).
Definition ch_total (s : Session) : R :=
  sumR ((fun c => val (ClearingHouseDB.points c)) <$> chs s).

(** [sum(User.points) + sum(AMM.points) + sum(ClearingHouse.points)] *)
Definition total_points (s : Session) : R := user_total s + amm_total s + ch_total s.

(** Every point balance is a finite number. *)
Definition finite_points (s : Session) : Prop :=
  Forall (fun u => isfinite (UserDB.points u) = true) (users s)
  /\ Forall (fun a => isfinite (AMMDB.points a) = true) (amms s)
  /\ Forall (fun c => isfinite (ClearingHouseDB.points c) = true) (chs s).

(** The arguments of a trade, with the clock reading of the call. *)
Record request : Type := mkRequest {
  req_username : string;
  req_market_id : nat;
  req_quantity : float;
  req_side : string;
  req_budget_points : option float;
  req_is_visible : option (string -> string -> bool);
  req_utcnow : nat }.

Inductive op : Type :=
| Buy (r : request)
| Sell (r : request).

Definition request_of (o : op) : request :=
  match o with Buy r | Sell r => r end.

Section Commit.

Variable LEDGER_MODE : ledger_mode.
Variable SYSTEM_IDS : nat * nat.

(** A trade in a transaction of its own, as every caller runs it. *)
Definition commit (o : op) (db : Session) : result TradeOut * Session :=
  match o with
  | Buy r =>
      transaction (trade_buy LEDGER_MODE SYSTEM_IDS (req_utcnow r) (req_username r)
                     (req_market_id r) (req_quantity r) (req_side r)
                     (req_budget_points r) (req_is_visible r)) db
  | Sell r =>
      transaction (trade_sell LEDGER_MODE SYSTEM_IDS (req_utcnow r) (req_username r)
                     (req_market_id r) (req_quantity r) (req_side r)
                     (req_budget_points r) (req_is_visible r)) db
  end.

(** [committed db ops db']: the trades [ops], run in this order from [db],
    all succeed and leave [db']. *)
Inductive committed : Session -> list op -> Session -> Prop :=
| committed_nil db : committed db [] db
| committed_cons db o out db1 ops db2 :
    commit o db = (Ok out, db1) -> committed db1 ops db2 -> committed db (o :: ops) db2.

End Commit.

(** ** Well-formed databases *)

(** Every stored number is finite and every market has a positive
    liquidity parameter. *)
Record wf (s : Session) : Prop := {
  wf_users : Forall (fun u => isfinite (UserDB.points u) = true) (users s);
  wf_markets : Forall (fun m => exists rb, MarketDB.b m = Fin rb /\ 0 < rb) (markets s);
  wf_amms : Forall (fun a => isfinite (AMMDB.points a) = true
                             /\ isfinite (AMMDB.qYes a) = true
                             /\ isfinite (AMMDB.qNo a) = true) (amms s);
  wf_chs : Forall (fun c => isfinite (ClearingHouseDB.points c) = true) (chs s);
  wf_positions : Forall (fun p => isfinite (PositionsDB.qYes p) = true
                                  /\ isfinite (PositionsDB.qNo p) = true) (positions s) }.

(** [max(-AMM.qYes, -AMM.qNo, 0)] *)
Definition requiredR (ay an : R) : R := Rmax (Rmax (- ay) (- an)) 0.

(** The AMM inventory after [dq] contracts of [side] left it ([dq < 0]:
    came back). *)
Definition inv_yes (side : string) (ay dq : R) : R :=
  if String.eqb side "yes" then ay - dq else ay.
Definition inv_no (side : string) (an dq : R) : R :=
  if String.eqb side "yes" then an else an - dq.

(** For every market, the clearing-house row holds exactly the collateral
    its AMM row requires. *)
Definition collateral_inv (s : Session) : Prop :=
  forall market_id ai ci a c,
    first_where (amm_by_market market_id) (amms s) = Some ai -> amms s !! ai = Some a ->
    first_where (ch_by_market market_id) (chs s) = Some ci -> chs s !! ci = Some c ->
    ClearingHouseDB.points c
    = Fin (requiredR (val (AMMDB.qYes a)) (val (AMMDB.qNo a)))
    /\ 0 <= val (ClearingHouseDB.points c).

(** The documented precondition of a trade: a positive quantity or a
    positive budget. *)
Definition valid_request (r : request) : Prop :=
  fgt (req_quantity r) (Fin 0) = true \/ has_budget (req_budget_points r) = true.

(** A buy must come with a positive quantity or a positive budget; a sell
    is checked again by the engine once its quantity is known. *)
Definition valid_op (o : op) : Prop :=
  match o with
  | Buy r => valid_request r
  | Sell _ => True
  end.

(** ** A small database

    The defaults of the code: a market with [b = 20], an AMM reserve of
    10000 points, an empty clearing house, and a user with 1000 points. *)

Definition alice : UserDB.t := UserDB.mk 1 "alice" (Fin 1000).
Definition rain : MarketDB.t := MarketDB.mk 1 "rain" (Fin 20) (Fin 10000) false None None.
Definition rain_amm : AMMDB.t := AMMDB.mk 1 1 (Fin 10000) (Fin 0) (Fin 0).
Definition rain_ch : ClearingHouseDB.t := ClearingHouseDB.mk 1 1 (Fin 0).

(** The market alone, and the market with the user. *)
Definition db_market : Session := mkSession [] [rain] [rain_amm] [] [] [rain_ch].
Definition db_alice : Session := mkSession [alice] [rain] [rain_amm] [] [] [rain_ch].

(** Ten YES contracts for alice, by quantity. *)
Definition ten_yes : request := mkRequest "alice" 1 (Fin 10) "yes" None None 0.

(** Alice holding half a YES contract of the market. *)
Definition half_amm : AMMDB.t := AMMDB.mk 1 1 (Fin 10000) (Fin (- (1 / 2))) (Fin 0).
Definition half_ch : ClearingHouseDB.t := ClearingHouseDB.mk 1 1 (Fin (1 / 2)).
Definition half_pos : PositionsDB.t := PositionsDB.mk 1 1 1 (Fin (1 / 2)) (Fin 0).
Definition db_half : Session := mkSession [alice] [rain] [half_amm] [half_pos] [] [half_ch].

(** ** Whole numbers of contracts *)

(** [x] is a float that holds an integer. *)
Definition is_int (x : float) : Prop := exists z : Z, x = of_int z.




(** ** Settlement *)

(** The [resolved] flag of the market with this id. *)
Definition market_resolved (market_id : nat) (s : Session) : bool :=
  match first_where (market_by_id market_id) (markets s) with
  | Some mi => MarketDB.resolved (markets s !!! mi)
  | None => false
  end.

Definition user_by_id (user_id : nat) (u : UserDB.t) : bool :=
  Nat.eqb (UserDB.id u) user_id.

(** [float(pos.qYes or 0)] or [float(pos.qNo or 0)], by the outcome. *)
Definition winning (outcome : string) (p : PositionsDB.t) : float :=
  if String.eqb outcome "yes" then or0 (PositionsDB.qYes p) else or0 (PositionsDB.qNo p).

(** What the payout loop does to a user row when it visits [pos], and when
    it has visited all of [ps]. *)
Definition pay (outcome : string) (pos : PositionsDB.t) (u : UserDB.t) : UserDB.t :=
  if user_by_id (PositionsDB.user_id pos) u && fgt (winning outcome pos) (Fin 0)
  then UserDB.set_points (fadd (UserDB.points u) (winning outcome pos)) u
  else u.



(** The winning count a user holds in a market, if the user has a position
    there. *)
Definition winnings (outcome : string) (market_id user_id : nat) (ps : list PositionsDB.t)
  : option float :=
  match first_where (position_by_key user_id market_id) ps with
  | Some pi_ => Some (winning outcome (ps !!! pi_))
  | None => None
  end.

(** The user row after settlement, as C4 has it. *)
Definition credited (outcome : string) (market_id : nat) (ps : list PositionsDB.t)
    (u : UserDB.t) : UserDB.t :=
  match winnings outcome market_id (UserDB.id u) ps with
  | Some q => UserDB.set_points (fadd (UserDB.points u) q) u
  | None => u
  end.

(** The constraints of the schema that settlement relies on: user ids are
    unique, a user has one position per market; and holdings are finite and
    not negative. *)
Record settle_ready (s : Session) : Prop := {
  sr_users : NoDup (UserDB.id <$> users s);
  sr_positions : NoDup ((fun p => (PositionsDB.user_id p, PositionsDB.market_id p))
                          <$> positions s);
  sr_holdings : Forall (fun p => (exists y, PositionsDB.qYes p = Fin y /\ 0 <= y)
                                 /\ (exists n, PositionsDB.qNo p = Fin n /\ 0 <= n))
                       (positions s) }.

(** The checks and reads that a trade makes before it looks at the
    [resolved] flag all pass: the side and the quantity are accepted, the
    AMM and clearing-house rows of the market exist, and the seller is a
    known user (a buyer is created). *)
Definition reaches_market_check (o : op) (db : Session) : Prop :=
  let r := request_of o in
  side_ok (req_side r) = true
  /\ fle (req_quantity r) (Fin 0) && no_budget (req_budget_points r) = false
  /\ is_Some (first_where (amm_by_market (req_market_id r)) (amms db))
  /\ is_Some (first_where (ch_by_market (req_market_id r)) (chs db))
  /\ match o with
     | Buy _ => True
     | Sell _ => is_Some (first_where (by_username (req_username r)) (users db))
     end.

(** The calls that write to the database, and the committed database
    after a call, whether it succeeded or raised. *)
Inductive call : Type :=
| Trade (o : op)
| Settle (market_id : nat) (outcome : string) (now : nat)
| Init (name : string) (b : float).

Definition state_after (LEDGER_MODE : ledger_mode) (SYSTEM_IDS : nat * nat) (c : call)
    (db : Session) : Session :=
  match c with
  | Trade o => (commit LEDGER_MODE SYSTEM_IDS o db).2
  | Settle market_id outcome now => (Market_settlement now market_id outcome db).2
  | Init name b => (Market_init name b db).2
  end.

(** The market of scenario S5 after its settlement at YES. *)
Definition rain_settled : MarketDB.t :=
  MarketDB.mk 1 "rain" (Fin 20) (Fin 10000) true (Some true) (Some 0%nat).
Definition db_settled : Session :=
  mkSession [alice] [rain_settled] [rain_amm] [] [] [rain_ch].

(** Scenario S5: alice holds five YES contracts and bob three; carol has
    no position. *)
Definition bob : UserDB.t := UserDB.mk 2 "bob" (Fin 1000).
Definition carol : UserDB.t := UserDB.mk 3 "carol" (Fin 1000).
Definition s5_amm : AMMDB.t := AMMDB.mk 1 1 (Fin 10000) (Fin (- (8))) (Fin 0).
Definition s5_ch : ClearingHouseDB.t := ClearingHouseDB.mk 1 1 (Fin 8).
Definition s5_alice : PositionsDB.t := PositionsDB.mk 1 1 1 (Fin 5) (Fin 0).
Definition s5_bob : PositionsDB.t := PositionsDB.mk 2 1 2 (Fin 3) (Fin 0).
Definition db_s5 : Session :=
  mkSession [alice; bob; carol] [rain] [s5_amm] [s5_alice; s5_bob] [] [s5_ch].

(** ** Prices *)

(** The docstring of [lmsr_yes_price]:
    [exp(q_yes/b) / (exp(q_yes/b) + exp(q_no/b))]. *)
Definition priceR (b qy qn : R) : R := exp (qy / b) / (exp (qy / b) + exp (qn / b)).

(** The inventory pair after [dq] more contracts of [side] are outstanding. *)
Definition after_yes (side : string) (qy dq : R) : R :=
  if String.eqb side "yes" then qy + dq else qy.
Definition after_no (side : string) (qn dq : R) : R :=
  if String.eqb side "yes" then qn else qn + dq.

(** [yes_price if side == "yes" else (1 - yes_price)], on real numbers. *)
Definition sideR (side : string) (yes_price : R) : R :=
  if String.eqb side "yes" then yes_price else 1 - yes_price.

(** A market created with [b = 0] (the constructor does not check [b]). *)
Definition flat : MarketDB.t := MarketDB.mk 1 "flat" (Fin 0) (Fin 10000) false None None.
Definition db_flat : Session := mkSession [alice] [flat] [rain_amm] [] [] [rain_ch].

(** Alice asks for as many YES contracts as five points buy. *)
Definition five_points_yes : request :=
  mkRequest "alice" 1 (Fin 1) "yes" (Some (Fin 5)) None 0.

(** ** Invariants of the tables *)

(** [Market.amm_points] mirrors [AMM.points], for every market that has an
    AMM row. *)
Definition mirrored (s : Session) : Prop :=
  forall market_id mi ai m a,
    first_where (market_by_id market_id) (markets s) = Some mi -> markets s !! mi = Some m ->
    first_where (amm_by_market market_id) (amms s) = Some ai -> amms s !! ai = Some a ->
    MarketDB.amm_points m = AMMDB.points a.

(** The rows a trade leaves alone. *)
Definition untouched (o : op) (ui pi_ : nat) (db db' : Session) : Prop :=
  let market_id := req_market_id (request_of o) in
  (forall j x, j <> ui -> users db !! j = Some x -> users db' !! j = Some x)
  /\ (forall j x, j <> pi_ -> positions db !! j = Some x -> positions db' !! j = Some x)
  /\ (forall j x, markets db !! j = Some x -> MarketDB.id x <> market_id ->
                  markets db' !! j = Some x)
  /\ (forall j x, amms db !! j = Some x -> AMMDB.market_id x <> market_id ->
                  amms db' !! j = Some x)
  /\ (forall j x, chs db !! j = Some x -> ClearingHouseDB.market_id x <> market_id ->
                  chs db' !! j = Some x).

(** ** The ledger *)

(** The sum of the [delta] column of ledger rows. *)
Definition ledger_total (rows : list LedgerDB.t) : R :=
  sumR ((fun r => val (LedgerDB.delta r)) <$> rows).

(** The row that a trade writes for the trader. *)
Definition user_row (o : op) (out : TradeOut) (user_id : nat) (row : LedgerDB.t) : Prop :=
  LedgerDB.market_id row = req_market_id (request_of o)
  /\ LedgerDB.user_id row = user_id
  /\ LedgerDB.timestamp row = req_utcnow (request_of o)
  /\ LedgerDB.reason row = match o with Buy _ => "trade buy" | Sell _ => "trade sell" end
  /\ LedgerDB.delta row = match o with
                          | Buy _ => fneg (order_cost out)
                          | Sell _ => order_cost out
                          end
  /\ LedgerDB.side row = req_side (request_of o)
  /\ LedgerDB.amount row = Some (quantity_of out).

(** The YES and NO contracts that users hold in a market. *)
Definition held_yes (market_id : nat) (ps : list PositionsDB.t) : R :=
  sumR ((fun p => if Nat.eqb (PositionsDB.market_id p) market_id
                  then val (PositionsDB.qYes p) else 0) <$> ps).
Definition held_no (market_id : nat) (ps : list PositionsDB.t) : R :=
  sumR ((fun p => if Nat.eqb (PositionsDB.market_id p) market_id
                  then val (PositionsDB.qNo p) else 0) <$> ps).

(** Every contract a user holds was issued by the AMM: the AMM inventory
    of a market is minus the holdings in that market. *)
Definition balanced (s : Session) : Prop :=
  forall market_id ai a,
    first_where (amm_by_market market_id) (amms s) = Some ai -> amms s !! ai = Some a ->
    val (AMMDB.qYes a) + held_yes market_id (positions s) = 0
    /\ val (AMMDB.qNo a) + held_no market_id (positions s) = 0.

(** ** Settlement totals *)

(** What the payout loop can do to a user row. *)
Definition not_debited (u u' : UserDB.t) : Prop :=
  UserDB.id u' = UserDB.id u /\ UserDB.username u' = UserDB.username u
  /\ isfinite (UserDB.points u') = true
  /\ val (UserDB.points u) <= val (UserDB.points u').

(** ** The [Market] constructor *)

(** [select(MarketDB).where(MarketDB.name == name)] *)
Definition market_by_name (name : string) (m : MarketDB.t) : bool :=
  String.eqb (MarketDB.name m) name.

(** ** The [User] class *)

(** The attributes of a [User] object agree with a row of the table. *)
Definition mirrors (o : UserObj.t) (u : UserDB.t) : Prop :=
  UserObj.username o = UserDB.username u
  /\ UserObj.userId o = Some (UserDB.id u)
  /\ UserObj.points o = UserDB.points u.

(** The entry of a position row in [User.positions]. *)
Definition counts (p : PositionsDB.t) : float * float :=
  (or0 (PositionsDB.qYes p), or0 (PositionsDB.qNo p)).

(** ** The system users

    [_get_system_ids] memoises what [get_system_actor_ids] returns, and
    that call inserts the two system users, with 0 points, when they are
    missing.  The engine above takes the memoised pair as [SYSTEM_IDS];
    this is the call on a database where, in the full ledger mode, it has
    nothing to insert and finds that pair. *)
Definition system_users_ready (LEDGER_MODE : ledger_mode) (SYSTEM_IDS : nat * nat)
    (s : Session) : Prop :=
  LEDGER_MODE = full -> get_system_actor_ids s = (SYSTEM_IDS, s).

(** ** Whole numbers that binary64 holds exactly

    Up to [2^52] in magnitude, sums and differences of two whole numbers
    are whole numbers that a binary64 float holds without rounding. *)
Definition exact_int (x : float) : Prop :=
  exists z : Z, x = of_int z /\ (Z.abs z <= 2 ^ 52)%Z.

(** Every AMM inventory is such a number; every holding is. *)
Definition exact_inventory (s : Session) : Prop :=
  Forall (fun a => exact_int (AMMDB.qYes a) /\ exact_int (AMMDB.qNo a)) (amms s).
Definition exact_holdings (s : Session) : Prop :=
  Forall (fun p => exact_int (PositionsDB.qYes p) /\ exact_int (PositionsDB.qNo p))
         (positions s).

(** A trade by budget, or by such a quantity. *)
Definition exact_request (r : request) : Prop :=
  has_budget (req_budget_points r) = true \/ exact_int (req_quantity r).


(** * Properties *)

(** ** Comparisons and arithmetic on finite floats *)

Lemma or0_id (x : float) : or0 x = x.
Proof.
  destruct x as [r| | |]; simpl; try reflexivity.
  case_bool_decide; congruence.
Qed.

Lemma isfinite_Fin (x : float) : isfinite x = true -> exists r, x = Fin r.
Proof. destruct x; simpl; intros H; try discriminate; eauto. Qed.

Lemma flt_Fin (x y : R) : flt (Fin x) (Fin y) = bool_decide (x < y).
Proof. reflexivity. Qed.

Lemma fle_Fin (x y : R) : fle (Fin x) (Fin y) = bool_decide (x <= y).
Proof. reflexivity. Qed.

Lemma fmax_Fin (x y : R) : fmax (Fin x) (Fin y) = Fin (Rmax x y).
Proof.
  unfold fmax, fgt, flt. case_bool_decide.
  - rewrite Rmax_right by lra. reflexivity.
  - rewrite Rmax_left by lra. reflexivity.
Qed.

(** ** The log-sum-exp kernel *)


Lemma stable_lse (a b m : R) : m + ln (exp (a - m) + exp (b - m)) = lse a b.
Proof.
  unfold lse.
  replace (exp a + exp b) with (exp m * (exp (a - m) + exp (b - m))).
  - rewrite ln_mult.
    + rewrite ln_exp. reflexivity.
    + apply exp_pos.
    + pose proof (exp_pos (a - m)). pose proof (exp_pos (b - m)). lra.
  - rewrite Rmult_plus_distr_l, <- !exp_plus. f_equal; f_equal; lra.
Qed.

Lemma _stable_logsumexp_Fin (a b : R) :
  _stable_logsumexp (Fin a) (Fin b)
  = Ok (Fin (Rmax a b + ln (exp (a - Rmax a b) + exp (b - Rmax a b)))).
Proof.
  unfold _stable_logsumexp. rewrite fmax_Fin. simpl.
  pose proof (exp_pos (a + - Rmax a b)). pose proof (exp_pos (b + - Rmax a b)).
  rewrite bool_decide_eq_true_2 by lra. reflexivity.
Qed.

Lemma _stable_logsumexp_lse (a b : R) :
  _stable_logsumexp (Fin a) (Fin b) = Ok (Fin (lse a b)).
Proof. rewrite _stable_logsumexp_Fin, stable_lse. reflexivity. Qed.

Lemma lse_mono_l (a a' b : R) : a <= a' -> lse a b <= lse a' b.
Proof.
  intros H. unfold lse.
  pose proof (exp_pos a). pose proof (exp_pos b).
  destruct (Req_dec a a') as [->|Hne]; [lra|].
  apply Rlt_le, ln_increasing; [lra|].
  assert (exp a < exp a') by (apply exp_increasing; lra). lra.
Qed.

Lemma lse_mono_r (a b b' : R) : b <= b' -> lse a b <= lse a b'.
Proof.
  intros H. unfold lse. rewrite (Rplus_comm (exp a) (exp b)), (Rplus_comm (exp a) (exp b')).
  apply (lse_mono_l b b' a H).
Qed.

Lemma lse_shift_l (a b d : R) : 0 <= d -> lse (a + d) b <= lse a b + d.
Proof.
  intros H. unfold lse.
  pose proof (exp_pos a). pose proof (exp_pos b). pose proof (exp_pos (a + d)).
  rewrite <- (ln_exp d) at 2. rewrite <- ln_mult; [|lra|apply exp_pos].
  assert (1 <= exp d).
  { destruct (Req_dec 0 d) as [<-|]; [rewrite exp_0; lra|].
    apply Rlt_le. rewrite <- exp_0. apply exp_increasing. lra. }
  assert (exp (a + d) + exp b <= (exp a + exp b) * exp d).
  { rewrite exp_plus. nra. }
  destruct (Req_dec (exp (a + d) + exp b) ((exp a + exp b) * exp d)) as [->|]; [lra|].
  apply Rlt_le, ln_increasing; lra.
Qed.

Lemma lse_shift_r (a b d : R) : 0 <= d -> lse a (b + d) <= lse a b + d.
Proof.
  intros H. unfold lse. rewrite (Rplus_comm (exp a)), (Rplus_comm (exp a) (exp b)).
  apply (lse_shift_l b a d H).
Qed.

Lemma lse_ge_l (a b : R) : a <= lse a b.
Proof.
  unfold lse. pose proof (exp_pos a). pose proof (exp_pos b).
  rewrite <- (ln_exp a) at 1. apply Rlt_le, ln_increasing; lra.
Qed.

Lemma lse_ge_r (a b : R) : b <= lse a b.
Proof. unfold lse. rewrite Rplus_comm. apply (lse_ge_l b a). Qed.

Lemma lse_0_0 : lse 0 0 = ln 2.
Proof. unfold lse. rewrite exp_0. f_equal; lra. Qed.

Lemma ln_2_le_1 : ln 2 <= 1.
Proof.
  assert (H : 2 < exp 1) by (pose proof (exp_ineq1 1); lra).
  apply ln_increasing in H; [|lra]. rewrite ln_exp in H. lra.
Qed.

(** ** The budget search, for any cost function that does not raise *)

Section SearchSpec.

Variables (b q_yes q_no : float) (side : string) (budget : float) (mode : string).
Variable cost : Z -> float.
Hypothesis cost_ok : forall q, cost_for_qty b q_yes q_no side mode q = Ok (cost q).

Local Abbreviation ov := (over budget cost).


Lemma expand_step (fuel : nat) (low high : Z) :
  expand b q_yes q_no side budget mode (S fuel) low high =
  if ov high then Ok (low, high)
  else if (high * 2 >? 1000000000)%Z then Ok (high, (high * 2)%Z)
       else expand b q_yes q_no side budget mode fuel high (high * 2)%Z.
Proof. simpl. rewrite cost_ok. reflexivity. Qed.

Lemma bsearch_step (fuel : nat) (low high : Z) :
  (low < high)%Z ->
  bsearch b q_yes q_no side budget mode (S fuel) low high =
  if ov ((low + high + 1) / 2)%Z
  then bsearch b q_yes q_no side budget mode fuel low ((low + high + 1) / 2 - 1)%Z
  else bsearch b q_yes q_no side budget mode fuel ((low + high + 1) / 2)%Z high.
Proof.
  intros H. simpl. apply Z.ltb_lt in H. rewrite H, cost_ok. reflexivity.
Qed.

Lemma bsearch_done (fuel : nat) (low high : Z) :
  (high <= low)%Z -> bsearch b q_yes q_no side budget mode fuel low high = Ok low.
Proof.
  intros H. apply Z.ltb_ge in H. destruct fuel; simpl; rewrite H; reflexivity.
Qed.

(** The doubling loop from [high = 2^j]: it stops within [30 - j] rounds, on
    a bracket whose lower end fits and whose upper end is over budget or is
    the cap [2^30]. *)
Lemma expand_spec (fuel j : nat) (low : Z) :
  (30 <= j + fuel)%nat -> (j <= 29)%nat ->
  (j = 0%nat /\ low = 0%Z \/ (1 <= low)%Z /\ ov low = false /\ (low < 2 ^ Z.of_nat j)%Z) ->
  exists low' high',
    expand b q_yes q_no side budget mode fuel low (2 ^ Z.of_nat j) = Ok (low', high')
    /\ (low' <= high' <= cap)%Z
    /\ (low' = 0%Z /\ ov 1 = true
        \/ (1 <= low' < high')%Z /\ ov low' = false /\ (ov high' = true \/ high' = cap)).
Proof.
  revert j low. induction fuel as [|fuel IH]; intros j low Hfuel Hj Hlow; [lia|].
  rewrite expand_step.
  assert (Hpow : (1 <= 2 ^ Z.of_nat j <= 536870912)%Z).
  { split; [pose proof (Z.pow_pos_nonneg 2 (Z.of_nat j)); lia|].
    change 536870912%Z with (2 ^ 29)%Z. apply Z.pow_le_mono_r; lia. }
  destruct (ov (2 ^ Z.of_nat j)) eqn:Hover.
  - exists low, (2 ^ Z.of_nat j)%Z. split; [reflexivity|]. unfold cap.
    destruct Hlow as [[-> ->]|(H1 & H2 & H3)].
    + simpl in *. split; [lia|]. left. auto.
    + split; [lia|]. right. split; [lia|]. split; [assumption|]. left. assumption.
  - destruct (Z.gtb_spec (2 ^ Z.of_nat j * 2) 1000000000) as [Hbig|Hsmall].
    + exists (2 ^ Z.of_nat j)%Z, (2 ^ Z.of_nat j * 2)%Z.
      split; [reflexivity|].
      assert (j = 29%nat).
      { destruct (decide (j = 29%nat)) as [|Hne]; [assumption|exfalso].
        assert (2 ^ Z.of_nat j <= 2 ^ 28)%Z by (apply Z.pow_le_mono_r; lia).
        change (2 ^ 28)%Z with 268435456%Z in *. lia. }
      subst j. change (2 ^ Z.of_nat 29)%Z with 536870912%Z in *. unfold cap.
      split; [lia|]. right. split; [lia|]. split; [assumption|]. right. reflexivity.
    + assert (Hj' : (j <= 28)%nat).
      { destruct (decide (j = 29%nat)) as [->|Hne]; [|lia].
        change (2 ^ Z.of_nat 29)%Z with 536870912%Z in *. lia. }
      replace (2 ^ Z.of_nat j * 2)%Z with (2 ^ Z.of_nat (S j))%Z
        by (rewrite Nat2Z.inj_succ, Z.pow_succ_r; lia).
      apply IH; [lia|lia|].
      right. split; [lia|]. split; [assumption|].
      rewrite Nat2Z.inj_succ, Z.pow_succ_r; lia.
Qed.

(** The binary search: it ends within [fuel] rounds when the bracket is
    shorter than [2^fuel], on a quantity that fits and whose successor is
    over budget unless it is the upper end. *)
Lemma bsearch_spec (fuel : nat) (low high : Z) :
  (low <= high)%Z -> (high - low < 2 ^ Z.of_nat fuel)%Z -> ov low = false ->
  exists q,
    bsearch b q_yes q_no side budget mode fuel low high = Ok q
    /\ (low <= q <= high)%Z /\ ov q = false
    /\ (q = high \/ ov (q + 1) = true).
Proof.
  revert low high. induction fuel as [|fuel IH]; intros low high Hle Hlen Hlow.
  - simpl in Hlen. exists low. rewrite bsearch_done by lia.
    split; [reflexivity|]. split; [lia|]. split; [assumption|]. left. lia.
  - destruct (Z.eq_dec low high) as [->|Hne].
    { exists high. rewrite bsearch_done by lia.
      split; [reflexivity|]. split; [lia|]. split; [assumption|]. left. reflexivity. }
    rewrite bsearch_step by lia.
    rewrite Nat2Z.inj_succ, Z.pow_succ_r in Hlen by lia.
    set (mid := ((low + high + 1) / 2)%Z).
    assert (Hhalf : (2 * mid <= low + high + 1 < 2 * mid + 2)%Z).
    { unfold mid. pose proof (Z.mul_div_le (low + high + 1) 2).
      pose proof (Z.mul_succ_div_gt (low + high + 1) 2). lia. }
    assert (Hmid : (low < mid <= high)%Z) by lia.
    destruct (ov mid) eqn:Hover.
    + destruct (IH low (mid - 1)%Z) as (q & Hq & Hr & Hfit & Hnext); [lia|lia|assumption|].
      exists q. split; [assumption|]. split; [lia|]. split; [assumption|].
      right. destruct Hnext as [->|Hnext]; [|assumption].
      replace (mid - 1 + 1)%Z with mid by lia. assumption.
    + destruct (IH mid high) as (q & Hq & Hr & Hfit & Hnext); [lia|lia|assumption|].
      exists q. split; [assumption|]. split; [lia|]. split; assumption.
Qed.

(** What the search returns, for a budget that passes the first test. *)
Lemma max_int_quantity_spec :
  fle budget (Fin 0) = false ->
  (ov 1 = true /\
   _max_int_quantity_for_budget b q_yes q_no side budget mode
   = Raise (ValueError "budget insufficient for 1 contract"))
  \/ (ov 1 = false /\ exists q,
       _max_int_quantity_for_budget b q_yes q_no side budget mode = Ok q
       /\ (1 <= q <= cap)%Z /\ ov q = false
       /\ (q = cap \/ ov (q + 1) = true)).
Proof.
  intros Hb. unfold _max_int_quantity_for_budget. rewrite Hb.
  destruct (expand_spec 64 0 0%Z) as (low & high & He & Hr & Hcase); [lia|lia|auto|].
  change (2 ^ Z.of_nat 0)%Z with 1%Z in He. rewrite He. cbn [rbind].
  destruct Hcase as [[-> Hover]|(Hlow & Hfit & Hhigh)].
  - left. auto.
  - right. destruct (Z.eqb_spec low 0) as [|_]; [lia|].
    destruct (bsearch_spec 64 low high) as (q & Hq & Hqr & Hqfit & Hnext); [lia| |assumption|].
    { unfold cap in Hr. change (2 ^ Z.of_nat 64)%Z with 18446744073709551616%Z. lia. }
    assert (H1 : ov 1 = false).
    { destruct (ov 1) eqn:H1; [|reflexivity]. exfalso.
      rewrite expand_step, H1 in He. injection He as <- <-. lia. }
    split; [assumption|].
    exists q. split; [assumption|]. split; [lia|]. split; [assumption|].
    destruct Hnext as [->|Hnext]; [|right; assumption].
    destruct Hhigh as [Hhigh| ->]; [congruence|left; reflexivity].
Qed.

(** With a cost that grows with the quantity, the result is the largest
    affordable quantity up to the cap. *)
Lemma max_int_quantity_largest (q : Z) :
  (forall q1 q2, (1 <= q1 <= q2)%Z -> ov q1 = true -> ov q2 = true) ->
  (1 <= q)%Z -> (q = cap \/ ov (q + 1) = true) ->
  forall q', (1 <= q' <= cap)%Z -> ov q' = false -> (q' <= q)%Z.
Proof.
  intros Hmono Hq [->|Hnext] q' Hr Hfit; [lia|].
  destruct (Z_le_gt_dec q' q) as [|Hgt]; [assumption|exfalso].
  rewrite (Hmono (q + 1)%Z q') in Hfit; [discriminate|lia|assumption].
Qed.

End SearchSpec.

(** ** The LMSR cost on finite inventories *)


Lemma fdiv_Fin (x y : R) : y <> 0 -> fdiv (Fin x) (Fin y) = Ok (Fin (x / y)).
Proof. intros H. unfold fdiv. rewrite bool_decide_eq_false_2 by assumption. reflexivity. Qed.

Lemma lmsr_cost_Fin (b qy qn dq : R) (side : string) :
  b <> 0 ->
  lmsr_cost (Fin b) (Fin qy) (Fin qn) (Fin dq) side = Ok (Fin (costR b qy qn dq side)).
Proof.
  intros Hb. unfold lmsr_cost, costR.
  destruct (String.eqb side "yes"); simpl fadd;
    rewrite !fdiv_Fin by assumption; cbn [rbind];
    rewrite !_stable_logsumexp_lse; cbn [rbind]; reflexivity.
Qed.

Lemma costR_0 (b qy qn : R) (side : string) : costR b qy qn 0 side = 0.
Proof. unfold costR. destruct (String.eqb side "yes"); rewrite Rplus_0_r; lra. Qed.

Lemma costR_mono (b qy qn d d' : R) (side : string) :
  0 < b -> d <= d' -> costR b qy qn d side <= costR b qy qn d' side.
Proof.
  intros Hb Hd. unfold costR.
  assert (Hinv : 0 < / b) by (apply Rinv_0_lt_compat; assumption).
  destruct (String.eqb side "yes").
  - pose proof (lse_mono_l ((qy + d) / b) ((qy + d') / b) (qn / b)) as H.
    assert ((qy + d) / b <= (qy + d') / b) by (unfold Rdiv; nra). nra.
  - pose proof (lse_mono_r (qy / b) ((qn + d) / b) ((qn + d') / b)) as H.
    assert ((qn + d) / b <= (qn + d') / b) by (unfold Rdiv; nra). nra.
Qed.

(** Buying [d >= 0] contracts costs at most [d] points: the price of a
    contract never exceeds 1. *)
Lemma costR_le (b qy qn d : R) (side : string) :
  0 < b -> 0 <= d -> costR b qy qn d side <= d.
Proof.
  intros Hb Hd. unfold costR.
  assert (Hdb : 0 <= d / b) by (apply Rle_mult_inv_pos; assumption).
  destruct (String.eqb side "yes").
  - pose proof (lse_shift_l (qy / b) (qn / b) (d / b) Hdb) as H.
    replace (qy / b + d / b) with ((qy + d) / b) in H by (field; lra).
    apply (Rmult_le_compat_l b) in H; [|lra].
    replace (b * (lse (qy / b) (qn / b) + d / b))
      with (b * lse (qy / b) (qn / b) + d) in H by (field; lra).
    lra.
  - pose proof (lse_shift_r (qy / b) (qn / b) (d / b) Hdb) as H.
    replace (qn / b + d / b) with ((qn + d) / b) in H by (field; lra).
    apply (Rmult_le_compat_l b) in H; [|lra].
    replace (b * (lse (qy / b) (qn / b) + d / b))
      with (b * lse (qy / b) (qn / b) + d) in H by (field; lra).
    lra.
Qed.

Lemma costR_nonneg (b qy qn d : R) (side : string) :
  0 < b -> 0 <= d -> 0 <= costR b qy qn d side.
Proof.
  intros Hb Hd. rewrite <- (costR_0 b qy qn side). apply costR_mono; assumption.
Qed.

(** Undoing a trade: the cost of [-d] from the inventory reached by [d]. *)
Lemma costR_undo (b qy qn d : R) (side : string) :
  costR b (if String.eqb side "yes" then qy + d else qy)
          (if String.eqb side "yes" then qn else qn + d) (- d) side
  = - costR b qy qn d side.
Proof.
  unfold costR. destruct (String.eqb side "yes").
  - replace (qy + d + - d) with qy by lra. lra.
  - replace (qn + d + - d) with qn by lra. lra.
Qed.


Lemma cost_for_qty_Fin (b qy qn : R) (side mode : string) (q : Z) :
  b <> 0 ->
  cost_for_qty (Fin b) (Fin qy) (Fin qn) side mode q
  = Ok (Fin (cost_for_qtyR b qy qn side mode q)).
Proof.
  intros Hb. unfold cost_for_qty, cost_for_qtyR, of_int.
  destruct (String.eqb mode "buy"); rewrite lmsr_cost_Fin by assumption; reflexivity.
Qed.

Lemma cost_for_qtyR_mono (b qy qn : R) (side mode : string) (q1 q2 : Z) :
  0 < b -> (q1 <= q2)%Z ->
  cost_for_qtyR b qy qn side mode q1 <= cost_for_qtyR b qy qn side mode q2.
Proof.
  intros Hb Hq. unfold cost_for_qtyR. apply IZR_le in Hq as Hq'.
  destruct (String.eqb mode "buy").
  - apply costR_mono; assumption.
  - apply Ropp_le_contravar, costR_mono; [assumption|].
    rewrite !opp_IZR. lra.
Qed.

(** ** The budget search on finite inventories *)


Lemma exceeds_Fin (budget : float) (c : R) :
  fgt budget (Fin 0) = true ->
  exceeds budget (Fin c) = negb (fle (Fin c) budget).
Proof.
  unfold exceeds, fgt. destruct budget as [bu| | |]; simpl; try discriminate; auto.
  intros _. repeat case_bool_decide; try reflexivity; lra.
Qed.

Lemma fgt_0_not_fle (budget : float) :
  fgt budget (Fin 0) = true -> fle budget (Fin 0) = false.
Proof.
  unfold fgt. destruct budget as [bu| | |]; simpl; try discriminate; auto.
  intros H. apply bool_decide_eq_true_1 in H. apply bool_decide_eq_false_2. lra.
Qed.

Lemma over_fits (b qy qn : R) (side : string) (budget : float) (mode : string) (q : Z) :
  b <> 0 -> fgt budget (Fin 0) = true ->
  over budget (fun q => Fin (cost_for_qtyR b qy qn side mode q)) q = false
  <-> fits (Fin b) (Fin qy) (Fin qn) side budget mode q.
Proof.
  intros Hb Hbu. unfold over, fits. rewrite exceeds_Fin by assumption.
  rewrite cost_for_qty_Fin by assumption. split.
  - intros H. eexists. split; [reflexivity|]. split; [reflexivity|].
    destruct (fle _ budget); [reflexivity|discriminate].
  - intros (c & Hc & _ & Hle). injection Hc as <-. rewrite Hle. reflexivity.
Qed.

Lemma over_mono (b qy qn : R) (side : string) (budget : float) (mode : string) (q1 q2 : Z) :
  0 < b -> fgt budget (Fin 0) = true -> (q1 <= q2)%Z ->
  over budget (fun q => Fin (cost_for_qtyR b qy qn side mode q)) q1 = true ->
  over budget (fun q => Fin (cost_for_qtyR b qy qn side mode q)) q2 = true.
Proof.
  intros Hb Hbu Hq. unfold over. rewrite !exceeds_Fin by assumption.
  pose proof (cost_for_qtyR_mono b qy qn side mode q1 q2 Hb Hq) as Hc.
  destruct budget as [bu| | |]; simpl; try discriminate; auto.
  repeat case_bool_decide; try reflexivity; try discriminate. lra.
Qed.

(** The payout of a sale on the fresh default market never reaches 20
    points, whatever the quantity. *)
Lemma fresh_sell_payout_small (q : Z) :
  cost_for_qtyR 20 0 0 "yes" "sell" q <= 20.
Proof.
  unfold cost_for_qtyR, costR. simpl.
  pose proof (lse_ge_r ((0 + IZR (- q)) / 20) (0 / 20)) as H1.
  replace (0 / 20) with 0 in * by lra.
  rewrite lse_0_0. pose proof ln_2_le_1. lra.
Qed.

(** Against C3 as stated: selling into the fresh default market with a
    budget of 1000 points, no quantity is ever over budget; the search
    returns the cap 2^30, and one contract more still fits. *)
Lemma C3_cap_counterexample :
  _max_int_quantity_for_budget (Fin 20) (Fin 0) (Fin 0) "yes" (Fin 1000) "sell"
  = Ok 1073741824%Z
  /\ fits (Fin 20) (Fin 0) (Fin 0) "yes" (Fin 1000) "sell" (1073741824 + 1)%Z.
Proof.
  assert (Hbu : fgt (Fin 1000) (Fin 0) = true).
  { unfold fgt. simpl. apply bool_decide_eq_true_2. lra. }
  assert (Hb0 : (20 : R) <> 0) by lra.
  assert (Hfit : forall q, fits (Fin 20) (Fin 0) (Fin 0) "yes" (Fin 1000) "sell" q).
  { intros q. exists (Fin (cost_for_qtyR 20 0 0 "yes" "sell" q)).
    split; [apply cost_for_qty_Fin; assumption|]. split; [reflexivity|].
    simpl. apply bool_decide_eq_true_2.
    pose proof (fresh_sell_payout_small q). lra. }
  split; [|apply Hfit].
  pose proof (max_int_quantity_spec (Fin 20) (Fin 0) (Fin 0) "yes" (Fin 1000) "sell"
                (fun q => Fin (cost_for_qtyR 20 0 0 "yes" "sell" q))
                (fun q => cost_for_qty_Fin 20 0 0 "yes" "sell" q Hb0)
                (fgt_0_not_fle _ Hbu)) as Hspec.
  assert (Hover : forall q,
    over (Fin 1000) (fun q => Fin (cost_for_qtyR 20 0 0 "yes" "sell" q)) q = false).
  { intros q. apply over_fits; [assumption|assumption|apply Hfit]. }
  destruct Hspec as [[H1 _]|(_ & q & Hres & _ & _ & [->|Hnext])].
  - rewrite Hover in H1. discriminate.
  - exact Hres.
  - rewrite Hover in Hnext. discriminate.
Qed.

(** ** C8: the log-sum-exp guard *)


(** ** Running the engine *)

Arguments fadd : simpl never.
Arguments fsub : simpl never.
Arguments fneg : simpl never.
Arguments fmul : simpl never.
Arguments flt : simpl never.
Arguments fle : simpl never.
Arguments fgt : simpl never.
Arguments fmax : simpl never.
Arguments or0 : simpl never.
Arguments isfinite : simpl never.
Arguments lmsr_cost : simpl never.
Arguments lmsr_yes_price : simpl never.
Arguments _max_int_quantity_for_budget : simpl never.
Arguments required_collateral : simpl never.
Arguments first_where : simpl never.
Arguments String.eqb : simpl never.
Arguments side_ok : simpl never.
Arguments no_budget : simpl never.
Arguments hidden : simpl never.

Lemma first_where_Some {A} (p : A -> bool) (l : list A) (i : nat) :
  first_where p l = Some i -> exists x, l !! i = Some x /\ p x = true.
Proof.
  unfold first_where. intros H. apply fmap_Some in H as ([j x] & Hf & ->).
  apply list_find_Some in Hf as (Hl & Hp & _). eauto.
Qed.

Lemma first_where_first {A} (p : A -> bool) (l : list A) (i j : nat) (y : A) :
  first_where p l = Some i -> l !! j = Some y -> (j < i)%nat -> p y = false.
Proof.
  unfold first_where. intros H Hj Hlt. apply fmap_Some in H as ([k x] & Hf & ->).
  apply list_find_Some in Hf as (_ & _ & Hmin). simpl in Hlt.
  specialize (Hmin j y Hj Hlt). destruct (p y); congruence.
Qed.

Lemma first_where_None {A} (p : A -> bool) (l : list A) :
  first_where p l = None -> Forall (fun x => p x = false) l.
Proof.
  unfold first_where. intros H. apply fmap_None in H.
  apply list_find_None in H. eapply Forall_impl; [exact H|].
  intros x Hx. simpl in Hx. destruct (p x); congruence.
Qed.

Lemma first_where_intro {A} (p : A -> bool) (l : list A) (i : nat) (x : A) :
  l !! i = Some x -> p x = true ->
  (forall j y, l !! j = Some y -> (j < i)%nat -> p y = false) ->
  first_where p l = Some i.
Proof.
  intros Hl Hp Hmin. unfold first_where.
  assert (list_find (fun x => p x = true) l = Some (i, x)) as ->; [|reflexivity].
  apply list_find_Some. split; [assumption|]. split; [assumption|].
  intros j y Hj Hlt. rewrite (Hmin j y Hj Hlt). discriminate.
Qed.

Lemma first_where_app_new {A} (p : A -> bool) (l : list A) (x : A) :
  first_where p l = None -> p x = true -> first_where p (l ++ [x]) = Some (length l).
Proof.
  intros Hn Hx. apply (first_where_intro p _ _ x).
  - rewrite lookup_app_r by lia. rewrite Nat.sub_diag. reflexivity.
  - assumption.
  - intros j y Hj Hlt. rewrite lookup_app_l in Hj by assumption.
    apply first_where_None in Hn. rewrite Forall_lookup in Hn. exact (Hn _ _ Hj).
Qed.

Lemma alter_as_insert `{Inhabited A} (f : A -> A) (i : nat) (l : list A) :
  alter f i l = <[i := f (l !!! i)]> l.
Proof.
  destruct (l !! i) as [x|] eqn:Hx.
  - rewrite (list_lookup_total_correct _ _ _ Hx).
    apply list_eq. intros j. destruct (decide (i = j)) as [->|Hne].
    + rewrite list_lookup_alter_eq, Hx. simpl.
      rewrite list_lookup_insert_eq; [reflexivity|]. eapply lookup_lt_Some; eauto.
    + rewrite list_lookup_alter_ne, list_lookup_insert_ne by assumption. reflexivity.
  - apply lookup_ge_None in Hx. rewrite list_insert_ge by assumption.
    apply list_eq. intros j. destruct (decide (i = j)) as [->|Hne].
    + rewrite list_lookup_alter_eq. destruct (l !! j) eqn:E; [|reflexivity].
      apply lookup_lt_Some in E. lia.
    + rewrite list_lookup_alter_ne by assumption. reflexivity.
Qed.

Lemma insert_total_eq `{Inhabited A} (l : list A) (i : nat) (x y : A) :
  l !! i = Some y -> <[i := x]> l !!! i = x.
Proof.
  intros Hl. apply list_lookup_total_insert_eq. eapply lookup_lt_Some; eauto.
Qed.

Section Runs.

Variable LEDGER_MODE : ledger_mode.
Variable SYSTEM_IDS : nat * nat.
Variable utcnow : nat.

Lemma gets_run {A B} (f : Session -> A) (k : A -> M B) s : bind (gets f) k s = k (f s) s.
Proof. reflexivity. Qed.

Lemma ret_run {A B} (a : A) (k : A -> M B) s : bind (ret a) k s = k a s.
Proof. reflexivity. Qed.

Lemma raise_run {A B} (e : exn) (k : A -> M B) s : bind (raise e) k s = (Raise e, s).
Proof. reflexivity. Qed.

Lemma lift_run {A B} (r : result A) (k : A -> M B) s :
  bind (lift r) k s = match r with Ok a => k a s | Raise e => (Raise e, s) end.
Proof. unfold bind, lift. destruct r; reflexivity. Qed.

Lemma bind_assoc {A B C} (c : M A) (f : A -> M B) (g : B -> M C) s :
  bind (bind c f) g s = bind c (fun a => bind (f a) g) s.
Proof. unfold bind. destruct (c s) as [[a|e] s']; reflexivity. Qed.

Lemma set_user_run i f B (k : unit -> M B) us ms am ps ls cs :
  bind (set_user i f) k (mkSession us ms am ps ls cs)
  = k tt (mkSession (<[i := f (us !!! i)]> us) ms am ps ls cs).
Proof. unfold bind, set_user, modify, with_users. cbn. rewrite alter_as_insert. reflexivity. Qed.

Lemma set_market_run i f B (k : unit -> M B) us ms am ps ls cs :
  bind (set_market i f) k (mkSession us ms am ps ls cs)
  = k tt (mkSession us (<[i := f (ms !!! i)]> ms) am ps ls cs).
Proof. unfold bind, set_market, modify, with_markets. cbn. rewrite alter_as_insert. reflexivity. Qed.

Lemma set_amm_run i f B (k : unit -> M B) us ms am ps ls cs :
  bind (set_amm i f) k (mkSession us ms am ps ls cs)
  = k tt (mkSession us ms (<[i := f (am !!! i)]> am) ps ls cs).
Proof. unfold bind, set_amm, modify, with_amms. cbn. rewrite alter_as_insert. reflexivity. Qed.

Lemma set_position_run i f B (k : unit -> M B) us ms am ps ls cs :
  bind (set_position i f) k (mkSession us ms am ps ls cs)
  = k tt (mkSession us ms am (<[i := f (ps !!! i)]> ps) ls cs).
Proof. unfold bind, set_position, modify, with_positions. cbn. rewrite alter_as_insert. reflexivity. Qed.

Lemma set_ch_run i f B (k : unit -> M B) us ms am ps ls cs :
  bind (set_ch i f) k (mkSession us ms am ps ls cs)
  = k tt (mkSession us ms am ps ls (<[i := f (cs !!! i)]> cs)).
Proof. unfold bind, set_ch, modify, with_chs. cbn. rewrite alter_as_insert. reflexivity. Qed.

Lemma ledger_add_run market_id user_id reason delta side amount B (k : unit -> M B)
    us ms am ps ls cs :
  bind (ledger_add utcnow market_id user_id reason delta side amount) k
       (mkSession us ms am ps ls cs)
  = k tt (mkSession us ms am ps
            (push_ledger utcnow market_id user_id reason delta side amount ls) cs).
Proof. reflexivity. Qed.

Lemma user_block_run (username : string) us ms am ps ls cs :
  exists ui,
    first_where (by_username username) (users_with username us) = Some ui
    /\ forall B (k : nat -> M B),
         bind (match first_where (by_username username) us with
               | Some u => ret u
               | None => get_or_create_user username (Fin 1000)
               end) k (mkSession us ms am ps ls cs)
         = k ui (mkSession (users_with username us) ms am ps ls cs).
Proof.
  unfold users_with.
  destruct (first_where _ us) as [ui|] eqn:Hu.
  - exists ui. split; [assumption|]. reflexivity.
  - exists (length us). split.
    + apply first_where_app_new; [assumption|]. unfold by_username. simpl.
      apply String.eqb_refl.
    + intros B k. unfold bind, get_or_create_user, first_user_by_username, bind, gets, modify, ret.
      cbn [users]. fold (by_username username). rewrite Hu. reflexivity.
Qed.

Lemma position_block_run (user_id market_id : nat) us ms am ps ls cs :
  exists pi_,
    first_where (position_by_key user_id market_id) (positions_with user_id market_id ps)
    = Some pi_
    /\ forall B (k : nat -> M B),
         bind (get_or_create_position_for_update user_id market_id) k
              (mkSession us ms am ps ls cs)
         = k pi_ (mkSession us ms am (positions_with user_id market_id ps) ls cs).
Proof.
  unfold positions_with.
  destruct (first_where _ ps) as [i|] eqn:Hp.
  - exists i. split; [assumption|]. intros B k.
    unfold bind, get_or_create_position_for_update, first_position, bind, gets, ret.
    cbn [positions]. fold (position_by_key user_id market_id). rewrite Hp. reflexivity.
  - exists (length ps). split.
    + apply first_where_app_new; [assumption|]. unfold position_by_key. simpl.
      rewrite !Nat.eqb_refl. reflexivity.
    + intros B k.
      unfold bind, get_or_create_position_for_update, first_position, bind, gets, modify, ret.
      cbn [positions]. fold (position_by_key user_id market_id). rewrite Hp. reflexivity.
Qed.

Lemma bundle_run (market_id : nat) B (k : nat * nat * nat -> M B) s :
  bind (get_market_bundle_for_update market_id) k s
  = match first_where (market_by_id market_id) (markets s),
          first_where (amm_by_market market_id) (amms s),
          first_where (ch_by_market market_id) (chs s) with
    | Some m, Some a, Some c => k (m, a, c) s
    | _, _, _ => (Raise (ValueError "Market not found or missing AMM/CH rows"), s)
    end.
Proof.
  unfold get_market_bundle_for_update, bind, gets, ret, raise.
  fold (market_by_id market_id) (amm_by_market market_id) (ch_by_market market_id).
  repeat (destruct (first_where _ _)); reflexivity.
Qed.

Lemma buy_qty_run m a quantity side budget_points B (k : float -> M B) s :
  bind (match budget_points with
        | Some p =>
            if fgt p (Fin 0) then
              (let! q := lift (_max_int_quantity_for_budget (MarketDB.b m)
                                 (fneg (or0 (AMMDB.qYes a))) (fneg (or0 (AMMDB.qNo a)))
                                 side p "buy") in
               ret (of_int q))%sess
            else ret quantity
        | None => ret quantity
        end) k s
  = match buy_qty m a quantity side budget_points with
    | Ok qty => k qty s
    | Raise e => (Raise e, s)
    end.
Proof.
  unfold buy_qty, bind, lift, ret.
  destruct budget_points as [p|]; [|reflexivity].
  destruct (fgt p (Fin 0)); [|reflexivity].
  destruct (_max_int_quantity_for_budget _ _ _ _ _ _); reflexivity.
Qed.

Lemma sell_qty_run m a p quantity side budget_points B (k : float -> M B) s :
  bind (match budget_points with
        | Some bp =>
            if fgt bp (Fin 0) then
              (let! q := lift (_max_int_quantity_for_budget (MarketDB.b m)
                                 (fneg (or0 (AMMDB.qYes a))) (fneg (or0 (AMMDB.qNo a)))
                                 side bp "sell") in
               let! fl := lift (math.floor (if String.eqb side "yes"
                                            then or0 (PositionsDB.qYes p)
                                            else or0 (PositionsDB.qNo p))) in
               ret (of_int (Z.min q fl)))%sess
            else ret quantity
        | None => ret quantity
        end) k s
  = match sell_qty m a p quantity side budget_points with
    | Ok qty => k qty s
    | Raise e => (Raise e, s)
    end.
Proof.
  unfold sell_qty, available, bind, lift, ret.
  destruct budget_points as [bp|]; [|reflexivity].
  destruct (fgt bp (Fin 0)); [|reflexivity].
  destruct (_max_int_quantity_for_budget _ _ _ _ _ _); [|reflexivity].
  cbn [rbind]. destruct (math.floor _); reflexivity.
Qed.

(** Rewriting steps of a run over an explicit session. *)
Ltac run_step :=
  first
    [ rewrite set_user_run | rewrite set_market_run | rewrite set_amm_run
    | rewrite set_position_run | rewrite set_ch_run | rewrite ledger_add_run
    | rewrite bind_assoc
    | rewrite ret_run | rewrite raise_run | rewrite lift_run
    | progress (unfold user_at, market_at, amm_at, position_at, ch_at; rewrite gets_run;
                cbn [users markets amms positions ledger chs]) ].

Ltac norm_rows :=
  repeat first
    [ rewrite list_insert_insert_eq
    | erewrite insert_total_eq by eassumption
    | erewrite list_lookup_total_correct by eassumption ].

Ltac run := repeat (run_step; norm_rows).

Lemma trade_buy_success username market_id quantity side budget_points is_visible s :
  success (trade_buy LEDGER_MODE SYSTEM_IDS utcnow username market_id quantity side
             budget_points is_visible s)
  = trade_buy_pure LEDGER_MODE SYSTEM_IDS utcnow username market_id quantity side
      budget_points is_visible s.
Proof.
  destruct s as [us ms am ps ls cs].
  unfold trade_buy, trade_buy_pure.
  destruct (negb (side_ok side)); [reflexivity|].
  destruct (fle quantity (Fin 0) && no_budget budget_points); [reflexivity|].
  unfold bind at 1. unfold first_user_by_username at 1. unfold gets at 1.
  cbn [users markets amms chs positions ledger].
  fold (by_username username).
  destruct (user_block_run username us ms am ps ls cs) as (ui & Hui & ->).
  rewrite Hui. cbn [mbind option_bind].
  rewrite bundle_run. cbn [users markets amms chs positions ledger].
  destruct (first_where _ ms) as [mi|] eqn:Hmi; [|reflexivity].
  destruct (first_where _ am) as [ai|] eqn:Hai; [|reflexivity].
  destruct (first_where _ cs) as [ci|] eqn:Hci; [|reflexivity].
  cbn [mbind option_bind].
  apply first_where_Some in Hui as Hu. destruct Hu as (u & Hu & _).
  apply first_where_Some in Hmi as Hm. destruct Hm as (m & Hm & _).
  apply first_where_Some in Hai as Ha. destruct Ha as (a & Ha & _).
  apply first_where_Some in Hci as Hc. destruct Hc as (c & Hc & _).
  rewrite Hu, Hm, Ha, Hc. cbn [mbind option_bind].
  unfold bind at 1. unfold market_at at 1. unfold gets at 1.
  cbn [users markets amms chs positions ledger].
  rewrite (list_lookup_total_correct _ _ _ Hm).
  destruct (MarketDB.resolved m); [reflexivity|].
  destruct (hidden is_visible (MarketDB.name m) username); [reflexivity|].
  unfold bind at 1. unfold user_at at 1. unfold gets at 1.
  cbn [users markets amms chs positions ledger].
  rewrite (list_lookup_total_correct _ _ _ Hu).
  destruct (position_block_run (UserDB.id u) market_id (users_with username us) ms am ps ls cs)
    as (pi_ & Hpi & ->).
  rewrite Hpi. cbn [mbind option_bind].
  apply first_where_Some in Hpi as Hp. destruct Hp as (p & Hp & _).
  rewrite Hp. cbn [mbind option_bind].
  unfold bind at 1. unfold amm_at at 1. unfold gets at 1.
  cbn [users markets amms chs positions ledger].
  rewrite (list_lookup_total_correct _ _ _ Ha).
  rewrite buy_qty_run.
  destruct (buy_qty m a quantity side budget_points) as [qty|]; [|reflexivity].
  rewrite lift_run.
  destruct (lmsr_cost _ _ _ qty side) as [cost|]; [|reflexivity].
  destruct (negb (isfinite cost)); [reflexivity|].
  destruct (flt (or0 (UserDB.points u)) cost); [reflexivity|].
  unfold buy_amm1, buy_amm2, buy_ch, buy_collateral_ok, buy_delta, buy_pos, buy_ledger.
  destruct (String.eqb side "yes") eqn:Hs; run.
  all: destruct (fgt _ (Fin 0)) eqn:Hd.
  all: (destruct (flt _ _) eqn:Hl; [reflexivity|]).
  all: run; unfold when, _ledger_off, _ledger_full, _get_system_ids.
  all: destruct LEDGER_MODE; cbn [negb]; destruct SYSTEM_IDS as [sa sc].
  all: run; rewrite ?Hd; run.
  all: (destruct (lmsr_yes_price _ _ _) as [yp|]; [|reflexivity]).
  all: run; cbn [success]; rewrite ?(list_insert_id cs ci c Hc); reflexivity.
Qed.

Lemma trade_sell_success username market_id quantity side budget_points is_visible s :
  success (trade_sell LEDGER_MODE SYSTEM_IDS utcnow username market_id quantity side
             budget_points is_visible s)
  = trade_sell_pure LEDGER_MODE SYSTEM_IDS utcnow username market_id quantity side
      budget_points is_visible s.
Proof.
  destruct s as [us ms am ps ls cs].
  unfold trade_sell, trade_sell_pure.
  destruct (negb (side_ok side)); [reflexivity|].
  destruct (fle quantity (Fin 0) && no_budget budget_points); [reflexivity|].
  unfold bind at 1. unfold first_user_by_username at 1. unfold gets at 1.
  cbn [users markets amms chs positions ledger].
  fold (by_username username).
  destruct (first_where _ us) as [ui|] eqn:Hui; [|reflexivity].
  cbn [mbind option_bind].
  rewrite bundle_run. cbn [users markets amms chs positions ledger].
  destruct (first_where _ ms) as [mi|] eqn:Hmi; [|reflexivity].
  destruct (first_where _ am) as [ai|] eqn:Hai; [|reflexivity].
  destruct (first_where _ cs) as [ci|] eqn:Hci; [|reflexivity].
  cbn [mbind option_bind].
  apply first_where_Some in Hui as Hu. destruct Hu as (u & Hu & _).
  apply first_where_Some in Hmi as Hm. destruct Hm as (m & Hm & _).
  apply first_where_Some in Hai as Ha. destruct Ha as (a & Ha & _).
  apply first_where_Some in Hci as Hc. destruct Hc as (c & Hc & _).
  rewrite Hu, Hm, Ha, Hc. cbn [mbind option_bind].
  unfold bind at 1. unfold market_at at 1. unfold gets at 1.
  cbn [users markets amms chs positions ledger].
  rewrite (list_lookup_total_correct _ _ _ Hm).
  destruct (MarketDB.resolved m); [reflexivity|].
  destruct (hidden is_visible (MarketDB.name m) username); [reflexivity|].
  unfold bind at 1. unfold user_at at 1. unfold gets at 1.
  cbn [users markets amms chs positions ledger].
  rewrite (list_lookup_total_correct _ _ _ Hu).
  unfold bind at 1. unfold first_position at 1. unfold gets at 1.
  cbn [users markets amms chs positions ledger].
  fold (position_by_key (UserDB.id u) market_id).
  destruct (first_where _ ps) as [pi_|] eqn:Hpi; [|reflexivity].
  cbn [mbind option_bind].
  apply first_where_Some in Hpi as Hp. destruct Hp as (p & Hp & _).
  rewrite Hp. cbn [mbind option_bind].
  unfold bind at 1. unfold position_at at 1. unfold gets at 1.
  cbn [users markets amms chs positions ledger].
  rewrite (list_lookup_total_correct _ _ _ Hp).
  unfold bind at 1. unfold amm_at at 1. unfold gets at 1.
  cbn [users markets amms chs positions ledger].
  rewrite (list_lookup_total_correct _ _ _ Ha).
  rewrite sell_qty_run.
  destruct (sell_qty m a p quantity side budget_points) as [qty|]; [|reflexivity].
  unfold short.
  destruct (String.eqb side "yes" && flt (or0 (PositionsDB.qYes p)) qty); [reflexivity|].
  destruct (String.eqb side "no" && flt (or0 (PositionsDB.qNo p)) qty); [reflexivity|].
  cbn [orb].
  destruct (fle qty (Fin 0)); [reflexivity|].
  rewrite lift_run.
  destruct (lmsr_cost _ _ _ (fneg qty) side) as [c0|]; [|reflexivity].
  destruct (negb (isfinite (fneg c0))); [reflexivity|].
  destruct (flt (or0 (AMMDB.points a)) (fneg c0)); [reflexivity|].
  unfold sell_amm1, sell_amm2, sell_ch, sell_collateral_ok, sell_delta, sell_pos, sell_ledger.
  destruct (String.eqb side "yes") eqn:Hs; run.
  all: destruct (fgt _ (Fin 0)) eqn:Hd.
  all: try (destruct (flt _ _) eqn:Hl; [reflexivity|]).
  all: run; unfold when, _ledger_off, _ledger_full, _get_system_ids.
  all: destruct LEDGER_MODE; cbn [negb]; destruct SYSTEM_IDS as [sa sc].
  all: run; rewrite ?Hd; run.
  all: (destruct (lmsr_yes_price _ _ _) as [yp|]; [|reflexivity]).
  all: (destruct (negb (isfinite yp)); [reflexivity|]).
  all: run; cbn [success]; rewrite ?(list_insert_id cs ci c Hc); reflexivity.
Qed.

Lemma trade_buy_pure_inv username market_id quantity side budget_points is_visible s out s' :
  trade_buy_pure LEDGER_MODE SYSTEM_IDS utcnow username market_id quantity side
    budget_points is_visible s = Some (out, s') ->
  exists ui mi ai ci pi_ u m a c p qty cost,
    buy_facts username market_id quantity side budget_points is_visible s s' out
      ui mi ai ci pi_ u m a c p qty cost.
Proof.
  unfold trade_buy_pure. intros H.
  destruct (negb (side_ok side)) eqn:Hside; [discriminate|].
  destruct (fle quantity (Fin 0) && no_budget budget_points) eqn:Hreq; [discriminate|].
  destruct (first_where _ (users_with _ _)) as [ui|] eqn:Hui; [|discriminate].
  destruct (first_where _ (markets s)) as [mi|] eqn:Hmi; [|discriminate].
  destruct (first_where _ (amms s)) as [ai|] eqn:Hai; [|discriminate].
  destruct (first_where _ (chs s)) as [ci|] eqn:Hci; [|discriminate].
  cbn [mbind option_bind] in H.
  destruct (users_with _ _ !! ui) as [u|] eqn:Hu; [|discriminate].
  destruct (markets s !! mi) as [m|] eqn:Hm; [|discriminate].
  destruct (amms s !! ai) as [a|] eqn:Ha; [|discriminate].
  destruct (chs s !! ci) as [c|] eqn:Hc; [|discriminate].
  cbn [mbind option_bind] in H.
  destruct (MarketDB.resolved m) eqn:Hres; [discriminate|].
  destruct (hidden _ _ _) eqn:Hhid; [discriminate|].
  destruct (first_where _ (positions_with _ _ _)) as [pi_|] eqn:Hpi; [|discriminate].
  cbn [mbind option_bind] in H.
  destruct (positions_with _ _ _ !! pi_) as [p|] eqn:Hp; [|discriminate].
  cbn [mbind option_bind] in H.
  destruct (buy_qty _ _ _ _ _) as [qty|] eqn:Hqty; [|discriminate].
  destruct (lmsr_cost _ _ _ _ _) as [cost|] eqn:Hcost; [|discriminate].
  destruct (negb (isfinite cost)) eqn:Hfin; [discriminate|].
  destruct (flt _ cost) eqn:Hfunds; [discriminate|].
  destruct (negb (buy_collateral_ok _ _)) eqn:Hcol; [discriminate|].
  destruct (lmsr_yes_price _ _ _) as [yp|] eqn:Hyp; [|discriminate].
  injection H as <- <-.
  apply negb_false_iff in Hside, Hfin, Hcol.
  exists ui, mi, ai, ci, pi_, u, m, a, c, p, qty, cost.
  split; try assumption; reflexivity.
Qed.

Lemma trade_sell_pure_inv username market_id quantity side budget_points is_visible s out s' :
  trade_sell_pure LEDGER_MODE SYSTEM_IDS utcnow username market_id quantity side
    budget_points is_visible s = Some (out, s') ->
  exists ui mi ai ci pi_ u m a c p qty payout,
    sell_facts username market_id quantity side budget_points is_visible s s' out
      ui mi ai ci pi_ u m a c p qty payout.
Proof.
  unfold trade_sell_pure. intros H.
  destruct (negb (side_ok side)) eqn:Hside; [discriminate|].
  destruct (fle quantity (Fin 0) && no_budget budget_points) eqn:Hreq; [discriminate|].
  destruct (first_where _ (users s)) as [ui|] eqn:Hui; [|discriminate].
  destruct (first_where _ (markets s)) as [mi|] eqn:Hmi; [|discriminate].
  destruct (first_where _ (amms s)) as [ai|] eqn:Hai; [|discriminate].
  destruct (first_where _ (chs s)) as [ci|] eqn:Hci; [|discriminate].
  cbn [mbind option_bind] in H.
  destruct (users s !! ui) as [u|] eqn:Hu; [|discriminate].
  destruct (markets s !! mi) as [m|] eqn:Hm; [|discriminate].
  destruct (amms s !! ai) as [a|] eqn:Ha; [|discriminate].
  destruct (chs s !! ci) as [c|] eqn:Hc; [|discriminate].
  cbn [mbind option_bind] in H.
  destruct (MarketDB.resolved m) eqn:Hres; [discriminate|].
  destruct (hidden _ _ _) eqn:Hhid; [discriminate|].
  destruct (first_where _ (positions s)) as [pi_|] eqn:Hpi; [|discriminate].
  cbn [mbind option_bind] in H.
  destruct (positions s !! pi_) as [p|] eqn:Hp; [|discriminate].
  cbn [mbind option_bind] in H.
  destruct (sell_qty _ _ _ _ _ _) as [qty|] eqn:Hqty; [|discriminate].
  destruct (short p qty side) eqn:Hshort; [discriminate|].
  destruct (fle qty (Fin 0)) eqn:Hpos; [discriminate|].
  destruct (lmsr_cost _ _ _ _ _) as [c0|] eqn:Hcost; [|discriminate].
  destruct (negb (isfinite (fneg c0))) eqn:Hfin; [discriminate|].
  destruct (flt _ (fneg c0)) eqn:Hres'; [discriminate|].
  destruct (negb (sell_collateral_ok _ _)) eqn:Hcol; [discriminate|].
  destruct (lmsr_yes_price _ _ _) as [yp|] eqn:Hyp; [|discriminate].
  destruct (negb (isfinite yp)) eqn:Hypf; [discriminate|].
  injection H as <- <-.
  apply negb_false_iff in Hside, Hfin, Hcol.
  exists ui, mi, ai, ci, pi_, u, m, a, c, p, qty, (fneg c0).
  split; try assumption; try reflexivity.
  exists c0. split; [assumption|reflexivity].
Qed.

Lemma transaction_Ok {A} (c : M A) (db db' : Session) (a : A) :
  transaction c db = (Ok a, db') <-> success (c db) = Some (a, db').
Proof.
  unfold transaction, success. destruct (c db) as [[x|e] s]; split; intros H;
    try discriminate; injection H as -> ->; reflexivity.
Qed.

Lemma transaction_Raise {A} (c : M A) (db s : Session) (e : exn) :
  c db = (Raise e, s) -> transaction c db = (Raise e, db).
Proof. unfold transaction. intros ->. reflexivity. Qed.

End Runs.

(** ** Sums over a table *)

Lemma sumR_app (l1 l2 : list R) : sumR (l1 ++ l2) = sumR l1 + sumR l2.
Proof. unfold sumR. induction l1 as [|x l1 IH]; simpl in *; [lra|]. rewrite IH. lra. Qed.

Lemma sumR_insert {A} (f : A -> R) (l : list A) (i : nat) (x y : A) :
  l !! i = Some y -> sumR (f <$> <[i := x]> l) = sumR (f <$> l) - f y + f x.
Proof.
  unfold sumR. revert i. induction l as [|z l IH]; intros i Hl; [discriminate|].
  destruct i as [|i]; simpl in *.
  - injection Hl as ->. lra.
  - specialize (IH i Hl). unfold fmap in IH. rewrite IH. lra.
Qed.

Lemma users_with_total (username : string) (us : list UserDB.t) :
  sumR ((fun u => val (UserDB.points u)) <$> users_with username us)
    - 1000 * INR (length (users_with username us))
  = sumR ((fun u => val (UserDB.points u)) <$> us) - 1000 * INR (length us).
Proof.
  unfold users_with. destruct (first_where _ us); [reflexivity|].
  rewrite fmap_app, sumR_app, length_app, plus_INR. simpl. lra.
Qed.

Lemma users_with_finite (username : string) (us : list UserDB.t) :
  Forall (fun u => isfinite (UserDB.points u) = true) us ->
  Forall (fun u => isfinite (UserDB.points u) = true) (users_with username us).
Proof.
  intros H. unfold users_with. destruct (first_where _ us); [assumption|].
  apply Forall_app. split; [assumption|]. repeat constructor.
Qed.

(** ** The collateral requirement *)

Lemma fmax_0 (x : float) :
  (exists r, fmax (Fin 0) x = Fin r /\ 0 <= r) \/ fmax (Fin 0) x = PInf.
Proof.
  unfold fmax, fgt, flt. destruct x as [r| | |].
  - left. case_bool_decide; eexists; split; try reflexivity; lra.
  - right. reflexivity.
  - left. exists 0. split; [reflexivity|lra].
  - left. exists 0. split; [reflexivity|lra].
Qed.

Lemma required_collateral_shape (a : AMMDB.t) :
  (exists r, required_collateral a = Fin r /\ 0 <= r) \/ required_collateral a = PInf.
Proof.
  unfold required_collateral.
  destruct (fmax_0 (fneg (or0 (AMMDB.qYes a)))) as [(y & -> & Hy)| ->];
    destruct (fmax_0 (fneg (or0 (AMMDB.qNo a)))) as [(n & -> & Hn)| ->].
  - left. rewrite fmax_Fin. exists (Rmax y n). split; [reflexivity|].
    apply Rle_trans with y; [assumption|apply Rmax_l].
  - right. reflexivity.
  - right. reflexivity.
  - right. reflexivity.
Qed.

Lemma required_collateral_Fin (a : AMMDB.t) (y n : R) :
  AMMDB.qYes a = Fin y -> AMMDB.qNo a = Fin n ->
  required_collateral a = Fin (Rmax (Rmax 0 (- y)) (Rmax 0 (- n))).
Proof.
  intros Hy Hn. unfold required_collateral. rewrite Hy, Hn, !or0_id.
  unfold fneg. rewrite !fmax_Fin. reflexivity.
Qed.

(** ** Points moved by one trade *)

Lemma buy_rows_points (u : UserDB.t) (a : AMMDB.t) (c : ClearingHouseDB.t)
    (cost qty : float) (side : string) :
  isfinite (UserDB.points u) = true -> isfinite (AMMDB.points a) = true ->
  isfinite (ClearingHouseDB.points c) = true -> isfinite cost = true ->
  buy_collateral_ok (buy_amm1 a cost qty side) c = true ->
  exists d,
    UserDB.points (UserDB.set_points (fsub (UserDB.points u) cost) u)
      = Fin (val (UserDB.points u) - val cost)
    /\ AMMDB.points (buy_amm2 (buy_amm1 a cost qty side) c)
       = Fin (val (AMMDB.points a) + val cost - d)
    /\ ClearingHouseDB.points (buy_ch (buy_amm1 a cost qty side) c)
       = Fin (val (ClearingHouseDB.points c) + d).
Proof.
  intros Hu Ha Hc Hcost Hcol.
  apply isfinite_Fin in Hu as [pu Hu]. apply isfinite_Fin in Ha as [pa Ha].
  apply isfinite_Fin in Hc as [pc Hc]. destruct (isfinite_Fin _ Hcost) as [cst ->].
  assert (Hp1 : AMMDB.points (buy_amm1 a (Fin cst) qty side) = Fin (pa + cst)).
  { unfold buy_amm1. destruct (String.eqb side "yes"); simpl; rewrite Ha, or0_id; reflexivity. }
  unfold buy_collateral_ok, buy_amm2, buy_ch, buy_delta in *.
  rewrite Hp1, Hc, Hu, Ha, !or0_id in *. simpl val.
  destruct (required_collateral_shape (buy_amm1 a (Fin cst) qty side)) as [(r & Er & Hr)|Er];
    rewrite Er in *.
  - unfold fsub, fneg, fadd, fgt, flt in *.
    case_bool_decide.
    + exists (r + - pc). simpl. rewrite ?Hp1, ?Hc. unfold fadd.
      split; [f_equal; lra|]. split; f_equal; lra.
    + exists 0. simpl. rewrite ?Hp1, ?Hc. split; [f_equal; lra|]. split; f_equal; lra.
  - exfalso. unfold fsub, fneg, fadd, fgt, flt in Hcol. simpl in Hcol. discriminate.
Qed.

Lemma sell_rows_points (u : UserDB.t) (a : AMMDB.t) (c : ClearingHouseDB.t)
    (payout qty : float) (side : string) :
  isfinite (UserDB.points u) = true -> isfinite (AMMDB.points a) = true ->
  isfinite (ClearingHouseDB.points c) = true -> isfinite payout = true ->
  exists d,
    UserDB.points (UserDB.set_points (fadd (UserDB.points u) payout) u)
      = Fin (val (UserDB.points u) + val payout)
    /\ AMMDB.points (sell_amm2 (sell_amm1 a payout qty side) c)
       = Fin (val (AMMDB.points a) - val payout + d)
    /\ ClearingHouseDB.points (sell_ch (sell_amm1 a payout qty side) c)
       = Fin (val (ClearingHouseDB.points c) - d).
Proof.
  intros Hu Ha Hc Hpay.
  apply isfinite_Fin in Hu as [pu Hu]. apply isfinite_Fin in Ha as [pa Ha].
  apply isfinite_Fin in Hc as [pc Hc]. destruct (isfinite_Fin _ Hpay) as [pay ->].
  assert (Hp1 : AMMDB.points (sell_amm1 a (Fin pay) qty side) = Fin (pa - pay)).
  { unfold sell_amm1. destruct (String.eqb side "yes"); simpl; rewrite Ha; reflexivity. }
  unfold sell_amm2, sell_ch, sell_delta in *.
  rewrite Hc, Hu, Ha, !or0_id in *. simpl val.
  destruct (required_collateral_shape (sell_amm1 a (Fin pay) qty side)) as [(r & Er & Hr)|Er];
    rewrite Er in *.
  - unfold fsub, fneg, fadd, fgt, flt in *.
    case_bool_decide.
    + exists (pc + - r). simpl. rewrite ?Hp1, ?Hc. unfold fadd.
      split; [f_equal; lra|]. split; f_equal; lra.
    + exists 0. simpl. rewrite ?Hp1, ?Hc. split; [f_equal; lra|]. split; f_equal; lra.
  - exists 0. unfold fsub, fneg, fadd, fgt, flt. simpl. rewrite ?Hp1, ?Hc.
    split; [f_equal; lra|]. split; f_equal; lra.
Qed.

Section Conservation.

Variable LEDGER_MODE : ledger_mode.
Variable SYSTEM_IDS : nat * nat.

(** The total, less the starting balance of every user row. *)
Local Abbreviation balance db := (total_points db - 1000 * INR (length (users db))).

Lemma buy_conserves utcnow username market_id quantity side budget_points is_visible
    (s s' : Session) (out : TradeOut) :
  finite_points s ->
  trade_buy_pure LEDGER_MODE SYSTEM_IDS utcnow username market_id quantity side
    budget_points is_visible s = Some (out, s') ->
  finite_points s' /\ balance s' = balance s.
Proof.
  intros (Hfu & Hfa & Hfc) H.
  apply trade_buy_pure_inv in H
    as (ui & mi & ai & ci & pi_ & u & m & a & c & p & qty & cost & F).
  destruct F.
  pose proof (users_with_finite username _ Hfu) as Hfu1.
  assert (Hu : isfinite (UserDB.points u) = true)
    by (rewrite Forall_lookup in Hfu1; eapply Hfu1; eassumption).
  assert (Ha : isfinite (AMMDB.points a) = true)
    by (rewrite Forall_lookup in Hfa; eapply Hfa; eassumption).
  assert (Hc : isfinite (ClearingHouseDB.points c) = true)
    by (rewrite Forall_lookup in Hfc; eapply Hfc; eassumption).
  destruct (buy_rows_points u a c cost qty side Hu Ha Hc bf_finite0 bf_collateral0)
    as (d & Eu & Ea & Ec).
  split.
  - unfold finite_points. rewrite bf_users0, bf_amms0, bf_chs0.
    split; [|split]; apply Forall_insert; try assumption.
    + rewrite Eu. reflexivity.
    + rewrite Ea. reflexivity.
    + rewrite Ec. reflexivity.
  - unfold total_points, user_total, amm_total, ch_total.
    rewrite bf_users0, bf_amms0, bf_chs0, length_insert.
    rewrite (sumR_insert _ _ _ _ _ bf_u0), (sumR_insert _ _ _ _ _ bf_a0),
      (sumR_insert _ _ _ _ _ bf_c0).
    rewrite Eu, Ea, Ec. simpl val.
    pose proof (users_with_total username (users s)). lra.
Qed.

Lemma sell_conserves utcnow username market_id quantity side budget_points is_visible
    (s s' : Session) (out : TradeOut) :
  finite_points s ->
  trade_sell_pure LEDGER_MODE SYSTEM_IDS utcnow username market_id quantity side
    budget_points is_visible s = Some (out, s') ->
  finite_points s' /\ balance s' = balance s.
Proof.
  intros (Hfu & Hfa & Hfc) H.
  apply trade_sell_pure_inv in H
    as (ui & mi & ai & ci & pi_ & u & m & a & c & p & qty & payout & F).
  destruct F.
  assert (Hu : isfinite (UserDB.points u) = true)
    by (rewrite Forall_lookup in Hfu; eapply Hfu; eassumption).
  assert (Ha : isfinite (AMMDB.points a) = true)
    by (rewrite Forall_lookup in Hfa; eapply Hfa; eassumption).
  assert (Hc : isfinite (ClearingHouseDB.points c) = true)
    by (rewrite Forall_lookup in Hfc; eapply Hfc; eassumption).
  destruct (sell_rows_points u a c payout qty side Hu Ha Hc sf_finite0)
    as (d & Eu & Ea & Ec).
  split.
  - unfold finite_points. rewrite sf_users0, sf_amms0, sf_chs0.
    split; [|split]; apply Forall_insert; try assumption.
    + rewrite Eu. reflexivity.
    + rewrite Ea. reflexivity.
    + rewrite Ec. reflexivity.
  - unfold total_points, user_total, amm_total, ch_total.
    rewrite sf_users0, sf_amms0, sf_chs0, length_insert.
    rewrite (sumR_insert _ _ _ _ _ sf_u0), (sumR_insert _ _ _ _ _ sf_a0),
      (sumR_insert _ _ _ _ _ sf_c0).
    rewrite Eu, Ea, Ec. simpl val. lra.
Qed.

Lemma commit_conserves (o : op) (db db' : Session) (out : TradeOut) :
  finite_points db -> commit LEDGER_MODE SYSTEM_IDS o db = (Ok out, db') ->
  finite_points db' /\ balance db' = balance db.
Proof.
  intros Hf H. destruct o as [r|r]; unfold commit in H; apply transaction_Ok in H.
  - rewrite trade_buy_success in H. eapply buy_conserves; eassumption.
  - rewrite trade_sell_success in H. eapply sell_conserves; eassumption.
Qed.

End Conservation.

(** ** Lookups after an update *)

Lemma first_where_cons {A} (p : A -> bool) (x : A) (l : list A) :
  first_where p (x :: l) = if p x then Some 0%nat else S <$> first_where p l.
Proof.
  unfold first_where. simpl. destruct (p x) eqn:Hx.
  - rewrite decide_True by reflexivity. reflexivity.
  - rewrite decide_False by discriminate.
    destruct (list_find _ l) as [[j y]|]; reflexivity.
Qed.

Lemma first_where_insert_same {A} (p : A -> bool) (l : list A) (i : nat) (x x' : A) :
  l !! i = Some x -> p x' = p x -> first_where p (<[i := x']> l) = first_where p l.
Proof.
  revert i. induction l as [|z l IH]; intros i Hl Hp; [discriminate|].
  destruct i as [|i]; simpl in *.
  - injection Hl as ->. rewrite !first_where_cons, Hp. reflexivity.
  - rewrite !first_where_cons, (IH i Hl Hp). reflexivity.
Qed.

Lemma first_where_app_l {A} (p : A -> bool) (l l' : list A) (i : nat) :
  first_where p l = Some i -> first_where p (l ++ l') = Some i.
Proof.
  revert i. induction l as [|z l IH]; intros i H.
  - unfold first_where in H. simpl in H. discriminate.
  - simpl. rewrite first_where_cons in *. destruct (p z); [assumption|].
    destruct (first_where p l) as [j|]; [|discriminate].
    rewrite (IH j eq_refl). assumption.
Qed.

Lemma first_where_lt {A} (p : A -> bool) (l : list A) (i : nat) :
  first_where p l = Some i -> (i < length l)%nat.
Proof.
  intros H. apply first_where_Some in H as (x & Hx & _). eapply lookup_lt_Some; eauto.
Qed.

Lemma users_with_found (username : string) (us : list UserDB.t) :
  exists ui u, first_where (by_username username) (users_with username us) = Some ui
               /\ users_with username us !! ui = Some u
               /\ UserDB.username u = username.
Proof.
  destruct (user_block_run username us [] [] [] [] []) as (ui & Hui & _).
  apply first_where_Some in Hui as Hu. destruct Hu as (u & Hu & Hp).
  exists ui, u. split; [assumption|]. split; [assumption|].
  unfold by_username in Hp. apply String.eqb_eq in Hp. assumption.
Qed.

Lemma positions_with_found (user_id market_id : nat) (ps : list PositionsDB.t) :
  exists pi_ p,
    first_where (position_by_key user_id market_id) (positions_with user_id market_id ps)
    = Some pi_
    /\ positions_with user_id market_id ps !! pi_ = Some p.
Proof.
  destruct (position_block_run user_id market_id [] [] [] ps [] []) as (pi_ & Hpi & _).
  apply first_where_Some in Hpi as Hp. destruct Hp as (p & Hp & _).
  exists pi_, p. split; assumption.
Qed.

(** ** The YES price on finite inventories *)

Lemma lmsr_yes_price_Fin (b y n : R) :
  b <> 0 -> exists p, lmsr_yes_price (Fin b) (Fin y) (Fin n) = Ok (Fin p).
Proof.
  intros Hb. unfold lmsr_yes_price. rewrite !fdiv_Fin by assumption. cbn [rbind].
  rewrite fmax_Fin. unfold fsub, fneg, fadd, math.exp.
  set (e1 := exp (y / b + - Rmax (y / b) (n / b))).
  set (e2 := exp (n / b + - Rmax (y / b) (n / b))).
  assert (0 < e1) by apply exp_pos. assert (0 < e2) by apply exp_pos.
  rewrite fdiv_Fin by lra. eauto.
Qed.

(** ** The rows a trade writes, on finite rows *)

Lemma requiredR_alt (ay an : R) :
  Rmax (Rmax 0 (- ay)) (Rmax 0 (- an)) = requiredR ay an.
Proof.
  unfold requiredR, Rmax. repeat destruct (Rle_dec _ _); lra.
Qed.

Lemma required_collateral_R (a : AMMDB.t) (ay an : R) :
  AMMDB.qYes a = Fin ay -> AMMDB.qNo a = Fin an ->
  required_collateral a = Fin (requiredR ay an).
Proof.
  intros Hy Hn. rewrite (required_collateral_Fin a ay an Hy Hn), requiredR_alt. reflexivity.
Qed.

(** Equality of two rows, or of two finite floats, up to real arithmetic. *)
Ltac fin_fields :=
  first [ reflexivity
        | apply f_equal; lra
        | f_equal; first [reflexivity | apply f_equal; lra] ].

Lemma buy_rows_Fin (a : AMMDB.t) (c : ClearingHouseDB.t) (side : string)
    (pa ay an pc cst q : R) :
  AMMDB.points a = Fin pa -> AMMDB.qYes a = Fin ay -> AMMDB.qNo a = Fin an ->
  ClearingHouseDB.points c = Fin pc ->
  let req := requiredR (inv_yes side ay q) (inv_no side an q) in
  buy_amm2 (buy_amm1 a (Fin cst) (Fin q) side) c
  = AMMDB.mk (AMMDB.id a) (AMMDB.market_id a) (Fin (pa + cst - Rmax 0 (req - pc)))
      (Fin (inv_yes side ay q)) (Fin (inv_no side an q))
  /\ buy_ch (buy_amm1 a (Fin cst) (Fin q) side) c
     = ClearingHouseDB.mk (ClearingHouseDB.id c) (ClearingHouseDB.market_id c)
         (Fin (pc + Rmax 0 (req - pc)))
  /\ (buy_collateral_ok (buy_amm1 a (Fin cst) (Fin q) side) c = true
      <-> (0 < req - pc -> req - pc <= pa + cst) /\ (req - pc <= 0 -> - eps <= req - pc)).
Proof.
  intros Hp Hy Hn Hc req.
  destruct a as [ida mida pa0 ay0 an0], c as [idc midc pc0]. simpl in Hp, Hy, Hn, Hc. subst.
  assert (Hreq : required_collateral (buy_amm1 (AMMDB.mk ida mida (Fin pa) (Fin ay) (Fin an))
                                        (Fin cst) (Fin q) side) = Fin req).
  { unfold req, inv_yes, inv_no, buy_amm1.
    destruct (String.eqb side "yes"); apply required_collateral_R; simpl;
      rewrite ?or0_id; unfold fsub, fneg, fadd; try reflexivity; f_equal; lra. }
  unfold buy_amm2, buy_ch, buy_collateral_ok, buy_delta. rewrite Hreq. simpl.
  rewrite !or0_id.
  assert (Hp1 : AMMDB.points (buy_amm1 (AMMDB.mk ida mida (Fin pa) (Fin ay) (Fin an))
                                (Fin cst) (Fin q) side) = Fin (pa + cst)).
  { unfold buy_amm1. destruct (String.eqb side "yes"); simpl; rewrite or0_id; reflexivity. }
  rewrite !Hp1, ?or0_id. unfold fsub, fneg, fadd, fgt, flt.
  unfold Rmax. destruct (Rle_dec 0 (req - pc)) as [Hle|Hgt].
  - destruct (Req_dec (req - pc) 0) as [E0|Hne].
    + rewrite bool_decide_eq_false_2 by lra.
      split; [|split].
      * unfold buy_amm1, inv_yes, inv_no, AMMDB.set_qYes, AMMDB.set_qNo, AMMDB.set_points.
        destruct (String.eqb side "yes"); simpl;
          rewrite ?or0_id; unfold fsub, fneg, fadd; fin_fields.
      * fin_fields.
      * rewrite negb_true_iff, bool_decide_eq_false; unfold eps; split;
          [intros ?; split; intros; lra
          |intros [H1 H2]; try specialize (H1 ltac:(lra)); try specialize (H2 ltac:(lra)); lra].
    + rewrite bool_decide_eq_true_2 by lra.
      split; [|split].
      * unfold buy_amm1, inv_yes, inv_no, AMMDB.set_qYes, AMMDB.set_qNo, AMMDB.set_points.
        destruct (String.eqb side "yes"); simpl;
          rewrite ?or0_id; unfold fsub, fneg, fadd; fin_fields.
      * fin_fields.
      * rewrite negb_true_iff, bool_decide_eq_false; unfold eps; split;
          [intros ?; split; intros; lra
          |intros [H1 H2]; try specialize (H1 ltac:(lra)); try specialize (H2 ltac:(lra)); lra].
  - rewrite bool_decide_eq_false_2 by lra.
    split; [|split].
    + unfold buy_amm1, inv_yes, inv_no, AMMDB.set_qYes, AMMDB.set_qNo, AMMDB.set_points.
        destruct (String.eqb side "yes"); simpl;
        rewrite ?or0_id; unfold fsub, fneg, fadd; fin_fields.
    + fin_fields.
    + rewrite negb_true_iff, bool_decide_eq_false; unfold eps; split;
          [intros ?; split; intros; lra
          |intros [H1 H2]; try specialize (H1 ltac:(lra)); try specialize (H2 ltac:(lra)); lra].
Qed.

Lemma sell_rows_Fin (a : AMMDB.t) (c : ClearingHouseDB.t) (side : string)
    (pa ay an pc pay q : R) :
  AMMDB.points a = Fin pa -> AMMDB.qYes a = Fin ay -> AMMDB.qNo a = Fin an ->
  ClearingHouseDB.points c = Fin pc ->
  let req := requiredR (inv_yes side ay (- q)) (inv_no side an (- q)) in
  sell_amm2 (sell_amm1 a (Fin pay) (Fin q) side) c
  = AMMDB.mk (AMMDB.id a) (AMMDB.market_id a) (Fin (pa - pay + Rmax 0 (pc - req)))
      (Fin (inv_yes side ay (- q))) (Fin (inv_no side an (- q)))
  /\ sell_ch (sell_amm1 a (Fin pay) (Fin q) side) c
     = ClearingHouseDB.mk (ClearingHouseDB.id c) (ClearingHouseDB.market_id c)
         (Fin (pc - Rmax 0 (pc - req)))
  /\ (sell_collateral_ok (sell_amm1 a (Fin pay) (Fin q) side) c = true
      <-> (pc - req <= 0 -> - eps <= pc - req)).
Proof.
  intros Hp Hy Hn Hc req.
  destruct a as [ida mida pa0 ay0 an0], c as [idc midc pc0]. simpl in Hp, Hy, Hn, Hc. subst.
  assert (Hreq : required_collateral (sell_amm1 (AMMDB.mk ida mida (Fin pa) (Fin ay) (Fin an))
                                        (Fin pay) (Fin q) side) = Fin req).
  { unfold req, inv_yes, inv_no, sell_amm1.
    destruct (String.eqb side "yes"); apply required_collateral_R; simpl;
      rewrite ?or0_id; unfold fsub, fneg, fadd; fin_fields. }
  unfold sell_amm2, sell_ch, sell_collateral_ok, sell_delta. rewrite Hreq. simpl.
  rewrite ?or0_id.
  assert (Hp1 : AMMDB.points (sell_amm1 (AMMDB.mk ida mida (Fin pa) (Fin ay) (Fin an))
                                (Fin pay) (Fin q) side) = Fin (pa - pay)).
  { unfold sell_amm1. destruct (String.eqb side "yes"); reflexivity. }
  rewrite ?Hp1. unfold fsub, fneg, fadd, fgt, flt.
  unfold Rmax. destruct (Rle_dec 0 (pc - req)) as [Hle|Hgt].
  - destruct (Req_dec (pc - req) 0) as [E0|Hne].
    + rewrite bool_decide_eq_false_2 by lra.
      split; [|split].
      * unfold sell_amm1, inv_yes, inv_no, AMMDB.set_qYes, AMMDB.set_qNo, AMMDB.set_points.
        destruct (String.eqb side "yes"); simpl;
          rewrite ?or0_id; unfold fsub, fneg, fadd; fin_fields.
      * fin_fields.
      * rewrite negb_true_iff, bool_decide_eq_false; unfold eps; split;
          [intros ?; intros; lra|intros H1; try specialize (H1 ltac:(lra)); lra].
    + rewrite bool_decide_eq_true_2 by lra.
      split; [|split].
      * unfold sell_amm1, inv_yes, inv_no, AMMDB.set_qYes, AMMDB.set_qNo, AMMDB.set_points.
        destruct (String.eqb side "yes"); simpl;
          rewrite ?or0_id; unfold fsub, fneg, fadd; fin_fields.
      * fin_fields.
      * split; [intros _ ?; lra|reflexivity].
  - rewrite bool_decide_eq_false_2 by lra.
    split; [|split].
    + unfold sell_amm1, inv_yes, inv_no, AMMDB.set_qYes, AMMDB.set_qNo, AMMDB.set_points.
        destruct (String.eqb side "yes"); simpl;
        rewrite ?or0_id; unfold fsub, fneg, fadd; fin_fields.
    + fin_fields.
    + rewrite negb_true_iff, bool_decide_eq_false; unfold eps; split;
          [intros ?; intros; lra|intros H1; try specialize (H1 ltac:(lra)); lra].
Qed.

(** ** A successful trade moves a finite, positive quantity *)

Lemma scale_inf_pos (r : R) (pos : bool) :
  0 < r -> scale_inf r pos = if pos then PInf else NInf.
Proof. intros H. unfold scale_inf. rewrite bool_decide_eq_true_2 by assumption. reflexivity. Qed.

Lemma lmsr_cost_PInf (b y n : R) (side : string) (c : float) :
  0 < b -> lmsr_cost (Fin b) (Fin y) (Fin n) PInf side = Ok c -> isfinite c = false.
Proof.
  intros Hb. assert (Hb0 : b <> 0) by lra. unfold lmsr_cost.
  rewrite !fdiv_Fin by assumption. cbn [rbind]. rewrite !_stable_logsumexp_lse. cbn [rbind].
  destruct (String.eqb side "yes").
  - unfold fadd at 1. unfold fdiv at 1. rewrite bool_decide_eq_false_2 by assumption.
    rewrite scale_inf_pos by assumption. cbn [rbind].
    unfold _stable_logsumexp, fmax, fgt, flt, isfinite. cbn [negb rbind].
    unfold fmul. rewrite scale_inf_pos by assumption.
    intros H. injection H as <-. reflexivity.
  - unfold fadd at 1. unfold fdiv at 1. rewrite bool_decide_eq_false_2 by assumption.
    rewrite scale_inf_pos by assumption. cbn [rbind].
    unfold _stable_logsumexp, fmax, fgt, flt, isfinite. cbn [negb rbind].
    unfold fmul. rewrite scale_inf_pos by assumption.
    intros H. injection H as <-. reflexivity.
Qed.

Lemma lmsr_cost_NaN (b y n : R) (side : string) (c : float) :
  0 < b -> lmsr_cost (Fin b) (Fin y) (Fin n) NaN side = Ok c -> isfinite c = false.
Proof.
  intros Hb. assert (Hb0 : b <> 0) by lra. unfold lmsr_cost.
  rewrite !fdiv_Fin by assumption. cbn [rbind]. rewrite !_stable_logsumexp_lse. cbn [rbind].
  destruct (String.eqb side "yes").
  - unfold fadd at 1. unfold fdiv at 1. rewrite bool_decide_eq_false_2 by assumption.
    cbn [rbind].
    unfold _stable_logsumexp, fmax, fgt, flt, isfinite. cbn [negb rbind].
    unfold fmul. rewrite scale_inf_pos by assumption.
    intros H. injection H as <-. reflexivity.
  - unfold fadd at 1. unfold fdiv at 1. rewrite bool_decide_eq_false_2 by assumption.
    cbn [rbind].
    unfold _stable_logsumexp, fmax, fgt, flt, isfinite. cbn [negb rbind].
    unfold fsub, fneg, fadd, math.exp, math.log. cbn [rbind]. unfold fmul.
    intros H. injection H as <-. reflexivity.
Qed.

Lemma max_int_quantity_range (b y n : R) (side : string) (budget : float) (mode : string)
    (z : Z) :
  b <> 0 -> fgt budget (Fin 0) = true ->
  _max_int_quantity_for_budget (Fin b) (Fin y) (Fin n) side budget mode = Ok z ->
  (1 <= z <= cap)%Z.
Proof.
  intros Hb Hbu Hz.
  destruct (max_int_quantity_spec (Fin b) (Fin y) (Fin n) side budget mode
              (fun q => Fin (cost_for_qtyR b y n side mode q))
              (fun q => cost_for_qty_Fin b y n side mode q Hb)
              (fgt_0_not_fle budget Hbu)) as [[_ E]|(_ & q & E & Hr & _)];
    rewrite E in Hz; [discriminate|].
  injection Hz as <-. exact Hr.
Qed.

Lemma fgt_0_cases (x : float) :
  fgt x (Fin 0) = true -> (exists q, x = Fin q /\ 0 < q) \/ x = PInf.
Proof.
  unfold fgt, flt. destruct x as [q| | |]; try discriminate.
  - intros H. apply bool_decide_eq_true_1 in H. left. eauto.
  - right. reflexivity.
Qed.

Lemma buy_qty_Fin (m : MarketDB.t) (a : AMMDB.t) (quantity : float) (side : string)
    (budget_points : option float) (rb ay an : R) (qty cost : float) :
  MarketDB.b m = Fin rb -> 0 < rb -> AMMDB.qYes a = Fin ay -> AMMDB.qNo a = Fin an ->
  fgt quantity (Fin 0) = true \/ has_budget budget_points = true ->
  buy_qty m a quantity side budget_points = Ok qty ->
  lmsr_cost (MarketDB.b m) (fneg (or0 (AMMDB.qYes a))) (fneg (or0 (AMMDB.qNo a))) qty side
  = Ok cost ->
  isfinite cost = true ->
  exists q, qty = Fin q /\ 0 < q.
Proof.
  intros Hb Hrb Hy Hn Hvalid Hqty Hcost Hfin.
  rewrite Hb, Hy, Hn, !or0_id in *. unfold fneg in *.
  assert (Hquantity : fgt quantity (Fin 0) = true -> qty = quantity ->
                      exists q, qty = Fin q /\ 0 < q).
  { intros Hq ->. destruct (fgt_0_cases _ Hq) as [(q & -> & Hq0)| ->]; [eauto|].
    apply lmsr_cost_PInf in Hcost; [congruence|assumption]. }
  unfold buy_qty, has_budget in *. rewrite Hb, Hy, Hn, !or0_id in Hqty. unfold fneg in Hqty.
  destruct budget_points as [p|].
  - destruct (fgt p (Fin 0)) eqn:Hp.
    + destruct (_max_int_quantity_for_budget _ _ _ _ _ _) as [z|] eqn:Hz; [|discriminate].
      cbn [rbind] in Hqty. injection Hqty as <-.
      apply max_int_quantity_range in Hz; [|lra|assumption].
      exists (IZR z). split; [reflexivity|]. apply IZR_lt. lia.
    + injection Hqty as <-. destruct Hvalid as [Hq|]; [|discriminate]. auto.
  - injection Hqty as <-. destruct Hvalid as [Hq|]; [|discriminate]. auto.
Qed.

Lemma side_ok_cases (side : string) :
  side_ok side = true -> side = "yes" \/ side = "no".
Proof.
  unfold side_ok. intros H. apply orb_true_iff in H as [H|H]; apply String.eqb_eq in H; auto.
Qed.

Lemma sell_qty_Fin (p : PositionsDB.t) (side : string) (rb ay an : R) (qty c0 : float) :
  0 < rb -> side_ok side = true ->
  isfinite (PositionsDB.qYes p) = true -> isfinite (PositionsDB.qNo p) = true ->
  short p qty side = false -> fle qty (Fin 0) = false ->
  lmsr_cost (Fin rb) (Fin ay) (Fin an) (fneg qty) side = Ok c0 ->
  isfinite (fneg c0) = true ->
  exists q, qty = Fin q /\ 0 < q.
Proof.
  intros Hrb Hside Hpy Hpn Hshort Hpos Hcost Hfin.
  destruct qty as [q| | |].
  - exists q. split; [reflexivity|]. unfold fle in Hpos.
    apply bool_decide_eq_false_1 in Hpos. lra.
  - exfalso. apply isfinite_Fin in Hpy as [py Hpy]. apply isfinite_Fin in Hpn as [pn Hpn].
    unfold short in Hshort. rewrite Hpy, Hpn, !or0_id in Hshort.
    destruct (side_ok_cases side Hside) as [-> | ->]; discriminate Hshort.
  - discriminate Hpos.
  - exfalso. unfold fneg in Hcost at 1. apply lmsr_cost_NaN in Hcost; [|assumption].
    destruct c0; discriminate.
Qed.

(** ** The collateral invariant *)

Lemma requiredR_nonneg (ay an : R) : 0 <= requiredR ay an.
Proof. unfold requiredR. apply Rmax_r. Qed.

Lemma requiredR_mono (ay an ay' an' : R) :
  ay' <= ay -> an' <= an -> requiredR ay an <= requiredR ay' an'.
Proof.
  intros Hy Hn. unfold requiredR, Rmax. repeat destruct (Rle_dec _ _); lra.
Qed.

Lemma collateral_inv_update (s s' : Session) (market_id ai ci : nat)
    (a a2 : AMMDB.t) (c c2 : ClearingHouseDB.t) :
  collateral_inv s ->
  first_where (amm_by_market market_id) (amms s) = Some ai -> amms s !! ai = Some a ->
  first_where (ch_by_market market_id) (chs s) = Some ci -> chs s !! ci = Some c ->
  amms s' = <[ai := a2]> (amms s) -> chs s' = <[ci := c2]> (chs s) ->
  AMMDB.market_id a2 = AMMDB.market_id a ->
  ClearingHouseDB.market_id c2 = ClearingHouseDB.market_id c ->
  ClearingHouseDB.points c2 = Fin (requiredR (val (AMMDB.qYes a2)) (val (AMMDB.qNo a2))) ->
  collateral_inv s'.
Proof.
  intros Hinv Hai Ha Hci Hc Hamms Hchs Hma Hmc Heq mid' ai' ci' a' c' Hai' Ha' Hci' Hc'.
  rewrite Hamms in Hai', Ha'. rewrite Hchs in Hci', Hc'.
  rewrite (first_where_insert_same _ _ _ a a2 Ha) in Hai'
    by (unfold amm_by_market; rewrite Hma; reflexivity).
  rewrite (first_where_insert_same _ _ _ c c2 Hc) in Hci'
    by (unfold ch_by_market; rewrite Hmc; reflexivity).
  apply first_where_Some in Hai as Hai0. destruct Hai0 as (a0 & Ha0 & Hpa).
  rewrite Ha in Ha0. injection Ha0 as <-.
  apply first_where_Some in Hci as Hci0. destruct Hci0 as (c0 & Hc0 & Hpc).
  rewrite Hc in Hc0. injection Hc0 as <-.
  unfold amm_by_market in Hpa. unfold ch_by_market in Hpc.
  apply Nat.eqb_eq in Hpa, Hpc.
  destruct (decide (mid' = market_id)) as [->|Hne].
  - rewrite Hai in Hai'. injection Hai' as <-. rewrite Hci in Hci'. injection Hci' as <-.
    rewrite list_lookup_insert_eq in Ha' by (eapply lookup_lt_Some; eauto).
    rewrite list_lookup_insert_eq in Hc' by (eapply lookup_lt_Some; eauto).
    injection Ha' as <-. injection Hc' as <-.
    split; [assumption|]. rewrite Heq. simpl. apply requiredR_nonneg.
  - apply first_where_Some in Hai' as Hx. destruct Hx as (ax & Hax & Hpx).
    apply first_where_Some in Hci' as Hz. destruct Hz as (cx & Hcx & Hpz).
    unfold amm_by_market in Hpx. unfold ch_by_market in Hpz.
    apply Nat.eqb_eq in Hpx, Hpz.
    assert (ai <> ai') by (intros ->; congruence).
    assert (ci <> ci') by (intros ->; congruence).
    rewrite list_lookup_insert_ne in Ha' by assumption.
    rewrite list_lookup_insert_ne in Hc' by assumption.
    eapply Hinv; eassumption.
Qed.

Section Collateral.

Variable LEDGER_MODE : ledger_mode.
Variable SYSTEM_IDS : nat * nat.

Lemma positions_with_finite (user_id market_id : nat) (ps : list PositionsDB.t) :
  Forall (fun p => isfinite (PositionsDB.qYes p) = true
                   /\ isfinite (PositionsDB.qNo p) = true) ps ->
  Forall (fun p => isfinite (PositionsDB.qYes p) = true
                   /\ isfinite (PositionsDB.qNo p) = true)
         (positions_with user_id market_id ps).
Proof.
  intros H. unfold positions_with. destruct (first_where _ ps); [assumption|].
  apply Forall_app. split; [assumption|]. repeat constructor.
Qed.

Lemma buy_keeps_collateral utcnow username market_id quantity side budget_points is_visible
    (s s' : Session) (out : TradeOut) :
  wf s -> collateral_inv s ->
  fgt quantity (Fin 0) = true \/ has_budget budget_points = true ->
  trade_buy_pure LEDGER_MODE SYSTEM_IDS utcnow username market_id quantity side
    budget_points is_visible s = Some (out, s') ->
  wf s' /\ collateral_inv s'.
Proof.
  intros [Wu Wm Wa Wc Wp] Hinv Hvalid H.
  apply trade_buy_pure_inv in H
    as (ui & mi & ai & ci & pi_ & u & m & a & c & p & qty & cost & F).
  destruct F.
  pose proof (users_with_finite username _ Wu) as Wu1.
  pose proof (positions_with_finite (UserDB.id u) market_id _ Wp) as Wp1.
  destruct (isfinite_Fin _ (Forall_lookup_1 _ _ _ _ Wu1 bf_u0)) as [pu Hpu].
  destruct (Forall_lookup_1 _ _ _ _ Wm bf_m0) as (rb & Hb & Hrb).
  destruct (Forall_lookup_1 _ _ _ _ Wa bf_a0) as (Hpa & Hay & Han).
  apply isfinite_Fin in Hpa as [pa Hpa]. apply isfinite_Fin in Hay as [ay Hay].
  apply isfinite_Fin in Han as [an Han].
  destruct (isfinite_Fin _ (Forall_lookup_1 _ _ _ _ Wc bf_c0)) as [pc Hpc].
  destruct (Forall_lookup_1 _ _ _ _ Wp1 bf_p0) as (Hpy & Hpn).
  apply isfinite_Fin in Hpy as [py Hpy]. apply isfinite_Fin in Hpn as [pn Hpn].
  destruct (isfinite_Fin _ bf_finite0) as [cst ->].
  destruct (buy_qty_Fin m a quantity side budget_points rb ay an qty (Fin cst)
              Hb Hrb Hay Han Hvalid bf_qty0 bf_cost0 eq_refl) as (q & -> & Hq).
  destruct (buy_rows_Fin a c side pa ay an pc cst q Hpa Hay Han Hpc) as (Ea & Ec & _).
  destruct (Hinv market_id ai ci a c bf_ai0 bf_a0 bf_ci0 bf_c0) as [Hpre _].
  rewrite Hpc, Hay, Han in Hpre. simpl in Hpre. injection Hpre as Hpre.
  assert (Hreq : requiredR ay an
                 <= requiredR (inv_yes side ay q) (inv_no side an q)).
  { apply requiredR_mono; unfold inv_yes, inv_no; destruct (String.eqb side "yes"); lra. }
  split.
  - split.
    + rewrite bf_users0. apply Forall_insert; [assumption|].
      simpl. rewrite Hpu. reflexivity.
    + rewrite bf_markets0. apply Forall_insert; [assumption|].
      simpl. eauto.
    + rewrite bf_amms0, Ea. apply Forall_insert; [assumption|].
      simpl. auto.
    + rewrite bf_chs0, Ec. apply Forall_insert; [assumption|].
      reflexivity.
    + rewrite bf_positions0. apply Forall_insert; [assumption|].
      unfold buy_pos. destruct (String.eqb side "yes"); simpl;
        rewrite ?Hpy, ?Hpn, ?or0_id; auto.
  - eapply (collateral_inv_update s s' market_id ai ci a _ c _ Hinv);
      try eassumption.
    + rewrite Ea. reflexivity.
    + rewrite Ec. reflexivity.
    + rewrite Ea, Ec. simpl. apply f_equal.
      rewrite Rmax_right by lra. lra.
Qed.

End Collateral.

(** ** Sufficient conditions for a trade to succeed *)

Lemma requiredR_shift (ay an ay' an' q : R) :
  0 <= q -> ay - q <= ay' -> an - q <= an' -> requiredR ay' an' <= requiredR ay an + q.
Proof.
  intros Hq Hy Hn. unfold requiredR, Rmax. repeat destruct (Rle_dec _ _); lra.
Qed.

Section Succeeds.

Variable LEDGER_MODE : ledger_mode.
Variable SYSTEM_IDS : nat * nat.
Variable utcnow : nat.

Ltac fneg_fin :=
  repeat match goal with
         | |- context [fneg (Fin ?x)] => change (fneg (Fin x)) with (Fin (- x))
         end.

(** A buy of [q > 0] contracts succeeds on an open, visible market of a
    well-formed database with exact collateral, as soon as the buyer (with
    the starting balance if the row is new) and the AMM each hold [q]
    points. *)
Lemma buy_succeeds (s : Session) (username : string) (market_id : nat) (q : R)
    (side : string) (is_visible : option (string -> string -> bool))
    (ui mi ai ci : nat) (u : UserDB.t) (m : MarketDB.t) (a : AMMDB.t) (c : ClearingHouseDB.t) :
  wf s -> collateral_inv s -> side_ok side = true -> 0 < q ->
  first_where (by_username username) (users_with username (users s)) = Some ui ->
  users_with username (users s) !! ui = Some u ->
  first_where (market_by_id market_id) (markets s) = Some mi -> markets s !! mi = Some m ->
  first_where (amm_by_market market_id) (amms s) = Some ai -> amms s !! ai = Some a ->
  first_where (ch_by_market market_id) (chs s) = Some ci -> chs s !! ci = Some c ->
  MarketDB.resolved m = false -> hidden is_visible (MarketDB.name m) username = false ->
  q <= val (UserDB.points u) -> q <= val (AMMDB.points a) ->
  exists out s',
    trade_buy_pure LEDGER_MODE SYSTEM_IDS utcnow username market_id (Fin q) side None
      is_visible s = Some (out, s').
Proof.
  intros [Wu Wm Wa Wc Wp] Hinv Hside Hq Hui Hu Hmi Hm Hai Ha Hci Hc Hopen Hvis Hfunds Hres.
  pose proof (users_with_finite username _ Wu) as Wu1.
  destruct (isfinite_Fin _ (Forall_lookup_1 _ _ _ _ Wu1 Hu)) as [pu Hpu].
  destruct (Forall_lookup_1 _ _ _ _ Wm Hm) as (rb & Hb & Hrb).
  destruct (Forall_lookup_1 _ _ _ _ Wa Ha) as (Hpa & Hay & Han).
  apply isfinite_Fin in Hpa as [pa Hpa]. apply isfinite_Fin in Hay as [ay Hay].
  apply isfinite_Fin in Han as [an Han].
  destruct (isfinite_Fin _ (Forall_lookup_1 _ _ _ _ Wc Hc)) as [pc Hpc].
  rewrite Hpu in Hfunds. rewrite Hpa in Hres. simpl in Hfunds, Hres.
  destruct (Hinv market_id ai ci a c Hai Ha Hci Hc) as [Hpre _].
  rewrite Hpc, Hay, Han in Hpre. simpl in Hpre. injection Hpre as Hpre.
  destruct (positions_with_found (UserDB.id u) market_id (positions s)) as (pi_ & p & Hpi & Hp).
  set (cst := costR rb (- ay) (- an) q side).
  assert (Hcst : 0 <= cst <= q).
  { unfold cst. split; [apply costR_nonneg|apply costR_le]; lra. }
  destruct (buy_rows_Fin a c side pa ay an pc cst q Hpa Hay Han Hpc) as (Ea & Ec & Hcol).
  assert (Hok : buy_collateral_ok (buy_amm1 a (Fin cst) (Fin q) side) c = true).
  { apply Hcol.
    pose proof (requiredR_shift ay an (inv_yes side ay q) (inv_no side an q) q) as Hs.
    pose proof (requiredR_mono ay an (inv_yes side ay q) (inv_no side an q)) as Hmo.
    unfold inv_yes, inv_no, eps in *.
    destruct (String.eqb side "yes"); split; intros; lra. }
  destruct (lmsr_yes_price_Fin rb (- inv_yes side ay q) (- inv_no side an q)) as [yp Hyp];
    [lra|].
  unfold trade_buy_pure. rewrite Hside. cbn [negb].
  assert (Hfle : fle (Fin q) (Fin 0) = false)
    by (unfold fle; apply bool_decide_eq_false_2; lra).
  rewrite Hfle. cbn [andb].
  rewrite Hui, Hmi, Hai, Hci. cbn [mbind option_bind].
  rewrite Hu, Hm, Ha, Hc. cbn [mbind option_bind].
  rewrite Hopen, Hvis, Hpi. cbn [mbind option_bind]. rewrite Hp. cbn [mbind option_bind].
  unfold buy_qty. rewrite Hb, Hay, Han, !or0_id. fneg_fin.
  rewrite lmsr_cost_Fin by lra. fold cst. cbn [isfinite negb].
  rewrite Hpu, or0_id. unfold flt at 1. rewrite bool_decide_eq_false_2 by lra.
  rewrite Hok. cbn [negb]. rewrite Ea. cbn [AMMDB.qYes AMMDB.qNo].
  rewrite !or0_id. fneg_fin. rewrite Hyp. eauto.
Qed.

(** A sale of [q > 0] contracts succeeds when the seller holds them and
    the AMM holds [q] points. *)
Lemma sell_succeeds (s : Session) (username : string) (market_id : nat) (q : R)
    (side : string) (is_visible : option (string -> string -> bool))
    (ui mi ai ci pi_ : nat) (u : UserDB.t) (m : MarketDB.t) (a : AMMDB.t)
    (c : ClearingHouseDB.t) (p : PositionsDB.t) :
  wf s -> collateral_inv s -> side_ok side = true -> 0 < q ->
  first_where (by_username username) (users s) = Some ui -> users s !! ui = Some u ->
  first_where (market_by_id market_id) (markets s) = Some mi -> markets s !! mi = Some m ->
  first_where (amm_by_market market_id) (amms s) = Some ai -> amms s !! ai = Some a ->
  first_where (ch_by_market market_id) (chs s) = Some ci -> chs s !! ci = Some c ->
  first_where (position_by_key (UserDB.id u) market_id) (positions s) = Some pi_ ->
  positions s !! pi_ = Some p ->
  MarketDB.resolved m = false -> hidden is_visible (MarketDB.name m) username = false ->
  q <= val (available p side) -> q <= val (AMMDB.points a) ->
  exists out s',
    trade_sell_pure LEDGER_MODE SYSTEM_IDS utcnow username market_id (Fin q) side None
      is_visible s = Some (out, s').
Proof.
  intros [Wu Wm Wa Wc Wp] Hinv Hside Hq Hui Hu Hmi Hm Hai Ha Hci Hc Hpi Hp Hopen Hvis
         Hheld Hres.
  destruct (isfinite_Fin _ (Forall_lookup_1 _ _ _ _ Wu Hu)) as [pu Hpu].
  destruct (Forall_lookup_1 _ _ _ _ Wm Hm) as (rb & Hb & Hrb).
  destruct (Forall_lookup_1 _ _ _ _ Wa Ha) as (Hpa & Hay & Han).
  apply isfinite_Fin in Hpa as [pa Hpa]. apply isfinite_Fin in Hay as [ay Hay].
  apply isfinite_Fin in Han as [an Han].
  destruct (isfinite_Fin _ (Forall_lookup_1 _ _ _ _ Wc Hc)) as [pc Hpc].
  destruct (Forall_lookup_1 _ _ _ _ Wp Hp) as (Hpy & Hpn).
  apply isfinite_Fin in Hpy as [py Hpy]. apply isfinite_Fin in Hpn as [pn Hpn].
  rewrite Hpa in Hres. simpl in Hres.
  destruct (Hinv market_id ai ci a c Hai Ha Hci Hc) as [Hpre _].
  rewrite Hpc, Hay, Han in Hpre. simpl in Hpre. injection Hpre as Hpre.
  set (c0 := costR rb (- ay) (- an) (- q) side).
  assert (Hc0 : - q <= c0 <= 0).
  { unfold c0. split.
    - pose proof (costR_undo rb (- ay) (- an) (- q) side) as Hun.
      pose proof (costR_le rb (if String.eqb side "yes" then - ay + - q else - ay)
                    (if String.eqb side "yes" then - an else - an + - q) (- - q) side
                    Hrb ltac:(lra)) as Hle.
      rewrite Hun in Hle. lra.
    - rewrite <- (costR_0 rb (- ay) (- an) side). apply costR_mono; lra. }
  destruct (sell_rows_Fin a c side pa ay an pc (- c0) q Hpa Hay Han Hpc) as (Ea & Ec & Hcol).
  assert (Hok : sell_collateral_ok (sell_amm1 a (Fin (- c0)) (Fin q) side) c = true).
  { apply Hcol.
    pose proof (requiredR_mono (inv_yes side ay (- q)) (inv_no side an (- q)) ay an) as Hmo.
    unfold inv_yes, inv_no, eps in *.
    destruct (String.eqb side "yes"); intros; lra. }
  destruct (lmsr_yes_price_Fin rb (- inv_yes side ay (- q)) (- inv_no side an (- q)))
    as [yp Hyp]; [lra|].
  unfold trade_sell_pure. rewrite Hside. cbn [negb].
  assert (Hfle : fle (Fin q) (Fin 0) = false)
    by (unfold fle; apply bool_decide_eq_false_2; lra).
  rewrite Hfle. cbn [andb].
  rewrite Hui, Hmi, Hai, Hci. cbn [mbind option_bind].
  rewrite Hu, Hm, Ha, Hc. cbn [mbind option_bind].
  rewrite Hopen, Hvis, Hpi. cbn [mbind option_bind]. rewrite Hp. cbn [mbind option_bind].
  unfold sell_qty.
  assert (Hshort : short p (Fin q) side = false).
  { unfold short, available in *. rewrite Hpy, Hpn, !or0_id in *. unfold flt.
    destruct (side_ok_cases side Hside) as [-> | ->]; simpl in *;
      rewrite bool_decide_eq_false_2 by lra; reflexivity. }
  rewrite Hshort, Hfle.
  rewrite Hb, Hay, Han, !or0_id. fneg_fin.
  rewrite lmsr_cost_Fin by lra. fold c0. fneg_fin.
  cbn [isfinite negb].
  rewrite Hpa, or0_id. unfold flt at 1. rewrite bool_decide_eq_false_2 by lra.
  rewrite Hok. cbn [negb]. rewrite Ea. cbn [AMMDB.qYes AMMDB.qNo].
  rewrite !or0_id. fneg_fin. rewrite Hyp. cbn [isfinite negb]. eauto.
Qed.

End Succeeds.

(** ** The rows of a trade, looked up again after it *)

Lemma lookup_after_insert {A} (p : A -> bool) (l : list A) (i : nat) (x x' : A) :
  first_where p l = Some i -> l !! i = Some x -> p x' = p x ->
  first_where p (<[i := x']> l) = Some i /\ <[i := x']> l !! i = Some x'.
Proof.
  intros Hi Hx Hp. split.
  - rewrite (first_where_insert_same p l i x x' Hx Hp). assumption.
  - apply list_lookup_insert_eq. eapply lookup_lt_Some; eauto.
Qed.

Lemma buy_pos_key (p : PositionsDB.t) (qty : float) (side : string) (user_id market_id : nat) :
  position_by_key user_id market_id (buy_pos p qty side) = position_by_key user_id market_id p.
Proof. unfold buy_pos. destruct (String.eqb side "yes"); reflexivity. Qed.

Lemma buy_amm2_market (a : AMMDB.t) (c : ClearingHouseDB.t) (cost qty : float) (side : string) :
  AMMDB.market_id (buy_amm2 (buy_amm1 a cost qty side) c) = AMMDB.market_id a.
Proof.
  unfold buy_amm2, buy_amm1.
  destruct (fgt _ _); destruct (String.eqb side "yes"); reflexivity.
Qed.

Lemma buy_ch_market (a1 : AMMDB.t) (c : ClearingHouseDB.t) :
  ClearingHouseDB.market_id (buy_ch a1 c) = ClearingHouseDB.market_id c.
Proof. unfold buy_ch. destruct (fgt _ _); reflexivity. Qed.

Lemma buy_facts_after username market_id quantity side budget_points is_visible
    s s' out ui mi ai ci pi_ u m a c p qty cost :
  buy_facts username market_id quantity side budget_points is_visible s s' out
    ui mi ai ci pi_ u m a c p qty cost ->
  (first_where (by_username username) (users s') = Some ui
   /\ users s' !! ui = Some (UserDB.set_points (fsub (UserDB.points u) cost) u))
  /\ (first_where (market_by_id market_id) (markets s') = Some mi
      /\ markets s' !! mi
         = Some (MarketDB.set_amm_points
                   (AMMDB.points (buy_amm2 (buy_amm1 a cost qty side) c)) m))
  /\ (first_where (amm_by_market market_id) (amms s') = Some ai
      /\ amms s' !! ai = Some (buy_amm2 (buy_amm1 a cost qty side) c))
  /\ (first_where (ch_by_market market_id) (chs s') = Some ci
      /\ chs s' !! ci = Some (buy_ch (buy_amm1 a cost qty side) c))
  /\ (first_where (position_by_key (UserDB.id u) market_id) (positions s') = Some pi_
      /\ positions s' !! pi_ = Some (buy_pos p qty side)).
Proof.
  intros F. destruct F.
  rewrite bf_users0, bf_markets0, bf_amms0, bf_chs0, bf_positions0.
  split; [|split; [|split; [|split]]].
  - eapply lookup_after_insert; [eassumption|eassumption|reflexivity].
  - eapply lookup_after_insert; [eassumption|eassumption|reflexivity].
  - eapply lookup_after_insert; [eassumption|eassumption|].
    unfold amm_by_market. rewrite buy_amm2_market. reflexivity.
  - eapply lookup_after_insert; [eassumption|eassumption|].
    unfold ch_by_market. rewrite buy_ch_market. reflexivity.
  - eapply lookup_after_insert; [eassumption|eassumption|]. apply buy_pos_key.
Qed.

(** ** Buying and selling back *)

Lemma costR_undo' (b ay an q : R) (side : string) :
  costR b (- inv_yes side ay q) (- inv_no side an q) (- q) side
  = - costR b (- ay) (- an) q side.
Proof.
  rewrite <- (costR_undo b (- ay) (- an) q side). unfold inv_yes, inv_no.
  destruct (String.eqb side "yes"); f_equal; lra.
Qed.

Section RoundTrip.

Variable LEDGER_MODE : ledger_mode.
Variable SYSTEM_IDS : nat * nat.

Lemma round_trip_pure (now1 now2 : nat) (username : string) (market_id : nat) (q : R)
    (side : string) (vis1 vis2 : option (string -> string -> bool))
    (s s1 s2 : Session) (out1 out2 : TradeOut) :
  wf s ->
  trade_buy_pure LEDGER_MODE SYSTEM_IDS now1 username market_id (Fin q) side None vis1 s
  = Some (out1, s1) ->
  trade_sell_pure LEDGER_MODE SYSTEM_IDS now2 username market_id (Fin q) side None vis2 s1
  = Some (out2, s2) ->
  exists ui u start,
    first_where (by_username username) (users_with username (users s)) = Some ui
    /\ users_with username (users s) !! ui = Some u
    /\ UserDB.points u = Fin start
    /\ order_cost out2 = order_cost out1
    /\ new_balance out2 = Fin start
    /\ users s2 !! ui = Some (UserDB.set_points (Fin start) u).
Proof.
  intros [Wu Wm Wa Wc Wp] H1 H2.
  apply trade_buy_pure_inv in H1
    as (ui & mi & ai & ci & pi_ & u & m & a & c & p & qty & cost & F1).
  apply trade_sell_pure_inv in H2
    as (ui2 & mi2 & ai2 & ci2 & pi2 & u2 & m2 & a2 & c2 & p2 & qty2 & payout & F2).
  pose proof (buy_facts_after _ _ _ _ _ _ _ _ _ _ _ _ _ _ _ _ _ _ _ _ _ F1)
    as ((Aui & Au) & (Ami & Am) & (Aai & Aa) & (Aci & Ac) & _).
  destruct F1, F2.
  rewrite Aui in sf_ui0. injection sf_ui0 as <-.
  rewrite Ami in sf_mi0. injection sf_mi0 as <-.
  rewrite Aai in sf_ai0. injection sf_ai0 as <-.
  rewrite Au in sf_u0. injection sf_u0 as <-.
  rewrite Am in sf_m0. injection sf_m0 as <-.
  rewrite Aa in sf_a0. injection sf_a0 as <-.
  pose proof (users_with_finite username _ Wu) as Wu1.
  destruct (isfinite_Fin _ (Forall_lookup_1 _ _ _ _ Wu1 bf_u0)) as [pu Hpu].
  destruct (Forall_lookup_1 _ _ _ _ Wm bf_m0) as (rb & Hb & Hrb).
  destruct (Forall_lookup_1 _ _ _ _ Wa bf_a0) as (Hpa & Hay & Han).
  apply isfinite_Fin in Hpa as [pa Hpa]. apply isfinite_Fin in Hay as [ay Hay].
  apply isfinite_Fin in Han as [an Han].
  destruct (isfinite_Fin _ (Forall_lookup_1 _ _ _ _ Wc bf_c0)) as [pc Hpc].
  unfold buy_qty in bf_qty0. injection bf_qty0 as <-.
  unfold sell_qty in sf_qty0. injection sf_qty0 as <-.
  rewrite Hb, Hay, Han, !or0_id in bf_cost0.
  change (fneg (Fin ay)) with (Fin (- ay)) in bf_cost0.
  change (fneg (Fin an)) with (Fin (- an)) in bf_cost0.
  rewrite lmsr_cost_Fin in bf_cost0 by lra. injection bf_cost0 as <-.
  destruct (buy_rows_Fin a c side pa ay an pc (costR rb (- ay) (- an) q side) q
              Hpa Hay Han Hpc) as (Ea & _ & _).
  destruct sf_cost0 as (c0 & Hc0 & ->).
  rewrite Ea in Hc0. cbn [MarketDB.b MarketDB.set_amm_points AMMDB.qYes AMMDB.qNo] in Hc0.
  rewrite Hb, !or0_id in Hc0.
  change (fneg (Fin (inv_yes side ay q))) with (Fin (- inv_yes side ay q)) in Hc0.
  change (fneg (Fin (inv_no side an q))) with (Fin (- inv_no side an q)) in Hc0.
  change (fneg (Fin q)) with (Fin (- q)) in Hc0.
  rewrite lmsr_cost_Fin in Hc0 by lra. injection Hc0 as <-.
  rewrite costR_undo' in *.
  exists ui, u, pu. split; [assumption|]. split; [assumption|]. split; [assumption|].
  split; [|split].
  - rewrite sf_order_cost0, bf_order_cost0. unfold fneg. fin_fields.
  - rewrite sf_new_balance0. cbn [UserDB.points UserDB.set_points].
    rewrite Hpu. unfold fadd, fsub, fneg. fin_fields.
  - rewrite sf_users0. rewrite list_lookup_insert_eq by (eapply lookup_lt_Some; eauto).
    f_equal. unfold UserDB.set_points. cbn [UserDB.points UserDB.id UserDB.username].
    rewrite Hpu. unfold fadd, fsub, fneg. fin_fields.
Qed.

End RoundTrip.

Section RoundTripRuns.

Variable LEDGER_MODE : ledger_mode.
Variable SYSTEM_IDS : nat * nat.

(** Buying [q] contracts and selling them back both succeed when the buyer
    holds [q] points, the AMM holds [2 q] points and the buyer's holding of
    that side is not negative. *)
Lemma round_trip_succeeds (now1 now2 : nat) (s : Session) (username : string)
    (market_id : nat) (q : R) (side : string) (is_visible : option (string -> string -> bool))
    (ui mi ai ci pi_ : nat) (u : UserDB.t) (m : MarketDB.t) (a : AMMDB.t)
    (c : ClearingHouseDB.t) (p : PositionsDB.t) :
  wf s -> collateral_inv s -> side_ok side = true -> 0 < q ->
  first_where (by_username username) (users_with username (users s)) = Some ui ->
  users_with username (users s) !! ui = Some u ->
  first_where (market_by_id market_id) (markets s) = Some mi -> markets s !! mi = Some m ->
  first_where (amm_by_market market_id) (amms s) = Some ai -> amms s !! ai = Some a ->
  first_where (ch_by_market market_id) (chs s) = Some ci -> chs s !! ci = Some c ->
  first_where (position_by_key (UserDB.id u) market_id)
    (positions_with (UserDB.id u) market_id (positions s)) = Some pi_ ->
  positions_with (UserDB.id u) market_id (positions s) !! pi_ = Some p ->
  MarketDB.resolved m = false -> hidden is_visible (MarketDB.name m) username = false ->
  q <= val (UserDB.points u) -> 2 * q <= val (AMMDB.points a) ->
  0 <= val (available p side) ->
  exists out1 s1 out2 s2,
    trade_buy_pure LEDGER_MODE SYSTEM_IDS now1 username market_id (Fin q) side None
      is_visible s = Some (out1, s1)
    /\ trade_sell_pure LEDGER_MODE SYSTEM_IDS now2 username market_id (Fin q) side None
         is_visible s1 = Some (out2, s2).
Proof.
  intros Hwf Hinv Hside Hq Hui Hu Hmi Hm Hai Ha Hci Hc Hpi Hp Hopen Hvis Hfunds Hres Hheld.
  destruct (buy_succeeds LEDGER_MODE SYSTEM_IDS now1 s username market_id q side is_visible
              ui mi ai ci u m a c Hwf Hinv Hside Hq Hui Hu Hmi Hm Hai Ha Hci Hc Hopen Hvis
              Hfunds ltac:(lra)) as (out1 & s1 & H1).
  exists out1, s1.
  assert (Hvalid : fgt (Fin q) (Fin 0) = true \/ has_budget None = true).
  { left. unfold fgt, flt. apply bool_decide_eq_true_2. assumption. }
  destruct (buy_keeps_collateral LEDGER_MODE SYSTEM_IDS now1 username market_id (Fin q) side
              None is_visible s s1 out1 Hwf Hinv Hvalid H1) as [Hwf1 Hinv1].
  apply trade_buy_pure_inv in H1 as H1'.
  destruct H1' as (ui' & mi' & ai' & ci' & pi' & u' & m' & a' & c' & p' & qty & cost & F1).
  pose proof (buy_facts_after _ _ _ _ _ _ _ _ _ _ _ _ _ _ _ _ _ _ _ _ _ F1)
    as ((Aui & Au) & (Ami & Am) & (Aai & Aa) & (Aci & Ac) & (Api & Ap)).
  destruct F1.
  rewrite Hui in bf_ui0. injection bf_ui0 as <-.
  rewrite Hmi in bf_mi0. injection bf_mi0 as <-.
  rewrite Hai in bf_ai0. injection bf_ai0 as <-.
  rewrite Hci in bf_ci0. injection bf_ci0 as <-.
  rewrite Hu in bf_u0. injection bf_u0 as <-.
  rewrite Hm in bf_m0. injection bf_m0 as <-.
  rewrite Ha in bf_a0. injection bf_a0 as <-.
  rewrite Hc in bf_c0. injection bf_c0 as <-.
  rewrite Hpi in bf_pi0. injection bf_pi0 as <-.
  rewrite Hp in bf_p0. injection bf_p0 as <-.
  unfold buy_qty in bf_qty0. injection bf_qty0 as <-.
  destruct Hwf as [Wu Wm Wa Wc Wp].
  pose proof (positions_with_finite (UserDB.id u) market_id _ Wp) as Wp1.
  destruct (Forall_lookup_1 _ _ _ _ Wm Hm) as (rb & Hb & Hrb).
  destruct (Forall_lookup_1 _ _ _ _ Wa Ha) as (Hpa & Hay & Han).
  apply isfinite_Fin in Hpa as [pa Hpa]. apply isfinite_Fin in Hay as [ay Hay].
  apply isfinite_Fin in Han as [an Han].
  destruct (isfinite_Fin _ (Forall_lookup_1 _ _ _ _ Wc Hc)) as [pc Hpc].
  destruct (Forall_lookup_1 _ _ _ _ Wp1 Hp) as (Hpy & Hpn).
  apply isfinite_Fin in Hpy as [py Hpy]. apply isfinite_Fin in Hpn as [pn Hpn].
  rewrite Hb, Hay, Han, !or0_id in bf_cost0.
  change (fneg (Fin ay)) with (Fin (- ay)) in bf_cost0.
  change (fneg (Fin an)) with (Fin (- an)) in bf_cost0.
  rewrite lmsr_cost_Fin in bf_cost0 by lra. injection bf_cost0 as <-.
  destruct (buy_rows_Fin a c side pa ay an pc (costR rb (- ay) (- an) q side) q
              Hpa Hay Han Hpc) as (Ea & _ & _).
  destruct (Hinv market_id ai ci a c Hai Ha Hci Hc) as [Hpre _].
  rewrite Hpc, Hay, Han in Hpre. simpl in Hpre. injection Hpre as Hpre.
  pose proof (costR_nonneg rb (- ay) (- an) q side Hrb ltac:(lra)) as Hcst.
  pose proof (requiredR_shift ay an (inv_yes side ay q) (inv_no side an q) q) as Hs.
  cut (exists out2 s2,
         trade_sell_pure LEDGER_MODE SYSTEM_IDS now2 username market_id (Fin q) side None
           is_visible s1 = Some (out2, s2)).
  { intros (out2 & s2 & H2). exists out2, s2. split; assumption. }
  eapply (sell_succeeds LEDGER_MODE SYSTEM_IDS now2 s1 username market_id q side is_visible
            ui mi ai ci pi_); try eassumption.
  - unfold available, buy_pos in *. rewrite Hpy, Hpn, !or0_id in *.
    destruct (String.eqb side "yes"); simpl in *; rewrite ?Hpy, ?Hpn, ?or0_id;
      unfold fadd; simpl; lra.
  - rewrite Ea. rewrite Hpa in Hres. simpl in *.
    assert (Rmax 0 (requiredR (inv_yes side ay q) (inv_no side an q) - pc) <= q).
    { unfold inv_yes, inv_no in *. unfold Rmax at 1.
      destruct (String.eqb side "yes"); destruct (Rle_dec _ _); lra. }
    lra.
Qed.

End RoundTripRuns.

(** ** The small database *)

Lemma requiredR_0_0 : requiredR 0 0 = 0.
Proof. unfold requiredR, Rmax. repeat destruct (Rle_dec _ _); lra. Qed.

Lemma wf_rows (us : list UserDB.t) :
  Forall (fun u => isfinite (UserDB.points u) = true) us ->
  wf (mkSession us [rain] [rain_amm] [] [] [rain_ch]).
Proof.
  intros Hu. split; simpl; try assumption; repeat constructor.
  exists 20. split; [reflexivity|lra].
Qed.

Lemma collateral_inv_rows (us : list UserDB.t) :
  collateral_inv (mkSession us [rain] [rain_amm] [] [] [rain_ch]).
Proof.
  intros mid ai ci a c Hai Ha Hci Hc. simpl in *.
  apply first_where_lt in Hai, Hci. simpl in Hai, Hci.
  destruct ai as [|ai]; [|lia]. destruct ci as [|ci]; [|lia].
  injection Ha as <-. injection Hc as <-. simpl.
  rewrite requiredR_0_0. split; [reflexivity|lra].
Qed.

Lemma wf_db_alice : wf db_alice.
Proof. apply wf_rows. repeat constructor. Qed.

Lemma wf_db_market : wf db_market.
Proof. apply wf_rows. constructor. Qed.

Lemma finite_points_db_market : finite_points db_market.
Proof. repeat split; repeat constructor. Qed.

Section SmallRuns.

Variable LEDGER_MODE : ledger_mode.
Variable SYSTEM_IDS : nat * nat.

(** On the small database, with or without alice's row, her buy of [q] YES
    contracts, [0 < q <= 1000], and the sale of the same [q] both run. *)
Lemma small_round_trip (us : list UserDB.t) (q : R) (now1 now2 : nat) :
  us = [] \/ us = [alice] -> 0 < q <= 1000 ->
  exists out1 s1 out2 s2,
    trade_buy_pure LEDGER_MODE SYSTEM_IDS now1 "alice" 1 (Fin q) "yes" None None
      (mkSession us [rain] [rain_amm] [] [] [rain_ch]) = Some (out1, s1)
    /\ trade_sell_pure LEDGER_MODE SYSTEM_IDS now2 "alice" 1 (Fin q) "yes" None None s1
       = Some (out2, s2).
Proof.
  intros Hus Hq.
  assert (Hfin : Forall (fun u => isfinite (UserDB.points u) = true) us)
    by (destruct Hus as [-> | ->]; repeat constructor).
  assert (Hu : exists u, first_where (by_username "alice") (users_with "alice" us) = Some 0%nat
                         /\ users_with "alice" us !! 0%nat = Some u
                         /\ UserDB.points u = Fin 1000).
  { destruct Hus as [-> | ->]; eexists; repeat split. }
  destruct Hu as (u & Hui & Hu & Hpu).
  destruct (positions_with_found (UserDB.id u) 1 []) as (pi_ & p & Hpi & Hp).
  assert (Hp0 : p = PositionsDB.mk (fresh_id []) 1 (UserDB.id u) (Fin 0) (Fin 0)).
  { unfold positions_with in Hp. simpl in Hp.
    apply first_where_lt in Hpi. unfold positions_with in Hpi. simpl in Hpi.
    destruct pi_ as [|pi_]; [|lia]. injection Hp as <-. reflexivity. }
  eapply (round_trip_succeeds LEDGER_MODE SYSTEM_IDS now1 now2
            (mkSession us [rain] [rain_amm] [] [] [rain_ch]) "alice" 1 q "yes" None
            0 0 0 0 pi_ u rain rain_amm rain_ch p);
    try reflexivity; try eassumption.
  - apply wf_rows. assumption.
  - apply collateral_inv_rows.
  - lra.
  - rewrite Hpu. simpl. lra.
  - simpl. lra.
  - rewrite Hp0. unfold available. simpl. rewrite or0_id. simpl. lra.
Qed.

Lemma ten_yes_round_trip (us : list UserDB.t) (now1 now2 : nat) :
  us = [] \/ us = [alice] ->
  exists out1 s1 out2 s2,
    trade_buy_pure LEDGER_MODE SYSTEM_IDS now1 "alice" 1 (Fin 10) "yes" None None
      (mkSession us [rain] [rain_amm] [] [] [rain_ch]) = Some (out1, s1)
    /\ trade_sell_pure LEDGER_MODE SYSTEM_IDS now2 "alice" 1 (Fin 10) "yes" None None s1
       = Some (out2, s2).
Proof. intros Hus. apply small_round_trip; [assumption|lra]. Qed.

End SmallRuns.

(** * The claims *)

(** ** C1: conservation of points *)

(** Against C1 as stated: alice has no row yet; her first buy succeeds and
    the total of the three accounts grows by her starting balance. *)
Lemma C1_first_buy_counterexample :
  exists out db',
    commit off (0%nat, 0%nat) (Buy ten_yes) db_market = (Ok out, db')
    /\ total_points db' = total_points db_market + 1000
    /\ total_points db' <> total_points db_market.
Proof.
  destruct (ten_yes_round_trip off (0%nat, 0%nat) [] 0 0 (or_introl eq_refl))
    as (out1 & s1 & _ & _ & H1 & _).
  exists out1, s1.
  assert (Hc : commit off (0%nat, 0%nat) (Buy ten_yes) db_market = (Ok out1, s1)).
  { unfold commit, ten_yes. cbn [req_username req_market_id req_quantity req_side
      req_budget_points req_is_visible req_utcnow].
    apply transaction_Ok. rewrite trade_buy_success. exact H1. }
  split; [exact Hc|].
  destruct (commit_conserves off (0%nat, 0%nat) (Buy ten_yes) db_market s1 out1
              finite_points_db_market Hc) as [_ E].
  apply trade_buy_pure_inv in H1
    as (ui & mi & ai & ci & pi_ & u & m & a & c & p & qty & cost & F).
  destruct F. rewrite bf_users0, length_insert in E. simpl in E.
  split; lra.
Qed.

(** ** C6: buying and selling back *)

(** Against C6 as stated (scenario S4): alice buys ten YES contracts on the
    fresh market and sells them at once; her balance is 1000 again, not
    below 1000. *)
Lemma C6_no_spread_counterexample :
  exists out1 db1 out2 db2,
    commit off (0%nat, 0%nat) (Buy ten_yes) db_alice = (Ok out1, db1)
    /\ commit off (0%nat, 0%nat) (Sell ten_yes) db1 = (Ok out2, db2)
    /\ new_balance out2 = Fin 1000
    /\ flt (new_balance out2) (Fin 1000) = false.
Proof.
  destruct (ten_yes_round_trip off (0%nat, 0%nat) [alice] 0 0 (or_intror eq_refl))
    as (out1 & s1 & out2 & s2 & H1 & H2).
  exists out1, s1, out2, s2.
  split; [|split].
  - unfold commit, ten_yes. cbn [req_username req_market_id req_quantity req_side
      req_budget_points req_is_visible req_utcnow].
    apply transaction_Ok. rewrite trade_buy_success. exact H1.
  - unfold commit, ten_yes. cbn [req_username req_market_id req_quantity req_side
      req_budget_points req_is_visible req_utcnow].
    apply transaction_Ok. rewrite trade_sell_success. exact H2.
  - destruct (round_trip_pure off (0%nat, 0%nat) 0 0 "alice" 1 10 "yes" None None
                db_alice s1 s2 out1 out2 wf_db_alice H1 H2)
      as (ui & u & start & Hui & Hu & Hpu & _ & Hbal & _).
    assert (Hstart : start = 1000).
    { apply first_where_lt in Hui as Hlt. simpl in Hlt.
      destruct ui as [|ui]; [|unfold users_with in Hlt; simpl in Hlt; lia].
      injection Hu as <-. injection Hpu as <-. reflexivity. }
    subst start. rewrite Hbal. split; [reflexivity|].
    unfold flt. apply bool_decide_eq_false_2. lra.
Qed.

(** ** C9: users created on first reference *)

Section FirstReference.

Variable LEDGER_MODE : ledger_mode.
Variable SYSTEM_IDS : nat * nat.
Variable utcnow : nat.

Lemma sell_unknown_user (username : string) (market_id : nat) (quantity : float)
    (side : string) (budget_points : option float)
    (is_visible : option (string -> string -> bool)) (s : Session) :
  side_ok side = true -> fle quantity (Fin 0) && no_budget budget_points = false ->
  first_where (by_username username) (users s) = None ->
  trade_sell LEDGER_MODE SYSTEM_IDS utcnow username market_id quantity side budget_points
    is_visible s = (Raise (ValueError "user not found"), s).
Proof.
  intros Hside Hreq Hnone. unfold trade_sell. rewrite Hside, Hreq. cbn [negb].
  unfold bind at 1. unfold first_user_by_username at 1. unfold gets at 1.
  fold (by_username username). rewrite Hnone. reflexivity.
Qed.

(** The row that [get_or_create_user] adds for [username]. *)
Lemma buy_unknown_user (username : string) (market_id : nat) (quantity : float)
    (side : string) (budget_points : option float)
    (is_visible : option (string -> string -> bool)) (s : Session) :
  side_ok side = true -> fle quantity (Fin 0) && no_budget budget_points = false ->
  first_where (by_username username) (users s) = None ->
  trade_buy LEDGER_MODE SYSTEM_IDS utcnow username market_id quantity side budget_points
    is_visible s
  = trade_buy LEDGER_MODE SYSTEM_IDS utcnow username market_id quantity side budget_points
      is_visible
      (with_users (fun us => us ++ [UserDB.mk (fresh_id (UserDB.id <$> us)) username (Fin 1000)])
         s).
Proof.
  intros Hside Hreq Hnone. destruct s as [us ms am ps ls cs]. cbn [users] in Hnone.
  unfold with_users. cbn [users markets amms positions ledger chs].
  set (row := UserDB.mk (fresh_id (UserDB.id <$> us)) username (Fin 1000)).
  assert (Hnew : first_where (by_username username) (us ++ [row]) = Some (length us)).
  { apply first_where_app_new; [assumption|]. unfold by_username. simpl.
    apply String.eqb_refl. }
  assert (E1 : users_with username us = us ++ [row])
    by (unfold users_with; rewrite Hnone; reflexivity).
  assert (E2 : users_with username (us ++ [row]) = us ++ [row])
    by (unfold users_with; rewrite Hnew; reflexivity).
  unfold trade_buy. rewrite Hside, Hreq. cbn [negb].
  unfold bind at 1. unfold first_user_by_username at 1. unfold gets at 1.
  cbn [users]. fold (by_username username).
  destruct (user_block_run username us ms am ps ls cs) as (ui & Hui & ->).
  symmetry.
  unfold bind at 1. unfold first_user_by_username at 1. unfold gets at 1.
  cbn [users]. fold (by_username username).
  destruct (user_block_run username (us ++ [row]) ms am ps ls cs) as (ui' & Hui' & ->).
  rewrite E1 in Hui. rewrite E2 in Hui'. rewrite E1, E2.
  rewrite Hui in Hui'. injection Hui' as <-. reflexivity.
Qed.

End FirstReference.

(** C9, as the code has it: a buy by a username without a row adds the row
    with the starting balance of 1000 points and goes on exactly as it would
    for that user; a sell by such a username fails with "user not found" and
    adds no row. *)
Theorem C9_first_reference (LEDGER_MODE : ledger_mode) (SYSTEM_IDS : nat * nat)
    (utcnow : nat) (username : string) (market_id : nat) (quantity : float) (side : string)
    (budget_points : option float) (is_visible : option (string -> string -> bool))
    (s : Session) :
  side_ok side = true -> fle quantity (Fin 0) && no_budget budget_points = false ->
  first_where (by_username username) (users s) = None ->
  let row := UserDB.mk (fresh_id (UserDB.id <$> users s)) username (Fin 1000) in
  let s1 := with_users (fun us => us ++ [row]) s in
  first_where (by_username username) (users s1) = Some (length (users s))
  /\ users s1 !! length (users s) = Some row
  /\ trade_buy LEDGER_MODE SYSTEM_IDS utcnow username market_id quantity side budget_points
       is_visible s
     = trade_buy LEDGER_MODE SYSTEM_IDS utcnow username market_id quantity side
         budget_points is_visible s1
  /\ trade_sell LEDGER_MODE SYSTEM_IDS utcnow username market_id quantity side budget_points
       is_visible s
     = (Raise (ValueError "user not found"), s).
Proof.
  intros Hside Hreq Hnone row s1. split; [|split; [|split]].
  - destruct s as [us ms am ps ls cs]. simpl. apply first_where_app_new; [assumption|].
    unfold by_username. simpl. apply String.eqb_refl.
  - destruct s as [us ms am ps ls cs]. simpl.
    rewrite lookup_app_r by lia. rewrite Nat.sub_diag. reflexivity.
  - destruct s as [us ms am ps ls cs]. apply buy_unknown_user; assumption.
  - apply sell_unknown_user; assumption.
Qed.

Lemma fle_10_0 : fle (Fin 10) (Fin 0) = false.
Proof. unfold fle. apply bool_decide_eq_false_2. lra. Qed.

Lemma C9_first_reference_witness :
  let row := UserDB.mk (fresh_id (UserDB.id <$> users db_market)) "alice" (Fin 1000) in
  let s1 := with_users (fun us => us ++ [row]) db_market in
  first_where (by_username "alice") (users s1) = Some (length (users db_market))
  /\ users s1 !! length (users db_market) = Some row
  /\ trade_buy off (0%nat, 0%nat) 0 "alice" 1 (Fin 10) "yes" None None db_market
     = trade_buy off (0%nat, 0%nat) 0 "alice" 1 (Fin 10) "yes" None None s1
  /\ trade_sell off (0%nat, 0%nat) 0 "alice" 1 (Fin 10) "yes" None None db_market
     = (Raise (ValueError "user not found"), db_market).
Proof.
  apply (C9_first_reference off (0%nat, 0%nat) 0 "alice" 1 (Fin 10) "yes" None None db_market).
  - reflexivity.
  - rewrite fle_10_0. reflexivity.
  - reflexivity.
Defined.

(** Against C9 as stated: alice has no row; her sell does not create one,
    it fails with "user not found" and leaves the session as it was. *)
Lemma C9_sell_counterexample :
  first_where (by_username "alice") (users db_market) = None
  /\ trade_sell off (0%nat, 0%nat) 0 "alice" 1 (Fin 10) "yes" None None db_market
     = (Raise (ValueError "user not found"), db_market).
Proof.
  split; [reflexivity|].
  apply sell_unknown_user; [reflexivity| |reflexivity].
  rewrite fle_10_0. reflexivity.
Qed.

(** ** C10: a budget-driven sell of less than one contract *)

Lemma floor_zero (x : float) :
  math.floor x = Ok 0%Z -> exists h, x = Fin h /\ 0 <= h < 1.
Proof.
  destruct x as [h| | |]; simpl; try discriminate.
  intros H. injection H as H. exists h. split; [reflexivity|].
  pose proof (base_Int_part h) as [H1 H2]. rewrite H in H1, H2. simpl in H1, H2. lra.
Qed.

Section SmallHolding.

Variable LEDGER_MODE : ledger_mode.
Variable SYSTEM_IDS : nat * nat.
Variable utcnow : nat.

Lemma sell_floor_zero (username : string) (market_id : nat) (quantity : float)
    (side : string) (bp : float) (is_visible : option (string -> string -> bool))
    (s : Session) (ui mi ai ci pi_ : nat) (u : UserDB.t) (m : MarketDB.t) (a : AMMDB.t)
    (p : PositionsDB.t) (q : Z) :
  side_ok side = true -> fgt bp (Fin 0) = true ->
  first_where (by_username username) (users s) = Some ui -> users s !! ui = Some u ->
  first_where (market_by_id market_id) (markets s) = Some mi -> markets s !! mi = Some m ->
  first_where (amm_by_market market_id) (amms s) = Some ai -> amms s !! ai = Some a ->
  first_where (ch_by_market market_id) (chs s) = Some ci ->
  MarketDB.resolved m = false -> hidden is_visible (MarketDB.name m) username = false ->
  first_where (position_by_key (UserDB.id u) market_id) (positions s) = Some pi_ ->
  positions s !! pi_ = Some p ->
  _max_int_quantity_for_budget (MarketDB.b m) (fneg (or0 (AMMDB.qYes a)))
    (fneg (or0 (AMMDB.qNo a))) side bp "sell" = Ok q ->
  math.floor (available p side) = Ok 0%Z ->
  trade_sell LEDGER_MODE SYSTEM_IDS utcnow username market_id quantity side (Some bp)
    is_visible s
  = (Raise (ValueError "quantity must be > 0"), s).
Proof.
  intros Hside Hbp Hui Hu Hmi Hm Hai Ha Hci Hopen Hvis Hpi Hp Hq Hfloor.
  destruct s as [us ms am ps ls cs]. cbn [users markets amms chs positions] in *.
  unfold trade_sell. rewrite Hside. cbn [negb].
  unfold no_budget. rewrite (fgt_0_not_fle bp Hbp), andb_false_r.
  unfold bind at 1. unfold first_user_by_username at 1. unfold gets at 1.
  cbn [users]. fold (by_username username). rewrite Hui.
  rewrite bundle_run. cbn [users markets amms chs positions]. rewrite Hmi, Hai, Hci.
  unfold bind at 1. unfold market_at at 1. unfold gets at 1. cbn [markets].
  rewrite (list_lookup_total_correct _ _ _ Hm), Hopen, Hvis.
  unfold bind at 1. unfold user_at at 1. unfold gets at 1. cbn [users].
  rewrite (list_lookup_total_correct _ _ _ Hu).
  unfold bind at 1. unfold first_position at 1. unfold gets at 1. cbn [positions].
  fold (position_by_key (UserDB.id u) market_id). rewrite Hpi.
  unfold bind at 1. unfold position_at at 1. unfold gets at 1. cbn [positions].
  rewrite (list_lookup_total_correct _ _ _ Hp).
  unfold bind at 1. unfold amm_at at 1. unfold gets at 1. cbn [amms].
  rewrite (list_lookup_total_correct _ _ _ Ha).
  destruct (floor_zero _ Hfloor) as (h & Hh & Hh0).
  rewrite Hbp, bind_assoc, lift_run, Hq, bind_assoc, lift_run.
  fold (available p side). rewrite Hfloor, ret_run.
  assert (Hmin : (Z.min q 0 <= 0)%Z) by lia.
  apply IZR_le in Hmin. unfold of_int.
  assert (Hshort : short p (Fin (IZR (Z.min q 0))) side = false).
  { unfold short, available in *.
    destruct (side_ok_cases side Hside) as [-> | ->]; simpl in Hh |- *;
      rewrite Hh; unfold flt; rewrite bool_decide_eq_false_2 by lra; reflexivity. }
  unfold short in Hshort. apply orb_false_iff in Hshort as [Hs1 Hs2].
  rewrite Hs1, Hs2.
  unfold fle at 1. rewrite bool_decide_eq_true_2 by assumption.
  reflexivity.
Qed.

End SmallHolding.

(** C10: in a budget-driven sell that reaches the quantity resolution (known
    user, open and visible market, existing position, budget search without
    error), when the floor of the held quantity of the requested side is
    zero, the quantity is clamped to zero, the holdings tests pass, and the
    engine raises "quantity must be > 0"; the session is as it was. *)
Theorem C10_budget_sell_below_one (LEDGER_MODE : ledger_mode) (SYSTEM_IDS : nat * nat)
    (utcnow : nat) (username : string) (market_id : nat) (quantity : float)
    (side : string) (bp : float) (is_visible : option (string -> string -> bool))
    (s : Session) (ui mi ai ci pi_ : nat) (u : UserDB.t) (m : MarketDB.t) (a : AMMDB.t)
    (p : PositionsDB.t) (q : Z) :
  side_ok side = true -> fgt bp (Fin 0) = true ->
  first_where (by_username username) (users s) = Some ui -> users s !! ui = Some u ->
  first_where (market_by_id market_id) (markets s) = Some mi -> markets s !! mi = Some m ->
  first_where (amm_by_market market_id) (amms s) = Some ai -> amms s !! ai = Some a ->
  first_where (ch_by_market market_id) (chs s) = Some ci ->
  MarketDB.resolved m = false -> hidden is_visible (MarketDB.name m) username = false ->
  first_where (position_by_key (UserDB.id u) market_id) (positions s) = Some pi_ ->
  positions s !! pi_ = Some p ->
  _max_int_quantity_for_budget (MarketDB.b m) (fneg (or0 (AMMDB.qYes a)))
    (fneg (or0 (AMMDB.qNo a))) side bp "sell" = Ok q ->
  math.floor (available p side) = Ok 0%Z ->
  trade_sell LEDGER_MODE SYSTEM_IDS utcnow username market_id quantity side (Some bp)
    is_visible s
  = (Raise (ValueError "quantity must be > 0"), s)
  /\ transaction (trade_sell LEDGER_MODE SYSTEM_IDS utcnow username market_id quantity side
                    (Some bp) is_visible) s
     = (Raise (ValueError "quantity must be > 0"), s).
Proof.
  intros. assert (E : trade_sell LEDGER_MODE SYSTEM_IDS utcnow username market_id quantity
                        side (Some bp) is_visible s
                      = (Raise (ValueError "quantity must be > 0"), s))
    by (eapply sell_floor_zero; eassumption).
  split; [exact E|]. eapply transaction_Raise. exact E.
Qed.

Lemma costR_sell_bounds (b qy qn q : R) (side : string) :
  0 < b -> 0 <= q -> - q <= costR b qy qn (- q) side <= 0.
Proof.
  intros Hb Hq. split.
  - pose proof (costR_undo b qy qn (- q) side) as Hun.
    pose proof (costR_le b (if String.eqb side "yes" then qy + - q else qy)
                  (if String.eqb side "yes" then qn else qn + - q) (- - q) side
                  Hb ltac:(lra)) as Hle.
    rewrite Hun in Hle. lra.
  - rewrite <- (costR_0 b qy qn side). apply costR_mono; lra.
Qed.

(** In sell mode one contract pays at most one point, so a budget of one
    point or more is never insufficient. *)
Lemma sell_search_runs (b qy qn budget : R) (side : string) :
  0 < b -> 1 <= budget ->
  exists q, _max_int_quantity_for_budget (Fin b) (Fin qy) (Fin qn) side (Fin budget) "sell"
            = Ok q.
Proof.
  intros Hb Hbu. assert (Hb0 : b <> 0) by lra.
  assert (Hpos : fgt (Fin budget) (Fin 0) = true)
    by (unfold fgt, flt; apply bool_decide_eq_true_2; lra).
  destruct (max_int_quantity_spec (Fin b) (Fin qy) (Fin qn) side (Fin budget) "sell"
              (fun q => Fin (cost_for_qtyR b qy qn side "sell" q))
              (fun q => cost_for_qty_Fin b qy qn side "sell" q Hb0)
              (fgt_0_not_fle _ Hpos)) as [[Hover _]|(_ & q & E & _)]; [|eauto].
  exfalso. unfold over in Hover. rewrite exceeds_Fin in Hover by assumption.
  unfold fle in Hover. rewrite bool_decide_eq_true_2 in Hover; [discriminate|].
  unfold cost_for_qtyR. change (String.eqb "sell" "buy") with false. cbn iota.
  change (IZR (- (1))) with (- (1)).
  pose proof (costR_sell_bounds b qy qn 1 side Hb ltac:(lra)). lra.
Qed.

Lemma Int_part_half : Int_part (1 / 2) = 0%Z.
Proof.
  assert (H : (1 = up (1 / 2))%Z) by (apply tech_up; lra).
  unfold Int_part. rewrite <- H. reflexivity.
Qed.

(** Alice holds half a YES contract and asks to sell YES for a budget of
    five points. *)
Lemma C10_budget_sell_below_one_witness :
  trade_sell off (0%nat, 0%nat) 0 "alice" 1 (Fin 1) "yes" (Some (Fin 5)) None db_half
  = (Raise (ValueError "quantity must be > 0"), db_half)
  /\ transaction (trade_sell off (0%nat, 0%nat) 0 "alice" 1 (Fin 1) "yes" (Some (Fin 5)) None)
       db_half
     = (Raise (ValueError "quantity must be > 0"), db_half).
Proof.
  destruct (sell_search_runs 20 (- - (1 / 2)) (- 0) 5 "yes" ltac:(lra) ltac:(lra)) as [q Hq].
  apply (C10_budget_sell_below_one off (0%nat, 0%nat) 0 "alice" 1 (Fin 1) "yes" (Fin 5) None
           db_half 0 0 0 0 0 alice rain half_amm half_pos q); try reflexivity.
  - unfold fgt, flt. apply bool_decide_eq_true_2. lra.
  - simpl. rewrite !or0_id. exact Hq.
  - unfold available. simpl. rewrite or0_id. simpl. rewrite Int_part_half. reflexivity.
Defined.

(** ** C7: whole numbers of contracts *)





Lemma buy_qty_int (m : MarketDB.t) (a : AMMDB.t) (quantity : float) (side : string)
    (budget_points : option float) (qty : float) :
  has_budget budget_points = true \/ is_int quantity ->
  buy_qty m a quantity side budget_points = Ok qty -> is_int qty.
Proof.
  unfold buy_qty, has_budget. intros Hreq H. destruct budget_points as [bp|].
  - destruct (fgt bp (Fin 0)).
    + destruct (_max_int_quantity_for_budget _ _ _ _ _ _) as [z|]; [|discriminate].
      cbn [rbind] in H. injection H as <-. exists z. reflexivity.
    + injection H as <-. destruct Hreq as [|]; [discriminate|assumption].
  - injection H as <-. destruct Hreq as [|]; [discriminate|assumption].
Qed.

Lemma sell_qty_int (m : MarketDB.t) (a : AMMDB.t) (p : PositionsDB.t) (quantity : float)
    (side : string) (budget_points : option float) (qty : float) :
  has_budget budget_points = true \/ is_int quantity ->
  sell_qty m a p quantity side budget_points = Ok qty -> is_int qty.
Proof.
  unfold sell_qty, has_budget. intros Hreq H. destruct budget_points as [bp|].
  - destruct (fgt bp (Fin 0)).
    + destruct (_max_int_quantity_for_budget _ _ _ _ _ _) as [z|]; [|discriminate].
      cbn [rbind] in H. destruct (math.floor _) as [fl|]; [|discriminate].
      cbn [rbind] in H. injection H as <-. exists (Z.min z fl). reflexivity.
    + injection H as <-. destruct Hreq as [|]; [discriminate|assumption].
  - injection H as <-. destruct Hreq as [|]; [discriminate|assumption].
Qed.



Section Integral.

Variable LEDGER_MODE : ledger_mode.
Variable SYSTEM_IDS : nat * nat.





End Integral.







(** ** Settlement *)

Arguments winning : simpl never.


















(** The balances of scenario S5 after the settlement: 1005, 1003, 1000. *)
Lemma s5_balances :
  credited "yes" 1 (positions db_s5) <$> users db_s5
  = [UserDB.set_points (Fin (1000 + 5)) alice; UserDB.set_points (Fin (1000 + 3)) bob; carol].
Proof.
  unfold db_s5. cbn [positions users fmap list_fmap]. unfold credited, winnings.
  rewrite !first_where_cons. cbn. unfold winning. rewrite !or0_id. reflexivity.
Qed.

(** ** C5: settled markets are frozen *)

Lemma market_resolved_found (market_id : nat) (s : Session) :
  market_resolved market_id s = true ->
  exists mi m, first_where (market_by_id market_id) (markets s) = Some mi
               /\ markets s !! mi = Some m /\ MarketDB.resolved m = true.
Proof.
  unfold market_resolved. destruct (first_where _ _) as [mi|] eqn:Hmi; [|discriminate].
  destruct (first_where_Some _ _ _ Hmi) as (m & Hm & _).
  rewrite (list_lookup_total_correct _ _ _ Hm). eauto.
Qed.

Lemma market_resolved_insert (market_id : nat) (s s' : Session) (i : nat)
    (m m' : MarketDB.t) :
  markets s !! i = Some m -> markets s' = <[i := m']> (markets s) ->
  MarketDB.id m' = MarketDB.id m ->
  (MarketDB.resolved m = true -> MarketDB.resolved m' = true) ->
  market_resolved market_id s = true -> market_resolved market_id s' = true.
Proof.
  intros Hm Hs Hid Hres. unfold market_resolved. rewrite Hs.
  rewrite (first_where_insert_same _ _ i m m' Hm)
    by (unfold market_by_id; rewrite Hid; reflexivity).
  destruct (first_where _ (markets s)) as [j|]; [|discriminate].
  destruct (decide (i = j)) as [<-|Hne].
  - rewrite (list_lookup_total_correct _ _ _ Hm), (insert_total_eq _ _ _ _ Hm). exact Hres.
  - rewrite list_lookup_total_insert_ne by assumption. auto.
Qed.

(** The payout loop never raises and writes to the user table only. *)
Lemma pay_winners_frame (outcome : string) (ps : list PositionsDB.t) us ms am pp ls cs :
  exists us', pay_winners outcome ps (mkSession us ms am pp ls cs)
              = (Ok tt, mkSession us' ms am pp ls cs).
Proof.
  revert us. induction ps as [|pos rest IH]; intros us; [eexists; reflexivity|].
  cbn [pay_winners]. rewrite gets_run. cbn [users].
  destruct (first_where _ us) as [i|]; [|apply IH].
  unfold user_at. rewrite gets_run.
  destruct (fgt _ (Fin 0)); unfold when.
  - rewrite set_user_run. apply IH.
  - rewrite ret_run. apply IH.
Qed.

Lemma settlement_Ok (now market_id : nat) (outcome : string) (s s' : Session) :
  Market_settlement_body now market_id outcome s = (Ok tt, s') ->
  exists mi m us',
    first_where (market_by_id market_id) (markets s) = Some mi
    /\ markets s !! mi = Some m /\ MarketDB.resolved m = false
    /\ s' = mkSession us' (<[mi := MarketDB.settle (String.eqb outcome "yes") now m]> (markets s))
              (amms s) (positions s) (ledger s) (chs s).
Proof.
  unfold Market_settlement_body.
  destruct (negb (side_ok outcome)); [discriminate|].
  rewrite gets_run. fold (market_by_id market_id).
  destruct (first_where _ (markets s)) as [mi|] eqn:Hmi; [|discriminate].
  destruct (first_where_Some _ _ _ Hmi) as (m & Hm & _).
  unfold market_at. rewrite gets_run, (list_lookup_total_correct _ _ _ Hm).
  destruct (MarketDB.resolved m) eqn:Hres; [discriminate|].
  destruct s as [us ms am pp ls cs]. cbn [markets amms positions ledger chs] in *.
  rewrite set_market_run, (list_lookup_total_correct _ _ _ Hm), gets_run.
  destruct (pay_winners_frame outcome
              (filter (fun p => PositionsDB.market_id p = market_id) pp) us
              (<[mi := MarketDB.settle (String.eqb outcome "yes") now m]> ms) am pp ls cs)
    as [us' E].
  cbn [positions]. rewrite E. intros H. injection H as <-.
  exists mi, m, us'. auto.
Qed.

Lemma settlement_again (now market_id : nat) (outcome : string) (s : Session) :
  market_resolved market_id s = true ->
  Market_settlement_body now market_id outcome s
  = (Raise (ValueError (if side_ok outcome then "Market already settled"
                        else "outcome must be 'yes' or 'no'")), s).
Proof.
  intros H. destruct (market_resolved_found _ _ H) as (mi & m & Hmi & Hm & Hres).
  unfold Market_settlement_body. destruct (side_ok outcome); cbn [negb]; [|reflexivity].
  rewrite gets_run. fold (market_by_id market_id). rewrite Hmi.
  unfold market_at. rewrite gets_run, (list_lookup_total_correct _ _ _ Hm), Hres.
  reflexivity.
Qed.

Section Frozen.

Variable LEDGER_MODE : ledger_mode.
Variable SYSTEM_IDS : nat * nat.
Variable utcnow : nat.

Lemma buy_settled (username : string) (market_id : nat) (quantity : float)
    (side : string) (budget_points : option float)
    (is_visible : option (string -> string -> bool)) (s : Session) :
  market_resolved market_id s = true ->
  side_ok side = true -> fle quantity (Fin 0) && no_budget budget_points = false ->
  is_Some (first_where (amm_by_market market_id) (amms s)) ->
  is_Some (first_where (ch_by_market market_id) (chs s)) ->
  trade_buy LEDGER_MODE SYSTEM_IDS utcnow username market_id quantity side budget_points
    is_visible s
  = (Raise (ValueError "Market is settled"), with_users (users_with username) s).
Proof.
  intros H Hside Hreq [ai Hai] [ci Hci].
  destruct (market_resolved_found _ _ H) as (mi & m & Hmi & Hm & Hres).
  destruct s as [us ms am ps ls cs]. cbn [users markets amms chs positions] in *.
  unfold trade_buy. rewrite Hside, Hreq. cbn [negb].
  unfold bind at 1. unfold first_user_by_username at 1. unfold gets at 1.
  cbn [users]. fold (by_username username).
  destruct (user_block_run username us ms am ps ls cs) as (ui & Hui & ->).
  rewrite bundle_run. cbn [users markets amms chs positions]. rewrite Hmi, Hai, Hci.
  unfold bind at 1. unfold market_at at 1. unfold gets at 1. cbn [markets].
  rewrite (list_lookup_total_correct _ _ _ Hm), Hres. reflexivity.
Qed.

Lemma sell_settled (username : string) (market_id : nat) (quantity : float)
    (side : string) (budget_points : option float)
    (is_visible : option (string -> string -> bool)) (s : Session) :
  market_resolved market_id s = true ->
  side_ok side = true -> fle quantity (Fin 0) && no_budget budget_points = false ->
  is_Some (first_where (amm_by_market market_id) (amms s)) ->
  is_Some (first_where (ch_by_market market_id) (chs s)) ->
  is_Some (first_where (by_username username) (users s)) ->
  trade_sell LEDGER_MODE SYSTEM_IDS utcnow username market_id quantity side budget_points
    is_visible s
  = (Raise (ValueError "Market is settled"), s).
Proof.
  intros H Hside Hreq [ai Hai] [ci Hci] [ui Hui].
  destruct (market_resolved_found _ _ H) as (mi & m & Hmi & Hm & Hres).
  destruct s as [us ms am ps ls cs]. cbn [users markets amms chs positions] in *.
  unfold trade_sell. rewrite Hside, Hreq. cbn [negb].
  unfold bind at 1. unfold first_user_by_username at 1. unfold gets at 1.
  cbn [users]. fold (by_username username). rewrite Hui.
  rewrite bundle_run. cbn [users markets amms chs positions]. rewrite Hmi, Hai, Hci.
  unfold bind at 1. unfold market_at at 1. unfold gets at 1. cbn [markets].
  rewrite (list_lookup_total_correct _ _ _ Hm), Hres. reflexivity.
Qed.

End Frozen.

Section FrozenCommits.

Variable LEDGER_MODE : ledger_mode.
Variable SYSTEM_IDS : nat * nat.

(** No trade on a resolved market is committed, whatever its arguments. *)
Lemma commit_frozen (o : op) (db : Session) :
  market_resolved (req_market_id (request_of o)) db = true ->
  exists e, commit LEDGER_MODE SYSTEM_IDS o db = (Raise e, db).
Proof.
  intros H. destruct (market_resolved_found _ _ H) as (mi & m & Hmi & Hm & Hres).
  destruct o as [r|r]; cbn [request_of] in *; unfold commit, transaction.
  - destruct (trade_buy _ _ _ _ _ _ _ _ _ db) as [[out|e] s'] eqn:E; [|eauto].
    exfalso. pose proof (trade_buy_success LEDGER_MODE SYSTEM_IDS (req_utcnow r)
      (req_username r) (req_market_id r) (req_quantity r) (req_side r)
      (req_budget_points r) (req_is_visible r) db) as Hs.
    rewrite E in Hs. symmetry in Hs. apply trade_buy_pure_inv in Hs
      as (ui & mi' & ai & ci & pi_ & u & m' & a & c & p & qty & cost & F).
    destruct F. congruence.
  - destruct (trade_sell _ _ _ _ _ _ _ _ _ db) as [[out|e] s'] eqn:E; [|eauto].
    exfalso. pose proof (trade_sell_success LEDGER_MODE SYSTEM_IDS (req_utcnow r)
      (req_username r) (req_market_id r) (req_quantity r) (req_side r)
      (req_budget_points r) (req_is_visible r) db) as Hs.
    rewrite E in Hs. symmetry in Hs. apply trade_sell_pure_inv in Hs
      as (ui & mi' & ai & ci & pi_ & u & m' & a & c & p & qty & payout & F).
    destruct F. congruence.
Qed.

(** A trade that gets as far as the [resolved] flag fails with
    "Market is settled". *)
Lemma commit_settled (o : op) (db : Session) :
  market_resolved (req_market_id (request_of o)) db = true ->
  reaches_market_check o db ->
  commit LEDGER_MODE SYSTEM_IDS o db = (Raise (ValueError "Market is settled"), db).
Proof.
  intros H (Hside & Hreq & Hai & Hci & Hu).
  destruct o as [r|r]; cbn [request_of] in *; unfold commit.
  - eapply transaction_Raise. apply buy_settled; assumption.
  - eapply transaction_Raise. apply sell_settled; assumption.
Qed.

(** No committed trade, on any market, resets a [resolved] flag. *)
Lemma commit_keeps_resolved (o : op) (market_id : nat) (db : Session) :
  market_resolved market_id db = true ->
  market_resolved market_id (commit LEDGER_MODE SYSTEM_IDS o db).2 = true.
Proof.
  intros H. destruct o as [r|r]; unfold commit, transaction.
  - destruct (trade_buy _ _ _ _ _ _ _ _ _ db) as [[out|e] s'] eqn:E; [|exact H].
    pose proof (trade_buy_success LEDGER_MODE SYSTEM_IDS (req_utcnow r)
      (req_username r) (req_market_id r) (req_quantity r) (req_side r)
      (req_budget_points r) (req_is_visible r) db) as Hs.
    rewrite E in Hs. symmetry in Hs. apply trade_buy_pure_inv in Hs
      as (ui & mi & ai & ci & pi_ & u & m & a & c & p & qty & cost & F).
    destruct F. cbn [snd].
    eapply (market_resolved_insert market_id db s' mi m); try eassumption; auto.
  - destruct (trade_sell _ _ _ _ _ _ _ _ _ db) as [[out|e] s'] eqn:E; [|exact H].
    pose proof (trade_sell_success LEDGER_MODE SYSTEM_IDS (req_utcnow r)
      (req_username r) (req_market_id r) (req_quantity r) (req_side r)
      (req_budget_points r) (req_is_visible r) db) as Hs.
    rewrite E in Hs. symmetry in Hs. apply trade_sell_pure_inv in Hs
      as (ui & mi & ai & ci & pi_ & u & m & a & c & p & qty & payout & F).
    destruct F. cbn [snd].
    eapply (market_resolved_insert market_id db s' mi m); try eassumption; auto.
Qed.

End FrozenCommits.

Lemma settlement_keeps_resolved (now market_id' : nat) (outcome : string) (market_id : nat)
    (db : Session) :
  market_resolved market_id db = true ->
  market_resolved market_id (Market_settlement now market_id' outcome db).2 = true.
Proof.
  intros H. unfold Market_settlement, transaction.
  destruct (Market_settlement_body now market_id' outcome db) as [[[]|e] s'] eqn:E;
    [|exact H].
  apply settlement_Ok in E as (mi & m & us' & Hmi & Hm & Hopen & ->). cbn [snd].
  eapply (market_resolved_insert market_id db _ mi m); try eassumption; reflexivity.
Qed.

Lemma modify_run {B} (f : Session -> Session) (k : unit -> M B) s :
  bind (modify f) k s = k tt (f s).
Proof. reflexivity. Qed.

Lemma ensure_rows_frame (market_id : nat) (reserve : float) (s : Session) :
  exists s', Market_ensure_rows market_id reserve s = (Ok tt, s') /\ markets s' = markets s.
Proof.
  unfold Market_ensure_rows. rewrite gets_run.
  destruct (negb (bool_decide (is_Some (first_where _ (amms s))))); unfold when at 1.
  - rewrite modify_run, gets_run.
    destruct (negb _); unfold when, modify, ret; eexists; split; reflexivity.
  - rewrite ret_run, gets_run.
    destruct (negb _); unfold when, modify, ret; eexists; split; reflexivity.
Qed.

(** The constructor of [Market] adds at most one market row and rewrites
    none. *)
Lemma Market_init_markets (name : string) (b : float) (s : Session) :
  exists l, markets (Market_init name b s).2 = markets s ++ l.
Proof.
  unfold Market_init. rewrite gets_run.
  destruct (first_where _ (markets s)) as [mi|].
  - rewrite ret_run. unfold market_at. rewrite gets_run.
    destruct (ensure_rows_frame (MarketDB.id (markets s !!! mi))
                (Market_reserve_of (markets s !!! mi)) s) as (s' & E & Hm).
    unfold bind. rewrite E. unfold ret. cbn [snd]. rewrite Hm.
    exists []. rewrite app_nil_r. reflexivity.
  - rewrite !bind_assoc, gets_run, !bind_assoc, modify_run.
    unfold market_at. rewrite !bind_assoc, gets_run, !bind_assoc, modify_run.
    rewrite !bind_assoc, modify_run, ret_run, gets_run.
    match goal with
    | |- context [bind (Market_ensure_rows ?i ?r) _ ?s0] =>
        destruct (ensure_rows_frame i r s0) as (s' & E & Hm); unfold bind; rewrite E
    end.
    unfold ret. cbn [snd]. rewrite Hm. destruct s. cbn. eexists. reflexivity.
Qed.

Lemma market_resolved_app (market_id : nat) (s s' : Session) (l : list MarketDB.t) :
  markets s' = markets s ++ l ->
  market_resolved market_id s = true -> market_resolved market_id s' = true.
Proof.
  intros Hs. unfold market_resolved. rewrite Hs.
  destruct (first_where _ (markets s)) as [mi|] eqn:Hmi; [|discriminate].
  rewrite (first_where_app_l _ _ l _ Hmi).
  destruct (first_where_Some _ _ _ Hmi) as (m & Hm & _).
  rewrite (list_lookup_total_correct _ _ _ Hm).
  rewrite (list_lookup_total_correct (markets s ++ l) mi m); [auto|].
  rewrite lookup_app_l by (eapply lookup_lt_Some; eauto). exact Hm.
Qed.

Lemma settlement_once (now market_id : nat) (outcome : string) (db db' : Session) :
  Market_settlement now market_id outcome db = (Ok tt, db') ->
  market_resolved market_id db = false /\ market_resolved market_id db' = true.
Proof.
  intros H. unfold Market_settlement in H. apply transaction_Ok in H.
  destruct (Market_settlement_body now market_id outcome db) as [[[]|e] s'] eqn:E;
    [|discriminate].
  cbn [success] in H. injection H as ->.
  apply settlement_Ok in E as (mi & m & us' & Hmi & Hm & Hopen & ->).
  unfold market_resolved. cbn [markets]. split.
  - rewrite Hmi, (list_lookup_total_correct _ _ _ Hm). exact Hopen.
  - rewrite (first_where_insert_same _ _ mi m _ Hm) by reflexivity.
    rewrite Hmi, (insert_total_eq _ _ _ _ Hm). reflexivity.
Qed.

(** C5: once the market is resolved,
    - no buy or sell on it is committed, whatever its arguments, and the
      database is as it was; a trade whose earlier checks pass (side and
      quantity accepted, AMM and clearing-house rows present, seller known)
      fails with "Market is settled";
    - a second settlement fails with "Market already settled" and changes
      nothing;
    - after any trade, settlement or market construction, on any market,
      successful or not, the market is still resolved;
    and a settlement that succeeds finds the market open and leaves it
    resolved. *)
Theorem C5_settled_markets_frozen (LEDGER_MODE : ledger_mode) (SYSTEM_IDS : nat * nat)
    (market_id : nat) (db : Session) :
  market_resolved market_id db = true ->
  (forall o, req_market_id (request_of o) = market_id ->
     (exists e, commit LEDGER_MODE SYSTEM_IDS o db = (Raise e, db))
     /\ (reaches_market_check o db ->
         commit LEDGER_MODE SYSTEM_IDS o db = (Raise (ValueError "Market is settled"), db)))
  /\ (forall outcome now, side_ok outcome = true ->
        Market_settlement now market_id outcome db
        = (Raise (ValueError "Market already settled"), db))
  /\ (forall c, market_resolved market_id (state_after LEDGER_MODE SYSTEM_IDS c db) = true)
  /\ (forall db0 outcome now db1,
        Market_settlement now market_id outcome db0 = (Ok tt, db1) ->
        market_resolved market_id db0 = false /\ market_resolved market_id db1 = true).
Proof.
  intros H. split; [|split; [|split]].
  - intros o <-. split.
    + apply commit_frozen. exact H.
    + apply commit_settled. exact H.
  - intros outcome now Hside. unfold Market_settlement.
    eapply transaction_Raise. rewrite (settlement_again now market_id outcome db H), Hside.
    reflexivity.
  - intros [o|market_id' outcome now|name b]; unfold state_after.
    + apply commit_keeps_resolved. exact H.
    + apply settlement_keeps_resolved. exact H.
    + destruct (Market_init_markets name b db) as [l Hl].
      exact (market_resolved_app market_id db _ l Hl H).
  - intros db0 outcome now db1. apply settlement_once.
Qed.

(** The settled market of scenario S5. *)
Lemma C5_settled_markets_frozen_witness :
  (forall o, req_market_id (request_of o) = 1%nat ->
     (exists e, commit off (0%nat, 0%nat) o db_settled = (Raise e, db_settled))
     /\ (reaches_market_check o db_settled ->
         commit off (0%nat, 0%nat) o db_settled
         = (Raise (ValueError "Market is settled"), db_settled)))
  /\ (forall outcome now, side_ok outcome = true ->
        Market_settlement now 1 outcome db_settled
        = (Raise (ValueError "Market already settled"), db_settled))
  /\ (forall c, market_resolved 1 (state_after off (0%nat, 0%nat) c db_settled) = true)
  /\ (forall db0 outcome now db1,
        Market_settlement now 1 outcome db0 = (Ok tt, db1) ->
        market_resolved 1 db0 = false /\ market_resolved 1 db1 = true).
Proof.
  apply (C5_settled_markets_frozen off (0%nat, 0%nat) 1 db_settled). reflexivity.
Defined.

(** Alice's buy of ten YES contracts on the settled market. *)
Lemma settled_buy_fails :
  commit off (0%nat, 0%nat) (Buy ten_yes) db_settled
  = (Raise (ValueError "Market is settled"), db_settled).
Proof.
  apply commit_settled; [reflexivity|].
  unfold reaches_market_check, ten_yes. cbn [request_of req_side req_quantity
    req_budget_points req_market_id req_username].
  rewrite fle_10_0. repeat split; eexists; reflexivity.
Qed.

(** * Further properties of the code *)

(** ** The pricing kernel *)

Lemma lmsr_yes_price_R (b qy qn : R) :
  b <> 0 -> lmsr_yes_price (Fin b) (Fin qy) (Fin qn) = Ok (Fin (priceR b qy qn)).
Proof.
  intros Hb. unfold lmsr_yes_price. rewrite !fdiv_Fin by assumption. cbn [rbind].
  rewrite fmax_Fin. unfold fsub, fneg, fadd, math.exp.
  set (m := Rmax (qy / b) (qn / b)).
  pose proof (exp_pos (qy / b + - m)). pose proof (exp_pos (qn / b + - m)).
  pose proof (exp_pos (qy / b)). pose proof (exp_pos (qn / b)). pose proof (exp_pos m).
  rewrite fdiv_Fin by lra. do 2 f_equal. unfold priceR.
  rewrite !exp_plus, !exp_Ropp. field. split; [|lra].
  assert (0 < / exp m) by (apply Rinv_0_lt_compat; assumption).
  assert (0 < exp (qy / b) * / exp m + exp (qn / b) * / exp m) by nra.
  intros E. lra.
Qed.

Lemma priceR_swap (b qy qn : R) : priceR b qy qn + priceR b qn qy = 1.
Proof.
  unfold priceR. pose proof (exp_pos (qy / b)). pose proof (exp_pos (qn / b)).
  field. lra.
Qed.

(** The exponential is strictly convex. *)
Lemma exp_convex (p d : R) :
  0 < p < 1 -> d <> 0 -> exp (p * d) < p * exp d + (1 - p).
Proof.
  intros Hp Hd. set (t := p * d).
  assert (Ht : t <> 0) by (unfold t; nra).
  assert (Hdt : d - t <> 0) by (unfold t; nra).
  pose proof (exp_ineq1 (d - t) Hdt) as H1. pose proof (exp_ineq1 (- t)) as H2.
  assert (H2' : 1 + - t < exp (- t)) by (apply H2; lra).
  pose proof (exp_pos t) as Ht0.
  assert (E1 : exp d = exp t * exp (d - t)).
  { rewrite <- exp_plus. f_equal. lra. }
  assert (E2 : 1 = exp t * exp (- t)).
  { rewrite <- exp_plus. replace (t + - t) with 0 by lra. symmetry. apply exp_0. }
  assert (Hsum : 1 < p * exp (d - t) + (1 - p) * exp (- t)).
  { unfold t in *. nra. }
  replace (p * exp d + (1 - p)) with (exp t * (p * exp (d - t) + (1 - p) * exp (- t))).
  - nra.
  - rewrite E1.
    transitivity (p * (exp t * exp (d - t)) + (1 - p) * (exp t * exp (- t))); [ring|].
    rewrite <- E2. ring.
Qed.

(** A move of [d] along the first argument changes [lse] by more than [d]
    times the weight of that argument. *)
Lemma lse_step (a c d : R) :
  d <> 0 -> exp a / (exp a + exp c) * d < lse (a + d) c - lse a c.
Proof.
  intros Hd. unfold lse.
  pose proof (exp_pos a) as Ha. pose proof (exp_pos c) as Hc.
  set (p := exp a / (exp a + exp c)).
  assert (Hp : 0 < p < 1).
  { unfold p. split.
    - apply Rdiv_lt_0_compat; lra.
    - apply (Rmult_lt_reg_r (exp a + exp c)); [lra|].
      unfold Rdiv. rewrite Rmult_assoc, Rinv_l by lra. lra. }
  pose proof (exp_convex p d Hp Hd) as Hconv.
  assert (E : exp (a + d) + exp c = (exp a + exp c) * (p * exp d + (1 - p))).
  { rewrite exp_plus. unfold p. field. lra. }
  rewrite E, ln_mult; [|lra|pose proof (exp_pos (p * d)); lra].
  rewrite <- (ln_exp (p * d)).
  assert (ln (exp (p * d)) < ln (p * exp d + (1 - p)))
    by (apply ln_increasing; [apply exp_pos|assumption]).
  lra.
Qed.

Lemma lse_comm (a c : R) : lse a c = lse c a.
Proof. unfold lse. rewrite Rplus_comm. reflexivity. Qed.

Lemma costR_above (b qy qn d : R) (side : string) :
  0 < b -> d <> 0 -> d * sideR side (priceR b qy qn) < costR b qy qn d side.
Proof.
  intros Hb Hd. unfold costR, sideR.
  assert (Hdb : d / b <> 0).
  { intros E. apply Hd. apply (Rmult_eq_reg_r (/ b)); [|apply Rinv_neq_0_compat; lra].
    rewrite Rmult_0_l. exact E. }
  destruct (String.eqb side "yes").
  - pose proof (lse_step (qy / b) (qn / b) (d / b) Hdb) as H.
    replace (qy / b + d / b) with ((qy + d) / b) in H by (field; lra).
    fold (priceR b qy qn) in H.
    apply (Rmult_lt_compat_l b) in H; [|assumption].
    replace (b * (priceR b qy qn * (d / b))) with (d * priceR b qy qn) in H by (field; lra).
    lra.
  - pose proof (lse_step (qn / b) (qy / b) (d / b) Hdb) as H.
    replace (qn / b + d / b) with ((qn + d) / b) in H by (field; lra).
    fold (priceR b qn qy) in H. rewrite !(lse_comm _ (qy / b)) in H.
    apply (Rmult_lt_compat_l b) in H; [|assumption].
    replace (b * (priceR b qn qy * (d / b))) with (d * priceR b qn qy) in H by (field; lra).
    pose proof (priceR_swap b qy qn). replace (1 - priceR b qy qn) with (priceR b qn qy) by lra.
    lra.
Qed.

Lemma costR_below (b qy qn d : R) (side : string) :
  0 < b -> d <> 0 ->
  costR b qy qn d side
  < d * sideR side (priceR b (after_yes side qy d) (after_no side qn d)).
Proof.
  intros Hb Hd.
  pose proof (costR_above b (after_yes side qy d) (after_no side qn d) (- d) side Hb
                ltac:(lra)) as H.
  unfold after_yes, after_no in *. rewrite costR_undo in H. lra.
Qed.

(** ** Zero liquidity *)

Lemma fdiv_0 (x : float) : fdiv x (Fin 0) = Raise ZeroDivisionError.
Proof. unfold fdiv. rewrite bool_decide_eq_true_2 by reflexivity. destruct x; reflexivity. Qed.

Lemma lmsr_cost_b0 (qy qn dq : float) (side : string) :
  lmsr_cost (Fin 0) qy qn dq side = Raise ZeroDivisionError.
Proof. unfold lmsr_cost. rewrite fdiv_0. reflexivity. Qed.

Lemma lmsr_yes_price_b0 (qy qn : float) :
  lmsr_yes_price (Fin 0) qy qn = Raise ZeroDivisionError.
Proof. unfold lmsr_yes_price. rewrite fdiv_0. reflexivity. Qed.

(** X6: [b] is never validated, and with [b = 0] every division by [b]
    raises [ZeroDivisionError]: on a market whose [b] is 0 the cost and the
    price cannot be computed, and no buy or sell is ever committed. *)
Theorem X6_zero_liquidity (LEDGER_MODE : ledger_mode) (SYSTEM_IDS : nat * nat) (o : op)
    (db : Session) (mi : nat) (m : MarketDB.t) :
  first_where (market_by_id (req_market_id (request_of o))) (markets db) = Some mi ->
  markets db !! mi = Some m -> MarketDB.b m = Fin 0 ->
  (forall qy qn dq side, lmsr_cost (MarketDB.b m) qy qn dq side = Raise ZeroDivisionError)
  /\ (forall qy qn, lmsr_yes_price (MarketDB.b m) qy qn = Raise ZeroDivisionError)
  /\ exists e, commit LEDGER_MODE SYSTEM_IDS o db = (Raise e, db).
Proof.
  intros Hmi Hm Hb. rewrite Hb. split; [intros; apply lmsr_cost_b0|].
  split; [intros; apply lmsr_yes_price_b0|].
  destruct o as [r|r]; cbn [request_of] in *; unfold commit, transaction.
  - destruct (trade_buy _ _ _ _ _ _ _ _ _ db) as [[out|e] s'] eqn:E; [|eauto].
    exfalso. pose proof (trade_buy_success LEDGER_MODE SYSTEM_IDS (req_utcnow r)
      (req_username r) (req_market_id r) (req_quantity r) (req_side r)
      (req_budget_points r) (req_is_visible r) db) as Hs.
    rewrite E in Hs. symmetry in Hs. apply trade_buy_pure_inv in Hs
      as (ui & mi' & ai & ci & pi_ & u & m' & a & c & p & qty & cost & F).
    destruct F. assert (m' = m) as -> by congruence.
    rewrite Hb, lmsr_cost_b0 in bf_cost0. discriminate.
  - destruct (trade_sell _ _ _ _ _ _ _ _ _ db) as [[out|e] s'] eqn:E; [|eauto].
    exfalso. pose proof (trade_sell_success LEDGER_MODE SYSTEM_IDS (req_utcnow r)
      (req_username r) (req_market_id r) (req_quantity r) (req_side r)
      (req_budget_points r) (req_is_visible r) db) as Hs.
    rewrite E in Hs. symmetry in Hs. apply trade_sell_pure_inv in Hs
      as (ui & mi' & ai & ci & pi_ & u & m' & a & c & p & qty & payout & F).
    destruct F. assert (m' = m) as -> by congruence.
    destruct sf_cost0 as (c0 & Hc0 & _). rewrite Hb, lmsr_cost_b0 in Hc0. discriminate.
Qed.

Lemma X6_zero_liquidity_witness :
  (forall qy qn dq side, lmsr_cost (MarketDB.b flat) qy qn dq side = Raise ZeroDivisionError)
  /\ (forall qy qn, lmsr_yes_price (MarketDB.b flat) qy qn = Raise ZeroDivisionError)
  /\ exists e, commit off (0%nat, 0%nat) (Buy ten_yes) db_flat = (Raise e, db_flat).
Proof.
  apply (X6_zero_liquidity off (0%nat, 0%nat) (Buy ten_yes) db_flat 0 flat); reflexivity.
Defined.

(** ** The budget search and budget-driven trades *)

Lemma search_result (b qy qn : R) (side : string) (budget : float) (mode : string) (q : Z) :
  0 < b -> fgt budget (Fin 0) = true ->
  _max_int_quantity_for_budget (Fin b) (Fin qy) (Fin qn) side budget mode = Ok q ->
  (1 <= q <= cap)%Z
  /\ fle (Fin (cost_for_qtyR b qy qn side mode q)) budget = true
  /\ forall q', (1 <= q' <= cap)%Z ->
       fle (Fin (cost_for_qtyR b qy qn side mode q')) budget = true -> (q' <= q)%Z.
Proof.
  intros Hb Hbu Hres. assert (Hb0 : b <> 0) by lra.
  destruct (max_int_quantity_spec (Fin b) (Fin qy) (Fin qn) side budget mode
              (fun q => Fin (cost_for_qtyR b qy qn side mode q))
              (fun q => cost_for_qty_Fin b qy qn side mode q Hb0)
              (fgt_0_not_fle budget Hbu)) as [[_ E]|(_ & q0 & E & Hr & Hfit & Hnext)];
    rewrite E in Hres; [discriminate|].
  injection Hres as <-. split; [exact Hr|].
  unfold over in *. rewrite exceeds_Fin in Hfit by assumption.
  split; [destruct (fle _ budget); [reflexivity|discriminate]|].
  intros q' Hq' Hfit'.
  eapply (max_int_quantity_largest budget
            (fun q => Fin (cost_for_qtyR b qy qn side mode q)) q0);
    [| |exact Hnext|exact Hq'|].
  - intros q1 q2 Hq12. apply over_mono; [assumption|assumption|lia].
  - lia.
  - unfold over. rewrite exceeds_Fin by assumption. rewrite Hfit'. reflexivity.
Qed.

Lemma search_succeeds (b qy qn : R) (side : string) (budget : float) (mode : string) :
  0 < b -> fgt budget (Fin 0) = true ->
  fle (Fin (cost_for_qtyR b qy qn side mode 1)) budget = true ->
  exists q, _max_int_quantity_for_budget (Fin b) (Fin qy) (Fin qn) side budget mode = Ok q.
Proof.
  intros Hb Hbu Hone. assert (Hb0 : b <> 0) by lra.
  destruct (max_int_quantity_spec (Fin b) (Fin qy) (Fin qn) side budget mode
              (fun q => Fin (cost_for_qtyR b qy qn side mode q))
              (fun q => cost_for_qty_Fin b qy qn side mode q Hb0)
              (fgt_0_not_fle budget Hbu)) as [[Hover _]|(_ & q & E & _)]; [|eauto].
  exfalso. unfold over in Hover. rewrite exceeds_Fin, Hone in Hover by assumption.
  discriminate.
Qed.

(** X7: the search is monotone in the budget: with [b > 0], if a budget
    buys (or sells) [q1] contracts, every larger budget is sufficient too
    and gives at least [q1]. *)
Theorem X7_budget_monotone (b qy qn bu1 bu2 : R) (side mode : string) (q1 : Z) :
  0 < b -> 0 < bu1 <= bu2 ->
  _max_int_quantity_for_budget (Fin b) (Fin qy) (Fin qn) side (Fin bu1) mode = Ok q1 ->
  exists q2,
    _max_int_quantity_for_budget (Fin b) (Fin qy) (Fin qn) side (Fin bu2) mode = Ok q2
    /\ (q1 <= q2)%Z.
Proof.
  intros Hb Hbu H1.
  assert (Hp1 : fgt (Fin bu1) (Fin 0) = true)
    by (unfold fgt, flt; apply bool_decide_eq_true_2; lra).
  assert (Hp2 : fgt (Fin bu2) (Fin 0) = true)
    by (unfold fgt, flt; apply bool_decide_eq_true_2; lra).
  destruct (search_result b qy qn side (Fin bu1) mode q1 Hb Hp1 H1) as (Hr1 & Hfit1 & _).
  unfold fle in Hfit1. apply bool_decide_eq_true_1 in Hfit1.
  assert (Hone : fle (Fin (cost_for_qtyR b qy qn side mode 1)) (Fin bu2) = true).
  { unfold fle. apply bool_decide_eq_true_2.
    pose proof (cost_for_qtyR_mono b qy qn side mode 1 q1 Hb ltac:(lia)). lra. }
  destruct (search_succeeds b qy qn side (Fin bu2) mode Hb Hp2 Hone) as [q2 H2].
  exists q2. split; [exact H2|].
  destruct (search_result b qy qn side (Fin bu2) mode q2 Hb Hp2 H2) as (_ & _ & Hmax).
  apply Hmax; [exact Hr1|]. unfold fle. apply bool_decide_eq_true_2. lra.
Qed.

(** One contract costs, and pays, at most one point. *)
Lemma one_contract_fits (b qy qn bu : R) (side mode : string) :
  0 < b -> 1 <= bu -> fle (Fin (cost_for_qtyR b qy qn side mode 1)) (Fin bu) = true.
Proof.
  intros Hb Hbu. unfold fle. apply bool_decide_eq_true_2. unfold cost_for_qtyR.
  destruct (String.eqb mode "buy").
  - pose proof (costR_le b qy qn 1 side Hb ltac:(lra)). lra.
  - change (IZR (- (1))) with (- (1)).
    pose proof (costR_sell_bounds b qy qn 1 side Hb ltac:(lra)). lra.
Qed.

Lemma fgt_pos (x : R) : 0 < x -> fgt (Fin x) (Fin 0) = true.
Proof. intros H. unfold fgt, flt. apply bool_decide_eq_true_2. exact H. Qed.

(** Budgets of 5 and 10 points on the fresh default market. *)
Lemma X7_budget_monotone_witness :
  exists q1 q2,
    _max_int_quantity_for_budget (Fin 20) (Fin 0) (Fin 0) "yes" (Fin 5) "buy" = Ok q1
    /\ _max_int_quantity_for_budget (Fin 20) (Fin 0) (Fin 0) "yes" (Fin 10) "buy" = Ok q2
    /\ (q1 <= q2)%Z.
Proof.
  destruct (search_succeeds 20 0 0 "yes" (Fin 5) "buy" ltac:(lra) (fgt_pos 5 ltac:(lra))
              (one_contract_fits 20 0 0 5 "yes" "buy" ltac:(lra) ltac:(lra))) as [q1 H1].
  destruct (X7_budget_monotone 20 0 0 5 10 "yes" "buy" q1 ltac:(lra) ltac:(lra) H1)
    as (q2 & H2 & Hle).
  exists q1, q2. auto.
Defined.

Lemma success_transaction {A} (c : M A) (db : Session) :
  success (transaction c db) = success (c db).
Proof. unfold transaction, success. destruct (c db) as [[a|e] s]; reflexivity. Qed.

Lemma fle_of_int_pos (q : Z) : (1 <= q)%Z -> fle (of_int q) (Fin 0) = false.
Proof.
  intros Hq. unfold fle, of_int. apply bool_decide_eq_false_2.
  apply IZR_le in Hq. lra.
Qed.

Section ByBudget.

Variable LEDGER_MODE : ledger_mode.
Variable SYSTEM_IDS : nat * nat.
Variable utcnow : nat.

Lemma buy_by_budget_pure (username : string) (market_id : nat) (quantity : float)
    (side : string) (bp : float) (is_visible : option (string -> string -> bool))
    (s : Session) (mi ai : nat) (m : MarketDB.t) (a : AMMDB.t) (q : Z) :
  fgt bp (Fin 0) = true ->
  first_where (market_by_id market_id) (markets s) = Some mi -> markets s !! mi = Some m ->
  first_where (amm_by_market market_id) (amms s) = Some ai -> amms s !! ai = Some a ->
  _max_int_quantity_for_budget (MarketDB.b m) (fneg (or0 (AMMDB.qYes a)))
    (fneg (or0 (AMMDB.qNo a))) side bp "buy" = Ok q ->
  (1 <= q)%Z ->
  trade_buy_pure LEDGER_MODE SYSTEM_IDS utcnow username market_id quantity side (Some bp)
    is_visible s
  = trade_buy_pure LEDGER_MODE SYSTEM_IDS utcnow username market_id (of_int q) side None
      is_visible s.
Proof.
  intros Hbp Hmi Hm Hai Ha Hq Hq1. unfold trade_buy_pure.
  destruct (negb (side_ok side)); [reflexivity|].
  unfold no_budget. rewrite (fgt_0_not_fle bp Hbp), andb_false_r.
  rewrite (fle_of_int_pos q Hq1). cbn [andb].
  rewrite Hmi, Hai.
  destruct (first_where _ (users_with _ _)) as [ui|]; [|reflexivity].
  cbn [mbind option_bind].
  destruct (first_where _ (chs s)) as [ci|]; [|reflexivity].
  cbn [mbind option_bind]. rewrite Hm, Ha.
  destruct (users_with _ _ !! ui) as [u|]; [|reflexivity].
  cbn [mbind option_bind].
  destruct (chs s !! ci) as [c|]; [|reflexivity].
  cbn [mbind option_bind].
  unfold buy_qty. rewrite Hbp, Hq. reflexivity.
Qed.

End ByBudget.

(** X8: a buy by budget is the buy of the quantity the search finds: on a
    market with finite [b > 0] and finite inventory, when the search on the
    market's rows returns [q] for the budget, [trade_buy] with that budget
    (whatever [quantity] is passed along) succeeds exactly when [trade_buy]
    of [q] contracts without a budget does, with the same result and the
    same database. *)
Theorem X8_budget_buy_is_explicit_buy (LEDGER_MODE : ledger_mode) (SYSTEM_IDS : nat * nat)
    (now : nat) (username : string) (market_id : nat) (quantity : float) (side : string)
    (bp : float) (is_visible : option (string -> string -> bool)) (db : Session)
    (mi ai : nat) (m : MarketDB.t) (a : AMMDB.t) (rb ay an : R) (q : Z) :
  fgt bp (Fin 0) = true ->
  first_where (market_by_id market_id) (markets db) = Some mi -> markets db !! mi = Some m ->
  first_where (amm_by_market market_id) (amms db) = Some ai -> amms db !! ai = Some a ->
  MarketDB.b m = Fin rb -> 0 < rb -> AMMDB.qYes a = Fin ay -> AMMDB.qNo a = Fin an ->
  _max_int_quantity_for_budget (MarketDB.b m) (fneg (or0 (AMMDB.qYes a)))
    (fneg (or0 (AMMDB.qNo a))) side bp "buy" = Ok q ->
  success (commit LEDGER_MODE SYSTEM_IDS
             (Buy (mkRequest username market_id quantity side (Some bp) is_visible now)) db)
  = success (commit LEDGER_MODE SYSTEM_IDS
               (Buy (mkRequest username market_id (of_int q) side None is_visible now)) db).
Proof.
  intros Hbp Hmi Hm Hai Ha Hb Hrb Hay Han Hq. unfold commit.
  cbn [req_username req_market_id req_quantity req_side req_budget_points req_is_visible
       req_utcnow].
  rewrite !success_transaction, !trade_buy_success.
  eapply buy_by_budget_pure; try eassumption.
  rewrite Hb, Hay, Han, !or0_id in Hq. unfold fneg in Hq.
  apply max_int_quantity_range in Hq; [lia|lra|assumption].
Qed.

Lemma X8_budget_buy_is_explicit_buy_witness :
  exists q,
    _max_int_quantity_for_budget (Fin 20) (fneg (or0 (Fin 0))) (fneg (or0 (Fin 0))) "yes"
      (Fin 5) "buy" = Ok q
    /\ success (commit off (0%nat, 0%nat) (Buy five_points_yes) db_alice)
       = success (commit off (0%nat, 0%nat)
                    (Buy (mkRequest "alice" 1 (of_int q) "yes" None None 0)) db_alice).
Proof.
  destruct (search_succeeds 20 (- 0) (- 0) "yes" (Fin 5) "buy" ltac:(lra)
              (fgt_pos 5 ltac:(lra))
              (one_contract_fits 20 (- 0) (- 0) 5 "yes" "buy" ltac:(lra) ltac:(lra)))
    as [q Hq].
  assert (Hq' : _max_int_quantity_for_budget (Fin 20) (fneg (or0 (Fin 0)))
                  (fneg (or0 (Fin 0))) "yes" (Fin 5) "buy" = Ok q)
    by (rewrite !or0_id; exact Hq).
  exists q. split; [exact Hq'|].
  apply (X8_budget_buy_is_explicit_buy off (0%nat, 0%nat) 0 "alice" 1 (Fin 1) "yes" (Fin 5)
           None db_alice 0 0 rain rain_amm 20 0 0 q); try reflexivity.
  - apply fgt_pos. lra.
  - lra.
  - exact Hq'.
Defined.

Lemma priceR_even (b q : R) : priceR b q q = 1 / 2.
Proof. unfold priceR. pose proof (exp_pos (q / b)). field. lra. Qed.

Section FivePoints.

Variable LEDGER_MODE : ledger_mode.
Variable SYSTEM_IDS : nat * nat.

(** Alice's buy for a budget of five points on the fresh market is
    committed. *)
Lemma five_points_buy_runs :
  exists out db',
    commit LEDGER_MODE SYSTEM_IDS (Buy five_points_yes) db_alice = (Ok out, db').
Proof.
  destruct (search_succeeds 20 (- 0) (- 0) "yes" (Fin 5) "buy" ltac:(lra)
              (fgt_pos 5 ltac:(lra))
              (one_contract_fits 20 (- 0) (- 0) 5 "yes" "buy" ltac:(lra) ltac:(lra)))
    as [q Hq].
  destruct (search_result 20 (- 0) (- 0) "yes" (Fin 5) "buy" q ltac:(lra)
              (fgt_pos 5 ltac:(lra)) Hq) as (Hr & Hfit & _).
  assert (Hsmall : 0 < IZR q <= 1000).
  { split; [apply IZR_lt; lia|].
    unfold fle in Hfit. apply bool_decide_eq_true_1 in Hfit.
    unfold cost_for_qtyR in Hfit. change (String.eqb "buy" "buy") with true in Hfit.
    cbv iota in Hfit.
    pose proof (costR_above 20 (- 0) (- 0) (IZR q) "yes" ltac:(lra)) as Hlo.
    assert (0 < IZR q) by (apply IZR_lt; lia). specialize (Hlo ltac:(lra)).
    unfold sideR in Hlo. change (String.eqb "yes" "yes") with true in Hlo. cbv iota in Hlo.
    rewrite priceR_even in Hlo. lra. }
  destruct (small_round_trip LEDGER_MODE SYSTEM_IDS [alice] (IZR q) 0 0 (or_intror eq_refl)
              Hsmall) as (out1 & s1 & _ & _ & H1 & _).
  exists out1, s1. unfold commit, five_points_yes.
  cbn [req_username req_market_id req_quantity req_side req_budget_points req_is_visible
       req_utcnow].
  apply transaction_Ok. rewrite trade_buy_success.
  rewrite (buy_by_budget_pure LEDGER_MODE SYSTEM_IDS 0 "alice" 1 (Fin 1) "yes" (Fin 5) None
             db_alice 0 0 rain rain_amm q); try reflexivity.
  - exact H1.
  - apply fgt_pos. lra.
  - rewrite !or0_id. exact Hq.
  - lia.
Qed.

End FivePoints.

(** ** Invariants of committed trades *)

Lemma valid_ten_yes : valid_op (Buy ten_yes).
Proof. left. unfold ten_yes. simpl. apply fgt_pos. lra. Qed.

Section TenYes.

Variable LEDGER_MODE : ledger_mode.
Variable SYSTEM_IDS : nat * nat.

(** Alice's buy of ten YES contracts and the sale of the same ten, as
    committed trades. *)
Lemma ten_yes_committed :
  exists out1 db1 out2 db2,
    commit LEDGER_MODE SYSTEM_IDS (Buy ten_yes) db_alice = (Ok out1, db1)
    /\ commit LEDGER_MODE SYSTEM_IDS (Sell ten_yes) db1 = (Ok out2, db2).
Proof.
  destruct (ten_yes_round_trip LEDGER_MODE SYSTEM_IDS [alice] 0 0 (or_intror eq_refl))
    as (out1 & s1 & out2 & s2 & H1 & H2).
  exists out1, s1, out2, s2. unfold commit, ten_yes.
  cbn [req_username req_market_id req_quantity req_side req_budget_points req_is_visible
       req_utcnow].
  split; apply transaction_Ok.
  - rewrite trade_buy_success. exact H1.
  - rewrite trade_sell_success. exact H2.
Qed.

End TenYes.

Lemma sell_amm2_market (a : AMMDB.t) (c : ClearingHouseDB.t) (payout qty : float)
    (side : string) :
  AMMDB.market_id (sell_amm2 (sell_amm1 a payout qty side) c) = AMMDB.market_id a.
Proof.
  unfold sell_amm2, sell_amm1.
  destruct (fgt _ _); destruct (String.eqb side "yes"); reflexivity.
Qed.

Lemma mirrored_update (s s' : Session) (market_id mi ai : nat)
    (m m2 : MarketDB.t) (a a2 : AMMDB.t) :
  first_where (market_by_id market_id) (markets s) = Some mi -> markets s !! mi = Some m ->
  first_where (amm_by_market market_id) (amms s) = Some ai -> amms s !! ai = Some a ->
  markets s' = <[mi := m2]> (markets s) -> amms s' = <[ai := a2]> (amms s) ->
  MarketDB.id m2 = MarketDB.id m -> AMMDB.market_id a2 = AMMDB.market_id a ->
  MarketDB.amm_points m2 = AMMDB.points a2 ->
  forall market_id' mi' ai' m' a',
    first_where (market_by_id market_id') (markets s') = Some mi' ->
    markets s' !! mi' = Some m' ->
    first_where (amm_by_market market_id') (amms s') = Some ai' ->
    amms s' !! ai' = Some a' ->
    market_id' = market_id \/ mirrored s ->
    MarketDB.amm_points m' = AMMDB.points a'.
Proof.
  intros Hmi Hm Hai Ha Hms Hamms Hid Hma Heq mid' mi' ai' m' a' Hmi' Hm' Hai' Ha' Hcase.
  rewrite Hms in Hmi', Hm'. rewrite Hamms in Hai', Ha'.
  rewrite (first_where_insert_same _ _ _ m m2 Hm) in Hmi'
    by (unfold market_by_id; rewrite Hid; reflexivity).
  rewrite (first_where_insert_same _ _ _ a a2 Ha) in Hai'
    by (unfold amm_by_market; rewrite Hma; reflexivity).
  destruct (decide (mid' = market_id)) as [->|Hne].
  - rewrite Hmi in Hmi'. injection Hmi' as <-. rewrite Hai in Hai'. injection Hai' as <-.
    rewrite list_lookup_insert_eq in Hm' by (eapply lookup_lt_Some; eauto).
    rewrite list_lookup_insert_eq in Ha' by (eapply lookup_lt_Some; eauto).
    injection Hm' as <-. injection Ha' as <-. exact Heq.
  - destruct Hcase as [|Hinv]; [contradiction|].
    apply first_where_Some in Hmi as Hx. destruct Hx as (m0 & Hm0 & Hp0).
    rewrite Hm in Hm0. injection Hm0 as <-.
    apply first_where_Some in Hai as Hy. destruct Hy as (a0 & Ha0 & Hq0).
    rewrite Ha in Ha0. injection Ha0 as <-.
    apply first_where_Some in Hmi' as Hx. destruct Hx as (mx & Hmx & Hpx).
    apply first_where_Some in Hai' as Hy. destruct Hy as (ax & Hax & Hqx).
    unfold market_by_id in Hp0, Hpx. unfold amm_by_market in Hq0, Hqx.
    apply Nat.eqb_eq in Hp0, Hpx, Hq0, Hqx.
    assert (mi <> mi') by (intros ->; congruence).
    assert (ai <> ai') by (intros ->; congruence).
    rewrite list_lookup_insert_ne in Hm' by assumption.
    rewrite list_lookup_insert_ne in Ha' by assumption.
    eapply Hinv; eassumption.
Qed.

(** X11: [Market.amm_points] mirrors [AMM.points].  After a committed buy
    or sell the market row of the traded market carries the reserve of its
    AMM row, and if every market was mirrored before the trade, every
    market is mirrored after it. *)
Theorem X11_amm_points_mirror (LEDGER_MODE : ledger_mode) (SYSTEM_IDS : nat * nat)
    (o : op) (db db' : Session) (out : TradeOut) :
  commit LEDGER_MODE SYSTEM_IDS o db = (Ok out, db') ->
  (forall mi ai m a,
     first_where (market_by_id (req_market_id (request_of o))) (markets db') = Some mi ->
     markets db' !! mi = Some m ->
     first_where (amm_by_market (req_market_id (request_of o))) (amms db') = Some ai ->
     amms db' !! ai = Some a ->
     MarketDB.amm_points m = AMMDB.points a)
  /\ (mirrored db -> mirrored db').
Proof.
  intros H.
  assert (Hall : forall market_id' mi' ai' m' a',
            first_where (market_by_id market_id') (markets db') = Some mi' ->
            markets db' !! mi' = Some m' ->
            first_where (amm_by_market market_id') (amms db') = Some ai' ->
            amms db' !! ai' = Some a' ->
            market_id' = req_market_id (request_of o) \/ mirrored db ->
            MarketDB.amm_points m' = AMMDB.points a').
  { destruct o as [r|r]; cbn [request_of]; unfold commit in H; apply transaction_Ok in H.
    - rewrite trade_buy_success in H. apply trade_buy_pure_inv in H
        as (ui & mi & ai & ci & pi_ & u & m & a & c & p & qty & cost & F).
      destruct F.
      eapply (mirrored_update db db' (req_market_id r) mi ai m _ a _);
        try eassumption; try reflexivity.
      apply buy_amm2_market.
    - rewrite trade_sell_success in H. apply trade_sell_pure_inv in H
        as (ui & mi & ai & ci & pi_ & u & m & a & c & p & qty & payout & F).
      destruct F.
      eapply (mirrored_update db db' (req_market_id r) mi ai m _ a _);
        try eassumption; try reflexivity.
      apply sell_amm2_market. }
  split.
  - intros mi ai m a Hmi Hm Hai Ha. eapply Hall; eauto.
  - intros Hinv mid mi ai m a Hmi Hm Hai Ha. eapply Hall; eauto.
Qed.

Lemma mirrored_db_alice : mirrored db_alice.
Proof.
  intros mid mi ai m a Hmi Hm Hai Ha. simpl in *.
  apply first_where_lt in Hmi, Hai. simpl in Hmi, Hai.
  destruct mi as [|mi]; [|lia]. destruct ai as [|ai]; [|lia].
  injection Hm as <-. injection Ha as <-. reflexivity.
Qed.

Lemma X11_amm_points_mirror_witness :
  exists out db',
    commit off (0%nat, 0%nat) (Buy ten_yes) db_alice = (Ok out, db')
    /\ (forall mi ai m a,
          first_where (market_by_id 1) (markets db') = Some mi ->
          markets db' !! mi = Some m ->
          first_where (amm_by_market 1) (amms db') = Some ai ->
          amms db' !! ai = Some a ->
          MarketDB.amm_points m = AMMDB.points a)
    /\ (mirrored db_alice -> mirrored db').
Proof.
  destruct (ten_yes_committed off (0%nat, 0%nat)) as (out1 & db1 & _ & _ & H1 & _).
  exists out1, db1. split; [exact H1|].
  apply (X11_amm_points_mirror off (0%nat, 0%nat) (Buy ten_yes) db_alice db1 out1 H1).
Defined.

(** ** What a trade writes *)

Lemma users_with_lookup (username : string) (us : list UserDB.t) (j : nat) (x : UserDB.t) :
  us !! j = Some x -> users_with username us !! j = Some x.
Proof.
  intros H. unfold users_with. destruct (first_where _ us); [assumption|].
  apply lookup_app_l_Some. assumption.
Qed.

Lemma positions_with_lookup (user_id market_id : nat) (ps : list PositionsDB.t) (j : nat)
    (x : PositionsDB.t) :
  ps !! j = Some x -> positions_with user_id market_id ps !! j = Some x.
Proof.
  intros H. unfold positions_with. destruct (first_where _ ps); [assumption|].
  apply lookup_app_l_Some. assumption.
Qed.

Lemma sell_pos_key (p : PositionsDB.t) (qty : float) (side : string) :
  PositionsDB.user_id (sell_pos p qty side) = PositionsDB.user_id p
  /\ PositionsDB.market_id (sell_pos p qty side) = PositionsDB.market_id p.
Proof. unfold sell_pos. destruct (String.eqb side "yes"); split; reflexivity. Qed.

Lemma buy_pos_ids (p : PositionsDB.t) (qty : float) (side : string) :
  PositionsDB.user_id (buy_pos p qty side) = PositionsDB.user_id p
  /\ PositionsDB.market_id (buy_pos p qty side) = PositionsDB.market_id p.
Proof. unfold buy_pos. destruct (String.eqb side "yes"); split; reflexivity. Qed.

Lemma position_key_ids (user_id market_id : nat) (p : PositionsDB.t) :
  position_by_key user_id market_id p = true ->
  PositionsDB.user_id p = user_id /\ PositionsDB.market_id p = market_id.
Proof.
  unfold position_by_key. intros H. apply andb_true_iff in H as [H1 H2].
  apply Nat.eqb_eq in H1, H2. auto.
Qed.

Lemma insert_elsewhere {A} (p : A -> bool) (l : list A) (i j : nat) (x y : A) :
  first_where p l = Some i -> l !! j = Some y -> p y = false -> <[i := x]> l !! j = Some y.
Proof.
  intros Hi Hj Hp. rewrite list_lookup_insert_ne; [assumption|].
  intros ->. apply first_where_Some in Hi as (z & Hz & Hpz). congruence.
Qed.

Section Frame.

Variable LEDGER_MODE : ledger_mode.
Variable SYSTEM_IDS : nat * nat.

Lemma commit_frame (o : op) (db db' : Session) (out : TradeOut) :
  commit LEDGER_MODE SYSTEM_IDS o db = (Ok out, db') ->
  exists ui u pi_ p,
    users db' !! ui = Some u /\ UserDB.username u = req_username (request_of o)
    /\ positions db' !! pi_ = Some p /\ PositionsDB.user_id p = UserDB.id u
    /\ PositionsDB.market_id p = req_market_id (request_of o)
    /\ untouched o ui pi_ db db'.
Proof.
  intros H. destruct o as [r|r]; unfold untouched; cbn [request_of];
    unfold commit in H; apply transaction_Ok in H.
  - rewrite trade_buy_success in H. apply trade_buy_pure_inv in H
      as (ui & mi & ai & ci & pi_ & u & m & a & c & p & qty & cost & F).
    destruct F.
    apply first_where_Some in bf_ui0 as Hu. destruct Hu as (u0 & Hu0 & Hname).
    rewrite bf_u0 in Hu0. injection Hu0 as <-.
    unfold by_username in Hname. apply String.eqb_eq in Hname.
    apply first_where_Some in bf_pi0 as Hp. destruct Hp as (p0 & Hp0 & Hkey).
    rewrite bf_p0 in Hp0. injection Hp0 as <-.
    apply position_key_ids in Hkey as [Hk1 Hk2].
    destruct (buy_pos_ids p qty (req_side r)) as [Hb1 Hb2].
    exists ui, (UserDB.set_points (fsub (UserDB.points u) cost) u), pi_,
      (buy_pos p qty (req_side r)).
    split; [rewrite bf_users0; apply list_lookup_insert_eq; eapply lookup_lt_Some; eauto|].
    split; [exact Hname|].
    split; [rewrite bf_positions0; apply list_lookup_insert_eq; eapply lookup_lt_Some; eauto|].
    split; [rewrite Hb1; exact Hk1|]. split; [rewrite Hb2; exact Hk2|].
    split; [|split; [|split; [|split]]].
    + intros j x Hne Hx. rewrite bf_users0, list_lookup_insert_ne by auto.
      apply users_with_lookup. exact Hx.
    + intros j x Hne Hx. rewrite bf_positions0, list_lookup_insert_ne by auto.
      apply positions_with_lookup. exact Hx.
    + intros j x Hx Hid. rewrite bf_markets0.
      eapply insert_elsewhere; [exact bf_mi0|exact Hx|].
      unfold market_by_id. apply Nat.eqb_neq. exact Hid.
    + intros j x Hx Hid. rewrite bf_amms0.
      eapply insert_elsewhere; [exact bf_ai0|exact Hx|].
      unfold amm_by_market. apply Nat.eqb_neq. exact Hid.
    + intros j x Hx Hid. rewrite bf_chs0.
      eapply insert_elsewhere; [exact bf_ci0|exact Hx|].
      unfold ch_by_market. apply Nat.eqb_neq. exact Hid.
  - rewrite trade_sell_success in H. apply trade_sell_pure_inv in H
      as (ui & mi & ai & ci & pi_ & u & m & a & c & p & qty & payout & F).
    destruct F.
    apply first_where_Some in sf_ui0 as Hu. destruct Hu as (u0 & Hu0 & Hname).
    rewrite sf_u0 in Hu0. injection Hu0 as <-.
    unfold by_username in Hname. apply String.eqb_eq in Hname.
    apply first_where_Some in sf_pi0 as Hp. destruct Hp as (p0 & Hp0 & Hkey).
    rewrite sf_p0 in Hp0. injection Hp0 as <-.
    apply position_key_ids in Hkey as [Hk1 Hk2].
    destruct (sell_pos_key p qty (req_side r)) as [Hb1 Hb2].
    exists ui, (UserDB.set_points (fadd (UserDB.points u) payout) u), pi_,
      (sell_pos p qty (req_side r)).
    split; [rewrite sf_users0; apply list_lookup_insert_eq; eapply lookup_lt_Some; eauto|].
    split; [exact Hname|].
    split; [rewrite sf_positions0; apply list_lookup_insert_eq; eapply lookup_lt_Some; eauto|].
    split; [rewrite Hb1; exact Hk1|]. split; [rewrite Hb2; exact Hk2|].
    split; [|split; [|split; [|split]]].
    + intros j x Hne Hx. rewrite sf_users0, list_lookup_insert_ne by auto. exact Hx.
    + intros j x Hne Hx. rewrite sf_positions0, list_lookup_insert_ne by auto. exact Hx.
    + intros j x Hx Hid. rewrite sf_markets0.
      eapply insert_elsewhere; [exact sf_mi0|exact Hx|].
      unfold market_by_id. apply Nat.eqb_neq. exact Hid.
    + intros j x Hx Hid. rewrite sf_amms0.
      eapply insert_elsewhere; [exact sf_ai0|exact Hx|].
      unfold amm_by_market. apply Nat.eqb_neq. exact Hid.
    + intros j x Hx Hid. rewrite sf_chs0.
      eapply insert_elsewhere; [exact sf_ci0|exact Hx|].
      unfold ch_by_market. apply Nat.eqb_neq. exact Hid.
Qed.

End Frame.

(** X12: a committed buy or sell writes one user row, which carries the
    trader's username, one position row, which is that user's position in
    the traded market, and rows of the traded market; every other user row
    and position row, and the market, AMM and clearing-house rows of every
    other market, are as they were. *)
Theorem X12_trade_touches_own_rows (LEDGER_MODE : ledger_mode) (SYSTEM_IDS : nat * nat)
    (o : op) (db db' : Session) (out : TradeOut) :
  commit LEDGER_MODE SYSTEM_IDS o db = (Ok out, db') ->
  exists ui u pi_ p,
    users db' !! ui = Some u /\ UserDB.username u = req_username (request_of o)
    /\ positions db' !! pi_ = Some p /\ PositionsDB.user_id p = UserDB.id u
    /\ PositionsDB.market_id p = req_market_id (request_of o)
    /\ untouched o ui pi_ db db'.
Proof. apply commit_frame. Qed.

Lemma X12_trade_touches_own_rows_witness :
  exists out db',
    commit off (0%nat, 0%nat) (Buy ten_yes) db_alice = (Ok out, db')
    /\ exists ui u pi_ p,
         users db' !! ui = Some u /\ UserDB.username u = "alice"
         /\ positions db' !! pi_ = Some p /\ PositionsDB.user_id p = UserDB.id u
         /\ PositionsDB.market_id p = 1%nat
         /\ untouched (Buy ten_yes) ui pi_ db_alice db'.
Proof.
  destruct (ten_yes_committed off (0%nat, 0%nat)) as (out & db' & _ & _ & H & _).
  exists out, db'. split; [exact H|].
  apply (X12_trade_touches_own_rows off (0%nat, 0%nat) (Buy ten_yes) db_alice db' out H).
Defined.

(** ** The ledger rows and the price a trade reports *)

Section Written.

Variable LEDGER_MODE : ledger_mode.
Variable SYSTEM_IDS : nat * nat.
Variable utcnow : nat.

Lemma trade_buy_pure_written username market_id quantity side budget_points is_visible
    s s' out ui mi ai ci pi_ u m a c p qty cost :
  buy_facts username market_id quantity side budget_points is_visible s s' out
    ui mi ai ci pi_ u m a c p qty cost ->
  trade_buy_pure LEDGER_MODE SYSTEM_IDS utcnow username market_id quantity side
    budget_points is_visible s = Some (out, s') ->
  ledger s' = buy_ledger LEDGER_MODE SYSTEM_IDS utcnow market_id (UserDB.id u) cost qty side
                (buy_delta (buy_amm1 a cost qty side) c) (ledger s)
  /\ exists yp,
       lmsr_yes_price (MarketDB.b m)
         (fneg (or0 (AMMDB.qYes (buy_amm2 (buy_amm1 a cost qty side) c))))
         (fneg (or0 (AMMDB.qNo (buy_amm2 (buy_amm1 a cost qty side) c)))) = Ok yp
       /\ new_price out = if String.eqb side "yes" then yp else fsub (Fin 1) yp.
Proof.
  intros F H. destruct F. unfold trade_buy_pure in H.
  rewrite bf_side0, bf_request0, bf_ui0, bf_mi0, bf_ai0, bf_ci0 in H.
  cbn [negb mbind option_bind] in H. rewrite bf_u0, bf_m0, bf_a0, bf_c0 in H.
  cbn [mbind option_bind] in H. rewrite bf_open0, bf_visible0, bf_pi0 in H.
  cbn [mbind option_bind] in H. rewrite bf_p0 in H. cbn [mbind option_bind] in H.
  rewrite bf_qty0, bf_cost0, bf_finite0, bf_funds0, bf_collateral0 in H.
  cbn [negb] in H.
  destruct (lmsr_yes_price _ _ _) as [yp|]; [|discriminate].
  injection H as <- <-. split; [reflexivity|]. exists yp. split; reflexivity.
Qed.

Lemma trade_sell_pure_written username market_id quantity side budget_points is_visible
    s s' out ui mi ai ci pi_ u m a c p qty payout :
  sell_facts username market_id quantity side budget_points is_visible s s' out
    ui mi ai ci pi_ u m a c p qty payout ->
  trade_sell_pure LEDGER_MODE SYSTEM_IDS utcnow username market_id quantity side
    budget_points is_visible s = Some (out, s') ->
  ledger s' = sell_ledger LEDGER_MODE SYSTEM_IDS utcnow market_id (UserDB.id u) payout qty
                side (sell_delta (sell_amm1 a payout qty side) c) (ledger s)
  /\ exists yp,
       lmsr_yes_price (MarketDB.b m)
         (fneg (or0 (AMMDB.qYes (sell_amm2 (sell_amm1 a payout qty side) c))))
         (fneg (or0 (AMMDB.qNo (sell_amm2 (sell_amm1 a payout qty side) c)))) = Ok yp
       /\ isfinite yp = true
       /\ new_price out = if String.eqb side "yes" then yp else fsub (Fin 1) yp.
Proof.
  intros F H. destruct F. unfold trade_sell_pure in H.
  rewrite sf_side0, sf_request0, sf_ui0, sf_mi0, sf_ai0, sf_ci0 in H.
  cbn [negb mbind option_bind] in H. rewrite sf_u0, sf_m0, sf_a0, sf_c0 in H.
  cbn [mbind option_bind] in H. rewrite sf_open0, sf_visible0, sf_pi0 in H.
  cbn [mbind option_bind] in H. rewrite sf_p0 in H. cbn [mbind option_bind] in H.
  rewrite sf_qty0, sf_held0, sf_positive0 in H.
  destruct sf_cost0 as (c0 & Hc0 & ->).
  rewrite Hc0, sf_finite0, sf_reserve0, sf_collateral0 in H. cbn [negb] in H.
  destruct (lmsr_yes_price _ _ _) as [yp|]; [|discriminate].
  destruct (isfinite yp) eqn:Hyp; cbn [negb] in H; [|discriminate].
  injection H as <- <-. split; [reflexivity|]. exists yp.
  split; [reflexivity|]. split; [exact Hyp|reflexivity].
Qed.

End Written.

Lemma val_fneg (x : float) : val (fneg x) = - val x.
Proof. unfold fneg. destruct x; simpl; lra. Qed.

Lemma ledger_total_app (l1 l2 : list LedgerDB.t) :
  ledger_total (l1 ++ l2) = ledger_total l1 + ledger_total l2.
Proof. unfold ledger_total. rewrite fmap_app, sumR_app. reflexivity. Qed.

(** X13: the ledger rows of a committed trade.  With [LEDGER_MODE] off the
    ledger is not written.  Otherwise the trade appends, first, one row for
    the trader: the market, the time of the call, the reason, the signed
    amount of points (minus the cost for a buy, plus the payout for a
    sell), the side and the quantity traded.  In light mode this is the
    only row; in full mode it is followed by one or three rows of the two
    system users, and the [delta]s of all the rows appended add up to 0. *)
Theorem X13_ledger_rows (LEDGER_MODE : ledger_mode) (SYSTEM_IDS : nat * nat)
    (o : op) (db db' : Session) (out : TradeOut) :
  commit LEDGER_MODE SYSTEM_IDS o db = (Ok out, db') ->
  exists rows ui u,
    ledger db' = ledger db ++ rows
    /\ users db' !! ui = Some u /\ UserDB.username u = req_username (request_of o)
    /\ match LEDGER_MODE with
       | off => rows = []
       | light => exists row, rows = [row] /\ user_row o out (UserDB.id u) row
       | full =>
           exists row rest,
             rows = row :: rest /\ user_row o out (UserDB.id u) row
             /\ (length rest = 1 \/ length rest = 3)%nat
             /\ Forall (fun r => LedgerDB.user_id r = SYSTEM_IDS.1
                                 \/ LedgerDB.user_id r = SYSTEM_IDS.2) rest
             /\ ledger_total rows = 0
       end.
Proof.
  intros H. destruct o as [r|r]; unfold user_row; cbn [request_of];
    unfold commit in H; apply transaction_Ok in H.
  - rewrite trade_buy_success in H. pose proof H as H0. apply trade_buy_pure_inv in H0
      as (ui & mi & ai & ci & pi_ & u & m & a & c & p & qty & cost & F).
    destruct (trade_buy_pure_written LEDGER_MODE SYSTEM_IDS _ _ _ _ _ _ _ _ _ _ _ _ _ _ _ _ _ _ _ _ _ _ F H)
      as [Hl _].
    destruct F.
    apply first_where_Some in bf_ui0 as Hu. destruct Hu as (u0 & Hu0 & Hname).
    rewrite bf_u0 in Hu0. injection Hu0 as <-.
    unfold by_username in Hname. apply String.eqb_eq in Hname.
    assert (Hrow : users db' !! ui
                   = Some (UserDB.set_points (fsub (UserDB.points u) cost) u))
      by (rewrite bf_users0; apply list_lookup_insert_eq; eapply lookup_lt_Some; eauto).
    rewrite bf_order_cost0, bf_quantity0. rewrite Hl. unfold buy_ledger, push_ledger.
    destruct LEDGER_MODE.
    + eexists [], ui, _. rewrite app_nil_r. repeat split; [exact Hrow|exact Hname].
    + eexists [_], ui, _. split; [reflexivity|]. split; [exact Hrow|]. split; [exact Hname|].
      eexists. split; [reflexivity|]. repeat split.
    + destruct (fgt _ (Fin 0)).
      * eexists [_; _; _; _], ui, _. split; [rewrite <- !app_assoc; reflexivity|].
        split; [exact Hrow|]. split; [exact Hname|].
        eexists _, _. split; [reflexivity|]. split; [repeat split|].
        split; [right; reflexivity|]. split; [repeat (apply Forall_cons; split; [simpl; auto|]); constructor|].
        unfold ledger_total, sumR. cbn [fmap list_fmap foldr LedgerDB.delta].
        rewrite !val_fneg. lra.
      * eexists [_; _], ui, _. split; [rewrite <- !app_assoc; reflexivity|].
        split; [exact Hrow|]. split; [exact Hname|].
        eexists _, _. split; [reflexivity|]. split; [repeat split|].
        split; [left; reflexivity|]. split; [repeat (apply Forall_cons; split; [simpl; auto|]); constructor|].
        unfold ledger_total, sumR. cbn [fmap list_fmap foldr LedgerDB.delta].
        rewrite !val_fneg. lra.
  - rewrite trade_sell_success in H. pose proof H as H0. apply trade_sell_pure_inv in H0
      as (ui & mi & ai & ci & pi_ & u & m & a & c & p & qty & payout & F).
    destruct (trade_sell_pure_written LEDGER_MODE SYSTEM_IDS _ _ _ _ _ _ _ _ _ _ _ _ _ _ _ _ _ _ _ _ _ _ F H)
      as [Hl _].
    destruct F.
    apply first_where_Some in sf_ui0 as Hu. destruct Hu as (u0 & Hu0 & Hname).
    rewrite sf_u0 in Hu0. injection Hu0 as <-.
    unfold by_username in Hname. apply String.eqb_eq in Hname.
    assert (Hrow : users db' !! ui
                   = Some (UserDB.set_points (fadd (UserDB.points u) payout) u))
      by (rewrite sf_users0; apply list_lookup_insert_eq; eapply lookup_lt_Some; eauto).
    rewrite sf_order_cost0, sf_quantity0. rewrite Hl. unfold sell_ledger, push_ledger.
    destruct LEDGER_MODE.
    + eexists [], ui, _. rewrite app_nil_r. repeat split; [exact Hrow|exact Hname].
    + eexists [_], ui, _. split; [reflexivity|]. split; [exact Hrow|]. split; [exact Hname|].
      eexists. split; [reflexivity|]. repeat split.
    + destruct (fgt _ (Fin 0)).
      * eexists [_; _; _; _], ui, _. split; [rewrite <- !app_assoc; reflexivity|].
        split; [exact Hrow|]. split; [exact Hname|].
        eexists _, _. split; [reflexivity|]. split; [repeat split|].
        split; [right; reflexivity|]. split; [repeat (apply Forall_cons; split; [simpl; auto|]); constructor|].
        unfold ledger_total, sumR. cbn [fmap list_fmap foldr LedgerDB.delta].
        rewrite !val_fneg. lra.
      * eexists [_; _], ui, _. split; [rewrite <- !app_assoc; reflexivity|].
        split; [exact Hrow|]. split; [exact Hname|].
        eexists _, _. split; [reflexivity|]. split; [repeat split|].
        split; [left; reflexivity|]. split; [repeat (apply Forall_cons; split; [simpl; auto|]); constructor|].
        unfold ledger_total, sumR. cbn [fmap list_fmap foldr LedgerDB.delta].
        rewrite !val_fneg. lra.
Qed.

(** Alice's buy of ten YES contracts with the full ledger, the system
    users having the ids 5 and 6. *)
Lemma X13_ledger_rows_witness :
  exists out db' rows ui u,
    commit full (5%nat, 6%nat) (Buy ten_yes) db_alice = (Ok out, db')
    /\ ledger db' = ledger db_alice ++ rows
    /\ users db' !! ui = Some u /\ UserDB.username u = "alice"
    /\ exists row rest,
         rows = row :: rest /\ user_row (Buy ten_yes) out (UserDB.id u) row
         /\ (length rest = 1 \/ length rest = 3)%nat
         /\ Forall (fun r => LedgerDB.user_id r = 5%nat \/ LedgerDB.user_id r = 6%nat) rest
         /\ ledger_total rows = 0.
Proof.
  destruct (ten_yes_committed full (5%nat, 6%nat)) as (out & db' & _ & _ & H & _).
  destruct (X13_ledger_rows full (5%nat, 6%nat) (Buy ten_yes) db_alice db' out H)
    as (rows & ui & u & Hrest).
  exists out, db', rows, ui, u. split; [exact H|exact Hrest].
Defined.

(** ** The price a trade reports *)

Lemma sell_ch_market (a1 : AMMDB.t) (c : ClearingHouseDB.t) :
  ClearingHouseDB.market_id (sell_ch a1 c) = ClearingHouseDB.market_id c.
Proof. unfold sell_ch. destruct (fgt _ _); reflexivity. Qed.

Lemma sell_facts_after username market_id quantity side budget_points is_visible
    s s' out ui mi ai ci pi_ u m a c p qty payout :
  sell_facts username market_id quantity side budget_points is_visible s s' out
    ui mi ai ci pi_ u m a c p qty payout ->
  (first_where (market_by_id market_id) (markets s') = Some mi
   /\ markets s' !! mi
      = Some (MarketDB.set_amm_points
                (AMMDB.points (sell_amm2 (sell_amm1 a payout qty side) c)) m))
  /\ (first_where (amm_by_market market_id) (amms s') = Some ai
      /\ amms s' !! ai = Some (sell_amm2 (sell_amm1 a payout qty side) c))
  /\ (first_where (ch_by_market market_id) (chs s') = Some ci
      /\ chs s' !! ci = Some (sell_ch (sell_amm1 a payout qty side) c)).
Proof.
  intros F. destruct F. rewrite sf_markets0, sf_amms0, sf_chs0.
  split; [|split].
  - eapply lookup_after_insert; [eassumption|eassumption|reflexivity].
  - eapply lookup_after_insert; [eassumption|eassumption|].
    unfold amm_by_market. rewrite sell_amm2_market. reflexivity.
  - eapply lookup_after_insert; [eassumption|eassumption|].
    unfold ch_by_market. rewrite sell_ch_market. reflexivity.
Qed.

(** ** Contracts are conserved *)

Lemma held_positions_with (user_id market_id market_id' : nat) (ps : list PositionsDB.t) :
  held_yes market_id' (positions_with user_id market_id ps) = held_yes market_id' ps
  /\ held_no market_id' (positions_with user_id market_id ps) = held_no market_id' ps.
Proof.
  unfold positions_with, held_yes, held_no. destruct (first_where _ ps); [auto|].
  rewrite !fmap_app, !sumR_app. cbn. destruct (Nat.eqb market_id market_id'); split; lra.
Qed.

Lemma balanced_update (s s' : Session) (market_id ai pi_ : nat) (a a2 : AMMDB.t)
    (ps1 : list PositionsDB.t) (p p2 : PositionsDB.t) :
  balanced s ->
  first_where (amm_by_market market_id) (amms s) = Some ai -> amms s !! ai = Some a ->
  amms s' = <[ai := a2]> (amms s) -> AMMDB.market_id a2 = AMMDB.market_id a ->
  positions s' = <[pi_ := p2]> ps1 -> ps1 !! pi_ = Some p ->
  PositionsDB.market_id p = market_id -> PositionsDB.market_id p2 = market_id ->
  (forall mid, held_yes mid ps1 = held_yes mid (positions s)
               /\ held_no mid ps1 = held_no mid (positions s)) ->
  val (AMMDB.qYes a2) + val (PositionsDB.qYes p2)
  = val (AMMDB.qYes a) + val (PositionsDB.qYes p) ->
  val (AMMDB.qNo a2) + val (PositionsDB.qNo p2)
  = val (AMMDB.qNo a) + val (PositionsDB.qNo p) ->
  balanced s'.
Proof.
  intros Hinv Hai Ha Hamms Hma Hpos Hp Hpm Hp2m Hps1 Hy Hn mid' ai' a' Hai' Ha'.
  rewrite Hamms in Hai', Ha'.
  rewrite (first_where_insert_same _ _ _ a a2 Ha) in Hai'
    by (unfold amm_by_market; rewrite Hma; reflexivity).
  rewrite Hpos. unfold held_yes, held_no.
  rewrite !(sumR_insert _ ps1 pi_ p2 p Hp). fold (held_yes mid' ps1) (held_no mid' ps1).
  destruct (Hps1 mid') as [-> ->]. rewrite Hpm, Hp2m.
  destruct (decide (mid' = market_id)) as [->|Hne].
  - rewrite Hai in Hai'. injection Hai' as <-.
    rewrite list_lookup_insert_eq in Ha' by (eapply lookup_lt_Some; eauto).
    injection Ha' as <-. rewrite Nat.eqb_refl.
    destruct (Hinv market_id ai a Hai Ha) as [H1 H2]. split; lra.
  - apply first_where_Some in Hai as Hx. destruct Hx as (a0 & Ha0 & Hq0).
    rewrite Ha in Ha0. injection Ha0 as <-.
    apply first_where_Some in Hai' as Hy'. destruct Hy' as (ax & Hax & Hqx).
    unfold amm_by_market in Hq0, Hqx. apply Nat.eqb_eq in Hq0, Hqx.
    assert (ai <> ai') by (intros ->; congruence).
    rewrite list_lookup_insert_ne in Ha' by assumption.
    destruct (Hinv mid' ai' a' Hai' Ha') as [H1 H2].
    assert (E : Nat.eqb market_id mid' = false) by (apply Nat.eqb_neq; auto).
    rewrite E. split; lra.
Qed.

Section Balanced.

Variable LEDGER_MODE : ledger_mode.
Variable SYSTEM_IDS : nat * nat.

Lemma buy_keeps_balanced utcnow username market_id quantity side budget_points is_visible
    (s s' : Session) (out : TradeOut) :
  wf s -> balanced s ->
  fgt quantity (Fin 0) = true \/ has_budget budget_points = true ->
  trade_buy_pure LEDGER_MODE SYSTEM_IDS utcnow username market_id quantity side
    budget_points is_visible s = Some (out, s') ->
  wf s' /\ balanced s'.
Proof.
  intros [Wu Wm Wa Wc Wp] Hinv Hvalid H.
  apply trade_buy_pure_inv in H
    as (ui & mi & ai & ci & pi_ & u & m & a & c & p & qty & cost & F).
  destruct F.
  pose proof (users_with_finite username _ Wu) as Wu1.
  pose proof (positions_with_finite (UserDB.id u) market_id _ Wp) as Wp1.
  destruct (isfinite_Fin _ (Forall_lookup_1 _ _ _ _ Wu1 bf_u0)) as [pu Hpu].
  destruct (Forall_lookup_1 _ _ _ _ Wm bf_m0) as (rb & Hb & Hrb).
  destruct (Forall_lookup_1 _ _ _ _ Wa bf_a0) as (Hpa & Hay & Han).
  apply isfinite_Fin in Hpa as [pa Hpa]. apply isfinite_Fin in Hay as [ay Hay].
  apply isfinite_Fin in Han as [an Han].
  destruct (isfinite_Fin _ (Forall_lookup_1 _ _ _ _ Wc bf_c0)) as [pc Hpc].
  destruct (Forall_lookup_1 _ _ _ _ Wp1 bf_p0) as (Hpy & Hpn).
  apply isfinite_Fin in Hpy as [py Hpy]. apply isfinite_Fin in Hpn as [pn Hpn].
  destruct (isfinite_Fin _ bf_finite0) as [cst ->].
  destruct (buy_qty_Fin m a quantity side budget_points rb ay an qty (Fin cst)
              Hb Hrb Hay Han Hvalid bf_qty0 bf_cost0 eq_refl) as (q & -> & Hq).
  destruct (buy_rows_Fin a c side pa ay an pc cst q Hpa Hay Han Hpc) as (Ea & Ec & _).
  apply first_where_Some in bf_pi0 as Hkey. destruct Hkey as (p0 & Hp0 & Hkey).
  rewrite bf_p0 in Hp0. injection Hp0 as <-.
  apply position_key_ids in Hkey as [_ Hpm].
  split.
  - split.
    + rewrite bf_users0. apply Forall_insert; [assumption|].
      simpl. rewrite Hpu. reflexivity.
    + rewrite bf_markets0. apply Forall_insert; [assumption|]. simpl. eauto.
    + rewrite bf_amms0, Ea. apply Forall_insert; [assumption|]. simpl. auto.
    + rewrite bf_chs0, Ec. apply Forall_insert; [assumption|]. reflexivity.
    + rewrite bf_positions0. apply Forall_insert; [assumption|].
      unfold buy_pos. destruct (String.eqb side "yes"); simpl;
        rewrite ?Hpy, ?Hpn, ?or0_id; auto.
  - eapply (balanced_update s s' market_id ai pi_ a _ _ p _ Hinv);
      try eassumption.
    + rewrite Ea. reflexivity.
    + destruct (buy_pos_ids p (Fin q) side) as [_ ->]. exact Hpm.
    + intros mid. apply held_positions_with.
    + rewrite Ea, Hay, Hpy. unfold buy_pos, inv_yes.
      destruct (String.eqb side "yes"); simpl; rewrite ?Hpy, ?or0_id; simpl; lra.
    + rewrite Ea, Han, Hpn. unfold buy_pos, inv_no.
      destruct (String.eqb side "yes"); simpl; rewrite ?Hpn, ?or0_id; simpl; lra.
Qed.

Lemma sell_keeps_balanced utcnow username market_id quantity side budget_points is_visible
    (s s' : Session) (out : TradeOut) :
  wf s -> balanced s ->
  trade_sell_pure LEDGER_MODE SYSTEM_IDS utcnow username market_id quantity side
    budget_points is_visible s = Some (out, s') ->
  wf s' /\ balanced s'.
Proof.
  intros [Wu Wm Wa Wc Wp] Hinv H.
  apply trade_sell_pure_inv in H
    as (ui & mi & ai & ci & pi_ & u & m & a & c & p & qty & payout & F).
  destruct F.
  destruct (isfinite_Fin _ (Forall_lookup_1 _ _ _ _ Wu sf_u0)) as [pu Hpu].
  destruct (Forall_lookup_1 _ _ _ _ Wm sf_m0) as (rb & Hb & Hrb).
  destruct (Forall_lookup_1 _ _ _ _ Wa sf_a0) as (Hpa & Hay & Han).
  apply isfinite_Fin in Hpa as [pa Hpa]. apply isfinite_Fin in Hay as [ay Hay].
  apply isfinite_Fin in Han as [an Han].
  destruct (isfinite_Fin _ (Forall_lookup_1 _ _ _ _ Wc sf_c0)) as [pc Hpc].
  destruct (Forall_lookup_1 _ _ _ _ Wp sf_p0) as (Hpy & Hpn).
  destruct sf_cost0 as (c0 & Hcost & ->).
  rewrite Hb, Hay, Han, !or0_id in Hcost. unfold fneg in Hcost at 1 2.
  destruct (sell_qty_Fin p side rb (- ay) (- an) qty c0 Hrb sf_side0 Hpy Hpn
              sf_held0 sf_positive0 Hcost sf_finite0) as (q & -> & Hq).
  destruct (isfinite_Fin _ sf_finite0) as [pay Epay]. rewrite Epay in *.
  apply isfinite_Fin in Hpy as [py Hpy]. apply isfinite_Fin in Hpn as [pn Hpn].
  destruct (sell_rows_Fin a c side pa ay an pc pay q Hpa Hay Han Hpc) as (Ea & Ec & _).
  apply first_where_Some in sf_pi0 as Hkey. destruct Hkey as (p0 & Hp0 & Hkey).
  rewrite sf_p0 in Hp0. injection Hp0 as <-.
  apply position_key_ids in Hkey as [_ Hpm].
  split.
  - split.
    + rewrite sf_users0. apply Forall_insert; [assumption|].
      simpl. rewrite Hpu. reflexivity.
    + rewrite sf_markets0. apply Forall_insert; [assumption|]. simpl. eauto.
    + rewrite sf_amms0, Ea. apply Forall_insert; [assumption|]. simpl. auto.
    + rewrite sf_chs0, Ec. apply Forall_insert; [assumption|]. reflexivity.
    + rewrite sf_positions0. apply Forall_insert; [assumption|].
      unfold sell_pos. destruct (String.eqb side "yes"); simpl;
        rewrite ?Hpy, ?Hpn, ?or0_id; auto.
  - eapply (balanced_update s s' market_id ai pi_ a _ _ p _ Hinv);
      try eassumption.
    + rewrite Ea. reflexivity.
    + destruct (sell_pos_key p (Fin q) side) as [_ ->]. exact Hpm.
    + intros mid. auto.
    + rewrite Ea, Hay, Hpy. unfold sell_pos, inv_yes.
      destruct (String.eqb side "yes"); simpl; rewrite ?Hpy, ?or0_id; simpl; lra.
    + rewrite Ea, Han, Hpn. unfold sell_pos, inv_no.
      destruct (String.eqb side "yes"); simpl; rewrite ?Hpn, ?or0_id; simpl; lra.
Qed.

Lemma commit_keeps_balanced (o : op) (db db' : Session) (out : TradeOut) :
  wf db -> balanced db -> valid_op o ->
  commit LEDGER_MODE SYSTEM_IDS o db = (Ok out, db') ->
  wf db' /\ balanced db'.
Proof.
  intros Hwf Hs Hvalid H. destruct o as [r|r]; unfold commit in H; apply transaction_Ok in H.
  - rewrite trade_buy_success in H. eapply buy_keeps_balanced; eassumption.
  - rewrite trade_sell_success in H. eapply sell_keeps_balanced; eassumption.
Qed.

End Balanced.

Lemma balanced_db_alice : balanced db_alice.
Proof.
  intros mid ai a Hai Ha. simpl in *.
  apply first_where_lt in Hai. simpl in Hai. destruct ai as [|ai]; [|lia].
  injection Ha as <-. unfold held_yes, held_no. simpl. split; lra.
Qed.

(** ** Trading keeps the schema's constraints *)

Lemma fmap_insert_same {A B} (f : A -> B) (l : list A) (i : nat) (x y : A) :
  l !! i = Some y -> f x = f y -> f <$> <[i := x]> l = f <$> l.
Proof.
  intros Hl Hf. rewrite list_fmap_insert, Hf. apply list_insert_id.
  rewrite list_lookup_fmap, Hl. reflexivity.
Qed.

Lemma users_with_NoDup (username : string) (us : list UserDB.t) :
  NoDup (UserDB.id <$> us) -> NoDup (UserDB.id <$> users_with username us).
Proof.
  intros H. unfold users_with. destruct (first_where _ us); [assumption|].
  rewrite fmap_app. apply NoDup_app. split; [assumption|]. split.
  - intros x Hx Hin. apply list_elem_of_singleton in Hin. subst x. simpl in Hx.
    apply max_list_elem_of_le in Hx. unfold fresh_id in Hx. lia.
  - apply NoDup_singleton.
Qed.

Lemma positions_with_NoDup (user_id market_id : nat) (ps : list PositionsDB.t) :
  NoDup ((fun p => (PositionsDB.user_id p, PositionsDB.market_id p)) <$> ps) ->
  NoDup ((fun p => (PositionsDB.user_id p, PositionsDB.market_id p))
           <$> positions_with user_id market_id ps).
Proof.
  intros H. unfold positions_with.
  destruct (first_where _ ps) eqn:Hnone; [assumption|].
  rewrite fmap_app. apply NoDup_app. split; [assumption|]. split.
  - intros x Hx Hin. apply list_elem_of_singleton in Hin. subst x. simpl in Hx.
    apply list_elem_of_fmap in Hx as (p & Hkey & Hp).
    apply first_where_None in Hnone. rewrite Forall_forall in Hnone.
    specialize (Hnone p Hp). unfold position_by_key in Hnone.
    injection Hkey as E1 E2. rewrite <- E1, <- E2, !Nat.eqb_refl in Hnone. discriminate.
  - apply NoDup_singleton.
Qed.

Lemma positions_with_holdings (user_id market_id : nat) (ps : list PositionsDB.t) :
  Forall (fun p => (exists y, PositionsDB.qYes p = Fin y /\ 0 <= y)
                   /\ (exists n, PositionsDB.qNo p = Fin n /\ 0 <= n)) ps ->
  Forall (fun p => (exists y, PositionsDB.qYes p = Fin y /\ 0 <= y)
                   /\ (exists n, PositionsDB.qNo p = Fin n /\ 0 <= n))
         (positions_with user_id market_id ps).
Proof.
  intros H. unfold positions_with. destruct (first_where _ ps); [assumption|].
  apply Forall_app. split; [assumption|].
  constructor; [|constructor]. simpl. split; exists 0; (split; [reflexivity|lra]).
Qed.

Section Constraints.

Variable LEDGER_MODE : ledger_mode.
Variable SYSTEM_IDS : nat * nat.

Lemma buy_keeps_ready utcnow username market_id quantity side budget_points is_visible
    (s s' : Session) (out : TradeOut) :
  wf s -> settle_ready s ->
  fgt quantity (Fin 0) = true \/ has_budget budget_points = true ->
  trade_buy_pure LEDGER_MODE SYSTEM_IDS utcnow username market_id quantity side
    budget_points is_visible s = Some (out, s') ->
  settle_ready s'.
Proof.
  intros [Wu Wm Wa Wc Wp] [Ru Rp Rh] Hvalid H.
  apply trade_buy_pure_inv in H
    as (ui & mi & ai & ci & pi_ & u & m & a & c & p & qty & cost & F).
  destruct F.
  destruct (Forall_lookup_1 _ _ _ _ Wm bf_m0) as (rb & Hb & Hrb).
  destruct (Forall_lookup_1 _ _ _ _ Wa bf_a0) as (_ & Hay & Han).
  apply isfinite_Fin in Hay as [ay Hay]. apply isfinite_Fin in Han as [an Han].
  destruct (isfinite_Fin _ bf_finite0) as [cst ->].
  destruct (buy_qty_Fin m a quantity side budget_points rb ay an qty (Fin cst)
              Hb Hrb Hay Han Hvalid bf_qty0 bf_cost0 eq_refl) as (q & -> & Hq).
  pose proof (positions_with_holdings (UserDB.id u) market_id _ Rh) as Rh1.
  destruct (Forall_lookup_1 _ _ _ _ Rh1 bf_p0) as ((py & Hpy & Hpy0) & (pn & Hpn & Hpn0)).
  split.
  - rewrite bf_users0. erewrite fmap_insert_same; [|exact bf_u0|reflexivity].
    apply users_with_NoDup. exact Ru.
  - rewrite bf_positions0. erewrite fmap_insert_same; [|exact bf_p0|].
    + apply positions_with_NoDup. exact Rp.
    + cbv beta. destruct (buy_pos_ids p (Fin q) side) as [-> ->]. reflexivity.
  - rewrite bf_positions0. apply Forall_insert; [exact Rh1|].
    unfold buy_pos. destruct (String.eqb side "yes"); simpl;
      rewrite ?Hpy, ?Hpn, ?or0_id; unfold fadd; split; eexists;
      (split; [reflexivity|lra]).
Qed.

Lemma sell_keeps_ready utcnow username market_id quantity side budget_points is_visible
    (s s' : Session) (out : TradeOut) :
  wf s -> settle_ready s ->
  trade_sell_pure LEDGER_MODE SYSTEM_IDS utcnow username market_id quantity side
    budget_points is_visible s = Some (out, s') ->
  settle_ready s'.
Proof.
  intros [Wu Wm Wa Wc Wp] [Ru Rp Rh] H.
  apply trade_sell_pure_inv in H
    as (ui & mi & ai & ci & pi_ & u & m & a & c & p & qty & payout & F).
  destruct F.
  destruct (Forall_lookup_1 _ _ _ _ Wm sf_m0) as (rb & Hb & Hrb).
  destruct (Forall_lookup_1 _ _ _ _ Wa sf_a0) as (_ & Hay & Han).
  apply isfinite_Fin in Hay as [ay Hay]. apply isfinite_Fin in Han as [an Han].
  destruct (Forall_lookup_1 _ _ _ _ Wp sf_p0) as (Hfy & Hfn).
  destruct sf_cost0 as (c0 & Hcost & ->).
  rewrite Hb, Hay, Han, !or0_id in Hcost. unfold fneg in Hcost at 1 2.
  destruct (sell_qty_Fin p side rb (- ay) (- an) qty c0 Hrb sf_side0 Hfy Hfn
              sf_held0 sf_positive0 Hcost sf_finite0) as (q & -> & Hq).
  destruct (Forall_lookup_1 _ _ _ _ Rh sf_p0) as ((py & Hpy & Hpy0) & (pn & Hpn & Hpn0)).
  unfold short in sf_held0. rewrite Hpy, Hpn, !or0_id in sf_held0.
  apply orb_false_iff in sf_held0 as [Hs1 Hs2].
  split.
  - rewrite sf_users0. erewrite fmap_insert_same; [exact Ru|exact sf_u0|reflexivity].
  - rewrite sf_positions0. erewrite fmap_insert_same; [exact Rp|exact sf_p0|].
    cbv beta. destruct (sell_pos_key p (Fin q) side) as [-> ->]. reflexivity.
  - rewrite sf_positions0. apply Forall_insert; [exact Rh|].
    unfold sell_pos. destruct (side_ok_cases side sf_side0) as [-> | ->].
    + change (String.eqb "yes" "yes") with true in *. cbn [andb] in Hs1. cbv iota.
      unfold flt in Hs1. apply bool_decide_eq_false_1 in Hs1.
      simpl. rewrite Hpy, Hpn, or0_id. unfold fsub, fneg, fadd.
      split; eexists; (split; [reflexivity|lra]).
    + change (String.eqb "no" "yes") with false in *.
      change (String.eqb "no" "no") with true in *. cbn [andb] in Hs2. cbv iota.
      unfold flt in Hs2. apply bool_decide_eq_false_1 in Hs2.
      simpl. rewrite Hpy, Hpn, or0_id. unfold fsub, fneg, fadd.
      split; eexists; (split; [reflexivity|lra]).
Qed.

Lemma buy_keeps_wf utcnow username market_id quantity side budget_points is_visible
    (s s' : Session) (out : TradeOut) :
  wf s -> fgt quantity (Fin 0) = true \/ has_budget budget_points = true ->
  trade_buy_pure LEDGER_MODE SYSTEM_IDS utcnow username market_id quantity side
    budget_points is_visible s = Some (out, s') ->
  wf s'.
Proof.
  intros [Wu Wm Wa Wc Wp] Hvalid H.
  apply trade_buy_pure_inv in H
    as (ui & mi & ai & ci & pi_ & u & m & a & c & p & qty & cost & F).
  destruct F.
  pose proof (users_with_finite username _ Wu) as Wu1.
  pose proof (positions_with_finite (UserDB.id u) market_id _ Wp) as Wp1.
  destruct (isfinite_Fin _ (Forall_lookup_1 _ _ _ _ Wu1 bf_u0)) as [pu Hpu].
  destruct (Forall_lookup_1 _ _ _ _ Wm bf_m0) as (rb & Hb & Hrb).
  destruct (Forall_lookup_1 _ _ _ _ Wa bf_a0) as (Hpa & Hay & Han).
  apply isfinite_Fin in Hpa as [pa Hpa]. apply isfinite_Fin in Hay as [ay Hay].
  apply isfinite_Fin in Han as [an Han].
  destruct (isfinite_Fin _ (Forall_lookup_1 _ _ _ _ Wc bf_c0)) as [pc Hpc].
  destruct (Forall_lookup_1 _ _ _ _ Wp1 bf_p0) as (Hpy & Hpn).
  apply isfinite_Fin in Hpy as [py Hpy]. apply isfinite_Fin in Hpn as [pn Hpn].
  destruct (isfinite_Fin _ bf_finite0) as [cst ->].
  destruct (buy_qty_Fin m a quantity side budget_points rb ay an qty (Fin cst)
              Hb Hrb Hay Han Hvalid bf_qty0 bf_cost0 eq_refl) as (q & -> & Hq).
  destruct (buy_rows_Fin a c side pa ay an pc cst q Hpa Hay Han Hpc) as (Ea & Ec & _).
  split.
  - rewrite bf_users0. apply Forall_insert; [assumption|].
    simpl. rewrite Hpu. reflexivity.
  - rewrite bf_markets0. apply Forall_insert; [assumption|]. simpl. eauto.
  - rewrite bf_amms0, Ea. apply Forall_insert; [assumption|]. simpl. auto.
  - rewrite bf_chs0, Ec. apply Forall_insert; [assumption|]. reflexivity.
  - rewrite bf_positions0. apply Forall_insert; [assumption|].
    unfold buy_pos. destruct (String.eqb side "yes"); simpl;
      rewrite ?Hpy, ?Hpn, ?or0_id; auto.
Qed.

Lemma sell_keeps_wf utcnow username market_id quantity side budget_points is_visible
    (s s' : Session) (out : TradeOut) :
  wf s ->
  trade_sell_pure LEDGER_MODE SYSTEM_IDS utcnow username market_id quantity side
    budget_points is_visible s = Some (out, s') ->
  wf s'.
Proof.
  intros [Wu Wm Wa Wc Wp] H.
  apply trade_sell_pure_inv in H
    as (ui & mi & ai & ci & pi_ & u & m & a & c & p & qty & payout & F).
  destruct F.
  destruct (isfinite_Fin _ (Forall_lookup_1 _ _ _ _ Wu sf_u0)) as [pu Hpu].
  destruct (Forall_lookup_1 _ _ _ _ Wm sf_m0) as (rb & Hb & Hrb).
  destruct (Forall_lookup_1 _ _ _ _ Wa sf_a0) as (Hpa & Hay & Han).
  apply isfinite_Fin in Hpa as [pa Hpa]. apply isfinite_Fin in Hay as [ay Hay].
  apply isfinite_Fin in Han as [an Han].
  destruct (isfinite_Fin _ (Forall_lookup_1 _ _ _ _ Wc sf_c0)) as [pc Hpc].
  destruct (Forall_lookup_1 _ _ _ _ Wp sf_p0) as (Hpy & Hpn).
  destruct sf_cost0 as (c0 & Hcost & ->).
  rewrite Hb, Hay, Han, !or0_id in Hcost. unfold fneg in Hcost at 1 2.
  destruct (sell_qty_Fin p side rb (- ay) (- an) qty c0 Hrb sf_side0 Hpy Hpn
              sf_held0 sf_positive0 Hcost sf_finite0) as (q & -> & Hq).
  destruct (isfinite_Fin _ sf_finite0) as [pay Epay]. rewrite Epay in *.
  apply isfinite_Fin in Hpy as [py Hpy]. apply isfinite_Fin in Hpn as [pn Hpn].
  destruct (sell_rows_Fin a c side pa ay an pc pay q Hpa Hay Han Hpc) as (Ea & Ec & _).
  split.
  - rewrite sf_users0. apply Forall_insert; [assumption|].
    simpl. rewrite Hpu. reflexivity.
  - rewrite sf_markets0. apply Forall_insert; [assumption|]. simpl. eauto.
  - rewrite sf_amms0, Ea. apply Forall_insert; [assumption|]. simpl. auto.
  - rewrite sf_chs0, Ec. apply Forall_insert; [assumption|]. reflexivity.
  - rewrite sf_positions0. apply Forall_insert; [assumption|].
    unfold sell_pos. destruct (String.eqb side "yes"); simpl;
      rewrite ?Hpy, ?Hpn, ?or0_id; auto.
Qed.

Lemma commit_keeps_ready (o : op) (db db' : Session) (out : TradeOut) :
  wf db -> settle_ready db -> valid_op o ->
  commit LEDGER_MODE SYSTEM_IDS o db = (Ok out, db') ->
  wf db' /\ settle_ready db'.
Proof.
  intros Hwf Hs Hvalid H. destruct o as [r|r]; unfold commit in H; apply transaction_Ok in H.
  - rewrite trade_buy_success in H.
    split; [eapply buy_keeps_wf|eapply buy_keeps_ready]; eassumption.
  - rewrite trade_sell_success in H.
    split; [eapply sell_keeps_wf|eapply sell_keeps_ready]; eassumption.
Qed.

End Constraints.

(** X17: trading keeps what settlement relies on.  From a well-formed
    database with unique user ids, at most one position per user and
    market, and no negative holding, every sequence of committed buys and
    sells (each buy asked with a positive quantity or a positive budget)
    leads to a database with the same three properties: a new user row gets
    a fresh id, a position row is only added when the user has none in the
    market, and a sale never takes more than is held. *)
Theorem X17_trades_keep_constraints (LEDGER_MODE : ledger_mode) (SYSTEM_IDS : nat * nat)
    (db db' : Session) (ops : list op) :
  wf db -> settle_ready db -> Forall valid_op ops ->
  committed LEDGER_MODE SYSTEM_IDS db ops db' ->
  settle_ready db'.
Proof.
  intros Hwf Hs Hvalid Hc.
  cut (wf db' /\ settle_ready db'); [intros [_ H]; exact H|].
  induction Hc as [db|db o out db1 ops db2 Hstep Hrest IH].
  - split; assumption.
  - apply Forall_cons in Hvalid as [Ho Hops].
    destruct (commit_keeps_ready LEDGER_MODE SYSTEM_IDS o db db1 out Hwf Hs Ho Hstep)
      as [Hwf1 Hs1].
    apply IH; assumption.
Qed.

Lemma settle_ready_db_alice : settle_ready db_alice.
Proof.
  split.
  - apply (bool_decide_unpack _). reflexivity.
  - apply (bool_decide_unpack _). reflexivity.
  - constructor.
Qed.

Lemma X17_trades_keep_constraints_witness :
  exists db2,
    committed off (0%nat, 0%nat) db_alice [Buy ten_yes; Sell ten_yes] db2
    /\ settle_ready db2.
Proof.
  destruct (ten_yes_committed off (0%nat, 0%nat)) as (out1 & db1 & out2 & db2 & H1 & H2).
  assert (Hc : committed off (0%nat, 0%nat) db_alice [Buy ten_yes; Sell ten_yes] db2).
  { econstructor; [exact H1|]. econstructor; [exact H2|]. constructor. }
  exists db2. split; [exact Hc|].
  apply (X17_trades_keep_constraints off (0%nat, 0%nat) db_alice db2
           [Buy ten_yes; Sell ten_yes]).
  - exact wf_db_alice.
  - exact settle_ready_db_alice.
  - constructor; [exact valid_ten_yes|]. constructor; [exact I|constructor].
  - exact Hc.
Defined.

(** ** Refused trades *)

Section Guards.

Variable LEDGER_MODE : ledger_mode.
Variable SYSTEM_IDS : nat * nat.
Variable utcnow : nat.

(** The reads of [trade_sell] up to the position query. *)
Lemma sell_to_position (username : string) (market_id : nat) (q : R) (side : string)
    (is_visible : option (string -> string -> bool)) us ms am ps ls cs
    (ui mi ai ci : nat) (u : UserDB.t) (m : MarketDB.t) :
  side_ok side = true -> 0 < q ->
  first_where (by_username username) us = Some ui -> us !! ui = Some u ->
  first_where (market_by_id market_id) ms = Some mi -> ms !! mi = Some m ->
  first_where (amm_by_market market_id) am = Some ai ->
  first_where (ch_by_market market_id) cs = Some ci ->
  MarketDB.resolved m = false -> hidden is_visible (MarketDB.name m) username = false ->
  first_where (position_by_key (UserDB.id u) market_id) ps = None ->
  trade_sell LEDGER_MODE SYSTEM_IDS utcnow username market_id (Fin q) side None is_visible
    (mkSession us ms am ps ls cs)
  = (Raise (ValueError "no position for this market"), mkSession us ms am ps ls cs).
Proof.
  intros Hside Hq Hui Hu Hmi Hm Hai Hci Hopen Hvis Hnone.
  unfold trade_sell. rewrite Hside. cbn [negb].
  assert (Hreq : fle (Fin q) (Fin 0) = false)
    by (unfold fle; apply bool_decide_eq_false_2; lra).
  rewrite Hreq. cbn [andb].
  unfold bind at 1. unfold first_user_by_username at 1. unfold gets at 1.
  cbn [users]. fold (by_username username). rewrite Hui.
  rewrite bundle_run. cbn [users markets amms chs positions]. rewrite Hmi, Hai, Hci.
  unfold bind at 1. unfold market_at at 1. unfold gets at 1. cbn [markets].
  rewrite (list_lookup_total_correct _ _ _ Hm), Hopen, Hvis.
  unfold bind at 1. unfold user_at at 1. unfold gets at 1. cbn [users].
  rewrite (list_lookup_total_correct _ _ _ Hu).
  unfold bind at 1. unfold first_position at 1. unfold gets at 1. cbn [positions].
  fold (position_by_key (UserDB.id u) market_id). rewrite Hnone. reflexivity.
Qed.

Lemma sell_short (username : string) (market_id : nat) (q : R) (side : string)
    (is_visible : option (string -> string -> bool)) us ms am ps ls cs
    (ui mi ai ci pi_ : nat) (u : UserDB.t) (m : MarketDB.t) (a : AMMDB.t)
    (p : PositionsDB.t) (h : R) :
  side_ok side = true -> 0 < q ->
  first_where (by_username username) us = Some ui -> us !! ui = Some u ->
  first_where (market_by_id market_id) ms = Some mi -> ms !! mi = Some m ->
  first_where (amm_by_market market_id) am = Some ai -> am !! ai = Some a ->
  first_where (ch_by_market market_id) cs = Some ci ->
  MarketDB.resolved m = false -> hidden is_visible (MarketDB.name m) username = false ->
  first_where (position_by_key (UserDB.id u) market_id) ps = Some pi_ ->
  ps !! pi_ = Some p -> available p side = Fin h -> h < q ->
  trade_sell LEDGER_MODE SYSTEM_IDS utcnow username market_id (Fin q) side None is_visible
    (mkSession us ms am ps ls cs)
  = (Raise (ValueError (if String.eqb side "yes" then "not enough YES contracts to sell"
                        else "not enough NO contracts to sell")),
     mkSession us ms am ps ls cs).
Proof.
  intros Hside Hq Hui Hu Hmi Hm Hai Ha Hci Hopen Hvis Hpi Hp Hh Hlt.
  unfold trade_sell. rewrite Hside. cbn [negb].
  assert (Hreq : fle (Fin q) (Fin 0) = false)
    by (unfold fle; apply bool_decide_eq_false_2; lra).
  rewrite Hreq. cbn [andb].
  unfold bind at 1. unfold first_user_by_username at 1. unfold gets at 1.
  cbn [users]. fold (by_username username). rewrite Hui.
  rewrite bundle_run. cbn [users markets amms chs positions]. rewrite Hmi, Hai, Hci.
  unfold bind at 1. unfold market_at at 1. unfold gets at 1. cbn [markets].
  rewrite (list_lookup_total_correct _ _ _ Hm), Hopen, Hvis.
  unfold bind at 1. unfold user_at at 1. unfold gets at 1. cbn [users].
  rewrite (list_lookup_total_correct _ _ _ Hu).
  unfold bind at 1. unfold first_position at 1. unfold gets at 1. cbn [positions].
  fold (position_by_key (UserDB.id u) market_id). rewrite Hpi.
  unfold bind at 1. unfold position_at at 1. unfold gets at 1. cbn [positions].
  rewrite (list_lookup_total_correct _ _ _ Hp).
  unfold bind at 1. unfold amm_at at 1. unfold gets at 1. cbn [amms].
  rewrite (list_lookup_total_correct _ _ _ Ha).
  rewrite ret_run. unfold available in Hh.
  destruct (side_ok_cases side Hside) as [-> | ->].
  - change (String.eqb "yes" "yes") with true in *. cbv iota in Hh. cbn [andb].
    rewrite Hh. unfold flt at 1. rewrite bool_decide_eq_true_2 by assumption. reflexivity.
  - change (String.eqb "no" "yes") with false in *.
    change (String.eqb "no" "no") with true. cbv iota in Hh. cbn [andb].
    rewrite Hh. unfold flt at 1. rewrite bool_decide_eq_true_2 by assumption. reflexivity.
Qed.

End Guards.

(** X19: a sale needs the contracts.  For a valid side and an explicit
    quantity [q > 0], a known seller and an open, visible market with its
    rows: when the seller has no position row in the market, [trade_sell]
    raises "no position for this market" (it does not create the row, as a
    buy would); when the position holds less than [q] contracts of the
    side, it raises "not enough YES contracts to sell", or NO.  In both
    cases nothing has been written. *)
Theorem X19_sell_needs_contracts (LEDGER_MODE : ledger_mode) (SYSTEM_IDS : nat * nat)
    (now : nat) (username : string) (market_id : nat) (q : R) (side : string)
    (is_visible : option (string -> string -> bool)) (db : Session)
    (ui mi ai ci : nat) (u : UserDB.t) (m : MarketDB.t) (a : AMMDB.t) :
  side_ok side = true -> 0 < q ->
  first_where (by_username username) (users db) = Some ui -> users db !! ui = Some u ->
  first_where (market_by_id market_id) (markets db) = Some mi -> markets db !! mi = Some m ->
  first_where (amm_by_market market_id) (amms db) = Some ai -> amms db !! ai = Some a ->
  first_where (ch_by_market market_id) (chs db) = Some ci ->
  MarketDB.resolved m = false -> hidden is_visible (MarketDB.name m) username = false ->
  match first_where (position_by_key (UserDB.id u) market_id) (positions db) with
  | None =>
      trade_sell LEDGER_MODE SYSTEM_IDS now username market_id (Fin q) side None is_visible db
      = (Raise (ValueError "no position for this market"), db)
  | Some pi_ =>
      forall p h,
        positions db !! pi_ = Some p -> available p side = Fin h -> h < q ->
        trade_sell LEDGER_MODE SYSTEM_IDS now username market_id (Fin q) side None
          is_visible db
        = (Raise (ValueError (if String.eqb side "yes"
                              then "not enough YES contracts to sell"
                              else "not enough NO contracts to sell")), db)
  end.
Proof.
  intros Hside Hq Hui Hu Hmi Hm Hai Ha Hci Hopen Hvis.
  destruct db as [us ms am ps ls cs]. cbn [users markets amms chs positions] in *.
  destruct (first_where _ ps) as [pi_|] eqn:Hpi.
  - intros p h Hp Hh Hlt. eapply sell_short; eassumption.
  - eapply sell_to_position; eassumption.
Qed.

(** Alice holds half a YES contract and asks to sell one. *)
Lemma X19_sell_needs_contracts_witness :
  trade_sell off (0%nat, 0%nat) 0 "alice" 1 (Fin 1) "yes" None None db_half
  = (Raise (ValueError "not enough YES contracts to sell"), db_half).
Proof.
  assert (H : side_ok "yes" = true /\ 0 < 1) by (split; [reflexivity|lra]).
  destruct H as [Hside Hq].
  pose proof (X19_sell_needs_contracts off (0%nat, 0%nat) 0 "alice" 1 1 "yes" None db_half
                0 0 0 0 alice rain half_amm Hside Hq eq_refl eq_refl eq_refl eq_refl
                eq_refl eq_refl eq_refl eq_refl eq_refl) as H.
  apply (H half_pos (1 / 2)).
  - reflexivity.
  - unfold available, half_pos. cbn. rewrite or0_id. reflexivity.
  - lra.
Defined.

(** ** Settlement never fails on an open market, and never takes points *)

Lemma not_debited_refl (us : list UserDB.t) :
  Forall (fun u => isfinite (UserDB.points u) = true) us -> Forall2 not_debited us us.
Proof.
  intros H. induction H as [|u us Hu _ IH]; constructor; [|exact IH].
  unfold not_debited. repeat split; [exact Hu|lra].
Qed.

Lemma not_debited_finite (us us' : list UserDB.t) :
  Forall2 not_debited us us' -> Forall (fun u => isfinite (UserDB.points u) = true) us'.
Proof.
  intros H. induction H as [|u u' us us' Hu _ IH]; constructor; [|exact IH].
  apply Hu.
Qed.

Lemma pay_winners_grow (outcome : string) (ps : list PositionsDB.t) us ms am pp ls cs :
  Forall (fun p => isfinite (PositionsDB.qYes p) = true
                   /\ isfinite (PositionsDB.qNo p) = true) ps ->
  Forall (fun u => isfinite (UserDB.points u) = true) us ->
  exists us', pay_winners outcome ps (mkSession us ms am pp ls cs)
              = (Ok tt, mkSession us' ms am pp ls cs)
              /\ Forall2 not_debited us us'.
Proof.
  revert us. induction ps as [|pos rest IH]; intros us Hps Hus.
  - exists us. split; [reflexivity|]. apply not_debited_refl. exact Hus.
  - apply Forall_cons in Hps as [[Hy Hn] Hps].
    cbn [pay_winners]. rewrite gets_run. cbn [users].
    destruct (first_where _ us) as [i|] eqn:Hi; [|apply IH; assumption].
    destruct (first_where_Some _ _ _ Hi) as (u & Hu & _).
    unfold user_at. rewrite gets_run. cbn [users].
    rewrite (list_lookup_total_correct _ _ _ Hu).
    pose proof (Forall_lookup_1 _ _ _ _ Hus Hu) as Hf. cbv beta in Hf.
    destruct (isfinite_Fin _ Hf) as [r Hr].
    destruct (isfinite_Fin _ Hy) as [y Ey]. destruct (isfinite_Fin _ Hn) as [n En].
    rewrite Ey, En, !or0_id.
    assert (Hw : exists q, (if String.eqb outcome "yes" then Fin y else Fin n) = Fin q).
    { destruct (String.eqb outcome "yes"); eauto. }
    destruct Hw as [q ->].
    destruct (fgt (Fin q) (Fin 0)) eqn:Hgt; unfold when.
    + rewrite set_user_run. rewrite (list_lookup_total_correct _ _ _ Hu).
      assert (Hstep : Forall2 not_debited us
                        (<[i := UserDB.set_points (fadd (UserDB.points u) (Fin q)) u]> us)).
      { rewrite <- (list_insert_id us i u Hu) at 1.
        apply Forall2_insert; [apply not_debited_refl; exact Hus|].
        unfold not_debited. cbn [UserDB.id UserDB.username UserDB.points UserDB.set_points].
        rewrite Hr. simpl. repeat split.
        unfold fgt, flt in Hgt. apply bool_decide_eq_true_1 in Hgt. lra. }
      destruct (IH _ Hps (not_debited_finite _ _ Hstep)) as (us' & E & H2).
      exists us'. split; [exact E|].
      eapply Forall2_trans; [|exact Hstep|exact H2].
      intros a b c (A1 & A2 & A3 & A4) (B1 & B2 & B3 & B4).
      unfold not_debited. repeat split; [congruence|congruence|assumption|lra].
    + rewrite ret_run. apply IH; assumption.
Qed.

(** X21: what a settlement call can do.  An outcome other than "yes" and
    "no" is refused first, then a market id that no row has, then a market
    that is already resolved; each of them raises its [ValueError] and
    leaves the database as it was.  Otherwise the call succeeds - also on
    tables with duplicated rows or positions of deleted users - and writes
    the market row and user balances only; with finite balances and
    holdings, every user row keeps its id and name and no balance goes
    down. *)
Theorem X21_settlement_outcomes (now market_id : nat) (outcome : string) (db : Session) :
  Forall (fun u => isfinite (UserDB.points u) = true) (users db) ->
  Forall (fun p => isfinite (PositionsDB.qYes p) = true
                   /\ isfinite (PositionsDB.qNo p) = true) (positions db) ->
  if negb (side_ok outcome)
  then Market_settlement now market_id outcome db
       = (Raise (ValueError "outcome must be 'yes' or 'no'"), db)
  else match first_where (market_by_id market_id) (markets db) with
       | None => Market_settlement now market_id outcome db
                 = (Raise (ValueError "Market not found"), db)
       | Some mi =>
           if MarketDB.resolved (markets db !!! mi)
           then Market_settlement now market_id outcome db
                = (Raise (ValueError "Market already settled"), db)
           else exists us',
                  Market_settlement now market_id outcome db
                  = (Ok tt,
                     mkSession us'
                       (<[mi := MarketDB.settle (String.eqb outcome "yes") now
                                  (markets db !!! mi)]> (markets db))
                       (amms db) (positions db) (ledger db) (chs db))
                  /\ Forall2 not_debited (users db) us'
       end.
Proof.
  intros Hus Hps. unfold Market_settlement, transaction, Market_settlement_body.
  destruct (negb (side_ok outcome)); [reflexivity|].
  rewrite gets_run. fold (market_by_id market_id).
  destruct (first_where _ (markets db)) as [mi|] eqn:Hmi; [|reflexivity].
  unfold market_at. rewrite gets_run.
  destruct (MarketDB.resolved (markets db !!! mi)); [reflexivity|].
  destruct db as [us ms am pp ls cs]. cbn [users markets amms positions ledger chs] in *.
  rewrite set_market_run, gets_run. cbn [positions].
  destruct (pay_winners_grow outcome
              (filter (fun p => PositionsDB.market_id p = market_id) pp) us
              (<[mi := MarketDB.settle (String.eqb outcome "yes") now (ms !!! mi)]> ms)
              am pp ls cs) as (us' & E & H2).
  - apply Forall_forall. intros p Hin. apply list_elem_of_filter in Hin as [_ Hin].
    rewrite Forall_forall in Hps. exact (Hps p Hin).
  - exact Hus.
  - rewrite E. exists us'. split; [reflexivity|exact H2].
Qed.

(** Scenario S5: the settlement at YES succeeds and debits nobody. *)
Lemma X21_settlement_outcomes_witness :
  exists us',
    Market_settlement 0 1 "yes" db_s5
    = (Ok tt,
       mkSession us'
         (<[0%nat := MarketDB.settle (String.eqb "yes" "yes") 0 (markets db_s5 !!! 0%nat)]>
            (markets db_s5))
         (amms db_s5) (positions db_s5) (ledger db_s5) (chs db_s5))
    /\ Forall2 not_debited (users db_s5) us'.
Proof.
  apply (X21_settlement_outcomes 0 1 "yes" db_s5).
  - repeat constructor.
  - repeat constructor.
Defined.

(** ** The [Market] constructor *)

Lemma first_where_is_Some {A} (p : A -> bool) (l : list A) (i : nat) (x : A) :
  l !! i = Some x -> p x = true -> is_Some (first_where p l).
Proof.
  intros Hl Hp. destruct (first_where p l) as [j|] eqn:E; [eauto|].
  apply first_where_None in E. pose proof (Forall_lookup_1 _ _ _ _ E Hl) as H.
  cbv beta in H. congruence.
Qed.

Lemma fresh_id_fresh (ids : list nat) : fresh_id ids ∉ ids.
Proof. intros H. apply max_list_elem_of_le in H. unfold fresh_id in H. lia. Qed.

(** The rows that [Market.__init__] makes sure of: after it both exist, and
    only missing rows were appended. *)
Lemma ensure_rows_spec (market_id : nat) (reserve : float) (s : Session) :
  exists la lc,
    Market_ensure_rows market_id reserve s
    = (Ok tt, mkSession (users s) (markets s) (amms s ++ la) (positions s) (ledger s)
                (chs s ++ lc))
    /\ is_Some (first_where (amm_by_market market_id) (amms s ++ la))
    /\ is_Some (first_where (ch_by_market market_id) (chs s ++ lc)).
Proof.
  destruct s as [us ms am pp ls cs]. unfold Market_ensure_rows.
  rewrite gets_run. cbn [amms]. fold (amm_by_market market_id).
  destruct (first_where (amm_by_market market_id) am) as [ai|] eqn:Ha.
  - rewrite bool_decide_true by eauto. cbn [negb when]. rewrite ret_run, gets_run.
    cbn [chs]. fold (ch_by_market market_id).
    destruct (first_where (ch_by_market market_id) cs) as [ci|] eqn:Hc.
    + rewrite bool_decide_true by eauto. cbn [negb when].
      exists [], []. rewrite !app_nil_r. rewrite Ha, Hc. unfold ret. eauto.
    + rewrite bool_decide_false by (intros [? ?]; discriminate). cbn [negb when].
      eexists [], [_]. rewrite !app_nil_r, Ha. unfold modify, with_chs.
      cbn [users markets amms positions ledger chs]. split; [reflexivity|]. split; [eauto|].
      rewrite (first_where_app_new _ cs _ Hc); [eauto|].
      unfold ch_by_market. cbn. apply Nat.eqb_refl.
  - rewrite bool_decide_false by (intros [? ?]; discriminate). cbn [negb when].
    rewrite modify_run, gets_run. unfold with_amms.
    cbn [users markets amms positions ledger chs]. fold (ch_by_market market_id).
    assert (Ha' : is_Some (first_where (amm_by_market market_id)
                             (am ++ [AMMDB.mk (fresh_id (AMMDB.id <$> am)) market_id reserve
                                       (Fin 0) (Fin 0)]))).
    { rewrite (first_where_app_new _ am _ Ha); [eauto|].
      unfold amm_by_market. cbn. apply Nat.eqb_refl. }
    destruct (first_where (ch_by_market market_id) cs) as [ci|] eqn:Hc.
    + rewrite bool_decide_true by eauto. cbn [negb when].
      eexists [_], []. rewrite !app_nil_r, Hc. unfold ret. split; [reflexivity|]. eauto.
    + rewrite bool_decide_false by (intros [? ?]; discriminate). cbn [negb when].
      eexists [_], [_]. unfold modify, with_chs.
      cbn [users markets amms positions ledger chs]. split; [reflexivity|]. split; [exact Ha'|].
      rewrite (first_where_app_new _ cs _ Hc); [eauto|].
      unfold ch_by_market. cbn. apply Nat.eqb_refl.
Qed.

Lemma ensure_rows_done (market_id : nat) (reserve : float) (s : Session) :
  is_Some (first_where (amm_by_market market_id) (amms s)) ->
  is_Some (first_where (ch_by_market market_id) (chs s)) ->
  Market_ensure_rows market_id reserve s = (Ok tt, s).
Proof.
  intros Ha Hc. unfold Market_ensure_rows. rewrite gets_run.
  fold (amm_by_market market_id). rewrite bool_decide_true by exact Ha.
  cbn [negb when]. rewrite ret_run, gets_run. fold (ch_by_market market_id).
  rewrite bool_decide_true by exact Hc. reflexivity.
Qed.

(** On a market that is there with its rows the constructor only reads. *)
Lemma Market_init_found (name : string) (b : float) (s : Session) (mi : nat) :
  first_where (market_by_name name) (markets s) = Some mi ->
  is_Some (first_where (amm_by_market (MarketDB.id (markets s !!! mi))) (amms s)) ->
  is_Some (first_where (ch_by_market (MarketDB.id (markets s !!! mi))) (chs s)) ->
  Market_init name b s = (Ok (MarketDB.id (markets s !!! mi)), s).
Proof.
  intros Hmi Ha Hc. unfold Market_init. rewrite gets_run.
  fold (market_by_name name). rewrite Hmi, ret_run.
  unfold market_at. rewrite gets_run. unfold bind.
  rewrite (ensure_rows_done _ _ s Ha Hc). reflexivity.
Qed.

Lemma Market_init_spec (name : string) (b : float) (s : Session) :
  exists mi lm la lc,
    let s' := mkSession (users s) (markets s ++ lm) (amms s ++ la) (positions s) (ledger s)
                (chs s ++ lc) in
    Market_init name b s = (Ok (MarketDB.id (markets s' !!! mi)), s')
    /\ first_where (market_by_name name) (markets s') = Some mi
    /\ is_Some (first_where (amm_by_market (MarketDB.id (markets s' !!! mi))) (amms s'))
    /\ is_Some (first_where (ch_by_market (MarketDB.id (markets s' !!! mi))) (chs s'))
    /\ match first_where (market_by_name name) (markets s) with
       | Some _ => lm = []
       | None => lm = [MarketDB.mk (fresh_id (MarketDB.id <$> markets s)) name b (Fin 10000)
                         false None None]
                 /\ mi = length (markets s)
       end.
Proof.
  destruct s as [us ms am pp ls cs]. cbn [users markets amms positions ledger chs].
  unfold Market_init. rewrite gets_run. cbn [markets]. fold (market_by_name name).
  destruct (first_where (market_by_name name) ms) as [mi|] eqn:Hmi.
  - rewrite ret_run. unfold market_at. rewrite gets_run. cbn [markets].
    destruct (ensure_rows_spec (MarketDB.id (ms !!! mi)) (Market_reserve_of (ms !!! mi))
                (mkSession us ms am pp ls cs)) as (la & lc & E & Ha & Hc).
    cbn [users markets amms positions ledger chs] in *.
    exists mi, [], la, lc. rewrite app_nil_r. unfold bind. rewrite E.
    unfold ret. auto.
  - rewrite !bind_assoc, gets_run, !bind_assoc, modify_run.
    unfold market_at. rewrite !bind_assoc, gets_run, !bind_assoc, modify_run.
    rewrite !bind_assoc, modify_run, ret_run, gets_run.
    unfold with_markets, with_amms, with_chs. cbn [users markets amms positions ledger chs].
    set (new := MarketDB.mk (fresh_id (MarketDB.id <$> ms)) name b (Fin 10000) false None None).
    assert (Hnew : (ms ++ [new]) !!! length ms = new).
    { apply list_lookup_total_correct. rewrite lookup_app_r by lia.
      rewrite Nat.sub_diag. reflexivity. }
    rewrite Hnew.
    match goal with
    | |- context [bind (Market_ensure_rows ?i ?r) _ ?s0] =>
        destruct (ensure_rows_spec i r s0) as (la & lc & E & Ha & Hc); unfold bind; rewrite E
    end.
    cbn [users markets amms positions ledger chs] in *.
    rewrite <- !app_assoc in *.
    eexists (length ms), [new], _, _. cbn [markets amms chs]. rewrite Hnew.
    unfold ret. split; [reflexivity|]. split.
    + apply first_where_app_new; [exact Hmi|]. unfold market_by_name. cbn. apply String.eqb_refl.
    + auto.
Qed.

(** X22: the constructor of [Market] gets or creates.  It never raises; it
    keeps every row there is and appends only what is missing: the market
    row when no market has the name (with the next id, the given [b], open)
    and the AMM and clearing-house rows of the market.  The id it returns
    is one that [get_market_bundle_for_update] finds complete, and
    constructing the market again, with any [b], returns the same id and
    writes nothing. *)
Theorem X22_Market_init_gets_or_creates (name : string) (b : float) (db : Session) :
  exists market_id db' lm la lc bundle,
    Market_init name b db = (Ok market_id, db')
    /\ db' = mkSession (users db) (markets db ++ lm) (amms db ++ la) (positions db)
               (ledger db) (chs db ++ lc)
    /\ match first_where (market_by_name name) (markets db) with
       | Some mi => lm = [] /\ market_id = MarketDB.id (markets db !!! mi)
       | None => lm = [MarketDB.mk market_id name b (Fin 10000) false None None]
                 /\ market_id ∉ MarketDB.id <$> markets db
       end
    /\ get_market_bundle_for_update market_id db' = (Ok bundle, db')
    /\ forall b', Market_init name b' db' = (Ok market_id, db').
Proof.
  destruct (Market_init_spec name b db) as (mi & lm & la & lc & E & Hmi & Ha & Hc & Hlm).
  cbv zeta in E. cbn [markets amms chs] in *.
  set (db' := mkSession (users db) (markets db ++ lm) (amms db ++ la) (positions db)
                (ledger db) (chs db ++ lc)) in *.
  destruct Ha as [ai Ha]. destruct Hc as [ci Hc].
  assert (Hrow : exists m, (markets db ++ lm) !! mi = Some m).
  { apply first_where_Some in Hmi as (m & Hm & _). eauto. }
  destruct Hrow as [m Hm]. rewrite (list_lookup_total_correct _ _ _ Hm) in *.
  destruct (first_where_is_Some (market_by_id (MarketDB.id m)) _ mi m Hm) as [mi' Hmi'].
  { unfold market_by_id. apply Nat.eqb_refl. }
  exists (MarketDB.id m), db', lm, la, lc, (mi', ai, ci).
  split; [exact E|]. split; [reflexivity|]. split; [|split].
  - destruct (first_where (market_by_name name) (markets db)) as [mj|] eqn:Hj.
    + subst lm. rewrite app_nil_r in *. split; [reflexivity|].
      assert (mj = mi) as -> by congruence.
      rewrite (list_lookup_total_correct _ _ _ Hm). reflexivity.
    + destruct Hlm as [-> ->]. rewrite lookup_app_r in Hm by lia.
      rewrite Nat.sub_diag in Hm. injection Hm as <-. cbn [MarketDB.id].
      split; [reflexivity|]. apply fresh_id_fresh.
  - unfold get_market_bundle_for_update. rewrite !gets_run. subst db'.
    cbn [markets amms chs]. fold (market_by_id (MarketDB.id m)).
    fold (amm_by_market (MarketDB.id m)). fold (ch_by_market (MarketDB.id m)).
    rewrite Hmi', Ha, Hc. reflexivity.
  - intros b'. pose proof (Market_init_found name b' db' mi) as H.
    subst db'. cbn [markets amms chs] in H.
    rewrite (list_lookup_total_correct _ _ _ Hm) in H. apply H; eauto.
Qed.

(** ** The [User] class *)

Lemma User_init_found (username : string) (points : float) (lp : bool) (db : Session)
    (i : nat) (u : UserDB.t) :
  first_where (by_username username) (users db) = Some i -> users db !! i = Some u ->
  User_init username points lp db
  = (UserObj.mk username (UserDB.points u) (Some (UserDB.id u))
       (if lp then
          foldl (fun d p => dict_set (PositionsDB.market_id p)
                              (or0 (PositionsDB.qYes p), or0 (PositionsDB.qNo p)) d)
            [] (filter (fun p => PositionsDB.user_id p = UserDB.id u) (positions db))
        else []),
     db).
Proof.
  intros Hi Hu. unfold User_init. fold (by_username username). rewrite Hi.
  rewrite (list_lookup_total_correct _ _ _ Hu). reflexivity.
Qed.

(** X23: [User(username, points)] gets or creates the row.  The call
    never fails and leaves a row with this username in the table, which
    the object mirrors (id and balance).  A stored row wins: its balance is
    taken and the [points] argument is dropped, and nothing is written.
    Only when no row has the name, one row is appended, with the next id
    and the given points; with the default of 1000 points it is the row
    that the user's first trade would have created.  A second construction,
    with any [points], gives the same id and balance and writes nothing. *)
Theorem X23_User_init_gets_or_creates (username : string) (points : float) (lp : bool)
    (db : Session) :
  exists o db' i u,
    User_init username points lp db = (o, db')
    /\ first_where (by_username username) (users db') = Some i /\ users db' !! i = Some u
    /\ mirrors o u
    /\ match first_where (by_username username) (users db) with
       | Some j => db' = db /\ j = i
       | None => db' = with_users (fun us => us ++ [u]) db
                 /\ u = UserDB.mk (fresh_id (UserDB.id <$> users db)) username points
                 /\ UserDB.id u ∉ UserDB.id <$> users db
       end
    /\ (points = Fin 1000 -> users db' = users_with username (users db))
    /\ forall points' lp',
         exists o', User_init username points' lp' db' = (o', db') /\ mirrors o' u.
Proof.
  destruct (first_where (by_username username) (users db)) as [j|] eqn:Hj.
  - destruct (first_where_Some _ _ _ Hj) as (u & Hu & Hname).
    unfold by_username in Hname. apply String.eqb_eq in Hname.
    eexists _, db, j, u. split; [apply (User_init_found _ _ _ _ j u Hj Hu)|].
    split; [exact Hj|]. split; [exact Hu|]. split; [|split; [|split]].
    + unfold mirrors. cbn. auto.
    + auto.
    + intros _. unfold users_with. rewrite Hj. reflexivity.
    + intros points' lp'. eexists. split; [apply (User_init_found _ _ _ _ j u Hj Hu)|].
      unfold mirrors. cbn. auto.
  - set (u := UserDB.mk (fresh_id (UserDB.id <$> users db)) username points).
    assert (Hi : first_where (by_username username) (users db ++ [u]) = Some (length (users db))).
    { apply first_where_app_new; [exact Hj|]. unfold by_username. cbn. apply String.eqb_refl. }
    assert (Hu : (users db ++ [u]) !! length (users db) = Some u).
    { rewrite lookup_app_r by lia. rewrite Nat.sub_diag. reflexivity. }
    eexists _, (with_users (fun us => us ++ [u]) db), (length (users db)), u.
    split; [|split; [|split; [|split; [|split; [|split]]]]].
    + unfold User_init. fold (by_username username). rewrite Hj. reflexivity.
    + destruct db; exact Hi.
    + destruct db; exact Hu.
    + unfold mirrors. cbn. auto.
    + split; [reflexivity|]. split; [reflexivity|]. apply fresh_id_fresh.
    + intros ->. unfold users_with. rewrite Hj. destruct db; reflexivity.
    + intros points' lp'. eexists. split.
      * apply (User_init_found _ _ _ _ (length (users db)) u); destruct db; assumption.
      * unfold mirrors. cbn. auto.
Qed.

Lemma dict_get_set {V} (k k' : nat) (v : V) (d : list (nat * V)) :
  dict_get k (dict_set k' v d) = if Nat.eqb k' k then Some v else dict_get k d.
Proof.
  induction d as [|[k0 v0] d IH]; simpl.
  - destruct (Nat.eqb k' k); reflexivity.
  - destruct (Nat.eqb k0 k') eqn:E0; simpl.
    + apply Nat.eqb_eq in E0. subst k0. destruct (Nat.eqb k' k); reflexivity.
    + destruct (Nat.eqb k0 k) eqn:E1.
      * apply Nat.eqb_eq in E1. subst k0. rewrite Nat.eqb_sym, E0. reflexivity.
      * exact IH.
Qed.

Lemma loaded_positions (user_id market_id : nat) (ps : list PositionsDB.t)
    (d : list (nat * (float * float))) :
  NoDup ((fun p => (PositionsDB.user_id p, PositionsDB.market_id p)) <$> ps) ->
  dict_get market_id
    (foldl (fun d p => dict_set (PositionsDB.market_id p)
                         (or0 (PositionsDB.qYes p), or0 (PositionsDB.qNo p)) d)
       d (filter (fun p => PositionsDB.user_id p = user_id) ps))
  = match first_where (position_by_key user_id market_id) ps with
    | Some pi_ => Some (counts (ps !!! pi_))
    | None => dict_get market_id d
    end.
Proof.
  revert d. induction ps as [|p rest IH]; intros d Hnd; [reflexivity|].
  rewrite fmap_cons in Hnd. apply NoDup_cons in Hnd as [Hnew Hnd].
  rewrite first_where_cons.
  destruct (decide (PositionsDB.user_id p = user_id)) as [Hu|Hu].
  - rewrite filter_cons_True by assumption. cbn [foldl]. rewrite (IH _ Hnd).
    unfold position_by_key at 2. rewrite Hu, Nat.eqb_refl. cbn [andb].
    destruct (Nat.eqb (PositionsDB.market_id p) market_id) eqn:Hm.
    + apply Nat.eqb_eq in Hm.
      assert (Hnone : first_where (position_by_key user_id market_id) rest = None).
      { destruct (first_where _ rest) as [i|] eqn:Hi; [|reflexivity].
        exfalso. apply Hnew. apply first_where_Some in Hi as (x & Hx & Hkey).
        unfold position_by_key in Hkey. apply andb_true_iff in Hkey as [H1 H2].
        apply Nat.eqb_eq in H1, H2. apply list_elem_of_fmap. exists x.
        split; [congruence|]. eapply list_elem_of_lookup_2; eassumption. }
      rewrite Hnone, dict_get_set, Hm, Nat.eqb_refl. reflexivity.
    + rewrite dict_get_set, Hm.
      destruct (first_where _ rest) as [i|]; reflexivity.
  - rewrite filter_cons_False by assumption. rewrite (IH _ Hnd).
    unfold position_by_key at 2. apply Nat.eqb_neq in Hu. rewrite Hu. cbn [andb].
    destruct (first_where _ rest) as [i|]; reflexivity.
Qed.

(** X24: the positions a [User] object loads.  With one position row per
    user and market, as the schema demands, [User(username,
    load_positions=True)] of a stored user has under each market id the YES
    and NO counts of the position row that a trade of this user in that
    market works on, and no entry for a market without such a row.
    Without [load_positions] the dictionary is empty. *)
Theorem X24_User_positions (username : string) (points : float) (db : Session)
    (i : nat) (u : UserDB.t) (market_id : nat) :
  NoDup ((fun p => (PositionsDB.user_id p, PositionsDB.market_id p)) <$> positions db) ->
  first_where (by_username username) (users db) = Some i -> users db !! i = Some u ->
  dict_get market_id (UserObj.positions (User_init username points true db).1)
  = match first_where (position_by_key (UserDB.id u) market_id) (positions db) with
    | Some pi_ => Some (counts (positions db !!! pi_))
    | None => None
    end
  /\ UserObj.positions (User_init username points false db).1 = [].
Proof.
  intros Hnd Hi Hu. rewrite !(User_init_found _ _ _ _ i u Hi Hu).
  cbn [fst UserObj.positions]. split; [|reflexivity].
  apply (loaded_positions (UserDB.id u) market_id (positions db) [] Hnd).
Qed.

(** Scenario S5: alice's object has her five YES contracts under market 1. *)
Lemma X24_User_positions_witness :
  dict_get 1 (UserObj.positions (User_init "alice" (Fin 0) true db_s5).1)
  = match first_where (position_by_key (UserDB.id alice) 1) (positions db_s5) with
    | Some pi_ => Some (counts (positions db_s5 !!! pi_))
    | None => None
    end
  /\ UserObj.positions (User_init "alice" (Fin 0) false db_s5).1 = [].
Proof.
  apply (X24_User_positions "alice" (Fin 0) db_s5 0 alice 1).
  - apply (bool_decide_unpack _). reflexivity.
  - reflexivity.
  - reflexivity.
Defined.

(** X25: [User.addPoints] and [User.subtractPoints] work on the stored
    row, whatever balance the object remembers.  Without a row of the
    username both raise "User not found".  With a row of finite balance [p]
    and a finite amount [a]: [subtractPoints] raises "not enough points"
    when [p < a] and writes nothing; otherwise the row gets [p - a], which
    is not negative, and the object the same value.  [addPoints] has no
    such guard: it always stores [p + a], whatever the sign of [a] and of
    the sum.  No other row is written. *)
Theorem X25_User_points (self : UserObj.t) (a : R) (db : Session) :
  match first_where (by_username (UserObj.username self)) (users db) with
  | None =>
      User_subtractPoints self (Fin a) db = (Raise (ValueError "User not found"), db)
      /\ User_addPoints self (Fin a) db = (Raise (ValueError "User not found"), db)
  | Some i =>
      forall u p, users db !! i = Some u -> UserDB.points u = Fin p ->
        (if bool_decide (p < a)
         then User_subtractPoints self (Fin a) db
              = (Raise (ValueError "not enough points"), db)
         else User_subtractPoints self (Fin a) db
              = (Ok (UserObj.set_points (Fin (p - a)) self),
                 with_users (fun us => <[i := UserDB.set_points (Fin (p - a)) u]> us) db)
              /\ 0 <= p - a)
        /\ User_addPoints self (Fin a) db
           = (Ok (UserObj.set_points (Fin (p + a)) self),
              with_users (fun us => <[i := UserDB.set_points (Fin (p + a)) u]> us) db)
  end.
Proof.
  unfold User_subtractPoints, User_addPoints. fold (by_username (UserObj.username self)).
  destruct (first_where _ (users db)) as [i|]; [|split; reflexivity].
  intros u p Hu Hp. rewrite (list_lookup_total_correct _ _ _ Hu), Hp.
  cbn [UserDB.points UserDB.set_points]. split; [|reflexivity].
  unfold flt. destruct (bool_decide (p < a)) eqn:E; [reflexivity|].
  apply bool_decide_eq_false_1 in E. split; [reflexivity|lra].
Qed.

(** Alice's object remembers 5000 points; her row has 1000.  Taking 2000
    is refused. *)
Lemma X25_User_points_witness :
  User_subtractPoints (UserObj.mk "alice" (Fin 5000) (Some 1%nat) []) (Fin 2000) db_alice
  = (Raise (ValueError "not enough points"), db_alice).
Proof.
  pose proof (X25_User_points (UserObj.mk "alice" (Fin 5000) (Some 1%nat) []) 2000 db_alice
                alice 1000 eq_refl eq_refl) as [H _].
  rewrite bool_decide_true in H by lra. exact H.
Defined.

(** ** system_actors.py *)

Lemma system_user_found (username : string) (points : float) (db : Session) (i : nat)
    (u : UserDB.t) :
  first_where (by_username username) (users db) = Some i -> users db !! i = Some u ->
  get_or_create_system_user_id username points db = (UserDB.id u, db).
Proof.
  intros Hi Hu. unfold get_or_create_system_user_id. fold (by_username username).
  rewrite Hi, (list_lookup_total_correct _ _ _ Hu). reflexivity.
Qed.

Lemma system_user_spec (username : string) (points : float) (db : Session) :
  NoDup (UserDB.id <$> users db) ->
  exists i u l,
    get_or_create_system_user_id username points db
    = (UserDB.id u, with_users (fun us => us ++ l) db)
    /\ first_where (by_username username) (users db ++ l) = Some i
    /\ (users db ++ l) !! i = Some u
    /\ Forall (fun x => UserDB.points x = points) l
    /\ NoDup (UserDB.id <$> users db ++ l).
Proof.
  intros Hnd. destruct (first_where (by_username username) (users db)) as [i|] eqn:Hi.
  - destruct (first_where_Some _ _ _ Hi) as (u & Hu & _).
    exists i, u, []. rewrite app_nil_r. split.
    + rewrite (system_user_found _ _ _ i u Hi Hu). destruct db. unfold with_users. cbn.
      rewrite app_nil_r. reflexivity.
    + repeat split; try assumption. constructor.
  - set (u := UserDB.mk (fresh_id (UserDB.id <$> users db)) username points).
    exists (length (users db)), u, [u]. split; [|split; [|split; [|split]]].
    + unfold get_or_create_system_user_id. fold (by_username username). rewrite Hi.
      reflexivity.
    + apply first_where_app_new; [exact Hi|]. unfold by_username. cbn. apply String.eqb_refl.
    + rewrite lookup_app_r by lia. rewrite Nat.sub_diag. reflexivity.
    + repeat constructor.
    + rewrite fmap_app. apply NoDup_app. split; [assumption|]. split.
      * intros x Hx Hin. apply list_elem_of_singleton in Hin. subst x.
        exact (fresh_id_fresh _ Hx).
      * apply NoDup_singleton.
Qed.

(** X26: the two system users.  On a user table with unique ids,
    [get_system_actor_ids] returns the ids of the rows named
    "__system_amm__" and "__system_clearing_house__", which are different
    ids; it keeps every row there is and appends the rows that are
    missing, with 0 points and new ids; a second call returns the same
    pair and writes nothing. *)
Theorem X26_system_actor_ids (db : Session) :
  NoDup (UserDB.id <$> users db) ->
  exists amm_id ch_id l ia ua ic uc,
    let db' := with_users (fun us => us ++ l) db in
    get_system_actor_ids db = ((amm_id, ch_id), db')
    /\ Forall (fun u => UserDB.points u = Fin 0) l
    /\ first_where (by_username SYSTEM_AMM_USERNAME) (users db') = Some ia
    /\ users db' !! ia = Some ua /\ UserDB.id ua = amm_id
    /\ first_where (by_username SYSTEM_CH_USERNAME) (users db') = Some ic
    /\ users db' !! ic = Some uc /\ UserDB.id uc = ch_id
    /\ amm_id <> ch_id
    /\ NoDup (UserDB.id <$> users db')
    /\ get_system_actor_ids db' = ((amm_id, ch_id), db').
Proof.
  intros Hnd.
  destruct (system_user_spec SYSTEM_AMM_USERNAME (Fin 0) db Hnd)
    as (ia & ua & l1 & E1 & Hia & Hua & Hl1 & Hnd1).
  set (db1 := with_users (fun us => us ++ l1) db) in *.
  assert (Hus1 : users db1 = users db ++ l1) by (destruct db; reflexivity).
  rewrite <- Hus1 in Hia, Hua, Hnd1.
  destruct (system_user_spec SYSTEM_CH_USERNAME (Fin 0) db1 Hnd1)
    as (ic & uc & l2 & E2 & Hic & Huc & Hl2 & Hnd2).
  assert (Hdb2 : with_users (fun us => us ++ l2) db1
                 = with_users (fun us => us ++ (l1 ++ l2)) db).
  { destruct db. unfold db1, with_users. cbn. rewrite app_assoc. reflexivity. }
  assert (Hus2 : users (with_users (fun us => us ++ (l1 ++ l2)) db) = users db1 ++ l2).
  { rewrite <- Hdb2. destruct db1; reflexivity. }
  assert (Hia2 : first_where (by_username SYSTEM_AMM_USERNAME) (users db1 ++ l2) = Some ia).
  { apply first_where_app_l. exact Hia. }
  assert (Hua2 : (users db1 ++ l2) !! ia = Some ua).
  { rewrite lookup_app_l by (eapply lookup_lt_Some; eauto). exact Hua. }
  exists (UserDB.id ua), (UserDB.id uc), (l1 ++ l2), ia, ua, ic, uc. cbv zeta.
  rewrite Hus2.
  split; [|split; [|split; [|split; [|split; [|split; [|split; [|split; [|split; [|split]]]]]]]]];
    try assumption; try reflexivity.
  - unfold get_system_actor_ids. rewrite E1. fold db1. rewrite E2, Hdb2. reflexivity.
  - apply Forall_app. split; assumption.
  - intros Hid. assert (ia = ic) as ->.
    { apply (NoDup_lookup (UserDB.id <$> users db1 ++ l2) ia ic (UserDB.id ua) Hnd2).
      - rewrite list_lookup_fmap, Hua2. reflexivity.
      - rewrite list_lookup_fmap, Huc. simpl. congruence. }
    apply first_where_Some in Hia2 as (x & Hx & Hnx).
    apply first_where_Some in Hic as (y & Hy & Hny).
    assert (x = y) as -> by congruence.
    unfold by_username in Hnx, Hny. apply String.eqb_eq in Hnx, Hny.
    rewrite Hnx in Hny. discriminate.
  - unfold get_system_actor_ids.
    set (db2 := with_users (fun us => us ++ (l1 ++ l2)) db) in *.
    rewrite (system_user_found SYSTEM_AMM_USERNAME (Fin 0) db2 ia ua)
      by (rewrite Hus2; assumption).
    rewrite (system_user_found SYSTEM_CH_USERNAME (Fin 0) db2 ic uc)
      by (rewrite Hus2; assumption).
    reflexivity.
Qed.

(** On the database of alice both rows are created, with the ids 2 and 3. *)
Lemma X26_system_actor_ids_witness :
  exists amm_id ch_id l ia ua ic uc,
    let db' := with_users (fun us => us ++ l) db_alice in
    get_system_actor_ids db_alice = ((amm_id, ch_id), db')
    /\ Forall (fun u => UserDB.points u = Fin 0) l
    /\ first_where (by_username SYSTEM_AMM_USERNAME) (users db') = Some ia
    /\ users db' !! ia = Some ua /\ UserDB.id ua = amm_id
    /\ first_where (by_username SYSTEM_CH_USERNAME) (users db') = Some ic
    /\ users db' !! ic = Some uc /\ UserDB.id uc = ch_id
    /\ amm_id <> ch_id
    /\ NoDup (UserDB.id <$> users db')
    /\ get_system_actor_ids db' = ((amm_id, ch_id), db').
Proof.
  apply (X26_system_actor_ids db_alice).
  apply (bool_decide_unpack _). reflexivity.
Defined.

(** ** Unknown and hidden markets *)

Section Hidden.

Variable LEDGER_MODE : ledger_mode.
Variable SYSTEM_IDS : nat * nat.
Variable utcnow : nat.

Lemma buy_no_market (username : string) (market_id : nat) (quantity : float)
    (side : string) (budget_points : option float)
    (is_visible : option (string -> string -> bool)) (s : Session) :
  side_ok side = true -> fle quantity (Fin 0) && no_budget budget_points = false ->
  exists s1,
    trade_buy LEDGER_MODE SYSTEM_IDS utcnow username market_id quantity side budget_points
      is_visible s
    = match first_where (market_by_id market_id) (markets s),
            first_where (amm_by_market market_id) (amms s),
            first_where (ch_by_market market_id) (chs s) with
      | Some mi, Some _, Some _ =>
          if MarketDB.resolved (markets s !!! mi)
          then (Raise (ValueError "Market is settled"), s1)
          else if hidden is_visible (MarketDB.name (markets s !!! mi)) username
               then (Raise (ValueError "You cannot trade this market"), s1)
               else trade_buy LEDGER_MODE SYSTEM_IDS utcnow username market_id quantity side
                      budget_points is_visible s
      | _, _, _ => (Raise (ValueError "Market not found or missing AMM/CH rows"), s1)
      end.
Proof.
  intros Hside Hreq.
  destruct s as [us ms am ps ls cs]. cbn [users markets amms chs positions].
  exists (mkSession (users_with username us) ms am ps ls cs).
  destruct (first_where (market_by_id market_id) ms) as [mi|] eqn:Hmi;
    [destruct (first_where (amm_by_market market_id) am) as [ai|] eqn:Hai;
     [destruct (first_where (ch_by_market market_id) cs) as [ci|] eqn:Hci|]|].
  1: destruct (MarketDB.resolved (ms !!! mi)) eqn:Hres;
       [|destruct (hidden is_visible (MarketDB.name (ms !!! mi)) username) eqn:Hvis;
         [|reflexivity]].
  all: unfold trade_buy; rewrite Hside, Hreq; cbn [negb];
    unfold bind at 1; unfold first_user_by_username at 1; unfold gets at 1;
    cbn [users]; fold (by_username username);
    destruct (user_block_run username us ms am ps ls cs) as (ui & Hui & ->);
    rewrite bundle_run; cbn [users markets amms chs positions]; rewrite Hmi, ?Hai, ?Hci;
    try reflexivity.
  all: unfold bind at 1; unfold market_at at 1; unfold gets at 1; cbn [markets];
    rewrite Hres, ?Hvis; reflexivity.
Qed.

Lemma sell_no_market (username : string) (market_id : nat) (quantity : float)
    (side : string) (budget_points : option float)
    (is_visible : option (string -> string -> bool)) (s : Session) :
  side_ok side = true -> fle quantity (Fin 0) && no_budget budget_points = false ->
  is_Some (first_where (by_username username) (users s)) ->
  trade_sell LEDGER_MODE SYSTEM_IDS utcnow username market_id quantity side budget_points
    is_visible s
  = match first_where (market_by_id market_id) (markets s),
          first_where (amm_by_market market_id) (amms s),
          first_where (ch_by_market market_id) (chs s) with
    | Some mi, Some _, Some _ =>
        if MarketDB.resolved (markets s !!! mi)
        then (Raise (ValueError "Market is settled"), s)
        else if hidden is_visible (MarketDB.name (markets s !!! mi)) username
             then (Raise (ValueError "You cannot trade this market"), s)
             else trade_sell LEDGER_MODE SYSTEM_IDS utcnow username market_id quantity side
                    budget_points is_visible s
    | _, _, _ => (Raise (ValueError "Market not found or missing AMM/CH rows"), s)
    end.
Proof.
  intros Hside Hreq [ui Hui].
  destruct s as [us ms am ps ls cs]. cbn [users markets amms chs positions] in *.
  destruct (first_where (market_by_id market_id) ms) as [mi|] eqn:Hmi;
    [destruct (first_where (amm_by_market market_id) am) as [ai|] eqn:Hai;
     [destruct (first_where (ch_by_market market_id) cs) as [ci|] eqn:Hci|]|].
  1: destruct (MarketDB.resolved (ms !!! mi)) eqn:Hres;
       [|destruct (hidden is_visible (MarketDB.name (ms !!! mi)) username) eqn:Hvis;
         [|reflexivity]].
  all: unfold trade_sell; rewrite Hside, Hreq; cbn [negb];
    unfold bind at 1; unfold first_user_by_username at 1; unfold gets at 1;
    cbn [users]; fold (by_username username); rewrite Hui;
    rewrite bundle_run; cbn [users markets amms chs positions]; rewrite Hmi, ?Hai, ?Hci;
    try reflexivity.
  all: unfold bind at 1; unfold market_at at 1; unfold gets at 1; cbn [markets];
    rewrite Hres, ?Hvis; reflexivity.
Qed.

End Hidden.

(** X28: unknown and hidden markets.  For a trade with a valid side and
    a positive quantity or budget (for a sell: of a known user), the
    committed call raises "Market not found or missing AMM/CH rows" when
    the market row, its AMM row or its clearing-house row is missing; when
    all three are there and the market is open, but the [is_visible]
    callback answers no for the market name and the user, it raises "You
    cannot trade this market".  The database is unchanged in both cases: a
    user row that a buy created on the way is not kept. *)
Theorem X28_unknown_or_hidden_market (LEDGER_MODE : ledger_mode) (SYSTEM_IDS : nat * nat)
    (o : op) (db : Session) :
  let r := request_of o in
  side_ok (req_side r) = true ->
  fle (req_quantity r) (Fin 0) && no_budget (req_budget_points r) = false ->
  match o with
  | Buy _ => True
  | Sell _ => is_Some (first_where (by_username (req_username r)) (users db))
  end ->
  match first_where (market_by_id (req_market_id r)) (markets db),
        first_where (amm_by_market (req_market_id r)) (amms db),
        first_where (ch_by_market (req_market_id r)) (chs db) with
  | Some mi, Some _, Some _ =>
      MarketDB.resolved (markets db !!! mi) = false ->
      hidden (req_is_visible r) (MarketDB.name (markets db !!! mi)) (req_username r) = true ->
      commit LEDGER_MODE SYSTEM_IDS o db
      = (Raise (ValueError "You cannot trade this market"), db)
  | _, _, _ =>
      commit LEDGER_MODE SYSTEM_IDS o db
      = (Raise (ValueError "Market not found or missing AMM/CH rows"), db)
  end.
Proof.
  intros r Hside Hreq Huser.
  destruct o as [r0|r0]; cbn [request_of] in r; subst r; unfold commit.
  - destruct (buy_no_market LEDGER_MODE SYSTEM_IDS (req_utcnow r0) (req_username r0)
                (req_market_id r0) (req_quantity r0) (req_side r0) (req_budget_points r0)
                (req_is_visible r0) db Hside Hreq) as [s1 E].
    destruct (first_where (market_by_id _) (markets db)) as [mi|];
      [destruct (first_where (amm_by_market _) (amms db)) as [ai|];
       [destruct (first_where (ch_by_market _) (chs db)) as [ci|]|]|];
      try (eapply transaction_Raise; exact E).
    intros Hres Hvis. rewrite Hres, Hvis in E. eapply transaction_Raise; exact E.
  - pose proof (sell_no_market LEDGER_MODE SYSTEM_IDS (req_utcnow r0) (req_username r0)
                  (req_market_id r0) (req_quantity r0) (req_side r0) (req_budget_points r0)
                  (req_is_visible r0) db Hside Hreq Huser) as E.
    destruct (first_where (market_by_id _) (markets db)) as [mi|];
      [destruct (first_where (amm_by_market _) (amms db)) as [ai|];
       [destruct (first_where (ch_by_market _) (chs db)) as [ci|]|]|];
      try (eapply transaction_Raise; exact E).
    intros Hres Hvis. rewrite Hres, Hvis in E. eapply transaction_Raise; exact E.
Qed.

(** An unknown user asks for one YES contract of market 7, which does not
    exist: no row for the user is left. *)
Lemma X28_unknown_or_hidden_market_witness :
  commit off (0%nat, 0%nat) (Buy (mkRequest "dave" 7 (Fin 1) "yes" None None 0)) db_alice
  = (Raise (ValueError "Market not found or missing AMM/CH rows"), db_alice).
Proof.
  assert (Hreq : fle (Fin 1) (Fin 0) && no_budget None = false).
  { unfold fle. rewrite bool_decide_eq_false_2 by lra. reflexivity. }
  exact (X28_unknown_or_hidden_market off (0%nat, 0%nat)
           (Buy (mkRequest "dave" 7 (Fin 1) "yes" None None 0)) db_alice eq_refl Hreq I).
Defined.

(** * Statements that hold whatever the rounding

    The model computes on real numbers where the code computes on binary64
    floats.  The statements of this part do not depend on the difference:
    they follow the control flow of the code and name its own operations,
    they are generic in the values the pricing returns, or they are about
    whole numbers that binary64 holds exactly. *)

(** ** C3: the budget search *)

Section SearchAnyCost.

Variables (b q_yes q_no : float) (side : string) (budget : float) (mode : string).

(** The value [cost_for_qty] returns for each quantity; nothing is assumed
    about it. *)
Variable cost : Z -> float.
Hypothesis cost_ok : forall q, cost_for_qty b q_yes q_no side mode q = Ok (cost q).
Hypothesis budget_pos : fgt budget (Fin 0) = true.

Lemma fits_over (q : Z) :
  fits b q_yes q_no side budget mode q <-> over budget cost q = false.
Proof.
  unfold fits, over, exceeds. rewrite cost_ok. split.
  - intros (c & E & Hfin & Hle). injection E as <-. rewrite Hfin. cbn [negb orb].
    unfold fgt, flt, fle in *.
    destruct (cost q) as [r| | |], budget as [bu| | |]; try discriminate; try reflexivity.
    apply bool_decide_eq_true_1 in Hle. apply bool_decide_eq_false_2. lra.
  - intros H. apply orb_false_iff in H as [Hfin Hgt]. apply negb_false_iff in Hfin.
    exists (cost q). split; [reflexivity|]. split; [exact Hfin|].
    unfold fgt, flt, fle in *.
    destruct (cost q) as [r| | |], budget as [bu| | |]; try discriminate; try reflexivity.
    apply bool_decide_eq_false_1 in Hgt. apply bool_decide_eq_true_2. lra.
Qed.

End SearchAnyCost.

(** C3, as the code has it.  Let [cost_for_qty] return a value for every
    quantity (it raises only when [b] is zero), whatever the values are,
    and let the budget be positive.  The doubling stops at the first power
    of two above 10^9, so the search ranges over 1 .. 2^30:
    - it fails with "budget insufficient for 1 contract" exactly when one
      contract does not fit (its cost is not finite or is above the budget);
    - otherwise it returns a quantity in 1 .. 2^30 that fits, and the next
      quantity does not fit unless the result is the cap 2^30;
    - the result is the largest quantity in 1 .. 2^30 that fits whenever
      fitting is monotone (every quantity below one that fits also fits),
      which the search itself neither checks nor needs. *)
Theorem C3_budget_search (b q_yes q_no : float) (side : string) (budget : float)
    (mode : string) (cost : Z -> float) :
  (forall q, cost_for_qty b q_yes q_no side mode q = Ok (cost q)) ->
  fgt budget (Fin 0) = true ->
  let fit := fits b q_yes q_no side budget mode in
  let res := _max_int_quantity_for_budget b q_yes q_no side budget mode in
  (~ fit 1%Z -> res = Raise (ValueError "budget insufficient for 1 contract"))
  /\ (fit 1%Z -> exists q,
        res = Ok q /\ (1 <= q <= 1073741824)%Z /\ fit q
        /\ ((q < 1073741824)%Z -> ~ fit (q + 1)%Z)
        /\ ((forall q1 q2, (1 <= q1 <= q2)%Z -> fit q2 -> fit q1) ->
            forall q', (1 <= q' <= 1073741824)%Z -> fit q' -> (q' <= q)%Z)).
Proof.
  intros Hcost Hbu fit res.
  pose proof (max_int_quantity_spec b q_yes q_no side budget mode cost Hcost
                (fgt_0_not_fle budget Hbu)) as Hspec.
  fold res in Hspec. unfold cap in Hspec.
  pose proof (fits_over b q_yes q_no side budget mode cost Hcost Hbu) as Hfo.
  fold fit in Hfo.
  destruct Hspec as [[Hover Hres]|(Hover & q & Hres & Hr & Hfit & Hnext)].
  - split; [intros _; exact Hres|].
    intros Hfit1. apply Hfo in Hfit1. congruence.
  - split.
    { intros Hn. exfalso. apply Hn. apply Hfo. exact Hover. }
    intros _. exists q. split; [exact Hres|]. split; [exact Hr|].
    split; [apply Hfo; exact Hfit|]. split.
    + intros Hlt Hfit'. apply Hfo in Hfit'.
      destruct Hnext as [->|Hnext]; [lia|congruence].
    + intros Hmono q' Hq' Hfit'.
      destruct (Z_le_gt_dec q' q) as [|Hgt]; [assumption|exfalso].
      destruct Hnext as [->|Hnext]; [lia|].
      assert (Hfit1 : fit (q + 1)%Z) by (apply (Hmono (q + 1)%Z q'); [lia|exact Hfit']).
      apply Hfo in Hfit1. congruence.
Qed.

(** A budget of 1000 points on the fresh default market. *)
Lemma C3_budget_search_witness :
  let fit := fits (Fin 20) (Fin 0) (Fin 0) "yes" (Fin 1000) "buy" in
  let res := _max_int_quantity_for_budget (Fin 20) (Fin 0) (Fin 0) "yes" (Fin 1000) "buy" in
  (~ fit 1%Z -> res = Raise (ValueError "budget insufficient for 1 contract"))
  /\ (fit 1%Z -> exists q,
        res = Ok q /\ (1 <= q <= 1073741824)%Z /\ fit q
        /\ ((q < 1073741824)%Z -> ~ fit (q + 1)%Z)
        /\ ((forall q1 q2, (1 <= q1 <= q2)%Z -> fit q2 -> fit q1) ->
            forall q', (1 <= q' <= 1073741824)%Z -> fit q' -> (q' <= q)%Z)).
Proof.
  apply (C3_budget_search (Fin 20) (Fin 0) (Fin 0) "yes" (Fin 1000) "buy"
           (fun q => Fin (cost_for_qtyR 20 0 0 "yes" "buy" q))).
  - intros q. apply cost_for_qty_Fin. lra.
  - apply fgt_pos. lra.
Defined.

(** ** The checks on the computed cost *)

Section Priced.

Variable LEDGER_MODE : ledger_mode.
Variable SYSTEM_IDS : nat * nat.
Variable utcnow : nat.

(** A buy by quantity, up to the two tests on its cost. *)
Lemma buy_priced (username : string) (market_id : nat) (quantity : float) (side : string)
    (budget_points : option float) (is_visible : option (string -> string -> bool))
    (s : Session) (ui mi ai ci : nat) (u : UserDB.t) (m : MarketDB.t) (a : AMMDB.t)
    (cost : float) :
  side_ok side = true -> fle quantity (Fin 0) && no_budget budget_points = false ->
  has_budget budget_points = false ->
  first_where (by_username username) (users_with username (users s)) = Some ui ->
  users_with username (users s) !! ui = Some u ->
  first_where (market_by_id market_id) (markets s) = Some mi -> markets s !! mi = Some m ->
  first_where (amm_by_market market_id) (amms s) = Some ai -> amms s !! ai = Some a ->
  first_where (ch_by_market market_id) (chs s) = Some ci ->
  MarketDB.resolved m = false -> hidden is_visible (MarketDB.name m) username = false ->
  lmsr_cost (MarketDB.b m) (fneg (or0 (AMMDB.qYes a))) (fneg (or0 (AMMDB.qNo a)))
    quantity side = Ok cost ->
  exists s1,
    isfinite cost = false \/ flt (or0 (UserDB.points u)) cost = true ->
    trade_buy LEDGER_MODE SYSTEM_IDS utcnow username market_id quantity side budget_points
      is_visible s
    = (Raise (ValueError (if isfinite cost then "not enough points for order"
                          else "pricing overflow")), s1).
Proof.
  intros Hside Hreq Hhas Hui Hu Hmi Hm Hai Ha Hci Hopen Hvis Hcost.
  destruct s as [us ms am ps ls cs]. cbn [users markets amms chs positions] in *.
  unfold trade_buy. rewrite Hside, Hreq. cbn [negb].
  unfold bind at 1. unfold first_user_by_username at 1. unfold gets at 1.
  cbn [users]. fold (by_username username).
  destruct (user_block_run username us ms am ps ls cs) as (ui' & Hui' & ->).
  rewrite Hui in Hui'. injection Hui' as <-.
  rewrite bundle_run. cbn [users markets amms chs positions]. rewrite Hmi, Hai, Hci.
  unfold bind at 1. unfold market_at at 1. unfold gets at 1. cbn [markets].
  rewrite (list_lookup_total_correct _ _ _ Hm), Hopen, Hvis.
  unfold bind at 1. unfold user_at at 1. unfold gets at 1. cbn [users].
  rewrite (list_lookup_total_correct _ _ _ Hu).
  destruct (position_block_run (UserDB.id u) market_id (users_with username us) ms am ps ls cs)
    as (pi_ & Hpi & ->).
  unfold bind at 1. unfold amm_at at 1. unfold gets at 1. cbn [amms].
  rewrite (list_lookup_total_correct _ _ _ Ha).
  assert (Hqty : forall B (k : float -> M B) s0,
             bind (match budget_points with
                   | Some p =>
                       if fgt p (Fin 0)
                       then bind (lift (_max_int_quantity_for_budget (MarketDB.b m)
                                          (fneg (or0 (AMMDB.qYes a)))
                                          (fneg (or0 (AMMDB.qNo a))) side p "buy"))
                                 (fun q => ret (of_int q))
                       else ret quantity
                   | None => ret quantity
                   end) k s0 = k quantity s0).
  { intros B k s0. destruct budget_points as [p|]; [|reflexivity].
    cbn [has_budget] in Hhas. rewrite Hhas. reflexivity. }
  rewrite Hqty, lift_run, Hcost.
  eexists. intros Hc. destruct (isfinite cost) eqn:Hfin; cbn [negb].
  - destruct Hc as [Hc|Hc]; [discriminate|]. rewrite Hc. reflexivity.
  - reflexivity.
Qed.


(** A sell by budget whose search raises. *)
Lemma sell_search_raises (username : string) (market_id : nat) (quantity : float)
    (side : string) (bp : float) (is_visible : option (string -> string -> bool))
    (s : Session) (ui mi ai ci pi_ : nat) (u : UserDB.t) (m : MarketDB.t) (a : AMMDB.t)
    (p : PositionsDB.t) (e : exn) :
  side_ok side = true -> fgt bp (Fin 0) = true ->
  first_where (by_username username) (users s) = Some ui -> users s !! ui = Some u ->
  first_where (market_by_id market_id) (markets s) = Some mi -> markets s !! mi = Some m ->
  first_where (amm_by_market market_id) (amms s) = Some ai -> amms s !! ai = Some a ->
  first_where (ch_by_market market_id) (chs s) = Some ci ->
  MarketDB.resolved m = false -> hidden is_visible (MarketDB.name m) username = false ->
  first_where (position_by_key (UserDB.id u) market_id) (positions s) = Some pi_ ->
  positions s !! pi_ = Some p ->
  _max_int_quantity_for_budget (MarketDB.b m) (fneg (or0 (AMMDB.qYes a)))
    (fneg (or0 (AMMDB.qNo a))) side bp "sell" = Raise e ->
  trade_sell LEDGER_MODE SYSTEM_IDS utcnow username market_id quantity side (Some bp)
    is_visible s
  = (Raise e, s).
Proof.
  intros Hside Hbp Hui Hu Hmi Hm Hai Ha Hci Hopen Hvis Hpi Hp Hq.
  destruct s as [us ms am ps ls cs]. cbn [users markets amms chs positions] in *.
  unfold trade_sell. rewrite Hside. cbn [negb].
  unfold no_budget. rewrite (fgt_0_not_fle bp Hbp), andb_false_r.
  unfold bind at 1. unfold first_user_by_username at 1. unfold gets at 1.
  cbn [users]. fold (by_username username). rewrite Hui.
  rewrite bundle_run. cbn [users markets amms chs positions]. rewrite Hmi, Hai, Hci.
  unfold bind at 1. unfold market_at at 1. unfold gets at 1. cbn [markets].
  rewrite (list_lookup_total_correct _ _ _ Hm), Hopen, Hvis.
  unfold bind at 1. unfold user_at at 1. unfold gets at 1. cbn [users].
  rewrite (list_lookup_total_correct _ _ _ Hu).
  unfold bind at 1. unfold first_position at 1. unfold gets at 1. cbn [positions].
  fold (position_by_key (UserDB.id u) market_id). rewrite Hpi.
  unfold bind at 1. unfold position_at at 1. unfold gets at 1. cbn [positions].
  rewrite (list_lookup_total_correct _ _ _ Hp).
  unfold bind at 1. unfold amm_at at 1. unfold gets at 1. cbn [amms].
  rewrite (list_lookup_total_correct _ _ _ Ha).
  rewrite Hbp, bind_assoc, lift_run, Hq. reflexivity.
Qed.

End Priced.

(** ** C5: the error of a sell by an unknown user *)

(** C5, the error message: on the settled market of scenario S5, bob, who
    has no user row, asks to sell ten YES contracts.  The sell fails
    and the session is unchanged, but the user is looked up before the
    market, and the error is "user not found", not "Market is settled". *)
Lemma C5_unknown_seller_counterexample :
  market_resolved 1 db_settled = true
  /\ commit off (0%nat, 0%nat) (Sell (mkRequest "bob" 1 (Fin 10) "yes" None None 0)) db_settled
     = (Raise (ValueError "user not found"), db_settled)
  /\ ValueError "user not found" <> ValueError "Market is settled".
Proof.
  split; [reflexivity|]. split; [|discriminate].
  unfold commit. cbn [req_utcnow req_username req_market_id req_quantity req_side
    req_budget_points req_is_visible].
  eapply transaction_Raise. apply sell_unknown_user; [reflexivity| |reflexivity].
  rewrite fle_10_0. reflexivity.
Qed.

(** ** C10: a budget below the payout of one contract *)

Lemma half_payout_above : 1 / 10 < cost_for_qtyR 20 (1 / 2) 0 "yes" "sell" 1.
Proof.
  unfold cost_for_qtyR. change (String.eqb "sell" "buy") with false. cbn iota.
  change (IZR (- (1))) with (- (1)).
  pose proof (costR_below 20 (1 / 2) 0 (- (1)) "yes" ltac:(lra) ltac:(lra)) as H.
  unfold sideR, after_yes, after_no in H. change (String.eqb "yes" "yes") with true in H.
  cbn iota in H. unfold priceR in H.
  replace (0 / 20) with 0 in H by lra. rewrite exp_0 in H.
  set (e := exp ((1 / 2 + - (1)) / 20)) in *.
  assert (He : 1 + (1 / 2 + - (1)) / 20 <= e) by apply exp_ineq1_le.
  assert (Hp : 1 / 10 < e / (e + 1)).
  { apply (Rmult_lt_reg_r (e + 1)); [lra|].
    unfold Rdiv at 2. rewrite Rmult_assoc, Rinv_l by lra. lra. }
  lra.
Qed.

(** C10, the budget: alice holds half a YES contract and asks to sell YES
    for a budget of a tenth of a point.  The floor of her holding is zero,
    but one contract pays more than the budget, so the budget search raises
    "budget insufficient for 1 contract" before the quantity is clamped;
    the error is not "quantity must be > 0". *)
Lemma C10_small_budget_counterexample :
  math.floor (available half_pos "yes") = Ok 0%Z
  /\ commit off (0%nat, 0%nat)
       (Sell (mkRequest "alice" 1 (Fin 1) "yes" (Some (Fin (1 / 10))) None 0)) db_half
     = (Raise (ValueError "budget insufficient for 1 contract"), db_half)
  /\ ValueError "budget insufficient for 1 contract" <> ValueError "quantity must be > 0".
Proof.
  split; [|split; [|discriminate]].
  { unfold available. simpl. rewrite or0_id. simpl. rewrite Int_part_half. reflexivity. }
  unfold commit. cbn [req_utcnow req_username req_market_id req_quantity req_side
    req_budget_points req_is_visible].
  assert (Hpos : fgt (Fin (1 / 10)) (Fin 0) = true)
    by (unfold fgt, flt; apply bool_decide_eq_true_2; lra).
  eapply transaction_Raise.
  apply (sell_search_raises off (0%nat, 0%nat) 0 "alice" 1 (Fin 1) "yes" (Fin (1 / 10)) None
           db_half 0 0 0 0 0 alice rain half_amm half_pos); try reflexivity.
  - exact Hpos.
  - simpl. rewrite !or0_id.
    destruct (max_int_quantity_spec (Fin 20) (Fin (- - (1 / 2))) (Fin (- 0)) "yes"
                (Fin (1 / 10)) "sell"
                (fun q => Fin (cost_for_qtyR 20 (- - (1 / 2)) (- 0) "yes" "sell" q))
                (fun q => cost_for_qty_Fin 20 (- - (1 / 2)) (- 0) "yes" "sell" q
                            ltac:(lra))
                (fgt_0_not_fle _ Hpos)) as [[_ E]|(Hfit & _)]; [exact E|].
    exfalso. unfold over in Hfit. rewrite exceeds_Fin in Hfit by assumption.
    unfold fle in Hfit. rewrite bool_decide_eq_false_2 in Hfit; [discriminate|].
    pose proof half_payout_above as H.
    replace (- - (1 / 2)) with (1 / 2) by lra. replace (- 0) with 0 by lra. lra.
Qed.

(** ** C8: the log-sum-exp guard and the overflow error *)





(** ** X18: a buy the buyer cannot pay *)

(** X18: for a valid side and a quantity given without a positive budget,
    on an open, visible market that has its rows, when [lmsr_cost] returns
    a finite cost and the buyer's balance (1000 for a user created by the
    call) compares below that cost, the buy raises "not enough points for
    order" and the database is as it was, without the user and position
    rows the call had added. *)
Theorem X18_buy_needs_funds (LEDGER_MODE : ledger_mode) (SYSTEM_IDS : nat * nat)
    (r : request) (db : Session) (ui mi ai ci : nat) (u : UserDB.t) (m : MarketDB.t)
    (a : AMMDB.t) (cost : float) :
  side_ok (req_side r) = true ->
  fle (req_quantity r) (Fin 0) && no_budget (req_budget_points r) = false ->
  has_budget (req_budget_points r) = false ->
  first_where (by_username (req_username r)) (users_with (req_username r) (users db))
  = Some ui ->
  users_with (req_username r) (users db) !! ui = Some u ->
  first_where (market_by_id (req_market_id r)) (markets db) = Some mi ->
  markets db !! mi = Some m ->
  first_where (amm_by_market (req_market_id r)) (amms db) = Some ai ->
  amms db !! ai = Some a ->
  first_where (ch_by_market (req_market_id r)) (chs db) = Some ci ->
  MarketDB.resolved m = false ->
  hidden (req_is_visible r) (MarketDB.name m) (req_username r) = false ->
  lmsr_cost (MarketDB.b m) (fneg (or0 (AMMDB.qYes a))) (fneg (or0 (AMMDB.qNo a)))
    (req_quantity r) (req_side r) = Ok cost ->
  isfinite cost = true -> flt (or0 (UserDB.points u)) cost = true ->
  commit LEDGER_MODE SYSTEM_IDS (Buy r) db
  = (Raise (ValueError "not enough points for order"), db).
Proof.
  intros Hside Hreq Hhas Hui Hu Hmi Hm Hai Ha Hci Hopen Hvis Hcost Hfin Hlt.
  destruct (buy_priced LEDGER_MODE SYSTEM_IDS (req_utcnow r) (req_username r)
              (req_market_id r) (req_quantity r) (req_side r) (req_budget_points r)
              (req_is_visible r) db ui mi ai ci u m a cost Hside Hreq Hhas Hui Hu Hmi Hm
              Hai Ha Hci Hopen Hvis Hcost) as [s1 Hrun].
  specialize (Hrun (or_intror Hlt)). rewrite Hfin in Hrun.
  unfold commit. eapply transaction_Raise. exact Hrun.
Qed.

(** Alice, with 1000 points, asks for 5000 YES contracts on the fresh
    market. *)
Lemma X18_buy_needs_funds_witness :
  commit off (0%nat, 0%nat) (Buy (mkRequest "alice" 1 (Fin 5000) "yes" None None 0)) db_alice
  = (Raise (ValueError "not enough points for order"), db_alice).
Proof.
  pose proof (costR_above 20 (- 0) (- 0) 5000 "yes" ltac:(lra) ltac:(lra)) as H.
  unfold sideR in H. change (String.eqb "yes" "yes") with true in H. cbv iota in H.
  rewrite priceR_even in H.
  apply (X18_buy_needs_funds off (0%nat, 0%nat)
           (mkRequest "alice" 1 (Fin 5000) "yes" None None 0) db_alice
           0%nat 0%nat 0%nat 0%nat alice rain rain_amm
           (Fin (costR 20 (- 0) (- 0) 5000 "yes"))); try reflexivity.
  - cbn [req_quantity req_budget_points no_budget]. rewrite andb_true_r.
    unfold fle. apply bool_decide_eq_false_2. lra.
  - cbn [req_quantity req_side MarketDB.b rain AMMDB.qYes AMMDB.qNo rain_amm].
    rewrite !or0_id. change (fneg (Fin 0)) with (Fin (- 0)).
    apply lmsr_cost_Fin. lra.
  - cbn [UserDB.points alice]. rewrite or0_id. unfold flt. apply bool_decide_eq_true_2. lra.
Defined.

(** ** C1: what a trade does to the points *)

Lemma buy_amm1_points (a : AMMDB.t) (cost qty : float) (side : string) :
  AMMDB.points (buy_amm1 a cost qty side) = fadd (or0 (AMMDB.points a)) cost.
Proof. unfold buy_amm1. destruct (String.eqb side "yes"); reflexivity. Qed.

Lemma sell_amm1_points (a : AMMDB.t) (payout qty : float) (side : string) :
  AMMDB.points (sell_amm1 a payout qty side) = fsub (AMMDB.points a) payout.
Proof. unfold sell_amm1. destruct (String.eqb side "yes"); reflexivity. Qed.

Lemma buy_amm2_counts (a1 : AMMDB.t) (c : ClearingHouseDB.t) :
  AMMDB.qYes (buy_amm2 a1 c) = AMMDB.qYes a1 /\ AMMDB.qNo (buy_amm2 a1 c) = AMMDB.qNo a1.
Proof. unfold buy_amm2. destruct (fgt _ _); split; reflexivity. Qed.

Lemma sell_amm2_counts (a1 : AMMDB.t) (c : ClearingHouseDB.t) :
  AMMDB.qYes (sell_amm2 a1 c) = AMMDB.qYes a1 /\ AMMDB.qNo (sell_amm2 a1 c) = AMMDB.qNo a1.
Proof. unfold sell_amm2. destruct (fgt _ _); split; reflexivity. Qed.

Lemma required_collateral_counts (a a' : AMMDB.t) :
  AMMDB.qYes a' = AMMDB.qYes a -> AMMDB.qNo a' = AMMDB.qNo a ->
  required_collateral a' = required_collateral a.
Proof. intros Hy Hn. unfold required_collateral. rewrite Hy, Hn. reflexivity. Qed.

(** C1, as the code has it: a committed trade only moves points.  In the
    full ledger mode the system users are taken to exist already.

    A committed buy debits the order cost, a finite amount, from the
    buyer's row, which is a new row with 1000 points when the username had
    none, and credits the same amount to the AMM row of the market; a
    committed sell debits the payout from the AMM row and credits the same
    amount to the seller's row.  With [delta] the required collateral of
    the new inventory minus the collateral held (after a sell: the
    collateral held minus the required one), a positive [delta] is then
    moved from the AMM row to the clearing-house row (after a sell: back to
    the AMM row), and nothing is moved otherwise.  No other row of the user
    and clearing-house tables changes, and no other AMM reserve. *)
Theorem C1_points_are_moved (LEDGER_MODE : ledger_mode) (SYSTEM_IDS : nat * nat)
    (o : op) (db db' : Session) (out : TradeOut) :
  system_users_ready LEDGER_MODE SYSTEM_IDS db ->
  commit LEDGER_MODE SYSTEM_IDS o db = (Ok out, db') ->
  let r := request_of o in
  let amount := order_cost out in
  let us := match o with
            | Buy _ => users_with (req_username r) (users db)
            | Sell _ => users db
            end in
  exists ui ai ci u a c a' delta,
    (first_where (by_username (req_username r)) us = Some ui /\ us !! ui = Some u)
    /\ (first_where (amm_by_market (req_market_id r)) (amms db) = Some ai
        /\ amms db !! ai = Some a)
    /\ (first_where (ch_by_market (req_market_id r)) (chs db) = Some ci
        /\ chs db !! ci = Some c)
    /\ isfinite amount = true
    /\ amms db' !! ai = Some a'
    /\ match o with
       | Buy _ =>
           delta = fsub (required_collateral a') (or0 (ClearingHouseDB.points c))
           /\ users db' = <[ui := UserDB.set_points (fsub (UserDB.points u) amount) u]> us
           /\ AMMDB.points <$> amms db'
              = <[ai := if fgt delta (Fin 0)
                        then fsub (fadd (or0 (AMMDB.points a)) amount) delta
                        else fadd (or0 (AMMDB.points a)) amount]> (AMMDB.points <$> amms db)
           /\ chs db'
              = <[ci := if fgt delta (Fin 0)
                        then ClearingHouseDB.set_points
                               (fadd (or0 (ClearingHouseDB.points c)) delta) c
                        else c]> (chs db)
       | Sell _ =>
           delta = fsub (or0 (ClearingHouseDB.points c)) (required_collateral a')
           /\ users db' = <[ui := UserDB.set_points (fadd (UserDB.points u) amount) u]> us
           /\ AMMDB.points <$> amms db'
              = <[ai := if fgt delta (Fin 0)
                        then fadd (fsub (AMMDB.points a) amount) delta
                        else fsub (AMMDB.points a) amount]> (AMMDB.points <$> amms db)
           /\ chs db'
              = <[ci := if fgt delta (Fin 0)
                        then ClearingHouseDB.set_points
                               (fsub (ClearingHouseDB.points c) delta) c
                        else c]> (chs db)
       end.
Proof.
  intros _ H r amount us. subst r amount us.
  destruct o as [r|r]; unfold commit in H; apply transaction_Ok in H; cbn [request_of].
  - rewrite trade_buy_success in H.
    apply trade_buy_pure_inv in H
      as (ui & mi & ai & ci & pi_ & u & m & a & c & p & qty & cost & F).
    destruct F.
    set (a1 := buy_amm1 a cost qty (req_side r)) in *.
    exists ui, ai, ci, u, a, c, (buy_amm2 a1 c), (buy_delta a1 c).
    rewrite bf_order_cost0.
    split; [auto|]. split; [auto|]. split; [auto|]. split; [assumption|].
    split.
    { rewrite bf_amms0. apply list_lookup_insert_eq. eapply lookup_lt_Some; eauto. }
    split.
    { unfold buy_delta. f_equal. symmetry.
      destruct (buy_amm2_counts a1 c) as [Hy Hn].
      apply required_collateral_counts; assumption. }
    split; [assumption|]. split.
    + rewrite bf_amms0, list_fmap_insert. f_equal.
      unfold buy_amm2. destruct (fgt (buy_delta a1 c) (Fin 0)).
      * cbn [AMMDB.points AMMDB.set_points]. unfold a1. rewrite buy_amm1_points. reflexivity.
      * unfold a1. rewrite buy_amm1_points. reflexivity.
    + rewrite bf_chs0. reflexivity.
  - rewrite trade_sell_success in H.
    apply trade_sell_pure_inv in H
      as (ui & mi & ai & ci & pi_ & u & m & a & c & p & qty & payout & F).
    destruct F.
    set (a1 := sell_amm1 a payout qty (req_side r)) in *.
    exists ui, ai, ci, u, a, c, (sell_amm2 a1 c), (sell_delta a1 c).
    rewrite sf_order_cost0.
    split; [auto|]. split; [auto|]. split; [auto|]. split; [assumption|].
    split.
    { rewrite sf_amms0. apply list_lookup_insert_eq. eapply lookup_lt_Some; eauto. }
    split.
    { unfold sell_delta. f_equal. symmetry.
      destruct (sell_amm2_counts a1 c) as [Hy Hn].
      apply required_collateral_counts; assumption. }
    split; [assumption|]. split.
    + rewrite sf_amms0, list_fmap_insert. f_equal.
      unfold sell_amm2. destruct (fgt (sell_delta a1 c) (Fin 0)).
      * cbn [AMMDB.points AMMDB.set_points]. unfold a1. rewrite sell_amm1_points. reflexivity.
      * unfold a1. rewrite sell_amm1_points. reflexivity.
    + rewrite sf_chs0. reflexivity.
Qed.

(** Alice, who has a row, buys ten YES contracts on the fresh market. *)
Lemma C1_points_are_moved_witness :
  exists out db',
    commit off (0%nat, 0%nat) (Buy ten_yes) db_alice = (Ok out, db')
    /\ exists ui ai ci u a c a' delta,
         (first_where (by_username "alice") (users_with "alice" (users db_alice)) = Some ui
          /\ users_with "alice" (users db_alice) !! ui = Some u)
         /\ (first_where (amm_by_market 1) (amms db_alice) = Some ai
             /\ amms db_alice !! ai = Some a)
         /\ (first_where (ch_by_market 1) (chs db_alice) = Some ci
             /\ chs db_alice !! ci = Some c)
         /\ isfinite (order_cost out) = true
         /\ amms db' !! ai = Some a'
         /\ delta = fsub (required_collateral a') (or0 (ClearingHouseDB.points c))
         /\ users db'
            = <[ui := UserDB.set_points (fsub (UserDB.points u) (order_cost out)) u]>
                (users_with "alice" (users db_alice))
         /\ AMMDB.points <$> amms db'
            = <[ai := if fgt delta (Fin 0)
                      then fsub (fadd (or0 (AMMDB.points a)) (order_cost out)) delta
                      else fadd (or0 (AMMDB.points a)) (order_cost out)]>
                (AMMDB.points <$> amms db_alice)
         /\ chs db'
            = <[ci := if fgt delta (Fin 0)
                      then ClearingHouseDB.set_points
                             (fadd (or0 (ClearingHouseDB.points c)) delta) c
                      else c]> (chs db_alice).
Proof.
  destruct (ten_yes_round_trip off (0%nat, 0%nat) [alice] 0 0 (or_intror eq_refl))
    as (out1 & s1 & _ & _ & H1 & _).
  exists out1, s1.
  assert (Hc : commit off (0%nat, 0%nat) (Buy ten_yes) db_alice = (Ok out1, s1)).
  { unfold commit, ten_yes. cbn [req_username req_market_id req_quantity req_side
      req_budget_points req_is_visible req_utcnow].
    apply transaction_Ok. rewrite trade_buy_success. exact H1. }
  split; [exact Hc|].
  assert (Hready : system_users_ready off (0%nat, 0%nat) db_alice)
    by (intros Hfull; discriminate Hfull).
  exact (C1_points_are_moved off (0%nat, 0%nat) (Buy ten_yes) db_alice s1 out1 Hready Hc).
Defined.

(** ** C6: buying and selling back *)

Lemma buy_amm1_counts (a : AMMDB.t) (cost qty : float) (side : string) :
  AMMDB.qYes (buy_amm1 a cost qty side)
  = (if String.eqb side "yes" then fsub (or0 (AMMDB.qYes a)) qty else AMMDB.qYes a)
  /\ AMMDB.qNo (buy_amm1 a cost qty side)
     = (if String.eqb side "yes" then AMMDB.qNo a else fsub (or0 (AMMDB.qNo a)) qty).
Proof. unfold buy_amm1. destruct (String.eqb side "yes"); split; reflexivity. Qed.

(** C6, as the code has it: there is no fee and no spread in the two
    trades.  When a user buys a quantity of a side and then sells the same
    quantity of that side, and both trades are committed, the purchase
    costs [lmsr_cost] of the quantity at the outstanding contracts, the
    sale pays minus [lmsr_cost] of minus the quantity at the outstanding
    contracts the purchase has left, and the user ends with the balance
    before the purchase, less that cost, plus that payout. *)
Theorem C6_no_fee_round_trip (LEDGER_MODE : ledger_mode) (SYSTEM_IDS : nat * nat)
    (db db1 db2 : Session) (username : string) (market_id : nat) (quantity : float)
    (side : string) (vis1 vis2 : option (string -> string -> bool)) (now1 now2 : nat)
    (out1 out2 : TradeOut) :
  commit LEDGER_MODE SYSTEM_IDS
    (Buy (mkRequest username market_id quantity side None vis1 now1)) db = (Ok out1, db1) ->
  commit LEDGER_MODE SYSTEM_IDS
    (Sell (mkRequest username market_id quantity side None vis2 now2)) db1 = (Ok out2, db2) ->
  exists ui u mi m ai a cost back,
    (first_where (by_username username) (users_with username (users db)) = Some ui
     /\ users_with username (users db) !! ui = Some u)
    /\ (first_where (market_by_id market_id) (markets db) = Some mi
        /\ markets db !! mi = Some m)
    /\ (first_where (amm_by_market market_id) (amms db) = Some ai
        /\ amms db !! ai = Some a)
    /\ lmsr_cost (MarketDB.b m) (fneg (or0 (AMMDB.qYes a))) (fneg (or0 (AMMDB.qNo a)))
         quantity side = Ok cost
    /\ lmsr_cost (MarketDB.b m)
         (fneg (or0 (if String.eqb side "yes" then fsub (or0 (AMMDB.qYes a)) quantity
                     else AMMDB.qYes a)))
         (fneg (or0 (if String.eqb side "yes" then AMMDB.qNo a
                     else fsub (or0 (AMMDB.qNo a)) quantity)))
         (fneg quantity) side = Ok back
    /\ order_cost out1 = cost
    /\ new_balance out1 = fsub (UserDB.points u) cost
    /\ order_cost out2 = fneg back
    /\ new_balance out2 = fadd (fsub (UserDB.points u) cost) (fneg back)
    /\ users db2 !! ui
       = Some (UserDB.set_points (fadd (fsub (UserDB.points u) cost) (fneg back)) u).
Proof.
  intros H1 H2. unfold commit in H1, H2.
  cbn [req_username req_market_id req_quantity req_side req_budget_points req_is_visible
       req_utcnow] in H1, H2.
  apply transaction_Ok in H1, H2.
  rewrite trade_buy_success in H1. rewrite trade_sell_success in H2.
  apply trade_buy_pure_inv in H1
    as (ui & mi & ai & ci & pi_ & u & m & a & c & p & qty & cost & F1).
  apply trade_sell_pure_inv in H2
    as (ui2 & mi2 & ai2 & ci2 & pi2 & u2 & m2 & a2 & c2 & p2 & qty2 & payout & F2).
  pose proof (buy_facts_after _ _ _ _ _ _ _ _ _ _ _ _ _ _ _ _ _ _ _ _ _ F1)
    as ((Aui & Au) & (Ami & Am) & (Aai & Aa) & (Aci & Ac) & _).
  destruct F1, F2.
  rewrite Aui in sf_ui0. injection sf_ui0 as <-.
  rewrite Ami in sf_mi0. injection sf_mi0 as <-.
  rewrite Aai in sf_ai0. injection sf_ai0 as <-.
  rewrite Au in sf_u0. injection sf_u0 as <-.
  rewrite Am in sf_m0. injection sf_m0 as <-.
  rewrite Aa in sf_a0. injection sf_a0 as <-.
  unfold buy_qty in bf_qty0. injection bf_qty0 as <-.
  unfold sell_qty in sf_qty0. injection sf_qty0 as <-.
  destruct sf_cost0 as (c0 & Hc0 & ->).
  destruct (buy_amm2_counts (buy_amm1 a cost quantity side) c) as [Ey En].
  destruct (buy_amm1_counts a cost quantity side) as [Ey1 En1].
  rewrite Ey, En, Ey1, En1 in Hc0.
  cbn [MarketDB.b MarketDB.set_amm_points] in Hc0.
  exists ui, u, mi, m, ai, a, cost, c0.
  split; [auto|]. split; [auto|]. split; [auto|]. split; [assumption|].
  split; [assumption|]. split; [assumption|]. split; [assumption|].
  split; [assumption|]. split.
  - rewrite sf_new_balance0. reflexivity.
  - rewrite sf_users0. rewrite list_lookup_insert_eq by (eapply lookup_lt_Some; eauto).
    reflexivity.
Qed.

(** Scenario S4: alice buys ten YES contracts on the fresh market and sells
    them at once. *)
Lemma C6_no_fee_round_trip_witness :
  exists out1 db1 out2 db2,
    commit off (0%nat, 0%nat) (Buy ten_yes) db_alice = (Ok out1, db1)
    /\ commit off (0%nat, 0%nat) (Sell ten_yes) db1 = (Ok out2, db2)
    /\ exists ui u mi m ai a cost back,
         (first_where (by_username "alice") (users_with "alice" (users db_alice)) = Some ui
          /\ users_with "alice" (users db_alice) !! ui = Some u)
         /\ (first_where (market_by_id 1) (markets db_alice) = Some mi
             /\ markets db_alice !! mi = Some m)
         /\ (first_where (amm_by_market 1) (amms db_alice) = Some ai
             /\ amms db_alice !! ai = Some a)
         /\ lmsr_cost (MarketDB.b m) (fneg (or0 (AMMDB.qYes a))) (fneg (or0 (AMMDB.qNo a)))
              (Fin 10) "yes" = Ok cost
         /\ lmsr_cost (MarketDB.b m)
              (fneg (or0 (if String.eqb "yes" "yes" then fsub (or0 (AMMDB.qYes a)) (Fin 10)
                          else AMMDB.qYes a)))
              (fneg (or0 (if String.eqb "yes" "yes" then AMMDB.qNo a
                          else fsub (or0 (AMMDB.qNo a)) (Fin 10))))
              (fneg (Fin 10)) "yes" = Ok back
         /\ order_cost out1 = cost
         /\ new_balance out1 = fsub (UserDB.points u) cost
         /\ order_cost out2 = fneg back
         /\ new_balance out2 = fadd (fsub (UserDB.points u) cost) (fneg back)
         /\ users db2 !! ui
            = Some (UserDB.set_points (fadd (fsub (UserDB.points u) cost) (fneg back)) u).
Proof.
  destruct (ten_yes_round_trip off (0%nat, 0%nat) [alice] 0 0 (or_intror eq_refl))
    as (out1 & s1 & out2 & s2 & H1 & H2).
  exists out1, s1, out2, s2.
  assert (Hc1 : commit off (0%nat, 0%nat) (Buy ten_yes) db_alice = (Ok out1, s1)).
  { unfold commit, ten_yes. cbn [req_username req_market_id req_quantity req_side
      req_budget_points req_is_visible req_utcnow].
    apply transaction_Ok. rewrite trade_buy_success. exact H1. }
  assert (Hc2 : commit off (0%nat, 0%nat) (Sell ten_yes) s1 = (Ok out2, s2)).
  { unfold commit, ten_yes. cbn [req_username req_market_id req_quantity req_side
      req_budget_points req_is_visible req_utcnow].
    apply transaction_Ok. rewrite trade_sell_success. exact H2. }
  split; [exact Hc1|]. split; [exact Hc2|].
  exact (C6_no_fee_round_trip off (0%nat, 0%nat) db_alice s1 s2 "alice" 1 (Fin 10) "yes"
           None None 0 0 out1 out2 Hc1 Hc2).
Defined.

(** ** C2: the collateral after a trade *)

Lemma Rmax_IZR (x y : Z) : Rmax (IZR x) (IZR y) = IZR (Z.max x y).
Proof.
  unfold Rmax. destruct (Rle_dec (IZR x) (IZR y)) as [H|H].
  - apply le_IZR in H. rewrite Z.max_r by assumption. reflexivity.
  - rewrite Z.max_l; [reflexivity|].
    destruct (Z_le_gt_dec y x) as [|Hgt]; [assumption|exfalso].
    apply H. apply IZR_le. lia.
Qed.

Lemma requiredR_IZR (y n : Z) :
  requiredR (IZR y) (IZR n) = IZR (Z.max (Z.max (- y) (- n)) 0).
Proof. unfold requiredR. rewrite <- !opp_IZR, !Rmax_IZR. reflexivity. Qed.

Lemma IZR_within_eps (k : Z) : - eps <= IZR k -> IZR k <= 0 -> IZR k = 0.
Proof.
  intros Hlo Hhi. apply le_IZR in Hhi.
  assert (Hk : (-1 < k)%Z).
  { apply lt_IZR. change (IZR (-1)) with (- (1)). unfold eps in Hlo. lra. }
  replace k with 0%Z by lia. reflexivity.
Qed.

Lemma exact_int_IZR (x : float) : exact_int x -> exists z, x = Fin (IZR z).
Proof. intros (z & -> & _). exists z. reflexivity. Qed.

Lemma exact_request_int (r : request) :
  exact_request r -> has_budget (req_budget_points r) = true \/ is_int (req_quantity r).
Proof. intros [H|(z & H & _)]; [left; assumption|right; exists z; assumption]. Qed.

Lemma inv_IZR (side : string) (zy zn zq : Z) :
  exists zy' zn',
    inv_yes side (IZR zy) (IZR zq) = IZR zy' /\ inv_no side (IZR zn) (IZR zq) = IZR zn'.
Proof.
  unfold inv_yes, inv_no. destruct (String.eqb side "yes").
  - exists (zy - zq)%Z, zn. rewrite minus_IZR. split; reflexivity.
  - exists zy, (zn - zq)%Z. rewrite minus_IZR. split; reflexivity.
Qed.

Section WholeCollateral.

Variable LEDGER_MODE : ledger_mode.
Variable SYSTEM_IDS : nat * nat.

Lemma buy_whole_collateral utcnow username market_id quantity side budget_points is_visible
    (s s' : Session) (out : TradeOut) :
  wf s -> collateral_inv s -> exact_inventory s ->
  has_budget budget_points = true \/ is_int quantity ->
  trade_buy_pure LEDGER_MODE SYSTEM_IDS utcnow username market_id quantity side
    budget_points is_visible s = Some (out, s') ->
  collateral_inv s'.
Proof.
  intros [Wu Wm Wa Wc Wp] Hinv Hex Hreq H.
  apply trade_buy_pure_inv in H
    as (ui & mi & ai & ci & pi_ & u & m & a & c & p & qty & cost & F).
  destruct F.
  destruct (Forall_lookup_1 _ _ _ _ Wa bf_a0) as (Hpa & _ & _).
  apply isfinite_Fin in Hpa as [pa Hpa].
  destruct (Forall_lookup_1 _ _ _ _ Hex bf_a0) as (Hay & Han).
  apply exact_int_IZR in Hay as [zy Hay]. apply exact_int_IZR in Han as [zn Han].
  destruct (isfinite_Fin _ (Forall_lookup_1 _ _ _ _ Wc bf_c0)) as [pc Hpc].
  destruct (isfinite_Fin _ bf_finite0) as [cst ->].
  destruct (buy_qty_int m a quantity side budget_points qty Hreq bf_qty0) as [zq ->].
  unfold of_int in *.
  destruct (buy_rows_Fin a c side pa (IZR zy) (IZR zn) pc cst (IZR zq) Hpa Hay Han Hpc)
    as (Ea & Ec & Hcol).
  apply Hcol in bf_collateral0 as [_ Hlow].
  destruct (Hinv market_id ai ci a c bf_ai0 bf_a0 bf_ci0 bf_c0) as [Hpre _].
  rewrite Hpc, Hay, Han in Hpre. simpl in Hpre. injection Hpre as Hpre.
  destruct (inv_IZR side zy zn zq) as (zy' & zn' & Ey' & En').
  rewrite Ey', En' in *. rewrite requiredR_IZR in *. subst pc.
  set (zr := Z.max (Z.max (- zy') (- zn')) 0) in *.
  set (zp := Z.max (Z.max (- zy) (- zn)) 0) in *.
  eapply (collateral_inv_update s s' market_id ai ci a _ c _ Hinv); try eassumption.
  - rewrite Ea. reflexivity.
  - rewrite Ec. reflexivity.
  - rewrite Ea, Ec. simpl. rewrite requiredR_IZR. fold zr. apply f_equal.
    rewrite <- minus_IZR in *.
    unfold Rmax. destruct (Rle_dec 0 (IZR (zr - zp))) as [Hle|Hgt].
    + rewrite minus_IZR. lra.
    + rewrite minus_IZR in *.
      assert (E0 : IZR zr - IZR zp = 0).
      { rewrite <- minus_IZR. apply IZR_within_eps; rewrite minus_IZR; [apply Hlow|]; lra. }
      lra.
Qed.

Lemma sell_whole_collateral utcnow username market_id quantity side budget_points is_visible
    (s s' : Session) (out : TradeOut) :
  wf s -> collateral_inv s -> exact_inventory s ->
  has_budget budget_points = true \/ is_int quantity ->
  trade_sell_pure LEDGER_MODE SYSTEM_IDS utcnow username market_id quantity side
    budget_points is_visible s = Some (out, s') ->
  collateral_inv s'.
Proof.
  intros [Wu Wm Wa Wc Wp] Hinv Hex Hreq H.
  apply trade_sell_pure_inv in H
    as (ui & mi & ai & ci & pi_ & u & m & a & c & p & qty & payout & F).
  destruct F.
  destruct (Forall_lookup_1 _ _ _ _ Wa sf_a0) as (Hpa & _ & _).
  apply isfinite_Fin in Hpa as [pa Hpa].
  destruct (Forall_lookup_1 _ _ _ _ Hex sf_a0) as (Hay & Han).
  apply exact_int_IZR in Hay as [zy Hay]. apply exact_int_IZR in Han as [zn Han].
  destruct (isfinite_Fin _ (Forall_lookup_1 _ _ _ _ Wc sf_c0)) as [pc Hpc].
  destruct (isfinite_Fin _ sf_finite0) as [pay ->].
  destruct (sell_qty_int m a p quantity side budget_points qty Hreq sf_qty0) as [zq ->].
  unfold of_int in *.
  destruct (sell_rows_Fin a c side pa (IZR zy) (IZR zn) pc pay (IZR zq) Hpa Hay Han Hpc)
    as (Ea & Ec & Hcol).
  pose proof (proj1 Hcol sf_collateral0) as Hlow. clear Hcol.
  destruct (Hinv market_id ai ci a c sf_ai0 sf_a0 sf_ci0 sf_c0) as [Hpre _].
  rewrite Hpc, Hay, Han in Hpre. simpl in Hpre. injection Hpre as Hpre.
  rewrite <- opp_IZR in *.
  destruct (inv_IZR side zy zn (- zq)) as (zy' & zn' & Ey' & En').
  rewrite Ey', En' in *. rewrite requiredR_IZR in *. subst pc.
  set (zr := Z.max (Z.max (- zy') (- zn')) 0) in *.
  set (zp := Z.max (Z.max (- zy) (- zn)) 0) in *.
  eapply (collateral_inv_update s s' market_id ai ci a _ c _ Hinv); try eassumption.
  - rewrite Ea. reflexivity.
  - rewrite Ec. reflexivity.
  - rewrite Ea, Ec. simpl. rewrite requiredR_IZR. fold zr. apply f_equal.
    unfold Rmax. destruct (Rle_dec 0 (IZR zp - IZR zr)) as [Hle|Hgt].
    + lra.
    + assert (E0 : IZR zp - IZR zr = 0).
      { rewrite <- minus_IZR. apply IZR_within_eps; rewrite minus_IZR; [apply Hlow|]; lra. }
      lra.
Qed.

End WholeCollateral.

(** C2, for whole numbers of contracts.  On a well-formed database
    (finite numbers, [b > 0]) where every clearing-house row holds
    [max(-AMM.qYes, -AMM.qNo, 0)] and every AMM inventory is a whole number
    of magnitude at most [2^52], a committed buy or sell that is driven by
    a positive budget, or asks for such a whole quantity, leaves every
    clearing-house row at [max(-AMM.qYes, -AMM.qNo, 0)] of the new
    inventory, which is not negative. *)
Theorem C2_collateral_whole_counts (LEDGER_MODE : ledger_mode) (SYSTEM_IDS : nat * nat)
    (o : op) (db db' : Session) (out : TradeOut) :
  wf db -> collateral_inv db -> exact_inventory db -> exact_request (request_of o) ->
  commit LEDGER_MODE SYSTEM_IDS o db = (Ok out, db') ->
  collateral_inv db'.
Proof.
  intros Hwf Hinv Hex Hreq H. apply exact_request_int in Hreq.
  destruct o as [r|r]; unfold commit in H; apply transaction_Ok in H;
    cbn [request_of] in Hreq.
  - rewrite trade_buy_success in H. eapply buy_whole_collateral; eassumption.
  - rewrite trade_sell_success in H. eapply sell_whole_collateral; eassumption.
Qed.

Ltac fneg_of_fin :=
  repeat match goal with
         | |- context [fneg (Fin ?x)] => change (fneg (Fin x)) with (Fin (- x))
         end.

Lemma exact_int_of (z : Z) : (Z.abs z <= 2 ^ 52)%Z -> exact_int (Fin (IZR z)).
Proof. intros H. exists z. split; [reflexivity|assumption]. Qed.

(** Alice buys ten YES contracts on the fresh market. *)
Lemma C2_collateral_whole_counts_witness :
  exists out db',
    commit off (0%nat, 0%nat) (Buy ten_yes) db_alice = (Ok out, db')
    /\ collateral_inv db'.
Proof.
  destruct (ten_yes_round_trip off (0%nat, 0%nat) [alice] 0 0 (or_intror eq_refl))
    as (out1 & s1 & _ & _ & H1 & _).
  exists out1, s1.
  assert (Hc : commit off (0%nat, 0%nat) (Buy ten_yes) db_alice = (Ok out1, s1)).
  { unfold commit, ten_yes. cbn [req_username req_market_id req_quantity req_side
      req_budget_points req_is_visible req_utcnow].
    apply transaction_Ok. rewrite trade_buy_success. exact H1. }
  split; [exact Hc|].
  apply (C2_collateral_whole_counts off (0%nat, 0%nat) (Buy ten_yes) db_alice s1 out1).
  - exact wf_db_alice.
  - exact (collateral_inv_rows [alice]).
  - constructor; [|constructor]. split; apply (exact_int_of 0); simpl; lia.
  - right. apply (exact_int_of 10). simpl. lia.
  - exact Hc.
Defined.

(** Against C2 as stated.  In scenario S5 the AMM is short of eight YES
    contracts and the clearing house holds eight points.  Alice asks to buy
    minus [1e-10] YES contracts with a budget of NaN: the test
    [budget_points <= 0] is false on NaN, the request is accepted, and the
    buy is committed.  The required collateral drops below eight, by less
    than the tolerance [1e-9], and the clearing house still holds eight
    points. *)
Lemma C2_nan_budget_counterexample :
  exists out db' a' c',
    required_collateral s5_amm = ClearingHouseDB.points s5_ch
    /\ commit off (0%nat, 0%nat)
         (Buy (mkRequest "alice" 1 (Fin (- (1 / 10000000000))) "yes" (Some NaN) None 0)) db_s5
       = (Ok out, db')
    /\ (first_where (amm_by_market 1) (amms db') = Some 0%nat /\ amms db' !! 0%nat = Some a')
    /\ (first_where (ch_by_market 1) (chs db') = Some 0%nat /\ chs db' !! 0%nat = Some c')
    /\ ClearingHouseDB.points c' = Fin 8
    /\ required_collateral a' = Fin (8 - 1 / 10000000000)
    /\ ClearingHouseDB.points c' <> required_collateral a'.
Proof.
  set (q := - (1 / 10000000000)).
  set (cst := costR 20 (- - (8)) (- 0) q "yes").
  assert (Hcst : q <= cst <= 0).
  { unfold cst, q.
    exact (costR_sell_bounds 20 (- - (8)) (- 0) (1 / 10000000000) "yes"
             ltac:(lra) ltac:(lra)). }
  destruct (buy_rows_Fin s5_amm s5_ch "yes" 10000 (- (8)) 0 8 cst q
              eq_refl eq_refl eq_refl eq_refl) as (Ea & Ec & Hcol).
  assert (Hreq : requiredR (inv_yes "yes" (- (8)) q) (inv_no "yes" 0 q) = 8 - 1 / 10000000000).
  { unfold inv_yes, inv_no. change (String.eqb "yes" "yes") with true. cbn iota.
    unfold requiredR, Rmax, q. repeat destruct (Rle_dec _ _); lra. }
  rewrite Hreq in Ea, Ec, Hcol.
  assert (Hok : buy_collateral_ok (buy_amm1 s5_amm (Fin cst) (Fin q) "yes") s5_ch = true).
  { apply Hcol. unfold eps. split; intros; lra. }
  assert (Hmax : Rmax 0 (8 - 1 / 10000000000 - 8) = 0).
  { unfold Rmax. destruct (Rle_dec _ _); lra. }
  rewrite Hmax in Ea, Ec.
  destruct (lmsr_yes_price_Fin 20 (- inv_yes "yes" (- (8)) q) (- inv_no "yes" 0 q)) as [yp Hyp];
    [lra|].
  assert (Hrun : exists out db',
             trade_buy_pure off (0%nat, 0%nat) 0 "alice" 1 (Fin q) "yes" (Some NaN) None db_s5
             = Some (out, db')
             /\ amms db' = [AMMDB.mk 1 1 (Fin (10000 + cst - 0))
                              (Fin (inv_yes "yes" (- (8)) q)) (Fin (inv_no "yes" 0 q))]
             /\ chs db' = [ClearingHouseDB.mk 1 1 (Fin (8 + 0))]).
  { unfold trade_buy_pure.
    change (side_ok "yes") with true. cbn [negb].
    change (no_budget (Some NaN)) with false. rewrite andb_false_r.
    change (first_where (by_username "alice") (users_with "alice" (users db_s5)))
      with (Some 0%nat).
    change (first_where (market_by_id 1) (markets db_s5)) with (Some 0%nat).
    change (first_where (amm_by_market 1) (amms db_s5)) with (Some 0%nat).
    change (first_where (ch_by_market 1) (chs db_s5)) with (Some 0%nat).
    cbn [mbind option_bind].
    change (users_with "alice" (users db_s5)) with [alice; bob; carol].
    cbn [markets amms chs db_s5 lookup list_lookup mbind option_bind].
    cbn [MarketDB.resolved rain hidden UserDB.id alice].
    change (first_where (position_by_key 1 1) (positions_with 1 1 (positions db_s5)))
      with (Some 0%nat).
    cbn [mbind option_bind].
    change (positions_with 1 1 (positions db_s5)) with [s5_alice; s5_bob].
    cbn [lookup list_lookup mbind option_bind].
    unfold buy_qty. change (fgt NaN (Fin 0)) with false. cbn iota.
    cbn [MarketDB.b rain AMMDB.qYes AMMDB.qNo s5_amm]. rewrite !or0_id. fneg_of_fin.
    rewrite lmsr_cost_Fin by lra. fold cst. cbn [isfinite negb].
    cbn [UserDB.points alice]. rewrite or0_id.
    unfold flt at 1. rewrite bool_decide_eq_false_2 by lra.
    rewrite Hok. cbn [negb]. rewrite Ea. cbn [AMMDB.qYes AMMDB.qNo].
    rewrite !or0_id. fneg_of_fin. rewrite Hyp. rewrite Ec.
    eexists _, _. split; [reflexivity|]. split; reflexivity. }
  destruct Hrun as (out & db' & Hrun & Hamms & Hchs).
  exists out, db', (AMMDB.mk 1 1 (Fin (10000 + cst - 0))
                      (Fin (inv_yes "yes" (- (8)) q)) (Fin (inv_no "yes" 0 q))),
    (ClearingHouseDB.mk 1 1 (Fin (8 + 0))).
  split.
  { rewrite (required_collateral_R s5_amm (- (8)) 0 eq_refl eq_refl).
    cbn [ClearingHouseDB.points s5_ch]. apply f_equal.
    unfold requiredR, Rmax. repeat destruct (Rle_dec _ _); lra. }
  split.
  { unfold commit. cbn [req_username req_market_id req_quantity req_side
      req_budget_points req_is_visible req_utcnow].
    apply transaction_Ok. rewrite trade_buy_success. exact Hrun. }
  rewrite Hamms, Hchs.
  assert (Hrc : required_collateral
                  (AMMDB.mk 1 1 (Fin (10000 + cst - 0))
                     (Fin (inv_yes "yes" (- (8)) q)) (Fin (inv_no "yes" 0 q)))
                = Fin (8 - 1 / 10000000000)).
  { rewrite <- Hreq. apply required_collateral_R; reflexivity. }
  split; [split; reflexivity|]. split; [split; reflexivity|].
  cbn [ClearingHouseDB.points]. rewrite Hrc.
  split; [apply f_equal; lra|]. split; [reflexivity|].
  intros E. injection E as E. lra.
Qed.

(** ** X14: [Market.priceUpdate] *)

Lemma priceUpdate_run (market_id : nat) (side : string) (db : Session) (mi ai ci : nat)
    (m : MarketDB.t) (a : AMMDB.t) :
  side_ok side = true ->
  first_where (market_by_id market_id) (markets db) = Some mi -> markets db !! mi = Some m ->
  first_where (amm_by_market market_id) (amms db) = Some ai -> amms db !! ai = Some a ->
  first_where (ch_by_market market_id) (chs db) = Some ci ->
  Market_priceUpdate market_id side db
  = rbind (lmsr_yes_price (MarketDB.b m) (fneg (or0 (AMMDB.qYes a)))
             (fneg (or0 (AMMDB.qNo a))))
          (fun yes_p => Ok (if String.eqb side "yes" then yes_p else fsub (Fin 1) yes_p)).
Proof.
  intros Hside Hmi Hm Hai Ha Hci. unfold Market_priceUpdate.
  rewrite Hside. cbn [negb]. rewrite bundle_run, Hmi, Hai, Hci.
  unfold market_at, amm_at. rewrite !gets_run.
  rewrite (list_lookup_total_correct _ _ _ Hm), (list_lookup_total_correct _ _ _ Ha).
  rewrite lift_run. destruct (lmsr_yes_price _ _ _); reflexivity.
Qed.

(** X14: [priceUpdate] refuses a side that is not "yes" or "no", and
    raises when the market, its AMM row or its clearing-house row is
    missing.  Otherwise it returns, for "yes", what [lmsr_yes_price] gives
    at minus the two inventories, and for "no", 1 minus that float.  On a
    market whose two inventories are zero, as on a new market, with a
    finite non-zero [b], both prices are 1/2. *)
Theorem X14_priceUpdate_values :
  (forall market_id side db,
     side_ok side = false ->
     Market_priceUpdate market_id side db
     = Raise (ValueError "side must be 'yes' or 'no'"))
  /\ (forall market_id side db,
        side_ok side = true ->
        first_where (market_by_id market_id) (markets db) = None
        \/ first_where (amm_by_market market_id) (amms db) = None
        \/ first_where (ch_by_market market_id) (chs db) = None ->
        Market_priceUpdate market_id side db
        = Raise (ValueError "Market not found or missing AMM/CH rows"))
  /\ (forall market_id side db mi ai ci m a,
        side_ok side = true ->
        first_where (market_by_id market_id) (markets db) = Some mi ->
        markets db !! mi = Some m ->
        first_where (amm_by_market market_id) (amms db) = Some ai ->
        amms db !! ai = Some a ->
        first_where (ch_by_market market_id) (chs db) = Some ci ->
        Market_priceUpdate market_id side db
        = rbind (lmsr_yes_price (MarketDB.b m) (fneg (or0 (AMMDB.qYes a)))
                   (fneg (or0 (AMMDB.qNo a))))
                (fun yes_p =>
                   Ok (if String.eqb side "yes" then yes_p else fsub (Fin 1) yes_p)))
  /\ (forall market_id db mi ai ci m a rb,
        first_where (market_by_id market_id) (markets db) = Some mi ->
        markets db !! mi = Some m ->
        first_where (amm_by_market market_id) (amms db) = Some ai ->
        amms db !! ai = Some a ->
        first_where (ch_by_market market_id) (chs db) = Some ci ->
        MarketDB.b m = Fin rb -> rb <> 0 ->
        AMMDB.qYes a = Fin 0 -> AMMDB.qNo a = Fin 0 ->
        Market_priceUpdate market_id "yes" db = Ok (Fin (1 / 2))
        /\ Market_priceUpdate market_id "no" db = Ok (Fin (1 / 2))).
Proof.
  split; [|split; [|split]].
  - intros market_id side db Hside. unfold Market_priceUpdate. rewrite Hside. reflexivity.
  - intros market_id side db Hside Hnone. unfold Market_priceUpdate.
    rewrite Hside. cbn [negb]. rewrite bundle_run.
    destruct Hnone as [-> | [-> | ->]]; repeat (destruct (first_where _ _)); reflexivity.
  - intros. eapply priceUpdate_run; eassumption.
  - intros market_id db mi ai ci m a rb Hmi Hm Hai Ha Hci Hb Hrb Hy Hn.
    rewrite (priceUpdate_run market_id "yes" db mi ai ci m a eq_refl Hmi Hm Hai Ha Hci).
    rewrite (priceUpdate_run market_id "no" db mi ai ci m a eq_refl Hmi Hm Hai Ha Hci).
    rewrite Hb, Hy, Hn, !or0_id. change (fneg (Fin 0)) with (Fin (- 0)).
    rewrite lmsr_yes_price_R by assumption. cbn [rbind]. rewrite priceR_even.
    change (String.eqb "yes" "yes") with true. change (String.eqb "no" "yes") with false.
    cbn iota. split; [reflexivity|]. unfold fsub, fneg, fadd. apply f_equal, f_equal. lra.
Qed.

(** The fresh market. *)
Lemma X14_priceUpdate_values_witness :
  Market_priceUpdate 1 "yes" db_alice = Ok (Fin (1 / 2))
  /\ Market_priceUpdate 1 "no" db_alice = Ok (Fin (1 / 2)).
Proof.
  destruct X14_priceUpdate_values as (_ & _ & _ & H).
  apply (H 1%nat db_alice 0%nat 0%nat 0%nat rain rain_amm 20); try reflexivity. lra.
Defined.

(** ** X15: the price a trade reports *)

(** X15: a committed buy or sell returns as [new_price] the float that
    [Market.priceUpdate] gives for the traded side on the new database. *)
Theorem X15_reported_price (LEDGER_MODE : ledger_mode) (SYSTEM_IDS : nat * nat) (o : op)
    (db db' : Session) (out : TradeOut) :
  commit LEDGER_MODE SYSTEM_IDS o db = (Ok out, db') ->
  Market_priceUpdate (req_market_id (request_of o)) (req_side (request_of o)) db'
  = Ok (new_price out).
Proof.
  intros H. destruct o as [r|r]; cbn [request_of];
    unfold commit in H; apply transaction_Ok in H.
  - rewrite trade_buy_success in H. pose proof H as H0.
    apply trade_buy_pure_inv in H0
      as (ui & mi & ai & ci & pi_ & u & m & a & c & p & qty & cost & F).
    destruct (trade_buy_pure_written LEDGER_MODE SYSTEM_IDS _ _ _ _ _ _ _ _ _ _ _ _ _ _ _ _ _
                _ _ _ _ _ F H) as [_ (yp & Hyp & Hnew)].
    destruct (buy_facts_after _ _ _ _ _ _ _ _ _ _ _ _ _ _ _ _ _ _ _ _ _ F)
      as (_ & [Hmi' Hm'] & [Hai' Ha'] & [Hci' _] & _).
    rewrite (priceUpdate_run _ _ db' mi ai ci _ _ (bf_side _ _ _ _ _ _ _ _ _ _ _ _ _ _ _ _
               _ _ _ _ _ F) Hmi' Hm' Hai' Ha' Hci').
    cbn [MarketDB.b MarketDB.set_amm_points]. rewrite Hyp. cbn [rbind].
    rewrite Hnew. reflexivity.
  - rewrite trade_sell_success in H. pose proof H as H0.
    apply trade_sell_pure_inv in H0
      as (ui & mi & ai & ci & pi_ & u & m & a & c & p & qty & payout & F).
    destruct (trade_sell_pure_written LEDGER_MODE SYSTEM_IDS _ _ _ _ _ _ _ _ _ _ _ _ _ _ _ _ _
                _ _ _ _ _ F H) as [_ (yp & Hyp & _ & Hnew)].
    destruct (sell_facts_after _ _ _ _ _ _ _ _ _ _ _ _ _ _ _ _ _ _ _ _ _ F)
      as ([Hmi' Hm'] & [Hai' Ha'] & [Hci' _]).
    rewrite (priceUpdate_run _ _ db' mi ai ci _ _ (sf_side _ _ _ _ _ _ _ _ _ _ _ _ _ _ _ _
               _ _ _ _ _ F) Hmi' Hm' Hai' Ha' Hci').
    cbn [MarketDB.b MarketDB.set_amm_points]. rewrite Hyp. cbn [rbind].
    rewrite Hnew. reflexivity.
Qed.

Lemma X15_reported_price_witness :
  exists out db',
    commit off (0%nat, 0%nat) (Buy ten_yes) db_alice = (Ok out, db')
    /\ Market_priceUpdate 1 "yes" db' = Ok (new_price out).
Proof.
  destruct (ten_yes_committed off (0%nat, 0%nat)) as (out & db' & _ & _ & H & _).
  exists out, db'. split; [exact H|].
  exact (X15_reported_price off (0%nat, 0%nat) (Buy ten_yes) db_alice db' out H).
Defined.

(** ** X9: a buy by budget *)

(** X9: on a well-formed database (finite numbers, [b > 0]), a committed
    buy with a positive budget trades a whole number of contracts between 1
    and [2^30], and its cost is finite and compares at most the budget. *)
Theorem X9_budget_buy_within_budget (LEDGER_MODE : ledger_mode) (SYSTEM_IDS : nat * nat)
    (r : request) (bp : float) (db db' : Session) (out : TradeOut) :
  wf db -> req_budget_points r = Some bp -> fgt bp (Fin 0) = true ->
  commit LEDGER_MODE SYSTEM_IDS (Buy r) db = (Ok out, db') ->
  exists q : Z,
    quantity_of out = of_int q /\ (1 <= q <= 1073741824)%Z
    /\ isfinite (order_cost out) = true /\ fle (order_cost out) bp = true.
Proof.
  intros [Wu Wm Wa Wc Wp] Hreq Hbp H.
  unfold commit in H; apply transaction_Ok in H; rewrite Hreq in H.
  rewrite trade_buy_success in H.
  apply trade_buy_pure_inv in H
    as (ui & mi & ai & ci & pi_ & u & m & a & c & p & qty & cost & F).
  destruct F.
  destruct (Forall_lookup_1 _ _ _ _ Wm bf_m0) as (rb & Hb & Hrb).
  destruct (Forall_lookup_1 _ _ _ _ Wa bf_a0) as (_ & Hay & Han).
  apply isfinite_Fin in Hay as [ay Hay]. apply isfinite_Fin in Han as [an Han].
  unfold buy_qty in bf_qty0. rewrite Hbp, Hb, Hay, Han, !or0_id in bf_qty0.
  unfold fneg in bf_qty0.
  destruct (_max_int_quantity_for_budget _ _ _ _ _ _) as [z|] eqn:Hz; [|discriminate].
  cbn [rbind] in bf_qty0. injection bf_qty0 as <-.
  destruct (search_result rb (- ay) (- an) (req_side r) bp "buy" z Hrb Hbp Hz)
    as (Hr & Hfit & _).
  rewrite Hb, Hay, Han, !or0_id in bf_cost0. unfold fneg, of_int in bf_cost0.
  rewrite lmsr_cost_Fin in bf_cost0 by lra. injection bf_cost0 as <-.
  exists z. rewrite bf_quantity0, bf_order_cost0.
  split; [reflexivity|]. split; [exact Hr|]. split; [reflexivity|exact Hfit].
Qed.

(** Alice buys YES contracts for a budget of five points. *)
Lemma X9_budget_buy_within_budget_witness :
  exists out db',
    commit off (0%nat, 0%nat) (Buy five_points_yes) db_alice = (Ok out, db')
    /\ exists q : Z,
         quantity_of out = of_int q /\ (1 <= q <= 1073741824)%Z
         /\ isfinite (order_cost out) = true /\ fle (order_cost out) (Fin 5) = true.
Proof.
  destruct (five_points_buy_runs off (0%nat, 0%nat)) as (out & db' & H).
  exists out, db'. split; [exact H|].
  apply (X9_budget_buy_within_budget off (0%nat, 0%nat) five_points_yes (Fin 5)
           db_alice db' out).
  - exact wf_db_alice.
  - reflexivity.
  - apply fgt_pos. lra.
  - exact H.
Defined.

(** ** X10: the payer of a trade *)

Lemma fadd_pos_nonneg (x : R) (delta : float) :
  0 <= x -> fgt delta (Fin 0) = true -> fle (Fin 0) (fadd (Fin x) delta) = true.
Proof.
  intros Hx Hd. destruct delta as [d| | |]; try discriminate Hd.
  - unfold fgt, flt in Hd. apply bool_decide_eq_true_1 in Hd.
    unfold fadd, fle. apply bool_decide_eq_true_2. lra.
  - reflexivity.
Qed.

(** X10: no trade takes from an account more than it holds.  On a
    well-formed database (finite numbers, [b > 0]), after a committed buy
    the balance of the buyer, which is the [new_balance] the buy returns,
    is at least 0; after a committed sell the reserve of the market's AMM
    row is at least 0. *)
Theorem X10_payer_stays_solvent (LEDGER_MODE : ledger_mode) (SYSTEM_IDS : nat * nat)
    (o : op) (db db' : Session) (out : TradeOut) :
  wf db ->
  commit LEDGER_MODE SYSTEM_IDS o db = (Ok out, db') ->
  match o with
  | Buy r =>
      exists ui u',
        first_where (by_username (req_username r)) (users db') = Some ui
        /\ users db' !! ui = Some u'
        /\ UserDB.points u' = new_balance out
        /\ fle (Fin 0) (new_balance out) = true
  | Sell r =>
      exists ai a',
        first_where (amm_by_market (req_market_id r)) (amms db') = Some ai
        /\ amms db' !! ai = Some a'
        /\ fle (Fin 0) (AMMDB.points a') = true
  end.
Proof.
  intros [Wu Wm Wa Wc Wp] H.
  destruct o as [r|r]; unfold commit in H; apply transaction_Ok in H.
  - rewrite trade_buy_success in H.
    apply trade_buy_pure_inv in H
      as (ui & mi & ai & ci & pi_ & u & m & a & c & p & qty & cost & F).
    destruct (buy_facts_after _ _ _ _ _ _ _ _ _ _ _ _ _ _ _ _ _ _ _ _ _ F)
      as ((Hui' & Hu') & _).
    destruct F.
    pose proof (users_with_finite (req_username r) _ Wu) as Wu1.
    destruct (isfinite_Fin _ (Forall_lookup_1 _ _ _ _ Wu1 bf_u0)) as [pu Hpu].
    destruct (isfinite_Fin _ bf_finite0) as [cst ->].
    exists ui, (UserDB.set_points (fsub (UserDB.points u) (Fin cst)) u).
    split; [assumption|]. split; [assumption|].
    rewrite bf_new_balance0. split; [reflexivity|].
    rewrite Hpu, or0_id in bf_funds0. unfold flt in bf_funds0.
    apply bool_decide_eq_false_1 in bf_funds0.
    rewrite Hpu. unfold fsub, fneg, fadd, fle. apply bool_decide_eq_true_2. lra.
  - rewrite trade_sell_success in H.
    apply trade_sell_pure_inv in H
      as (ui & mi & ai & ci & pi_ & u & m & a & c & p & qty & payout & F).
    destruct (sell_facts_after _ _ _ _ _ _ _ _ _ _ _ _ _ _ _ _ _ _ _ _ _ F)
      as (_ & [Hai' Ha'] & _).
    destruct F.
    destruct (Forall_lookup_1 _ _ _ _ Wa sf_a0) as (Hpa & _ & _).
    apply isfinite_Fin in Hpa as [pa Hpa].
    destruct (isfinite_Fin _ sf_finite0) as [pay Epay]. rewrite Epay in *.
    exists ai, (sell_amm2 (sell_amm1 a (Fin pay) qty (req_side r)) c).
    split; [assumption|]. split; [assumption|].
    rewrite Hpa, or0_id in sf_reserve0. unfold flt in sf_reserve0.
    apply bool_decide_eq_false_1 in sf_reserve0.
    assert (E1 : AMMDB.points (sell_amm1 a (Fin pay) qty (req_side r)) = Fin (pa + - pay)).
    { rewrite sell_amm1_points, Hpa. reflexivity. }
    unfold sell_amm2.
    destruct (fgt (sell_delta (sell_amm1 a (Fin pay) qty (req_side r)) c) (Fin 0)) eqn:Hd.
    + cbn [AMMDB.points AMMDB.set_points]. rewrite E1.
      apply fadd_pos_nonneg; [lra|assumption].
    + rewrite E1. unfold fle. apply bool_decide_eq_true_2. lra.
Qed.

(** Alice buys ten YES contracts on the fresh market. *)
Lemma X10_payer_stays_solvent_witness :
  exists out db',
    commit off (0%nat, 0%nat) (Buy ten_yes) db_alice = (Ok out, db')
    /\ exists ui u',
         first_where (by_username "alice") (users db') = Some ui
         /\ users db' !! ui = Some u'
         /\ UserDB.points u' = new_balance out
         /\ fle (Fin 0) (new_balance out) = true.
Proof.
  destruct (ten_yes_committed off (0%nat, 0%nat)) as (out & db' & _ & _ & H & _).
  exists out, db'. split; [exact H|].
  exact (X10_payer_stays_solvent off (0%nat, 0%nat) (Buy ten_yes) db_alice db' out
           wf_db_alice H).
Defined.

(** ** X16: contracts are conserved *)

(** X16: contracts are conserved when they are whole numbers.  Take a
    well-formed database in which, for every market, the YES inventory of
    the AMM plus the YES contracts that users hold in the market is 0, and
    the same for NO, and in which every inventory and every holding is a
    whole number of magnitude at most [2^52].  A committed buy or sell that
    is driven by a positive budget or asks for such a whole quantity (a
    buy: a positive quantity or a positive budget) leads to a database
    where the inventory plus the holdings is still 0: the trade moves
    contracts between the AMM and one position, it creates and destroys
    none. *)
Theorem X16_whole_contracts_conserved (LEDGER_MODE : ledger_mode) (SYSTEM_IDS : nat * nat)
    (o : op) (db db' : Session) (out : TradeOut) :
  wf db -> balanced db -> exact_inventory db -> exact_holdings db ->
  exact_request (request_of o) -> valid_op o ->
  commit LEDGER_MODE SYSTEM_IDS o db = (Ok out, db') ->
  balanced db'.
Proof.
  intros Hwf Hs _ _ _ Hvalid H.
  exact (proj2 (commit_keeps_balanced LEDGER_MODE SYSTEM_IDS o db db' out Hwf Hs Hvalid H)).
Qed.

Lemma X16_whole_contracts_conserved_witness :
  exists out db',
    commit off (0%nat, 0%nat) (Buy ten_yes) db_alice = (Ok out, db') /\ balanced db'.
Proof.
  destruct (ten_yes_committed off (0%nat, 0%nat)) as (out & db' & _ & _ & H & _).
  exists out, db'. split; [exact H|].
  apply (X16_whole_contracts_conserved off (0%nat, 0%nat) (Buy ten_yes) db_alice db' out).
  - exact wf_db_alice.
  - exact balanced_db_alice.
  - constructor; [|constructor]. split; apply (exact_int_of 0); simpl; lia.
  - constructor.
  - right. apply (exact_int_of 10). simpl. lia.
  - exact valid_ten_yes.
  - exact H.
Defined.
